(** * IBM PS/2 ESDI fixed-disk adapter (MCA): register protocol and executor

    Shallow embedding of [src/disk/hdc_esdi_mca.c] (86Box) and the
    properties of its command/status protocol.

    Conventions of the embedding.
    - C integers are [Z].  Stores into [uint8_t], [uint16_t] and
      [uint32_t] objects are written out with [u8], [u16] and [u32];
      [int] fields hold small values and are left unwrapped.
    - C arrays are lists, read with [word_at] and written with [store]
      (stdpp's list insert).  The source never indexes out of range on a
      state it can reach; out of range [word_at] reads 0 and [store] does
      nothing.
    - [double] delays are exact rationals ([Q]).
    - The adapter's [pc_timer_t] is the field [timer]; the other
      collaborators (DMA channel, disk image, drive timing) are the
      methods of the class [Extern], and every call that has an effect
      outside the adapter is recorded in the machine's [log].
    - [fatal] ends the emulator: a computation stops in [Fatal], keeping
      the state reached so far.  A C [return] inside a function body is
      [Return]. *)

From Stdlib Require Import ZArith QArith String Lia Bool.
From stdpp Require Import base list.


Open Scope Z_scope.

(** ** Fixed-width stores and arrays *)

Definition u8 (x : Z) : Z := x mod 256.
Definition u16 (x : Z) : Z := x mod 65536.
Definition u32 (x : Z) : Z := x mod 4294967296.

Definition word_at (a : list Z) (i : Z) : Z := default 0 (a !! Z.to_nat i).
Definition store (a : list Z) (i : Z) (v : Z) : list Z := <[Z.to_nat i := v]> a.

(** A C condition: an integer is true when it is not zero. *)
Definition nz (x : Z) : bool := negb (x =? 0).

(** ** Constants of the source *)

Definition ESDI_TIME : Q := 500 # 1.
Definition CMD_ADAPTER : Z := 0.

Definition STATUS_DMA_ENA : Z := Z.shiftl 1 7.
Definition STATUS_IRQ_PENDING : Z := Z.shiftl 1 6.
Definition STATUS_CMD_IN_PROGRESS : Z := Z.shiftl 1 5.
Definition STATUS_BUSY : Z := Z.shiftl 1 4.
Definition STATUS_STATUS_OUT_FULL : Z := Z.shiftl 1 3.
Definition STATUS_CMD_IR_FULL : Z := Z.shiftl 1 2.
Definition STATUS_TRANSFER_REQ : Z := Z.shiftl 1 1.
Definition STATUS_IRQ : Z := Z.shiftl 1 0.

Definition CTRL_RESET : Z := Z.shiftl 1 7.
Definition CTRL_DMA_ENA : Z := Z.shiftl 1 1.
Definition CTRL_IRQ_ENA : Z := Z.shiftl 1 0.

Definition IRQ_HOST_ADAPTER : Z := Z.shiftl 7 5.
Definition IRQ_DEVICE_0 : Z := Z.shiftl 0 5.
Definition IRQ_CMD_COMPLETE_SUCCESS : Z := 0x1.
Definition IRQ_RESET_COMPLETE : Z := 0xa.
Definition IRQ_DATA_TRANSFER_READY : Z := 0xb.
Definition IRQ_CMD_COMPLETE_FAILURE : Z := 0xc.

Definition ATTN_DEVICE_SEL : Z := Z.shiftl 7 5.
Definition ATTN_HOST_ADAPTER : Z := Z.shiftl 7 5.
Definition ATTN_DEVICE_0 : Z := Z.shiftl 0 5.
Definition ATTN_DEVICE_1 : Z := Z.shiftl 1 5.
Definition ATTN_REQ_MASK : Z := 0x0f.
Definition ATTN_CMD_REQ : Z := 1.
Definition ATTN_EOI : Z := 2.
Definition ATTN_RESET : Z := 4.

Definition CMD_SIZE_4 : Z := Z.shiftl 1 14.

Definition CMD_DEVICE_SEL : Z := Z.shiftl 7 5.
Definition CMD_MASK : Z := 0x1f.
Definition CMD_READ : Z := 0x01.
Definition CMD_WRITE : Z := 0x02.
Definition CMD_READ_VERIFY : Z := 0x03.
Definition CMD_WRITE_VERIFY : Z := 0x04.
Definition CMD_SEEK : Z := 0x05.
Definition CMD_PARK_HEADS : Z := 0x06.
Definition CMD_GET_DEV_STATUS : Z := 0x08.
Definition CMD_GET_DEV_CONFIG : Z := 0x09.
Definition CMD_GET_POS_INFO : Z := 0x0a.
Definition CMD_FORMAT_UNIT : Z := 0x16.
Definition CMD_FORMAT_PREPARE : Z := 0x17.

Definition STATUS_LEN (x : Z) : Z := Z.shiftl x 8.
Definition STATUS_DEVICE (x : Z) : Z := Z.shiftl x 5.
Definition STATUS_DEVICE_HOST_ADAPTER : Z := Z.shiftl 7 5.

(** [DMA_NODATA] of [86box/dma.h], the result of a DMA access that moved
    no word. *)
Definition DMA_NODATA : Z := -1.

Definition ESDI_IS_ADAPTER : Z := 0.
Definition ESDI_IS_INTEGRATED : Z := 1.

(** ** Adapter state *)

Record drive_t : Type := mk_drive {
  spt : Z;
  hpc : Z;
  tracks : Z;
  sectors : Z;
  present : Z;
  hdd_num : Z
}.

(** [esdi_t].  The ROM window ([bios], [bios_rom]) and the unused
    [cmds] array take no part in the register protocol and are left out;
    [drives0] and [drives1] are [drives[0]] and [drives[1]].
    Modelled from the spec: [timer] stands for the [pc_timer_t] of
    [86box/timer.h], which is not part of this file: [Some t] when the
    callback is scheduled [t] microseconds ahead, [None] when it is
    stopped; scheduling replaces whatever was pending. *)
Record esdi_t : Type := mk_esdi {
  dma : Z;
  basic_ctrl : Z;
  status : Z;
  irq_status : Z;
  irq_ena_disable : Z;
  irq_in_progress : Z;
  cmd_req_in_progress : Z;
  cmd_pos : Z;
  cmd_data : list Z;
  cmd_dev : Z;
  status_pos : Z;
  status_len : Z;
  status_data : list Z;
  data_pos : Z;
  data : list Z;
  sector_buffer : list (list Z);
  sector_pos : Z;
  sector_count : Z;
  command : Z;
  cmd_state : Z;
  in_reset : Z;
  timer : option Q;
  rba : Z;
  drives0 : drive_t;
  drives1 : drive_t;
  pos_regs : list Z
}.

Definition set_basic_ctrl (v : Z) (d : esdi_t) : esdi_t :=
  {| dma := dma d; basic_ctrl := v; status := status d;
     irq_status := irq_status d; irq_ena_disable := irq_ena_disable d;
     irq_in_progress := irq_in_progress d;
     cmd_req_in_progress := cmd_req_in_progress d; cmd_pos := cmd_pos d;
     cmd_data := cmd_data d; cmd_dev := cmd_dev d;
     status_pos := status_pos d; status_len := status_len d;
     status_data := status_data d; data_pos := data_pos d; data := data d;
     sector_buffer := sector_buffer d; sector_pos := sector_pos d;
     sector_count := sector_count d; command := command d;
     cmd_state := cmd_state d; in_reset := in_reset d; timer := timer d;
     rba := rba d; drives0 := drives0 d; drives1 := drives1 d;
     pos_regs := pos_regs d |}.

Definition set_status (v : Z) (d : esdi_t) : esdi_t :=
  {| dma := dma d; basic_ctrl := basic_ctrl d; status := v;
     irq_status := irq_status d; irq_ena_disable := irq_ena_disable d;
     irq_in_progress := irq_in_progress d;
     cmd_req_in_progress := cmd_req_in_progress d; cmd_pos := cmd_pos d;
     cmd_data := cmd_data d; cmd_dev := cmd_dev d;
     status_pos := status_pos d; status_len := status_len d;
     status_data := status_data d; data_pos := data_pos d; data := data d;
     sector_buffer := sector_buffer d; sector_pos := sector_pos d;
     sector_count := sector_count d; command := command d;
     cmd_state := cmd_state d; in_reset := in_reset d; timer := timer d;
     rba := rba d; drives0 := drives0 d; drives1 := drives1 d;
     pos_regs := pos_regs d |}.

Definition set_irq_status (v : Z) (d : esdi_t) : esdi_t :=
  {| dma := dma d; basic_ctrl := basic_ctrl d; status := status d;
     irq_status := v; irq_ena_disable := irq_ena_disable d;
     irq_in_progress := irq_in_progress d;
     cmd_req_in_progress := cmd_req_in_progress d; cmd_pos := cmd_pos d;
     cmd_data := cmd_data d; cmd_dev := cmd_dev d;
     status_pos := status_pos d; status_len := status_len d;
     status_data := status_data d; data_pos := data_pos d; data := data d;
     sector_buffer := sector_buffer d; sector_pos := sector_pos d;
     sector_count := sector_count d; command := command d;
     cmd_state := cmd_state d; in_reset := in_reset d; timer := timer d;
     rba := rba d; drives0 := drives0 d; drives1 := drives1 d;
     pos_regs := pos_regs d |}.

Definition set_irq_ena_disable (v : Z) (d : esdi_t) : esdi_t :=
  {| dma := dma d; basic_ctrl := basic_ctrl d; status := status d;
     irq_status := irq_status d; irq_ena_disable := v;
     irq_in_progress := irq_in_progress d;
     cmd_req_in_progress := cmd_req_in_progress d; cmd_pos := cmd_pos d;
     cmd_data := cmd_data d; cmd_dev := cmd_dev d;
     status_pos := status_pos d; status_len := status_len d;
     status_data := status_data d; data_pos := data_pos d; data := data d;
     sector_buffer := sector_buffer d; sector_pos := sector_pos d;
     sector_count := sector_count d; command := command d;
     cmd_state := cmd_state d; in_reset := in_reset d; timer := timer d;
     rba := rba d; drives0 := drives0 d; drives1 := drives1 d;
     pos_regs := pos_regs d |}.

Definition set_irq_in_progress (v : Z) (d : esdi_t) : esdi_t :=
  {| dma := dma d; basic_ctrl := basic_ctrl d; status := status d;
     irq_status := irq_status d; irq_ena_disable := irq_ena_disable d;
     irq_in_progress := v; cmd_req_in_progress := cmd_req_in_progress d;
     cmd_pos := cmd_pos d; cmd_data := cmd_data d; cmd_dev := cmd_dev d;
     status_pos := status_pos d; status_len := status_len d;
     status_data := status_data d; data_pos := data_pos d; data := data d;
     sector_buffer := sector_buffer d; sector_pos := sector_pos d;
     sector_count := sector_count d; command := command d;
     cmd_state := cmd_state d; in_reset := in_reset d; timer := timer d;
     rba := rba d; drives0 := drives0 d; drives1 := drives1 d;
     pos_regs := pos_regs d |}.

Definition set_cmd_req_in_progress (v : Z) (d : esdi_t) : esdi_t :=
  {| dma := dma d; basic_ctrl := basic_ctrl d; status := status d;
     irq_status := irq_status d; irq_ena_disable := irq_ena_disable d;
     irq_in_progress := irq_in_progress d; cmd_req_in_progress := v;
     cmd_pos := cmd_pos d; cmd_data := cmd_data d; cmd_dev := cmd_dev d;
     status_pos := status_pos d; status_len := status_len d;
     status_data := status_data d; data_pos := data_pos d; data := data d;
     sector_buffer := sector_buffer d; sector_pos := sector_pos d;
     sector_count := sector_count d; command := command d;
     cmd_state := cmd_state d; in_reset := in_reset d; timer := timer d;
     rba := rba d; drives0 := drives0 d; drives1 := drives1 d;
     pos_regs := pos_regs d |}.

Definition set_cmd_pos (v : Z) (d : esdi_t) : esdi_t :=
  {| dma := dma d; basic_ctrl := basic_ctrl d; status := status d;
     irq_status := irq_status d; irq_ena_disable := irq_ena_disable d;
     irq_in_progress := irq_in_progress d;
     cmd_req_in_progress := cmd_req_in_progress d; cmd_pos := v;
     cmd_data := cmd_data d; cmd_dev := cmd_dev d;
     status_pos := status_pos d; status_len := status_len d;
     status_data := status_data d; data_pos := data_pos d; data := data d;
     sector_buffer := sector_buffer d; sector_pos := sector_pos d;
     sector_count := sector_count d; command := command d;
     cmd_state := cmd_state d; in_reset := in_reset d; timer := timer d;
     rba := rba d; drives0 := drives0 d; drives1 := drives1 d;
     pos_regs := pos_regs d |}.

Definition set_cmd_data (v : list Z) (d : esdi_t) : esdi_t :=
  {| dma := dma d; basic_ctrl := basic_ctrl d; status := status d;
     irq_status := irq_status d; irq_ena_disable := irq_ena_disable d;
     irq_in_progress := irq_in_progress d;
     cmd_req_in_progress := cmd_req_in_progress d; cmd_pos := cmd_pos d;
     cmd_data := v; cmd_dev := cmd_dev d; status_pos := status_pos d;
     status_len := status_len d; status_data := status_data d;
     data_pos := data_pos d; data := data d;
     sector_buffer := sector_buffer d; sector_pos := sector_pos d;
     sector_count := sector_count d; command := command d;
     cmd_state := cmd_state d; in_reset := in_reset d; timer := timer d;
     rba := rba d; drives0 := drives0 d; drives1 := drives1 d;
     pos_regs := pos_regs d |}.

Definition set_cmd_dev (v : Z) (d : esdi_t) : esdi_t :=
  {| dma := dma d; basic_ctrl := basic_ctrl d; status := status d;
     irq_status := irq_status d; irq_ena_disable := irq_ena_disable d;
     irq_in_progress := irq_in_progress d;
     cmd_req_in_progress := cmd_req_in_progress d; cmd_pos := cmd_pos d;
     cmd_data := cmd_data d; cmd_dev := v; status_pos := status_pos d;
     status_len := status_len d; status_data := status_data d;
     data_pos := data_pos d; data := data d;
     sector_buffer := sector_buffer d; sector_pos := sector_pos d;
     sector_count := sector_count d; command := command d;
     cmd_state := cmd_state d; in_reset := in_reset d; timer := timer d;
     rba := rba d; drives0 := drives0 d; drives1 := drives1 d;
     pos_regs := pos_regs d |}.

Definition set_status_pos (v : Z) (d : esdi_t) : esdi_t :=
  {| dma := dma d; basic_ctrl := basic_ctrl d; status := status d;
     irq_status := irq_status d; irq_ena_disable := irq_ena_disable d;
     irq_in_progress := irq_in_progress d;
     cmd_req_in_progress := cmd_req_in_progress d; cmd_pos := cmd_pos d;
     cmd_data := cmd_data d; cmd_dev := cmd_dev d; status_pos := v;
     status_len := status_len d; status_data := status_data d;
     data_pos := data_pos d; data := data d;
     sector_buffer := sector_buffer d; sector_pos := sector_pos d;
     sector_count := sector_count d; command := command d;
     cmd_state := cmd_state d; in_reset := in_reset d; timer := timer d;
     rba := rba d; drives0 := drives0 d; drives1 := drives1 d;
     pos_regs := pos_regs d |}.

Definition set_status_len (v : Z) (d : esdi_t) : esdi_t :=
  {| dma := dma d; basic_ctrl := basic_ctrl d; status := status d;
     irq_status := irq_status d; irq_ena_disable := irq_ena_disable d;
     irq_in_progress := irq_in_progress d;
     cmd_req_in_progress := cmd_req_in_progress d; cmd_pos := cmd_pos d;
     cmd_data := cmd_data d; cmd_dev := cmd_dev d;
     status_pos := status_pos d; status_len := v;
     status_data := status_data d; data_pos := data_pos d; data := data d;
     sector_buffer := sector_buffer d; sector_pos := sector_pos d;
     sector_count := sector_count d; command := command d;
     cmd_state := cmd_state d; in_reset := in_reset d; timer := timer d;
     rba := rba d; drives0 := drives0 d; drives1 := drives1 d;
     pos_regs := pos_regs d |}.

Definition set_status_data (v : list Z) (d : esdi_t) : esdi_t :=
  {| dma := dma d; basic_ctrl := basic_ctrl d; status := status d;
     irq_status := irq_status d; irq_ena_disable := irq_ena_disable d;
     irq_in_progress := irq_in_progress d;
     cmd_req_in_progress := cmd_req_in_progress d; cmd_pos := cmd_pos d;
     cmd_data := cmd_data d; cmd_dev := cmd_dev d;
     status_pos := status_pos d; status_len := status_len d;
     status_data := v; data_pos := data_pos d; data := data d;
     sector_buffer := sector_buffer d; sector_pos := sector_pos d;
     sector_count := sector_count d; command := command d;
     cmd_state := cmd_state d; in_reset := in_reset d; timer := timer d;
     rba := rba d; drives0 := drives0 d; drives1 := drives1 d;
     pos_regs := pos_regs d |}.

Definition set_data_pos (v : Z) (d : esdi_t) : esdi_t :=
  {| dma := dma d; basic_ctrl := basic_ctrl d; status := status d;
     irq_status := irq_status d; irq_ena_disable := irq_ena_disable d;
     irq_in_progress := irq_in_progress d;
     cmd_req_in_progress := cmd_req_in_progress d; cmd_pos := cmd_pos d;
     cmd_data := cmd_data d; cmd_dev := cmd_dev d;
     status_pos := status_pos d; status_len := status_len d;
     status_data := status_data d; data_pos := v; data := data d;
     sector_buffer := sector_buffer d; sector_pos := sector_pos d;
     sector_count := sector_count d; command := command d;
     cmd_state := cmd_state d; in_reset := in_reset d; timer := timer d;
     rba := rba d; drives0 := drives0 d; drives1 := drives1 d;
     pos_regs := pos_regs d |}.

Definition set_data (v : list Z) (d : esdi_t) : esdi_t :=
  {| dma := dma d; basic_ctrl := basic_ctrl d; status := status d;
     irq_status := irq_status d; irq_ena_disable := irq_ena_disable d;
     irq_in_progress := irq_in_progress d;
     cmd_req_in_progress := cmd_req_in_progress d; cmd_pos := cmd_pos d;
     cmd_data := cmd_data d; cmd_dev := cmd_dev d;
     status_pos := status_pos d; status_len := status_len d;
     status_data := status_data d; data_pos := data_pos d; data := v;
     sector_buffer := sector_buffer d; sector_pos := sector_pos d;
     sector_count := sector_count d; command := command d;
     cmd_state := cmd_state d; in_reset := in_reset d; timer := timer d;
     rba := rba d; drives0 := drives0 d; drives1 := drives1 d;
     pos_regs := pos_regs d |}.

Definition set_sector_buffer (v : list (list Z)) (d : esdi_t) : esdi_t :=
  {| dma := dma d; basic_ctrl := basic_ctrl d; status := status d;
     irq_status := irq_status d; irq_ena_disable := irq_ena_disable d;
     irq_in_progress := irq_in_progress d;
     cmd_req_in_progress := cmd_req_in_progress d; cmd_pos := cmd_pos d;
     cmd_data := cmd_data d; cmd_dev := cmd_dev d;
     status_pos := status_pos d; status_len := status_len d;
     status_data := status_data d; data_pos := data_pos d; data := data d;
     sector_buffer := v; sector_pos := sector_pos d;
     sector_count := sector_count d; command := command d;
     cmd_state := cmd_state d; in_reset := in_reset d; timer := timer d;
     rba := rba d; drives0 := drives0 d; drives1 := drives1 d;
     pos_regs := pos_regs d |}.

Definition set_sector_pos (v : Z) (d : esdi_t) : esdi_t :=
  {| dma := dma d; basic_ctrl := basic_ctrl d; status := status d;
     irq_status := irq_status d; irq_ena_disable := irq_ena_disable d;
     irq_in_progress := irq_in_progress d;
     cmd_req_in_progress := cmd_req_in_progress d; cmd_pos := cmd_pos d;
     cmd_data := cmd_data d; cmd_dev := cmd_dev d;
     status_pos := status_pos d; status_len := status_len d;
     status_data := status_data d; data_pos := data_pos d; data := data d;
     sector_buffer := sector_buffer d; sector_pos := v;
     sector_count := sector_count d; command := command d;
     cmd_state := cmd_state d; in_reset := in_reset d; timer := timer d;
     rba := rba d; drives0 := drives0 d; drives1 := drives1 d;
     pos_regs := pos_regs d |}.

Definition set_sector_count (v : Z) (d : esdi_t) : esdi_t :=
  {| dma := dma d; basic_ctrl := basic_ctrl d; status := status d;
     irq_status := irq_status d; irq_ena_disable := irq_ena_disable d;
     irq_in_progress := irq_in_progress d;
     cmd_req_in_progress := cmd_req_in_progress d; cmd_pos := cmd_pos d;
     cmd_data := cmd_data d; cmd_dev := cmd_dev d;
     status_pos := status_pos d; status_len := status_len d;
     status_data := status_data d; data_pos := data_pos d; data := data d;
     sector_buffer := sector_buffer d; sector_pos := sector_pos d;
     sector_count := v; command := command d; cmd_state := cmd_state d;
     in_reset := in_reset d; timer := timer d; rba := rba d;
     drives0 := drives0 d; drives1 := drives1 d; pos_regs := pos_regs d |}.

Definition set_command (v : Z) (d : esdi_t) : esdi_t :=
  {| dma := dma d; basic_ctrl := basic_ctrl d; status := status d;
     irq_status := irq_status d; irq_ena_disable := irq_ena_disable d;
     irq_in_progress := irq_in_progress d;
     cmd_req_in_progress := cmd_req_in_progress d; cmd_pos := cmd_pos d;
     cmd_data := cmd_data d; cmd_dev := cmd_dev d;
     status_pos := status_pos d; status_len := status_len d;
     status_data := status_data d; data_pos := data_pos d; data := data d;
     sector_buffer := sector_buffer d; sector_pos := sector_pos d;
     sector_count := sector_count d; command := v; cmd_state := cmd_state d;
     in_reset := in_reset d; timer := timer d; rba := rba d;
     drives0 := drives0 d; drives1 := drives1 d; pos_regs := pos_regs d |}.

Definition set_cmd_state (v : Z) (d : esdi_t) : esdi_t :=
  {| dma := dma d; basic_ctrl := basic_ctrl d; status := status d;
     irq_status := irq_status d; irq_ena_disable := irq_ena_disable d;
     irq_in_progress := irq_in_progress d;
     cmd_req_in_progress := cmd_req_in_progress d; cmd_pos := cmd_pos d;
     cmd_data := cmd_data d; cmd_dev := cmd_dev d;
     status_pos := status_pos d; status_len := status_len d;
     status_data := status_data d; data_pos := data_pos d; data := data d;
     sector_buffer := sector_buffer d; sector_pos := sector_pos d;
     sector_count := sector_count d; command := command d; cmd_state := v;
     in_reset := in_reset d; timer := timer d; rba := rba d;
     drives0 := drives0 d; drives1 := drives1 d; pos_regs := pos_regs d |}.

Definition set_in_reset (v : Z) (d : esdi_t) : esdi_t :=
  {| dma := dma d; basic_ctrl := basic_ctrl d; status := status d;
     irq_status := irq_status d; irq_ena_disable := irq_ena_disable d;
     irq_in_progress := irq_in_progress d;
     cmd_req_in_progress := cmd_req_in_progress d; cmd_pos := cmd_pos d;
     cmd_data := cmd_data d; cmd_dev := cmd_dev d;
     status_pos := status_pos d; status_len := status_len d;
     status_data := status_data d; data_pos := data_pos d; data := data d;
     sector_buffer := sector_buffer d; sector_pos := sector_pos d;
     sector_count := sector_count d; command := command d;
     cmd_state := cmd_state d; in_reset := v; timer := timer d; rba := rba d;
     drives0 := drives0 d; drives1 := drives1 d; pos_regs := pos_regs d |}.

Definition set_timer (v : option Q) (d : esdi_t) : esdi_t :=
  {| dma := dma d; basic_ctrl := basic_ctrl d; status := status d;
     irq_status := irq_status d; irq_ena_disable := irq_ena_disable d;
     irq_in_progress := irq_in_progress d;
     cmd_req_in_progress := cmd_req_in_progress d; cmd_pos := cmd_pos d;
     cmd_data := cmd_data d; cmd_dev := cmd_dev d;
     status_pos := status_pos d; status_len := status_len d;
     status_data := status_data d; data_pos := data_pos d; data := data d;
     sector_buffer := sector_buffer d; sector_pos := sector_pos d;
     sector_count := sector_count d; command := command d;
     cmd_state := cmd_state d; in_reset := in_reset d; timer := v;
     rba := rba d; drives0 := drives0 d; drives1 := drives1 d;
     pos_regs := pos_regs d |}.

Definition set_rba (v : Z) (d : esdi_t) : esdi_t :=
  {| dma := dma d; basic_ctrl := basic_ctrl d; status := status d;
     irq_status := irq_status d; irq_ena_disable := irq_ena_disable d;
     irq_in_progress := irq_in_progress d;
     cmd_req_in_progress := cmd_req_in_progress d; cmd_pos := cmd_pos d;
     cmd_data := cmd_data d; cmd_dev := cmd_dev d;
     status_pos := status_pos d; status_len := status_len d;
     status_data := status_data d; data_pos := data_pos d; data := data d;
     sector_buffer := sector_buffer d; sector_pos := sector_pos d;
     sector_count := sector_count d; command := command d;
     cmd_state := cmd_state d; in_reset := in_reset d; timer := timer d;
     rba := v; drives0 := drives0 d; drives1 := drives1 d;
     pos_regs := pos_regs d |}.

(** ** The outside world *)

(** The collaborators the adapter calls and whose results it uses.  [W]
    is their state; each method is the C function of the same name,
    taking the state of the world and giving the result and the next
    state.
    - [dma_channel_read chan] and [dma_channel_write chan val] move one
      word, or give [DMA_NODATA];
    - [hdd_image_read hdd sector count buf] gives the return code and the
      buffer as the call leaves it; [hdd_image_write] the return code;
    - [hdd_image_get_last_sector] is a query;
    - the timing functions give microseconds. *)
Class Extern (W : Type) : Type := {
  dma_channel_read : Z -> W -> Z * W;
  dma_channel_write : Z -> Z -> W -> Z * W;
  hdd_image_read : Z -> Z -> Z -> list Z -> W -> Z * list Z * W;
  hdd_image_write : Z -> Z -> Z -> list Z -> W -> Z * W;
  hdd_image_zero : Z -> Z -> Z -> W -> W;
  hdd_image_get_last_sector : Z -> W -> Z;
  hdd_timing_read : Z -> Z -> Z -> W -> Q * W;
  hdd_timing_write : Z -> Z -> Z -> W -> Q * W;
  hdd_seek_get_time : Z -> Z -> W -> Q * W
}.

(** Calls that leave the adapter, in the order they are made. *)
Inductive event : Type :=
| Picint (set : bool)
| UiIcon (active : Z)
| UiIconWrite (active : Z)
| DmaRead (chan ret : Z)
| DmaWrite (chan val ret : Z)
| ImageRead (hdd sector ret : Z)
| ImageWrite (hdd sector : Z) (buf : list Z) (ret : Z)
| ImageZero (hdd sector count : Z).

(** The machine: the adapter, the world around it and the calls made so
    far. *)
Record mach (W : Type) : Type := mk_mach {
  dev : esdi_t;
  ext : W;
  log : list event
}.

Arguments mk_mach {W} dev ext log.
Arguments dev {W} m.
Arguments ext {W} m.
Arguments log {W} m.

(** Where a statement leaves control: at the next statement with a
    value, out of the function with the function's result, or nowhere. *)
Inductive res (W R A : Type) : Type :=
| Next (a : A) (m : mach W)
| Return (r : R) (m : mach W)
| Fatal (msg : string) (m : mach W).

Arguments Next {W R A} a m.
Arguments Return {W R A} r m.
Arguments Fatal {W R A} msg m.

(** The result of a whole function call. *)
Inductive outcome (W R : Type) : Type :=
| Done (r : R) (m : mach W)
| Crashed (msg : string) (m : mach W).

Arguments Done {W R} r m.
Arguments Crashed {W R} msg m.

Definition M (W R A : Type) : Type := mach W -> res W R A.

Definition next {W R A} (a : A) : M W R A := fun m => Next a m.
Definition return_ {W R A} (r : R) : M W R A := fun m => Return r m.
Definition fatal {W R A} (msg : string) : M W R A := fun m => Fatal msg m.

Definition bind {W R A B} (c : M W R A) (k : A -> M W R B) : M W R B :=
  fun m =>
    match c m with
    | Next a m' => k a m'
    | Return r m' => Return r m'
    | Fatal msg m' => Fatal msg m'
    end.

Declare Scope esdi_scope.
Delimit Scope esdi_scope with esdi.
Notation "x <- c ;; k" := (bind c (fun x => k))
  (at level 100, c at next level, right associativity) : esdi_scope.
Notation "c ;; k" := (bind c (fun _ => k))
  (at level 100, right associativity) : esdi_scope.
Open Scope esdi_scope.

Definition get {W R} : M W R esdi_t := fun m => Next (dev m) m.

Definition upd {W R} (f : esdi_t -> esdi_t) : M W R unit :=
  fun m => Next tt (mk_mach (f (dev m)) (ext m) (log m)).

Definition emit {W R} (e : event) : M W R unit :=
  fun m => Next tt (mk_mach (dev m) (ext m) (log m ++ [e])).

(** A call of a collaborator: the world moves, the call is logged. *)
Definition extern {W R A} (f : W -> A * W) (ev : A -> list event) : M W R A :=
  fun m =>
    let (a, w) := f (ext m) in
    Next a (mk_mach (dev m) w (log m ++ ev a)).

(** A call of a collaborator that only computes (drive timing): the
    world may move, nothing is logged. *)
Definition ask {W R A} (f : W -> A * W) : M W R A :=
  fun m =>
    let (a, w) := f (ext m) in
    Next a (mk_mach (dev m) w (log m)).

Definition call {W R} (body : M W R R) (m : mach W) : outcome W R :=
  match body m with
  | Next r m' => Done r m'
  | Return r m' => Done r m'
  | Fatal msg m' => Crashed msg m'
  end.

Definition world {W R} : M W R W := fun m => Next (ext m) m.

(** [a[0], a[1], ... = vs], each a [uint16_t] store. *)
Fixpoint write_words_from (i : Z) (vs : list Z) (a : list Z) : list Z :=
  match vs with
  | [] => a
  | v :: vs' => write_words_from (i + 1) vs' (store a i (u16 v))
  end.

Definition write_words (vs : list Z) (a : list Z) : list Z :=
  write_words_from 0 vs a.

(** ** The controller *)

Section Controller.

Context {W : Type} {E : Extern W}.

(** *** Interrupt line and timer *)

Definition set_irq {R} : M W R unit :=
  upd (set_irq_ena_disable 1) ;;
  d <- get ;;
  if nz (Z.land (basic_ctrl d) CTRL_IRQ_ENA) then emit (Picint true)
  else next tt.

Definition clear_irq {R} : M W R unit :=
  upd (set_irq_ena_disable 0) ;;
  d <- get ;;
  if nz (Z.land (basic_ctrl d) CTRL_IRQ_ENA) then emit (Picint false)
  else next tt.

Definition update_irq {R} : M W R unit :=
  d <- get ;;
  emit (Picint (nz (Z.land (basic_ctrl d) CTRL_IRQ_ENA)
                && nz (irq_ena_disable d))).

Definition esdi_mca_set_callback {R} (callback : Q) : M W R unit :=
  if Qeq_bool callback 0 then upd (set_timer None)
  else upd (set_timer (Some callback)).

(** 390.625 us per sector at 10 Mbit/s. *)
Definition esdi_mca_get_xfer_time (size : Z) : Q :=
  ((3125 # 8) * inject_Z size)%Q.

(** *** Status blocks *)

Definition cmd_unsupported {R} : M W R unit :=
  upd (set_status_len 9) ;;
  upd (fun d => set_status_data
         (write_words
            [Z.lor (Z.lor (command d) (STATUS_LEN 9)) (cmd_dev d);
             0x0f03; 0x0002; 0; 0; 0; 0; 0; 0] (status_data d)) d) ;;
  upd (set_status (Z.lor STATUS_IRQ STATUS_STATUS_OUT_FULL)) ;;
  upd (fun d => set_irq_status
         (u8 (Z.lor (cmd_dev d) IRQ_CMD_COMPLETE_FAILURE)) d) ;;
  upd (set_irq_in_progress 1) ;;
  set_irq ;;
  emit (UiIcon 0) ;;
  emit (UiIconWrite 0).

Definition device_not_present {R} : M W R unit :=
  upd (set_status_len 9) ;;
  upd (fun d => set_status_data
         (write_words
            [Z.lor (Z.lor (command d) (STATUS_LEN 9)) (cmd_dev d);
             0x0c11; 0x000b; 0; 0; 0; 0; 0; 0] (status_data d)) d) ;;
  upd (set_status (Z.lor STATUS_IRQ STATUS_STATUS_OUT_FULL)) ;;
  upd (fun d => set_irq_status
         (u8 (Z.lor (cmd_dev d) IRQ_CMD_COMPLETE_FAILURE)) d) ;;
  upd (set_irq_in_progress 1) ;;
  set_irq ;;
  emit (UiIcon 0) ;;
  emit (UiIconWrite 0).

Definition rba_out_of_range {R} : M W R unit :=
  upd (set_status_len 9) ;;
  upd (fun d => set_status_data
         (write_words
            [Z.lor (Z.lor (command d) (STATUS_LEN 9)) (cmd_dev d);
             0x0e01; 0x0007; 0; 0; 0; 0; 0; 0] (status_data d)) d) ;;
  upd (set_status (Z.lor STATUS_IRQ STATUS_STATUS_OUT_FULL)) ;;
  upd (fun d => set_irq_status
         (u8 (Z.lor (cmd_dev d) IRQ_CMD_COMPLETE_FAILURE)) d) ;;
  upd (set_irq_in_progress 1) ;;
  set_irq ;;
  emit (UiIcon 0) ;;
  emit (UiIconWrite 0).

Definition defective_block {R} : M W R unit :=
  upd (set_status_len 9) ;;
  upd (fun d => set_status_data
         (write_words
            [Z.lor (Z.lor (command d) (STATUS_LEN 9)) (cmd_dev d);
             0x0e01; 0x0009; 0; 0; 0; 0; 0; 0] (status_data d)) d) ;;
  upd (set_status (Z.lor STATUS_IRQ STATUS_STATUS_OUT_FULL)) ;;
  upd (fun d => set_irq_status
         (u8 (Z.lor (cmd_dev d) IRQ_CMD_COMPLETE_FAILURE)) d) ;;
  upd (set_irq_in_progress 1) ;;
  set_irq ;;
  emit (UiIcon 0) ;;
  emit (UiIconWrite 0).

Definition complete_command_status {R} : M W R unit :=
  upd (set_status_len 7) ;;
  upd (fun d => set_status_data
         (store (status_data d) 0
            (u16 (if cmd_dev d =? ATTN_DEVICE_0
                  then Z.lor (Z.lor (command d) (STATUS_LEN 7)) (STATUS_DEVICE 0)
                  else Z.lor (Z.lor (command d) (STATUS_LEN 7)) (STATUS_DEVICE 1))))
         d) ;;
  upd (fun d => set_status_data
         (write_words_from 1
            [0x0000; 0x1900; 0;
             Z.land (u32 (rba d - 1)) 0xffff;
             Z.shiftr (u32 (rba d - 1)) 8;
             0] (status_data d)) d) ;;
  emit (UiIcon 0) ;;
  emit (UiIconWrite 0).

(** *** The executor's guards *)

(** [ESDI_ADAPTER_ONLY()] *)
Definition ESDI_ADAPTER_ONLY : M W unit unit :=
  d <- get ;;
  if negb (cmd_dev d =? ATTN_HOST_ADAPTER) then
    cmd_unsupported ;; return_ tt
  else next tt.

(** [ESDI_DRIVE_ONLY()]; the value is [*drive]. *)
Definition ESDI_DRIVE_ONLY : M W unit drive_t :=
  d <- get ;;
  if negb (cmd_dev d =? ATTN_DEVICE_0) && negb (cmd_dev d =? ATTN_DEVICE_1) then
    cmd_unsupported ;; return_ tt
  else if cmd_dev d =? ATTN_DEVICE_0 then next (drives0 d)
  else next (drives1 d).

Definition check_present (drive : drive_t) : M W unit unit :=
  if negb (nz (present drive)) then device_not_present ;; return_ tt
  else next tt.

(** [(cmd_data[2] | (cmd_data[3] << 16)) & 0x0fffffff] *)
Definition decode_rba (d : esdi_t) : Z :=
  Z.land (Z.lor (word_at (cmd_data d) 2) (Z.shiftl (word_at (cmd_data d) 3) 16))
         0x0fffffff.

(** [(dev->rba + dev->sector_count) > hdd_image_get_last_sector(...)]:
    the sum is taken in [uint32_t]. *)
Definition past_last_sector (drive : drive_t) (d : esdi_t) (w : W) : bool :=
  u32 (rba d + sector_count d) >? hdd_image_get_last_sector (hdd_num drive) w.

(** The four statements that latch an interrupt code. *)
Definition raise_irq (st code : Z) : M W unit unit :=
  upd (set_status st) ;;
  upd (set_irq_status (u8 code)) ;;
  upd (set_irq_in_progress 1) ;;
  set_irq.

Definition irq_in_progress_check : M W unit unit :=
  d <- get ;;
  if nz (Z.land (status d) STATUS_IRQ) || nz (irq_in_progress d) then
    fatal "IRQ in progress %02x %i"
  else next tt.

(** *** Transfer loops *)

(** [while (cond) body], the body threading a local variable.  [fuel]
    bounds the number of passes; every use below gives the number of
    passes the C loop makes from the state it starts in, so that the
    loop never ends for lack of fuel (see [words_to_dma_exit] and its
    siblings). *)
Fixpoint while {A} (fuel : nat) (cond : esdi_t -> bool)
    (body : A -> M W unit A) (acc : A) : M W unit A :=
  match fuel with
  | O => next acc
  | S fuel' =>
      d <- get ;;
      if cond d then a <- body acc ;; while fuel' cond body a
      else next acc
  end.

(** Passes of [while (dev->data_pos < 256)]: each adds one to
    [data_pos]. *)
Definition words_left (d : esdi_t) : nat := Z.to_nat (256 - data_pos d).

(** Passes of [while (dev->sector_pos < dev->sector_count)] when each
    adds one to [sector_pos]. *)
Definition sectors_left (d : esdi_t) : nat :=
  Z.to_nat (sector_count d - sector_pos d).

(** One pass of the inner loop of the commands that send the staging
    buffer to memory.  [stall] is the delay scheduled when the channel
    takes no word. *)
Definition word_to_dma (stall : Q) (_ : unit) : M W unit unit :=
  d <- get ;;
  val <- extern (dma_channel_write (dma d) (word_at (data d) (data_pos d)))
           (fun r => [DmaWrite (dma d) (word_at (data d) (data_pos d)) r]) ;;
  if val =? DMA_NODATA then
    esdi_mca_set_callback stall ;; return_ tt
  else
    upd (fun d => set_data_pos (data_pos d + 1) d).

Definition words_to_dma (stall : Q) : M W unit unit :=
  d <- get ;;
  while (words_left d) (fun d => data_pos d <? 256) (word_to_dma stall) tt.

(** One pass of the inner loop of the commands that fill the staging
    buffer from memory. *)
Definition word_from_dma (stall : Q) (_ : unit) : M W unit unit :=
  d <- get ;;
  val <- extern (dma_channel_read (dma d)) (fun r => [DmaRead (dma d) r]) ;;
  if val =? DMA_NODATA then
    esdi_mca_set_callback stall ;; return_ tt
  else
    upd (fun d => set_data_pos (data_pos d + 1)
                    (set_data (store (data d) (data_pos d)
                                 (Z.land val 0xffff)) d)).

Definition words_from_dma (stall : Q) : M W unit unit :=
  d <- get ;;
  while (words_left d) (fun d => data_pos d <? 256) (word_from_dma stall) tt.

(** [hdd_image_read] of one sector at [dev->rba] into [dev->data]. *)
Definition image_read_sector (drive : drive_t) : M W unit Z :=
  fun m =>
    let '(ret, buf, w) :=
      hdd_image_read (hdd_num drive) (rba (dev m)) 1 (data (dev m)) (ext m) in
    Next ret (mk_mach (set_data buf (dev m)) w
                (log m ++ [ImageRead (hdd_num drive) (rba (dev m)) ret])).

(** One pass of the sector loop of [CMD_READ]; the value is [cmd_time]. *)
Definition read_sector (drive : drive_t) (cmd_time : Q) : M W unit Q :=
  d <- get ;;
  cmd_time <-
    (if negb (nz (data_pos d)) then
       (if rba d >=? u32 (sectors drive) then fatal "Read past end of drive"
        else next tt) ;;
       ret <- image_read_sector drive ;;
       if ret <? 0 then defective_block ;; return_ tt
       else
         t <- ask (hdd_timing_read (hdd_num drive) (rba d) 1) ;;
         next (cmd_time + t + esdi_mca_get_xfer_time 1)%Q
     else next cmd_time) ;;
  words_to_dma (ESDI_TIME + cmd_time)%Q ;;
  upd (set_data_pos 0) ;;
  upd (fun d => set_sector_pos (sector_pos d + 1) d) ;;
  upd (fun d => set_rba (u32 (rba d + 1)) d) ;;
  next cmd_time.

Definition read_sectors (drive : drive_t) (cmd_time : Q) : M W unit Q :=
  d <- get ;;
  while (sectors_left d) (fun d => sector_pos d <? sector_count d)
    (read_sector drive) cmd_time.

(** One pass of the sector loop of [CMD_WRITE] and [CMD_WRITE_VERIFY]. *)
Definition write_sector (drive : drive_t) (cmd_time : Q) : M W unit Q :=
  words_from_dma (ESDI_TIME + cmd_time)%Q ;;
  d <- get ;;
  (if rba d >=? u32 (sectors drive) then fatal "Write past end of drive"
   else next tt) ;;
  ret <- extern (hdd_image_write (hdd_num drive) (rba d) 1 (data d))
           (fun r => [ImageWrite (hdd_num drive) (rba d) (data d) r]) ;;
  if ret <? 0 then defective_block ;; return_ tt
  else
    t <- ask (hdd_timing_write (hdd_num drive) (rba d) 1) ;;
    upd (fun d => set_rba (u32 (rba d + 1)) d) ;;
    upd (fun d => set_sector_pos (sector_pos d + 1) d) ;;
    upd (set_data_pos 0) ;;
    next (cmd_time + t + esdi_mca_get_xfer_time 1)%Q.

Definition write_sectors (drive : drive_t) (cmd_time : Q) : M W unit Q :=
  d <- get ;;
  while (sectors_left d) (fun d => sector_pos d <? sector_count d)
    (write_sector drive) cmd_time.

(** The sector loop of command 0x10 (write sector buffer):
    [memcpy(dev->sector_buffer[dev->sector_pos++], dev->data, 512)]. *)
Definition buffer_in_sectors : M W unit unit :=
  d <- get ;;
  while (sectors_left d) (fun d => sector_pos d <? sector_count d)
    (fun _ =>
       words_from_dma ESDI_TIME ;;
       upd (fun d => set_sector_pos (sector_pos d + 1)
                       (set_sector_buffer
                          (<[Z.to_nat (sector_pos d) := data d]> (sector_buffer d))
                          d)) ;;
       upd (set_data_pos 0))
    tt.

(** The sector loop of command 0x11 (read sector buffer).  A pass adds
    one to [sector_pos] only when it loads a sector, which the first
    pass does not when the transfer resumes inside a sector. *)
Definition buffer_out_sectors : M W unit unit :=
  d <- get ;;
  while (sectors_left d + (if nz (data_pos d) then 1 else 0))%nat
    (fun d => sector_pos d <? sector_count d)
    (fun _ =>
       d <- get ;;
       (if negb (nz (data_pos d)) then
          upd (fun d => set_sector_pos (sector_pos d + 1)
                          (set_data
                             (default (data d)
                                (sector_buffer d !! Z.to_nat (sector_pos d)))
                             d))
        else next tt) ;;
       words_to_dma ESDI_TIME ;;
       upd (set_data_pos 0))
    tt.

(** *** The executor: one definition per [case] of [esdi_callback] *)

Definition transfer_ready_status : Z :=
  Z.lor (Z.lor STATUS_IRQ STATUS_CMD_IN_PROGRESS) STATUS_TRANSFER_REQ.

Definition complete_status : Z := Z.lor STATUS_IRQ STATUS_STATUS_OUT_FULL.

(** [case CMD_READ: case 0x15:] *)
Definition case_read : M W unit unit :=
  drive <- ESDI_DRIVE_ONLY ;;
  check_present drive ;;
  d <- get ;;
  if cmd_state d =? 0 then
    (if command d =? CMD_READ then upd (fun d => set_rba (decode_rba d) d)
     else next tt) ;;
    upd (set_sector_pos 0) ;;
    upd (fun d => set_sector_count (word_at (cmd_data d) 1) d) ;;
    d <- get ;;
    w <- world ;;
    if past_last_sector drive d w then rba_out_of_range ;; return_ tt
    else
      raise_irq transfer_ready_status (Z.lor (cmd_dev d) IRQ_DATA_TRANSFER_READY) ;;
      upd (set_cmd_state 1) ;;
      esdi_mca_set_callback ESDI_TIME ;;
      upd (set_data_pos 0)
  else if cmd_state d =? 1 then
    if negb (nz (Z.land (basic_ctrl d) CTRL_DMA_ENA)) then
      esdi_mca_set_callback ESDI_TIME ;; return_ tt
    else
      cmd_time <- read_sectors drive 0 ;;
      upd (set_status STATUS_CMD_IN_PROGRESS) ;;
      upd (set_cmd_state 2) ;;
      esdi_mca_set_callback cmd_time
  else if cmd_state d =? 2 then
    complete_command_status ;;
    raise_irq complete_status (Z.lor (cmd_dev d) IRQ_CMD_COMPLETE_SUCCESS)
  else next tt.

(** [case CMD_WRITE: case CMD_WRITE_VERIFY:] *)
Definition case_write : M W unit unit :=
  drive <- ESDI_DRIVE_ONLY ;;
  check_present drive ;;
  d <- get ;;
  if cmd_state d =? 0 then
    upd (fun d => set_rba (decode_rba d) d) ;;
    upd (set_sector_pos 0) ;;
    upd (fun d => set_sector_count (word_at (cmd_data d) 1) d) ;;
    d <- get ;;
    w <- world ;;
    if past_last_sector drive d w then rba_out_of_range ;; return_ tt
    else
      raise_irq transfer_ready_status (Z.lor (cmd_dev d) IRQ_DATA_TRANSFER_READY) ;;
      upd (set_cmd_state 1) ;;
      esdi_mca_set_callback ESDI_TIME ;;
      upd (set_data_pos 0)
  else if cmd_state d =? 1 then
    if negb (nz (Z.land (basic_ctrl d) CTRL_DMA_ENA)) then
      esdi_mca_set_callback ESDI_TIME ;; return_ tt
    else
      cmd_time <- write_sectors drive 0 ;;
      upd (set_status STATUS_CMD_IN_PROGRESS) ;;
      upd (set_cmd_state 2) ;;
      esdi_mca_set_callback cmd_time
  else if cmd_state d =? 2 then
    complete_command_status ;;
    raise_irq complete_status (Z.lor (cmd_dev d) IRQ_CMD_COMPLETE_SUCCESS)
  else next tt.

(** [case CMD_READ_VERIFY:] *)
Definition case_read_verify : M W unit unit :=
  drive <- ESDI_DRIVE_ONLY ;;
  check_present drive ;;
  d <- get ;;
  if cmd_state d =? 0 then
    upd (fun d => set_rba (decode_rba d) d) ;;
    upd (fun d => set_sector_count (word_at (cmd_data d) 1) d) ;;
    d <- get ;;
    w <- world ;;
    if past_last_sector drive d w then rba_out_of_range ;; return_ tt
    else
      cmd_time <- ask (hdd_timing_read (hdd_num drive) (rba d) (sector_count d)) ;;
      esdi_mca_set_callback (ESDI_TIME + cmd_time)%Q ;;
      upd (set_cmd_state 1)
  else if cmd_state d =? 1 then
    complete_command_status ;;
    raise_irq complete_status (Z.lor (cmd_dev d) IRQ_CMD_COMPLETE_SUCCESS)
  else next tt.

(** [case CMD_SEEK:] *)
Definition case_seek : M W unit unit :=
  drive <- ESDI_DRIVE_ONLY ;;
  check_present drive ;;
  d <- get ;;
  w <- world ;;
  if past_last_sector drive d w then rba_out_of_range ;; return_ tt
  else if cmd_state d =? 0 then
    upd (fun d => set_rba (decode_rba d) d) ;;
    d <- get ;;
    cmd_time <- ask (hdd_seek_get_time (hdd_num drive) (rba d)) ;;
    esdi_mca_set_callback (ESDI_TIME + cmd_time)%Q ;;
    upd (set_cmd_state 1)
  else if cmd_state d =? 1 then
    complete_command_status ;;
    raise_irq complete_status (Z.lor (cmd_dev d) IRQ_CMD_COMPLETE_SUCCESS)
  else next tt.

(** [case CMD_PARK_HEADS:] *)
Definition case_park_heads : M W unit unit :=
  drive <- ESDI_DRIVE_ONLY ;;
  check_present drive ;;
  d <- get ;;
  if cmd_state d =? 0 then
    upd (set_rba 0) ;;
    d <- get ;;
    cmd_time <- ask (hdd_seek_get_time (hdd_num drive) (rba d)) ;;
    esdi_mca_set_callback (ESDI_TIME + cmd_time)%Q ;;
    upd (set_cmd_state 1)
  else if cmd_state d =? 1 then
    complete_command_status ;;
    raise_irq complete_status (Z.lor (cmd_dev d) IRQ_CMD_COMPLETE_SUCCESS)
  else next tt.

(** [case CMD_GET_DEV_STATUS:] *)
Definition case_get_dev_status : M W unit unit :=
  drive <- ESDI_DRIVE_ONLY ;;
  check_present drive ;;
  irq_in_progress_check ;;
  upd (set_status_len 9) ;;
  upd (fun d => set_status_data
         (write_words
            [Z.lor (Z.lor CMD_GET_DEV_STATUS (STATUS_LEN 9)) STATUS_DEVICE_HOST_ADAPTER;
             0x0000; 0x1900; 0; 0; 0; 0; 0; 0] (status_data d)) d) ;;
  d <- get ;;
  raise_irq complete_status (Z.lor (cmd_dev d) IRQ_CMD_COMPLETE_SUCCESS) ;;
  emit (UiIcon 0) ;;
  emit (UiIconWrite 0).

(** [case CMD_GET_DEV_CONFIG:] *)
Definition case_get_dev_config : M W unit unit :=
  d <- get ;;
  (if cmd_dev d =? ATTN_HOST_ADAPTER then
     irq_in_progress_check ;;
     upd (set_status_len 6) ;;
     upd (fun d => set_status_data
            (write_words
               [Z.lor (Z.lor CMD_GET_DEV_CONFIG (STATUS_LEN 6)) STATUS_DEVICE_HOST_ADAPTER;
                0; 0; 0x3200; 0; 0] (status_data d)) d)
   else
     drive <- ESDI_DRIVE_ONLY ;;
     check_present drive ;;
     irq_in_progress_check ;;
     upd (set_status_len 6) ;;
     upd (fun d => set_status_data
            (write_words
               [Z.lor (Z.lor CMD_GET_DEV_CONFIG (STATUS_LEN 6)) STATUS_DEVICE_HOST_ADAPTER;
                0x10;
                Z.land (sectors drive) 0xffff;
                Z.shiftr (sectors drive) 16;
                tracks drive;
                Z.lor (hpc drive) (Z.shiftl (spt drive) 16)] (status_data d)) d)) ;;
  raise_irq complete_status (Z.lor (cmd_dev d) IRQ_CMD_COMPLETE_SUCCESS) ;;
  emit (UiIcon 0) ;;
  emit (UiIconWrite 0).

(** [case CMD_GET_POS_INFO:] *)
Definition case_get_pos_info : M W unit unit :=
  ESDI_ADAPTER_ONLY ;;
  irq_in_progress_check ;;
  upd (set_status_len 5) ;;
  upd (fun d => set_status_data
         (write_words
            [Z.lor (Z.lor CMD_GET_POS_INFO (STATUS_LEN 5)) STATUS_DEVICE_HOST_ADAPTER;
             Z.lor (word_at (pos_regs d) 1) (Z.shiftl (word_at (pos_regs d) 0) 8);
             Z.lor (word_at (pos_regs d) 3) (Z.shiftl (word_at (pos_regs d) 2) 8);
             0xff; 0xff] (status_data d)) d) ;;
  raise_irq complete_status (Z.lor IRQ_HOST_ADAPTER IRQ_CMD_COMPLETE_SUCCESS) ;;
  emit (UiIcon 0) ;;
  emit (UiIconWrite 0).

(** [case 0x10:] write sector buffer *)
Definition case_write_sector_buffer : M W unit unit :=
  ESDI_ADAPTER_ONLY ;;
  d <- get ;;
  if cmd_state d =? 0 then
    upd (set_sector_pos 0) ;;
    upd (fun d => set_sector_count (word_at (cmd_data d) 1) d) ;;
    d <- get ;;
    (if sector_count d >? 256 then fatal "Write sector buffer count %04x"
     else next tt) ;;
    raise_irq transfer_ready_status (Z.lor IRQ_HOST_ADAPTER IRQ_DATA_TRANSFER_READY) ;;
    upd (set_cmd_state 1) ;;
    esdi_mca_set_callback ESDI_TIME ;;
    upd (set_data_pos 0)
  else if cmd_state d =? 1 then
    if negb (nz (Z.land (basic_ctrl d) CTRL_DMA_ENA)) then
      esdi_mca_set_callback ESDI_TIME ;; return_ tt
    else
      buffer_in_sectors ;;
      upd (set_status STATUS_CMD_IN_PROGRESS) ;;
      upd (set_cmd_state 2) ;;
      esdi_mca_set_callback ESDI_TIME
  else if cmd_state d =? 2 then
    raise_irq STATUS_IRQ (Z.lor IRQ_HOST_ADAPTER IRQ_CMD_COMPLETE_SUCCESS) ;;
    emit (UiIcon 0) ;;
    emit (UiIconWrite 0)
  else next tt.

(** [case 0x11:] read sector buffer *)
Definition case_read_sector_buffer : M W unit unit :=
  ESDI_ADAPTER_ONLY ;;
  d <- get ;;
  if cmd_state d =? 0 then
    upd (set_sector_pos 0) ;;
    upd (fun d => set_sector_count (word_at (cmd_data d) 1) d) ;;
    d <- get ;;
    (if sector_count d >? 256 then fatal "Read sector buffer count %04x"
     else next tt) ;;
    raise_irq transfer_ready_status (Z.lor IRQ_HOST_ADAPTER IRQ_DATA_TRANSFER_READY) ;;
    upd (set_cmd_state 1) ;;
    esdi_mca_set_callback ESDI_TIME ;;
    upd (set_data_pos 0)
  else if cmd_state d =? 1 then
    if negb (nz (Z.land (basic_ctrl d) CTRL_DMA_ENA)) then
      esdi_mca_set_callback ESDI_TIME ;; return_ tt
    else
      buffer_out_sectors ;;
      upd (set_status STATUS_CMD_IN_PROGRESS) ;;
      upd (set_cmd_state 2) ;;
      esdi_mca_set_callback ESDI_TIME
  else if cmd_state d =? 2 then
    raise_irq STATUS_IRQ (Z.lor IRQ_HOST_ADAPTER IRQ_CMD_COMPLETE_SUCCESS) ;;
    emit (UiIcon 0)
  else next tt.

(** [case 0x12:] *)
Definition case_0x12 : M W unit unit :=
  ESDI_ADAPTER_ONLY ;;
  irq_in_progress_check ;;
  upd (set_status_len 2) ;;
  upd (fun d => set_status_data
         (write_words
            [Z.lor (Z.lor 0x12 (STATUS_LEN 5)) STATUS_DEVICE_HOST_ADAPTER; 0]
            (status_data d)) d) ;;
  raise_irq complete_status (Z.lor IRQ_HOST_ADAPTER IRQ_CMD_COMPLETE_SUCCESS) ;;
  emit (UiIcon 0).

(** [case CMD_FORMAT_UNIT: case CMD_FORMAT_PREPARE:] *)
Definition case_format : M W unit unit :=
  drive <- ESDI_DRIVE_ONLY ;;
  check_present drive ;;
  d <- get ;;
  if cmd_state d =? 0 then
    w <- world ;;
    upd (set_rba (u32 (hdd_image_get_last_sector (hdd_num drive) w))) ;;
    (if command d =? CMD_FORMAT_UNIT then
       upd (fun d => set_sector_count (word_at (cmd_data d) 1) d)
     else upd (set_sector_count 0)) ;;
    raise_irq transfer_ready_status (Z.lor (cmd_dev d) IRQ_DATA_TRANSFER_READY) ;;
    upd (set_cmd_state 1) ;;
    esdi_mca_set_callback ESDI_TIME
  else if cmd_state d =? 1 then
    if negb (nz (Z.land (basic_ctrl d) CTRL_DMA_ENA)) then
      esdi_mca_set_callback ESDI_TIME ;; return_ tt
    else
      (if command d =? CMD_FORMAT_UNIT then
         w <- world ;;
         extern (fun w' =>
                   (tt, hdd_image_zero (hdd_num drive) 0
                          (u32 (hdd_image_get_last_sector (hdd_num drive) w + 1)) w'))
           (fun _ => [ImageZero (hdd_num drive) 0
                        (u32 (hdd_image_get_last_sector (hdd_num drive) w + 1))])
       else next tt) ;;
      upd (set_status STATUS_CMD_IN_PROGRESS) ;;
      upd (set_cmd_state 2) ;;
      esdi_mca_set_callback ESDI_TIME
  else if cmd_state d =? 2 then
    complete_command_status ;;
    raise_irq complete_status (Z.lor (cmd_dev d) IRQ_CMD_COMPLETE_SUCCESS)
  else next tt.

(** [esdi_callback]: the reset sequencer first, then the [switch] on the
    command. *)
Definition esdi_callback_body : M W unit unit :=
  d <- get ;;
  if nz (in_reset d) then
    upd (set_in_reset 0) ;;
    upd (set_status
           (Z.lor (Z.lor STATUS_IRQ STATUS_TRANSFER_REQ) STATUS_STATUS_OUT_FULL)) ;;
    upd (set_status_len 1) ;;
    upd (fun d => set_status_data
           (store (status_data d) 0 (u16 (Z.lor (STATUS_LEN 1) ATTN_HOST_ADAPTER))) d) ;;
    upd (set_irq_status (u8 (Z.lor IRQ_HOST_ADAPTER IRQ_RESET_COMPLETE))) ;;
    return_ tt
  else if (command d =? CMD_READ) || (command d =? 0x15) then case_read
  else if (command d =? CMD_WRITE) || (command d =? CMD_WRITE_VERIFY) then case_write
  else if command d =? CMD_READ_VERIFY then case_read_verify
  else if command d =? CMD_SEEK then case_seek
  else if command d =? CMD_PARK_HEADS then case_park_heads
  else if command d =? CMD_GET_DEV_STATUS then case_get_dev_status
  else if command d =? CMD_GET_DEV_CONFIG then case_get_dev_config
  else if command d =? CMD_GET_POS_INFO then case_get_pos_info
  else if command d =? 0x10 then case_write_sector_buffer
  else if command d =? 0x11 then case_read_sector_buffer
  else if command d =? 0x12 then case_0x12
  else if (command d =? CMD_FORMAT_UNIT) || (command d =? CMD_FORMAT_PREPARE)
  then case_format
  else fatal "BAD COMMAND %02x %i".

Definition esdi_callback (m : mach W) : outcome W unit :=
  call esdi_callback_body m.

(** *** Register handlers *)

(** [esdi_read] *)
Definition esdi_read_body (port : Z) : M W Z Z :=
  if Z.land port 7 =? 2 then
    d <- get ;; next (status d)
  else if Z.land port 7 =? 3 then
    upd (fun d => set_status (u8 (Z.land (status d) (Z.lnot STATUS_IRQ))) d) ;;
    d <- get ;; next (irq_status d)
  else next 0x00.

Definition esdi_read (port : Z) (m : mach W) : outcome W Z :=
  call (esdi_read_body port) m.

(** The three statements that start a reset. *)
Definition start_reset {R} : M W R unit :=
  upd (set_in_reset 1) ;;
  esdi_mca_set_callback (ESDI_TIME * (50 # 1))%Q ;;
  upd (set_status STATUS_BUSY).

(** [case ATTN_CMD_REQ:] for the target [target]; [who] ends the
    message of the fatal error. *)
Definition attn_cmd_req (target : Z) (who : string) : M W unit unit :=
  d <- get ;;
  (if nz (cmd_req_in_progress d) then
     fatal ("Try to start command on in_progress " ++ who)
   else next tt) ;;
  upd (set_cmd_req_in_progress 1) ;;
  upd (set_cmd_dev target) ;;
  upd (fun d => set_status (u8 (Z.lor (status d) STATUS_BUSY)) d) ;;
  upd (set_cmd_pos 0) ;;
  upd (set_status_pos 0).

(** [case ATTN_EOI:] *)
Definition attn_eoi : M W unit unit :=
  upd (set_irq_in_progress 0) ;;
  upd (fun d => set_status (u8 (Z.land (status d) (Z.lnot STATUS_IRQ))) d) ;;
  clear_irq.

(** [esdi_write]; [val] is a [uint8_t]. *)
Definition esdi_write_body (port val : Z) : M W unit unit :=
  if Z.land port 7 =? 2 then
    d <- get ;;
    (if nz (Z.land (basic_ctrl d) CTRL_RESET) && negb (nz (Z.land val CTRL_RESET))
     then start_reset
     else if negb (nz (Z.land (basic_ctrl d) CTRL_RESET)) && nz (Z.land val CTRL_RESET)
     then esdi_mca_set_callback 0 ;; upd (set_status STATUS_BUSY)
     else next tt) ;;
    upd (set_basic_ctrl val) ;;
    if nz (Z.land val CTRL_IRQ_ENA) && negb (nz (Z.land (basic_ctrl d) CTRL_IRQ_ENA))
    then update_irq
    else next tt
  else if Z.land port 7 =? 3 then
    if Z.land val ATTN_DEVICE_SEL =? ATTN_HOST_ADAPTER then
      if Z.land val ATTN_REQ_MASK =? ATTN_CMD_REQ then
        attn_cmd_req ATTN_HOST_ADAPTER "adapter"
      else if Z.land val ATTN_REQ_MASK =? ATTN_EOI then attn_eoi
      else if Z.land val ATTN_REQ_MASK =? ATTN_RESET then start_reset
      else fatal "Bad attention request %02x"
    else if Z.land val ATTN_DEVICE_SEL =? ATTN_DEVICE_0 then
      if Z.land val ATTN_REQ_MASK =? ATTN_CMD_REQ then
        attn_cmd_req ATTN_DEVICE_0 "device0"
      else if Z.land val ATTN_REQ_MASK =? ATTN_EOI then attn_eoi
      else fatal "Bad attention request %02x"
    else if Z.land val ATTN_DEVICE_SEL =? ATTN_DEVICE_1 then
      if Z.land val ATTN_REQ_MASK =? ATTN_CMD_REQ then
        attn_cmd_req ATTN_DEVICE_1 "device0"
      else if Z.land val ATTN_REQ_MASK =? ATTN_EOI then attn_eoi
      else fatal "Bad attention request %02x"
    else fatal "Attention to unknown device %02x"
  else fatal "esdi_write port=%04x val=%02x".

Definition esdi_write (port val : Z) (m : mach W) : outcome W unit :=
  call (esdi_write_body port val) m.

(** [esdi_readw] *)
Definition esdi_readw_body (port : Z) : M W Z Z :=
  if Z.land port 7 =? 0 then
    d <- get ;;
    (if status_pos d >=? status_len d then return_ 0 else next tt) ;;
    upd (fun d => set_status_pos (status_pos d + 1) d) ;;
    d' <- get ;;
    (if status_pos d' >=? status_len d' then
       upd (fun d => set_status
                       (u8 (Z.land (status d) (Z.lnot STATUS_STATUS_OUT_FULL))) d) ;;
       upd (set_status_len 0) ;;
       upd (set_status_pos 0)
     else next tt) ;;
    next (word_at (status_data d) (status_pos d))
  else fatal "esdi_readw port=%04x".

Definition esdi_readw (port : Z) (m : mach W) : outcome W Z :=
  call (esdi_readw_body port) m.

(** [esdi_writew]; [val] is a [uint16_t]. *)
Definition esdi_writew_body (port val : Z) : M W unit unit :=
  if Z.land port 7 =? 0 then
    d <- get ;;
    (if cmd_pos d >=? 4 then fatal "CIR pos 4" else next tt) ;;
    upd (fun d => set_cmd_pos (cmd_pos d + 1)
                    (set_cmd_data (store (cmd_data d) (cmd_pos d) (u16 val)) d)) ;;
    d <- get ;;
    if (nz (Z.land (word_at (cmd_data d) 0) CMD_SIZE_4) && (cmd_pos d =? 4))
       || (negb (nz (Z.land (word_at (cmd_data d) 0) CMD_SIZE_4)) && (cmd_pos d =? 2))
    then
      upd (set_cmd_pos 0) ;;
      upd (set_cmd_req_in_progress 0) ;;
      upd (set_cmd_state 0) ;;
      (if negb (Z.land (word_at (cmd_data d) 0) CMD_DEVICE_SEL =? cmd_dev d)
       then fatal "Command device mismatch with attn"
       else next tt) ;;
      upd (set_command (Z.land (word_at (cmd_data d) 0) CMD_MASK)) ;;
      esdi_mca_set_callback ESDI_TIME ;;
      upd (set_status STATUS_BUSY) ;;
      upd (set_data_pos 0) ;;
      emit (UiIcon 1)
    else next tt
  else fatal "esdi_writew port=%04x val=%04x".

Definition esdi_writew (port val : Z) (m : mach W) : outcome W unit :=
  call (esdi_writew_body port val) m.

(** [esdi_reset], the bus reset hook of the integrated controller. *)
Definition esdi_reset_body : M W unit unit :=
  d <- get ;;
  if negb (nz (in_reset d)) then start_reset else next tt.

Definition esdi_reset (m : mach W) : outcome W unit :=
  call esdi_reset_body m.

End Controller.

(** [esdi_init]: the zeroed structure, then the assignments of the
    function.  The two drive descriptors are what its loop over the
    machine's disk table leaves in [drives]; [local] is [info->local].
    The last statement, [timer_add(&dev->timer, esdi_callback, dev, 0)],
    registers the callback after the reset has been scheduled.
    [timer_add] is a function of [86box/timer.h], which is not part of
    this file, and nothing here says what it does to a delay that is
    already pending: the parameter [timer_add] is that effect, from the
    timer before the call to the timer after it. *)
Definition esdi_zero (d0 d1 : drive_t) : esdi_t :=
  {| dma := 0; basic_ctrl := 0; status := 0; irq_status := 0;
     irq_ena_disable := 0; irq_in_progress := 0; cmd_req_in_progress := 0;
     cmd_pos := 0; cmd_data := replicate 4 0; cmd_dev := 0;
     status_pos := 0; status_len := 0; status_data := replicate 256 0;
     data_pos := 0; data := replicate 256 0;
     sector_buffer := replicate 256 (replicate 256 0);
     sector_pos := 0; sector_count := 0; command := 0; cmd_state := 0;
     in_reset := 0; timer := None; rba := 0;
     drives0 := d0; drives1 := d1; pos_regs := replicate 8 0 |}.

Definition set_pos_regs (v : list Z) (d : esdi_t) : esdi_t :=
  {| dma := dma d; basic_ctrl := basic_ctrl d; status := status d;
     irq_status := irq_status d; irq_ena_disable := irq_ena_disable d;
     irq_in_progress := irq_in_progress d;
     cmd_req_in_progress := cmd_req_in_progress d; cmd_pos := cmd_pos d;
     cmd_data := cmd_data d; cmd_dev := cmd_dev d;
     status_pos := status_pos d; status_len := status_len d;
     status_data := status_data d; data_pos := data_pos d; data := data d;
     sector_buffer := sector_buffer d; sector_pos := sector_pos d;
     sector_count := sector_count d; command := command d;
     cmd_state := cmd_state d; in_reset := in_reset d; timer := timer d;
     rba := rba d; drives0 := drives0 d; drives1 := drives1 d;
     pos_regs := v |}.

Definition esdi_init (timer_add : option Q -> option Q) (local : Z)
    (d0 d1 : drive_t) : esdi_t :=
  let d := set_irq_status 0xff (esdi_zero d0 d1) in
  let d :=
    if local =? ESDI_IS_ADAPTER then
      set_pos_regs (store (store (pos_regs d) 0 0xff) 1 0xdd) d
    else if local =? ESDI_IS_INTEGRATED then
      set_pos_regs (store (store (pos_regs d) 0 0x9f) 1 0xdf) d
    else d in
  let d := set_in_reset 1 d in
  let d := set_timer (Some (ESDI_TIME * (50 # 1))%Q) d in
  let d := set_status STATUS_BUSY d in
  set_timer (timer_add (timer d)) d.

(** ** A small world to run the controller in

    A DMA channel that moves [sim_room] more words and then answers
    [DMA_NODATA] (memory hands out the word [sim_word]; the words sent
    to memory are kept in [sim_mem]), a disk of [sim_last] sectors with
    at most one defective sector [sim_bad], and timings that depend on
    the sector only.  Sector [s] of the disk holds the words [256 s],
    [256 s + 1], ... until it is written; [sim_written] keeps the
    sectors written, the latest first. *)
Module Sim.

Record t : Type := mk {
  sim_room : nat;
  sim_word : Z;
  sim_mem : list Z;
  sim_written : list (Z * list Z);
  sim_last : Z;
  sim_bad : Z;
  sim_slow : Z;
  sim_t_write : Q;
  sim_t_seek : Q
}.

Definition take_word (w : t) : t :=
  mk (pred (sim_room w)) (sim_word w) (sim_mem w) (sim_written w) (sim_last w)
     (sim_bad w) (sim_slow w) (sim_t_write w) (sim_t_seek w).

Definition put_word (v : Z) (w : t) : t :=
  mk (pred (sim_room w)) (sim_word w) (sim_mem w ++ [v]) (sim_written w)
     (sim_last w) (sim_bad w) (sim_slow w) (sim_t_write w) (sim_t_seek w).

Definition write_sector (s : Z) (buf : list Z) (w : t) : t :=
  mk (sim_room w) (sim_word w) (sim_mem w) ((s, buf) :: sim_written w)
     (sim_last w) (sim_bad w) (sim_slow w) (sim_t_write w) (sim_t_seek w).

Definition refill (n : nat) (w : t) : t :=
  mk n (sim_word w) (sim_mem w) (sim_written w) (sim_last w) (sim_bad w)
     (sim_slow w) (sim_t_write w) (sim_t_seek w).

Definition pattern (s : Z) : list Z :=
  map (fun i => u16 (256 * s + Z.of_nat i)) (seq 0 256).

Fixpoint lookup_sector (s : Z) (l : list (Z * list Z)) : list Z :=
  match l with
  | [] => pattern s
  | (s', buf) :: l' => if s' =? s then buf else lookup_sector s l'
  end.

(** Reading sector [sim_slow] takes 700 us, any other sector 100 us. *)
Definition t_read (w : t) (s : Z) : Q :=
  if s =? sim_slow w then 700 # 1 else 100 # 1.

#[global] Instance sim_extern : Extern t := {|
  dma_channel_read := fun _ w =>
    match sim_room w with
    | O => (DMA_NODATA, w)
    | S _ => (sim_word w, take_word w)
    end;
  dma_channel_write := fun _ v w =>
    match sim_room w with
    | O => (DMA_NODATA, w)
    | S _ => (0, put_word v w)
    end;
  hdd_image_read := fun _ sector _ buf w =>
    if sector =? sim_bad w then (-1, buf, w)
    else (0, lookup_sector sector (sim_written w), w);
  hdd_image_write := fun _ sector _ buf w =>
    if sector =? sim_bad w then (-1, w)
    else (0, write_sector sector buf w);
  hdd_image_zero := fun _ first count w =>
    fold_right (fun s w' => write_sector s (replicate 256 0) w') w
      (map (fun i => first + Z.of_nat i) (seq 0 (Z.to_nat count)));
  hdd_image_get_last_sector := fun _ w => sim_last w;
  hdd_timing_read := fun _ sector _ w => (t_read w sector, w);
  hdd_timing_write := fun _ _ _ w => (sim_t_write w, w);
  hdd_seek_get_time := fun _ _ w => (sim_t_seek w, w)
|}.

(** A disk of [last] sectors, none defective, with the slow sector
    [slow], behind a DMA channel with room for [room] words. *)
Definition world (last : Z) (room : nat) (slow : Z) : t :=
  mk room 0xabcd [] [] last (-1) slow (200 # 1) (300 # 1).

Definition numbered (last : Z) (room : nat) : t := world last room (-1).

Definition drive (last : Z) : drive_t :=
  mk_drive 17 4 615 last 1 0.

Definition no_drive : drive_t := mk_drive 0 0 0 0 0 0.

(** The timer of this world: registering the callback leaves no delay
    pending.  No example depends on it: each one starts with the reset
    pulse of the guest or sets the timer itself. *)
Definition timer_add (pending : option Q) : option Q := None.

(** The adapter after [esdi_init] with one drive of [last] sectors. *)
Definition boot_slow (last : Z) (room : nat) (slow : Z) : mach t :=
  mk_mach (esdi_init timer_add ESDI_IS_ADAPTER (drive last) no_drive)
    (world last room slow) [].

Definition boot (last : Z) (room : nat) : mach t := boot_slow last room (-1).

End Sim.

(** ** The adapter as a machine

    What can happen to the adapter: the guest reads or writes a
    register, the timer fires, or the world moves on its own (the guest
    programs the DMA controller).
    Modelled from the spec: the timer of [86box/timer.h] is not part of
    this file; it runs the callback only when it is scheduled, and a
    scheduled callback is no longer pending once it runs. *)
Inductive op (W : Type) : Type :=
| IoRead (port : Z)
| IoReadW (port : Z)
| IoWrite (port val : Z)
| IoWriteW (port val : Z)
| TimerFire
| World (f : W -> W).

Arguments IoRead {W} port.
Arguments IoReadW {W} port.
Arguments IoWrite {W} port val.
Arguments IoWriteW {W} port val.
Arguments TimerFire {W}.
Arguments World {W} f.

Section Steps.

Context {W : Type} {E : Extern W}.

Definition forget {R} (o : outcome W R) : outcome W unit :=
  match o with
  | Done _ m => Done tt m
  | Crashed msg m => Crashed msg m
  end.

Definition step (o : op W) (m : mach W) : outcome W unit :=
  match o with
  | IoRead port => forget (esdi_read port m)
  | IoReadW port => forget (esdi_readw port m)
  | IoWrite port val => esdi_write port (u8 val) m
  | IoWriteW port val => esdi_writew port (u16 val) m
  | TimerFire =>
      match timer (dev m) with
      | None => Done tt m
      | Some _ =>
          esdi_callback (mk_mach (set_timer None (dev m)) (ext m) (log m))
      end
  | World f => Done tt (mk_mach (dev m) (f (ext m)) (log m))
  end.

Fixpoint run (ops : list (op W)) (m : mach W) : outcome W unit :=
  match ops with
  | [] => Done tt m
  | o :: ops' =>
      match step o m with
      | Done _ m' => run ops' m'
      | Crashed msg m' => Crashed msg m'
      end
  end.

(** The states the adapter can be in: after [esdi_init], in any world
    and with any timer, and after any operation that does not end the
    emulator. *)
Inductive reachable : mach W -> Prop :=
| reach_init timer_add local d0 d1 w :
    reachable (mk_mach (esdi_init timer_add local d0 d1) w [])
| reach_step o m m' :
    reachable m -> step o m = Done tt m' -> reachable m'.

End Steps.

(** ** Notions used in the statements *)

(** The arrays of [esdi_t] have their declared sizes. *)
Record well_formed (d : esdi_t) : Prop := {
  wf_cmd_data : length (cmd_data d) = 4%nat;
  wf_status_data : length (status_data d) = 256%nat;
  wf_data : length (data d) = 256%nat
}.

(** The timer after [esdi_mca_set_callback]. *)
Definition sched (callback : Q) : option Q :=
  if Qeq_bool callback 0 then None else Some callback.

(** The queue has reached the length its first word asks for. *)
Definition queue_full (q : list Z) (pos : Z) : bool :=
  (nz (Z.land (word_at q 0) CMD_SIZE_4) && (pos =? 4))
  || (negb (nz (Z.land (word_at q 0) CMD_SIZE_4)) && (pos =? 2)).

(** What [set_irq] sends to the interrupt controller: the line is raised
    only when the control register enables interrupts. *)
Definition irq_events (d : esdi_t) : list event :=
  if nz (Z.land (basic_ctrl d) CTRL_IRQ_ENA) then [Picint true] else [].

(** The adapter after one of the four guest-visible errors with error
    words [w1] and [w2]. *)
Definition error_state (w1 w2 : Z) (d : esdi_t) : esdi_t :=
  set_irq_ena_disable 1
    (set_irq_in_progress 1
       (set_irq_status (u8 (Z.lor (cmd_dev d) IRQ_CMD_COMPLETE_FAILURE))
          (set_status (Z.lor STATUS_IRQ STATUS_STATUS_OUT_FULL)
             (set_status_data
                (write_words
                   [Z.lor (Z.lor (command d) (STATUS_LEN 9)) (cmd_dev d);
                    w1; w2; 0; 0; 0; 0; 0; 0] (status_data d))
                (set_status_len 9 d))))).

Definition error_mach {W} (w1 w2 : Z) (m : mach W) : mach W :=
  mk_mach (error_state w1 w2 (dev m)) (ext m)
    (log m ++ irq_events (dev m) ++ [UiIcon 0; UiIconWrite 0]).

(** The drive a command for target [cmd_dev] works on. *)
Definition selected_drive (d : esdi_t) : drive_t :=
  if cmd_dev d =? ATTN_DEVICE_0 then drives0 d else drives1 d.

Definition drive_target (d : esdi_t) : Prop :=
  cmd_dev d = ATTN_DEVICE_0 \/ cmd_dev d = ATTN_DEVICE_1.

(** No call in the log touches a disk image. *)
Definition image_event (e : event) : bool :=
  match e with
  | ImageRead _ _ _ | ImageWrite _ _ _ _ | ImageZero _ _ _ => true
  | _ => false
  end.

(** A run that did not end the emulator left a state with the property
    [P]. *)
Definition after {W} (o : outcome W unit) (P : mach W -> Prop) : Prop :=
  match o with
  | Done _ m => P m
  | Crashed _ _ => False
  end.

(** What the guest does to issue a command: the reset pulse on the
    control register with the end of the reset, the end-of-interrupt for
    the reset, DMA enabled, then the command request for [target] and
    the words of the command. *)
Definition power_on {W} : list (op W) :=
  [IoWrite 2 0x80; IoWrite 2 0x02; TimerFire; IoWrite 3 0xe2].

Definition issue {W} (target : Z) (words : list Z) : list (op W) :=
  IoWrite 3 (Z.lor target ATTN_CMD_REQ) :: map (IoWriteW 0) words.

(** The four words of a command with a block address. *)
Definition long_command (opcode target count addr : Z) : list Z :=
  [Z.lor (Z.lor opcode target) CMD_SIZE_4; count;
   Z.land addr 0xffff; Z.shiftr addr 16].

(** A statement run from a state with [P] leaves [Qn] when it falls
    through and [Qr] when it returns; nothing is asked of a fatal
    error. *)
Definition triple {W R A} (P : mach W -> Prop) (c : M W R A)
    (Qn : A -> mach W -> Prop) (Qr : R -> mach W -> Prop) : Prop :=
  forall m, P m ->
    match c m with
    | Next a m' => Qn a m'
    | Return r m' => Qr r m'
    | Fatal _ _ => True
    end.

(** A statement keeps a property of the adapter. *)
Definition keeps {W R A} (I : esdi_t -> Prop) (c : M W R A) : Prop :=
  triple (fun m => I (dev m)) c (fun _ m => I (dev m)) (fun _ m => I (dev m)).

(** The status register shows an interrupt. *)
Definition irq_bit (d : esdi_t) : Prop := Z.land (status d) STATUS_IRQ <> 0.

(** An end-of-interrupt attention request, as the guest writes it: a
    byte for the attention register whose request code is [ATTN_EOI]. *)
Definition is_eoi {W} (o : op W) : bool :=
  match o with
  | IoWrite port val =>
      (Z.land port 7 =? 3) && (Z.land (u8 val) ATTN_REQ_MASK =? ATTN_EOI)
  | _ => false
  end.

(** The interrupt fields when the status register shows an interrupt:
    the in-flight flag is set, or the code is the reset-complete code,
    which the reset sequencer latches without the flag. *)
Definition irq_flagged (d : esdi_t) : Prop :=
  irq_in_progress d = 1
  \/ irq_status d = Z.lor IRQ_HOST_ADAPTER IRQ_RESET_COMPLETE.

(** The interrupt bit of the status register implies [b], and the
    latched interrupt code is [k]. *)
Definition irq_kept (b : Prop) (k : Z) (d : esdi_t) : Prop :=
  (irq_bit d -> b) /\ irq_status d = k.

(** The command queue between two commands and inside one: the cursor
    is inside the queue, and it is past the second word only for a
    four-word command. *)
Definition queue_ok (d : esdi_t) : Prop :=
  0 <= cmd_pos d < 4
  /\ length (cmd_data d) = 4%nat
  /\ (2 <= cmd_pos d -> Z.land (word_at (cmd_data d) 0) CMD_SIZE_4 <> 0).

Definition adapter_inv (d : esdi_t) : Prop :=
  (irq_bit d -> irq_flagged d) /\ queue_ok d.

(** The calls of [dma_channel_write] for the words of [buf] from index
    [from] on, one after the other, with their results. *)
Fixpoint dma_writes (chan : Z) (buf : list Z) (from : Z) (rets : list Z)
    : list event :=
  match rets with
  | [] => []
  | r :: rets' =>
      DmaWrite chan (word_at buf from) r :: dma_writes chan buf (from + 1) rets'
  end.

(** The staging buffer after the words [vals] have been stored from
    index [from] on. *)
Fixpoint fill_words (buf : list Z) (from : Z) (vals : list Z) : list Z :=
  match vals with
  | [] => buf
  | v :: vals' => fill_words (store buf from (Z.land v 0xffff)) (from + 1) vals'
  end.

(** The adapter without the fields that say where a transfer stands. *)
Definition erase_pos (d : esdi_t) : esdi_t :=
  set_rba 0 (set_sector_pos 0 (set_data_pos 0 (set_data [] d))).



(** The DMA access that moved no word, for the word under the cursor. *)
Definition refused_write {W} (m : mach W) : event :=
  DmaWrite (dma (dev m)) (word_at (data (dev m)) (data_pos (dev m))) DMA_NODATA.

Definition refused_read {W} (m : mach W) : event :=
  DmaRead (dma (dev m)) DMA_NODATA.

(** A DMA call to which the channel answered that it has no data. *)
Definition refusal (e : event) : bool :=
  match e with
  | DmaRead _ r => r =? DMA_NODATA
  | DmaWrite _ _ r => r =? DMA_NODATA
  | _ => false
  end.

(** No call of [l] is such a DMA call. *)
Definition quiet (l : list event) : Prop :=
  Forall (fun e => refusal e = false) l.

(** The words the DMA calls of [l] moved. *)
Definition moved (e : event) : Z :=
  match e with
  | DmaRead _ r => if r =? DMA_NODATA then 0 else 1
  | DmaWrite _ _ r => if r =? DMA_NODATA then 0 else 1
  | _ => 0
  end.

Definition words_moved (l : list event) : Z :=
  fold_right (fun e n => moved e + n) 0 l.

(** [cmd_time] after a pass of the read loop that was entered with [c]
    in [m]: a pass that starts a sector adds the time the disk gives for
    the read, asked after the image call, and the transfer time of one
    sector; a pass that resumes inside a sector adds nothing. *)
Definition read_time {W} {E : Extern W} (drive : drive_t) (c : Q)
    (m : mach W) : Q :=
  if negb (nz (data_pos (dev m))) then
    let r :=
      hdd_image_read (hdd_num drive) (rba (dev m)) 1 (data (dev m)) (ext m) in
    (c + fst (hdd_timing_read (hdd_num drive) (rba (dev m)) 1 (snd r))
     + esdi_mca_get_xfer_time 1)%Q
  else c.

(** [cmd_time] after a pass of the write loop that was entered with [c]
    in [m] and wrote its sector: the time the disk gives for the write,
    asked after the image call on the filled buffer, and the transfer
    time of one sector are added. *)
Definition write_time {W} {E : Extern W} (drive : drive_t) (c : Q)
    (m : mach W) : Q :=
  match words_from_dma (ESDI_TIME + c)%Q m with
  | Next _ m1 =>
      let r :=
        hdd_image_write (hdd_num drive) (rba (dev m1)) 1 (data (dev m1))
          (ext m1) in
      (c + fst (hdd_timing_write (hdd_num drive) (rba (dev m1)) 1 (snd r))
       + esdi_mca_get_xfer_time 1)%Q
  | _ => c
  end.

(** A sector loop: its body, [cmd_time] after a pass that finished its
    sector, [cmd_time] in the delay of a pass the DMA channel stopped,
    and the DMA call that moved no word. *)
Record loop_t (W : Type) : Type := mk_loop {
  pass : Q -> M W unit Q;
  pass_time : Q -> mach W -> Q;
  stall_time : Q -> mach W -> Q;
  refused : mach W -> event
}.

Arguments mk_loop {W} pass pass_time stall_time refused.
Arguments pass {W} l.
Arguments pass_time {W} l.
Arguments stall_time {W} l.
Arguments refused {W} l.

(** The loop of a read adds the time of a sector when it starts the
    sector, so a pass stopped in a sector it started has it in its
    delay; the loop of a write adds it when the sector is written. *)
Definition read_loop {W} {E : Extern W} (drive : drive_t) : loop_t W :=
  mk_loop (read_sector drive) (read_time drive) (read_time drive)
    refused_write.

Definition write_loop {W} {E : Extern W} (drive : drive_t) : loop_t W :=
  mk_loop (write_sector drive) (write_time drive) (fun c _ => c)
    refused_read.

(** The passes of a sector loop that finished their sector, from [m]
    with [cmd_time] at [c] to [m'] with [cmd_time] at [c']. *)
Inductive passes {W} (l : loop_t W) : Q -> mach W -> Q -> mach W -> Prop :=
| passes_none c m : passes l c m c m
| passes_more c m m1 c' m' :
    sector_pos (dev m) < sector_count (dev m) ->
    pass l c m = Next (pass_time l c m) m1 ->
    passes l (pass_time l c m) m1 c' m' ->
    passes l c m c' m'.

(** One pass of a sector loop, from [m] to [m']: the sector is done;
    the image failed; the DMA channel moved no word, and the cursor is
    on that word. *)
Definition pass_done {W} (m m' : mach W) : Prop :=
  erase_pos (dev m') = erase_pos (dev m)
  /\ data_pos (dev m') = 0
  /\ sector_pos (dev m') = sector_pos (dev m) + 1
  /\ rba (dev m') = u32 (rba (dev m) + 1)
  /\ exists evs,
       log m' = log m ++ evs
       /\ quiet evs
       /\ words_moved evs = 256 - data_pos (dev m).

Definition pass_defect {W} (m m' : mach W) : Prop :=
  (exists m1,
     m' = error_mach 0x0e01 0x0009 m1
     /\ erase_pos (dev m1) = erase_pos (dev m))
  /\ exists evs, log m' = log m ++ evs /\ quiet evs.

Definition pass_stalled {W} (l : loop_t W) (c : Q) (m m' : mach W) : Prop :=
  timer (dev m') = sched (ESDI_TIME + stall_time l c m)%Q
  /\ erase_pos (set_timer (timer (dev m)) (dev m')) = erase_pos (dev m)
  /\ sector_pos (dev m') = sector_pos (dev m)
  /\ rba (dev m') = rba (dev m)
  /\ data_pos (dev m) <= data_pos (dev m') < 256
  /\ exists evs,
       log m' = log m ++ evs ++ [refused l m']
       /\ quiet evs
       /\ words_moved evs = data_pos (dev m') - data_pos (dev m).

(** What a pass of the loop [l] does. *)
Definition pass_spec {W} (l : loop_t W) : Prop :=
  forall c m,
    0 <= data_pos (dev m) < 256 ->
    match pass l c m with
    | Next c' m' => c' = pass_time l c m /\ pass_done m m'
    | Return _ m' => pass_defect m m' \/ pass_stalled l c m m'
    | Fatal _ _ => True
    end.

(** The transfer-phase callback of a read or write, from [m] to [m']:
    all sectors done; suspended at word [data_pos] of sector
    [sector_pos]; ended by a defective block.  [cmd_time] starts at
    zero in every callback. *)
Definition transfer_completed {W} (l : loop_t W) (m m' : mach W) : Prop :=
  cmd_state (dev m') = 2
  /\ status (dev m') = STATUS_CMD_IN_PROGRESS
  /\ sector_pos (dev m') = Z.max (sector_pos (dev m)) (sector_count (dev m))
  /\ rba (dev m')
     = u32 (rba (dev m) + (sector_pos (dev m') - sector_pos (dev m)))
  /\ (sector_pos (dev m) < sector_count (dev m) -> data_pos (dev m') = 0)
  /\ (exists c m1, passes l 0 m c m1 /\ timer (dev m') = sched c)
  /\ exists evs, log m' = log m ++ evs /\ quiet evs.

Definition transfer_suspended {W} (l : loop_t W) (m m' : mach W) : Prop :=
  cmd_state (dev m') = 1
  /\ status (dev m') = status (dev m)
  /\ sector_count (dev m') = sector_count (dev m)
  /\ sector_pos (dev m) <= sector_pos (dev m') < sector_count (dev m)
  /\ 0 <= data_pos (dev m') < 256
  /\ rba (dev m')
     = u32 (rba (dev m) + (sector_pos (dev m') - sector_pos (dev m)))
  /\ (exists evs,
        log m' = log m ++ evs ++ [refused l m']
        /\ quiet evs
        /\ 256 * sector_pos (dev m') + data_pos (dev m')
           = 256 * sector_pos (dev m) + data_pos (dev m) + words_moved evs)
  /\ exists c m1,
       passes l 0 m c m1
       /\ pass l c m1 = Return tt m'
       /\ timer (dev m') = sched (ESDI_TIME + stall_time l c m1)%Q.

Definition transfer_defective {W} (m m' : mach W) : Prop :=
  exists m1,
    m' = error_mach 0x0e01 0x0009 m1
    /\ timer (dev m1) = timer (dev m)
    /\ cmd_state (dev m1) = cmd_state (dev m).

(** The sector loop [l], started in [m0] with [cmd_time] at [c0],
    returned because the DMA channel moved no word. *)
Definition loop_stalled {W} (l : loop_t W) (c0 : Q) (m0 m' : mach W)
    : Prop :=
  erase_pos (set_timer (timer (dev m0)) (dev m')) = erase_pos (dev m0)
  /\ sector_pos (dev m0) <= sector_pos (dev m') < sector_count (dev m0)
  /\ 0 <= data_pos (dev m') < 256
  /\ rba (dev m')
     = u32 (rba (dev m0) + (sector_pos (dev m') - sector_pos (dev m0)))
  /\ (exists evs,
        log m' = log m0 ++ evs ++ [refused l m']
        /\ quiet evs
        /\ 256 * sector_pos (dev m') + data_pos (dev m')
           = 256 * sector_pos (dev m0) + data_pos (dev m0) + words_moved evs)
  /\ exists c m1,
       passes l c0 m0 c m1
       /\ pass l c m1 = Return tt m'
       /\ timer (dev m') = sched (ESDI_TIME + stall_time l c m1)%Q.



(** The commands of [esdi_callback] that start with [ESDI_DRIVE_ONLY()]
    and those that start with [ESDI_ADAPTER_ONLY()]; [CMD_GET_DEV_CONFIG]
    is a drive command for every target but the host adapter. *)
Definition drive_commands : list Z :=
  [CMD_READ; 0x15; CMD_WRITE; CMD_WRITE_VERIFY; CMD_READ_VERIFY; CMD_SEEK;
   CMD_PARK_HEADS; CMD_GET_DEV_STATUS; CMD_FORMAT_UNIT; CMD_FORMAT_PREPARE].

Definition adapter_commands : list Z := [CMD_GET_POS_INFO; 0x10; 0x11; 0x12].

Definition for_drive (d : esdi_t) : Prop :=
  In (command d) drive_commands
  \/ (command d = CMD_GET_DEV_CONFIG /\ cmd_dev d <> ATTN_HOST_ADAPTER).


(** The error-class and error-detail words of the four guest-visible
    errors: command not supported, device not present, address out of
    range, defective block. *)
Definition error_pairs : list (Z * Z) :=
  [(0x0f03, 0x0002); (0x0c11, 0x000b); (0x0e01, 0x0007); (0x0e01, 0x0009)].

(** The callbacks that make the range check: every callback of a seek,
    and the first of a read, write or verify. *)
Definition range_check_site (d : esdi_t) : Prop :=
  command d = CMD_SEEK
  \/ (cmd_state d = 0
      /\ In (command d)
           [CMD_READ; 0x15; CMD_WRITE; CMD_WRITE_VERIFY; CMD_READ_VERIFY]).

(** The adapter at the range check: the seek checks the address and the
    count it finds; the others take them from the command queue first
    (command 0x15 only the count). *)
Definition range_checked (d : esdi_t) : esdi_t :=
  if command d =? CMD_SEEK then d
  else if command d =? CMD_READ_VERIFY then
    set_sector_count (word_at (cmd_data d) 1) (set_rba (decode_rba d) d)
  else if command d =? 0x15 then
    set_sector_count (word_at (cmd_data d) 1) (set_sector_pos 0 d)
  else
    set_sector_count (word_at (cmd_data d) 1)
      (set_sector_pos 0 (set_rba (decode_rba d) d)).

(** The machine [m'] shows the error of words [w1] and [w2] detected in
    [m]: the status block, the latched interrupt code and the interrupt
    request, with the phase, the timer and the world as they were; the
    interrupt line is raised only when the control register enables
    interrupts. *)
Definition error_reported {W} (w1 w2 : Z) (m m' : mach W) : Prop :=
  status_len (dev m') = 9
  /\ word_at (status_data (dev m')) 1 = w1
  /\ word_at (status_data (dev m')) 2 = w2
  /\ status (dev m') = Z.lor STATUS_IRQ STATUS_STATUS_OUT_FULL
  /\ irq_status (dev m')
     = u8 (Z.lor (cmd_dev (dev m)) IRQ_CMD_COMPLETE_FAILURE)
  /\ irq_in_progress (dev m') = 1
  /\ irq_ena_disable (dev m') = 1
  /\ cmd_state (dev m') = cmd_state (dev m)
  /\ timer (dev m') = timer (dev m)
  /\ ext m' = ext m
  /\ log m'
     = log m
       ++ (if nz (Z.land (basic_ctrl (dev m)) CTRL_IRQ_ENA)
           then [Picint true] else [])
       ++ [UiIcon 0; UiIconWrite 0].

(** ** POS registers: the card on the Micro Channel

    [esdi_mca_read], [esdi_mca_write], [esdi_integrated_mca_write] and
    [esdi_mca_feedb] are what the card hands to the bus with [mca_add].
    The field [bios] of the structure, which only [esdi_mca_write] uses,
    and the calls these functions make into the I/O and memory maps are
    kept beside the adapter in [card_t]. *)
Inductive host_call : Type :=
| IoRemoveHandler (base size : Z)
| IoSetHandler (base size : Z)
| MemMappingDisable
| MemMappingEnable
| MemMappingSetAddr (base size : Z).

Record card_t : Type := mk_card {
  esdi : esdi_t;
  bios : Z;
  host : list host_call
}.

Definition ESDI_IOADDR_PRI : Z := 0x3510.

Definition set_dma (v : Z) (d : esdi_t) : esdi_t :=
  {| dma := v; basic_ctrl := basic_ctrl d; status := status d;
     irq_status := irq_status d; irq_ena_disable := irq_ena_disable d;
     irq_in_progress := irq_in_progress d;
     cmd_req_in_progress := cmd_req_in_progress d; cmd_pos := cmd_pos d;
     cmd_data := cmd_data d; cmd_dev := cmd_dev d;
     status_pos := status_pos d; status_len := status_len d;
     status_data := status_data d; data_pos := data_pos d; data := data d;
     sector_buffer := sector_buffer d; sector_pos := sector_pos d;
     sector_count := sector_count d; command := command d;
     cmd_state := cmd_state d; in_reset := in_reset d; timer := timer d;
     rba := rba d; drives0 := drives0 d; drives1 := drives1 d;
     pos_regs := pos_regs d |}.

(** [esdi_mca_read] *)
Definition esdi_mca_read (port : Z) (d : esdi_t) : Z :=
  word_at (pos_regs d) (Z.land port 7).

(** [esdi_mca_feedb] *)
Definition esdi_mca_feedb (d : esdi_t) : Z :=
  Z.land (word_at (pos_regs d) 2) 1.

(** [switch (dev->pos_regs[2] & 0x3c)]: the arbitration level. *)
Definition pos_dma (d : esdi_t) : esdi_t :=
  let sel := Z.land (word_at (pos_regs d) 2) 0x3c in
  if sel =? 0x14 then set_dma 5 d
  else if sel =? 0x18 then set_dma 6 d
  else if sel =? 0x1c then set_dma 7 d
  else if sel =? 0x00 then set_dma 0 d
  else if sel =? 0x04 then set_dma 1 d
  else if sel =? 0x0c then set_dma 3 d
  else if sel =? 0x10 then set_dma 4 d
  else d.

(** [if (!(dev->pos_regs[3] & 8)) switch (dev->pos_regs[3] & 7) ...
    else dev->bios = 0]: the address of the ROM. *)
Definition pos_bios (d : esdi_t) (old : Z) : Z :=
  if negb (nz (Z.land (word_at (pos_regs d) 3) 8)) then
    let sel := Z.land (word_at (pos_regs d) 3) 7 in
    if sel =? 2 then 0xc8000
    else if sel =? 3 then 0xcc000
    else if sel =? 4 then 0xd0000
    else if sel =? 5 then 0xd4000
    else if sel =? 6 then 0xd8000
    else if sel =? 7 then 0xdc000
    else old
  else 0.

(** [esdi_mca_write]; [val] is a [uint8_t]. *)
Definition esdi_mca_write (port val : Z) (c : card_t) : card_t :=
  if port <? 0x102 then c
  else
    let d :=
      set_pos_regs (store (pos_regs (esdi c)) (Z.land port 7) val) (esdi c) in
    let d := pos_dma d in
    let b := pos_bios d (bios c) in
    mk_card d b
      (host c
       ++ [IoRemoveHandler ESDI_IOADDR_PRI 8; MemMappingDisable]
       ++ (if nz (Z.land (word_at (pos_regs d) 2) 1) then
             IoSetHandler ESDI_IOADDR_PRI 8
             :: (if nz b then [MemMappingEnable; MemMappingSetAddr b 0x4000]
                 else [])
           else [])).

(** [esdi_integrated_mca_write]; [val] is a [uint8_t]. *)
Definition esdi_integrated_mca_write (port val : Z) (c : card_t) : card_t :=
  if port <? 0x102 then c
  else
    let d :=
      set_pos_regs (store (pos_regs (esdi c)) (Z.land port 7) val) (esdi c) in
    let d := pos_dma d in
    mk_card d (bios c)
      (host c
       ++ [IoRemoveHandler ESDI_IOADDR_PRI 8]
       ++ (if nz (Z.land (word_at (pos_regs d) 2) 1) then
             [IoSetHandler ESDI_IOADDR_PRI 8]
           else [])).

(** The write function [esdi_init] registers for the variant [local],
    and the card it leaves: the structure is zeroed, and the adapter
    variant switches its ROM mapping off. *)
Definition pos_write (local : Z) : Z -> Z -> card_t -> card_t :=
  if local =? ESDI_IS_INTEGRATED then esdi_integrated_mca_write
  else esdi_mca_write.

Definition card_init (timer_add : option Q -> option Q) (local : Z)
    (d0 d1 : drive_t) : card_t :=
  mk_card (esdi_init timer_add local d0 d1) 0
    (if local =? ESDI_IS_ADAPTER then [MemMappingDisable] else []).

(** A series of POS writes, each a port and a value. *)
Definition pos_writes (write : Z -> Z -> card_t -> card_t)
    (ws : list (Z * Z)) (c : card_t) : card_t :=
  fold_left (fun c w => write (fst w) (snd w) c) ws c.

(** The last of the handler calls made so far is [io_sethandler]. *)
Definition io_installed (calls : list host_call) : bool :=
  fold_left
    (fun b c =>
       match c with
       | IoSetHandler _ _ => true
       | IoRemoveHandler _ _ => false
       | _ => b
       end)
    calls false.

(** The addresses the ROM can be mapped at. *)
Definition rom_windows : list Z :=
  [0xc8000; 0xcc000; 0xd0000; 0xd4000; 0xd8000; 0xdc000].

(** A call that touches the ROM mapping. *)
Definition rom_call (c : host_call) : bool :=
  match c with
  | MemMappingDisable | MemMappingEnable | MemMappingSetAddr _ _ => true
  | _ => false
  end.

(** The arbitration levels the card can be set to. *)
Definition dma_levels : list Z := [0; 1; 3; 4; 5; 6; 7].

(** A mapping of the ROM is 16 KiB at one of the six windows. *)
Definition rom_call_ok (c : host_call) : Prop :=
  match c with
  | MemMappingSetAddr base size => In base rom_windows /\ size = 0x4000
  | _ => True
  end.

(** The guest reads the status interface register [n] times. *)
Fixpoint read_status {W} {E : Extern W} (n : nat) (m : mach W)
    : outcome W (list Z) :=
  match n with
  | O => Done [] m
  | S n' =>
      match esdi_readw 0 m with
      | Done v m1 =>
          match read_status n' m1 with
          | Done vs m2 => Done (v :: vs) m2
          | Crashed msg m2 => Crashed msg m2
          end
      | Crashed msg m1 => Crashed msg m1
      end
  end.

(** The words of the array [a] from index [from] on, [n] of them. *)
Definition words_from (a : list Z) (from : Z) (n : nat) : list Z :=
  map (fun i => word_at a (from + Z.of_nat i)) (seq 0 n).

(** The words the DMA channel accepted, in the order of the calls. *)
Definition dma_out (l : list event) : list Z :=
  flat_map
    (fun e =>
       match e with
       | DmaWrite _ v r => if r =? DMA_NODATA then [] else [v]
       | _ => []
       end)
    l.

(** The words of the sectors [p], [p + 1], ... of the sector buffer,
    [k] sectors. *)
Definition buffer_words (sb : list (list Z)) (p : Z) (k : nat) : list Z :=
  flat_map
    (fun i => words_from (default [] (sb !! Z.to_nat (p + Z.of_nat i))) 0 256)
    (seq 0 k).

(** The adapter at the start of the transfer phase of the sector buffer
    command [opcode] (0x10 fills the buffer, 0x11 sends it back) for
    [n] sectors, as phase 0 of the command leaves it, with DMA
    enabled. *)
Definition buffer_phase (opcode : Z) (n : nat) (d : esdi_t) : Prop :=
  in_reset d = 0
  /\ command d = opcode
  /\ cmd_dev d = ATTN_HOST_ADAPTER
  /\ cmd_state d = 1
  /\ Z.land (basic_ctrl d) CTRL_DMA_ENA <> 0
  /\ sector_pos d = 0
  /\ data_pos d = 0
  /\ sector_count d = Z.of_nat n.

(** The cursors of the adapter are inside their arrays: the status
    queue holds at most nine words and its cursor is not past them, the
    cursor of the staging buffer is at most one past its last word, and
    the arrays the adapter stores into keep their sizes. *)
Definition cursors_ok (d : esdi_t) : Prop :=
  0 <= status_pos d <= 9
  /\ 0 <= status_len d <= 9
  /\ 0 <= data_pos d <= 256
  /\ length (status_data d) = 256%nat
  /\ length (sector_buffer d) = 256%nat
  /\ length (pos_regs d) = 8%nat.

(** A call that moves data: a DMA access or a disk image access. *)
Definition transfer_event (e : event) : bool :=
  match e with
  | DmaRead _ _ | DmaWrite _ _ _ => true
  | ImageRead _ _ _ | ImageWrite _ _ _ _ | ImageZero _ _ _ => true
  | _ => false
  end.

(** The commands of the executor that move no data. *)
Definition quiet_commands : list Z :=
  [CMD_READ_VERIFY; CMD_SEEK; CMD_PARK_HEADS; CMD_GET_DEV_STATUS;
   CMD_GET_DEV_CONFIG; CMD_GET_POS_INFO; 0x12].

(** * Properties *)

(** ** Arithmetic of the registers *)

#[local] Arguments Z.land : simpl never.
#[local] Arguments Z.lor : simpl never.
#[local] Arguments Z.lnot : simpl never.
#[local] Arguments Z.shiftl : simpl never.
#[local] Arguments Z.shiftr : simpl never.
#[local] Arguments nz : simpl never.
#[local] Arguments u8 : simpl never.
#[local] Arguments u16 : simpl never.
#[local] Arguments u32 : simpl never.
#[local] Arguments store : simpl never.
#[local] Arguments word_at : simpl never.
#[local] Arguments write_words : simpl never.
#[local] Arguments write_words_from : simpl never.

Lemma nz_true x : x <> 0 -> nz x = true.
Proof. unfold nz. intros H. apply Z.eqb_neq in H. now rewrite H. Qed.

Lemma nz_false x : x = 0 -> nz x = false.
Proof. intros ->. reflexivity. Qed.

Lemma nz_spec x : nz x = true <-> x <> 0.
Proof.
  unfold nz. rewrite negb_true_iff, Z.eqb_neq. reflexivity.
Qed.

Lemma geb_true x y : y <= x -> (x >=? y) = true.
Proof. intros H. rewrite Z.geb_leb. apply Z.leb_le. exact H. Qed.

Lemma geb_false x y : x < y -> (x >=? y) = false.
Proof. intros H. rewrite Z.geb_leb. apply Z.leb_gt. exact H. Qed.

Lemma u16_id x : 0 <= x < 65536 -> u16 x = x.
Proof. intros H. unfold u16. apply Z.mod_small. exact H. Qed.

Lemma u32_id x : 0 <= x < 4294967296 -> u32 x = x.
Proof. intros H. unfold u32. apply Z.mod_small. exact H. Qed.

(** Clearing a bit of an 8-bit register. *)
Lemma u8_clear_bit s k :
  0 <= k < 8 ->
  Z.testbit (u8 (Z.land s (Z.lnot (Z.shiftl 1 k)))) k = false.
Proof.
  intros Hk. unfold u8. change 256 with (2 ^ 8).
  rewrite Z.mod_pow2_bits_low by lia.
  rewrite Z.land_spec, Z.lnot_spec by lia.
  rewrite Z.shiftl_spec by lia.
  rewrite Z.sub_diag. cbn. apply andb_false_r.
Qed.

Lemma u8_clear_other s k j :
  0 <= k -> 0 <= j < 8 -> j <> k ->
  Z.testbit (u8 (Z.land s (Z.lnot (Z.shiftl 1 k)))) j = Z.testbit s j.
Proof.
  intros Hk Hj Hne. unfold u8. change 256 with (2 ^ 8).
  rewrite Z.mod_pow2_bits_low by lia.
  rewrite Z.land_spec, Z.lnot_spec by lia.
  rewrite Z.shiftl_spec by lia.
  replace (Z.testbit 1 (j - k)) with false.
  - cbn. apply andb_true_r.
  - symmetry. destruct (Z.ltb_spec j k).
    + apply Z.testbit_neg_r. lia.
    + change 1 with (2 ^ 0). apply Z.pow2_bits_false. lia.
Qed.

Lemma u8_set_bit s k :
  0 <= k < 8 -> Z.testbit (u8 (Z.lor s (Z.shiftl 1 k))) k = true.
Proof.
  intros Hk. unfold u8. change 256 with (2 ^ 8).
  rewrite Z.mod_pow2_bits_low by lia.
  rewrite Z.lor_spec, Z.shiftl_spec by lia.
  rewrite Z.sub_diag. cbn. apply orb_true_r.
Qed.

(** A bit of a register is clear exactly when masking it gives 0. *)
Lemma land_bit_testbit s k :
  0 <= k -> Z.land s (Z.shiftl 1 k) = 0 <-> Z.testbit s k = false.
Proof.
  intros Hk. split.
  - intros H.
    assert (Hb : Z.testbit (Z.land s (Z.shiftl 1 k)) k = false)
      by (rewrite H; apply Z.bits_0).
    rewrite Z.land_spec, Z.shiftl_spec, Z.sub_diag in Hb by lia.
    cbn in Hb. now rewrite andb_true_r in Hb.
  - intros H. apply Z.bits_inj'. intros n Hn.
    rewrite Z.land_spec, Z.shiftl_spec, Z.bits_0 by lia.
    destruct (Z.eq_dec n k) as [-> | Hne].
    + rewrite H. reflexivity.
    + replace (Z.testbit 1 (n - k)) with false; [apply andb_false_r |].
      symmetry. destruct (Z.ltb_spec n k).
      * apply Z.testbit_neg_r. lia.
      * change 1 with (2 ^ 0). apply Z.pow2_bits_false. lia.
Qed.

(** ** Arrays *)

Lemma word_at_store_same a i v :
  (Z.to_nat i < length a)%nat -> word_at (store a i v) i = v.
Proof.
  intros Hl. unfold word_at, store.
  rewrite list_lookup_insert_eq by exact Hl. reflexivity.
Qed.

Lemma word_at_store_other a i j v :
  Z.to_nat i <> Z.to_nat j -> word_at (store a i v) j = word_at a j.
Proof.
  intros Hne. unfold word_at, store.
  rewrite list_lookup_insert_ne by exact Hne. reflexivity.
Qed.

Lemma length_store a i v : length (store a i v) = length a.
Proof. unfold store. apply length_insert. Qed.

Lemma length_write_words_from vs : forall i a,
  length (write_words_from i vs a) = length a.
Proof.
  induction vs as [| v vs IH]; intros i a; [reflexivity |].
  change (write_words_from i (v :: vs) a)
    with (write_words_from (i + 1) vs (store a i (u16 v))).
  rewrite IH. apply length_store.
Qed.

Lemma word_at_write_words_before vs : forall i a j,
  0 <= j < i -> word_at (write_words_from i vs a) j = word_at a j.
Proof.
  induction vs as [| v vs IH]; intros i a j Hj; [reflexivity |].
  change (write_words_from i (v :: vs) a)
    with (write_words_from (i + 1) vs (store a i (u16 v))).
  rewrite IH by lia. apply word_at_store_other. lia.
Qed.

(** After [a[i], a[i+1], ... = vs] the word at [i + k] is [vs[k]]. *)
Lemma word_at_write_words vs : forall i a k v,
  0 <= i ->
  vs !! k = Some v ->
  (Z.to_nat i + length vs <= length a)%nat ->
  word_at (write_words_from i vs a) (i + Z.of_nat k) = u16 v.
Proof.
  induction vs as [| v0 vs IH]; intros i a k v Hi Hk Hlen; [discriminate |].
  cbn [length] in Hlen.
  change (write_words_from i (v0 :: vs) a)
    with (write_words_from (i + 1) vs (store a i (u16 v0))).
  destruct k as [| k].
  - cbn in Hk. injection Hk as ->. rewrite Z.add_0_r.
    rewrite word_at_write_words_before by lia.
    apply word_at_store_same. lia.
  - cbn in Hk. rewrite Nat2Z.inj_succ.
    replace (i + Z.succ (Z.of_nat k)) with ((i + 1) + Z.of_nat k) by lia.
    apply IH; [lia | exact Hk |]. rewrite length_store. lia.
Qed.

Lemma word_at_write_words_k vs a (k : nat) v i :
  i = Z.of_nat k ->
  vs !! k = Some v ->
  (length vs <= length a)%nat ->
  word_at (write_words vs a) i = u16 v.
Proof.
  intros -> Hk Hlen. unfold write_words.
  rewrite <- (word_at_write_words vs 0 a k v); [reflexivity | lia | exact Hk |].
  cbn. exact Hlen.
Qed.

(** Unfolding the statements of the embedding. *)
Ltac unfold_monad :=
  unfold bind, get, upd, emit, extern, ask, world, next, return_, fatal.

Ltac unfold_helpers :=
  unfold raise_irq, set_irq, clear_irq, update_irq, esdi_mca_set_callback,
    start_reset, attn_cmd_req, attn_eoi, irq_in_progress_check,
    check_present, ESDI_DRIVE_ONLY, ESDI_ADAPTER_ONLY.

(** Conditions on constants are decided by computation. *)
Ltac has_var t := match t with context [?v] => is_var v end.

Ltac decide_ifs :=
  repeat match goal with
  | |- context [if ?c then _ else _] =>
      tryif has_var c then fail else idtac;
      let v := eval vm_compute in c in
      lazymatch v with
      | true => change c with true
      | false => change c with false
      end;
      cbn beta iota
  end.

Ltac exec := repeat (progress (unfold_helpers; unfold_monad; cbn; decide_ifs)).

(** The procedures of the controller stay folded under simplification;
    their effect is brought in by the [_run] lemmas below. *)
#[local] Arguments set_irq : simpl never.
#[local] Arguments clear_irq : simpl never.
#[local] Arguments update_irq : simpl never.
#[local] Arguments esdi_mca_set_callback : simpl never.
#[local] Arguments cmd_unsupported : simpl never.
#[local] Arguments device_not_present : simpl never.
#[local] Arguments rba_out_of_range : simpl never.
#[local] Arguments defective_block : simpl never.
#[local] Arguments complete_command_status : simpl never.
#[local] Arguments raise_irq : simpl never.
#[local] Arguments irq_in_progress_check : simpl never.
#[local] Arguments ESDI_ADAPTER_ONLY : simpl never.
#[local] Arguments ESDI_DRIVE_ONLY : simpl never.
#[local] Arguments check_present : simpl never.
#[local] Arguments while : simpl never.
#[local] Arguments words_to_dma : simpl never.
#[local] Arguments word_to_dma : simpl never.
#[local] Arguments word_from_dma : simpl never.
#[local] Arguments words_from_dma : simpl never.
#[local] Arguments image_read_sector : simpl never.
#[local] Arguments read_sector : simpl never.
#[local] Arguments read_sectors : simpl never.
#[local] Arguments write_sector : simpl never.
#[local] Arguments write_sectors : simpl never.
#[local] Arguments buffer_in_sectors : simpl never.
#[local] Arguments buffer_out_sectors : simpl never.
#[local] Arguments case_read : simpl never.
#[local] Arguments case_write : simpl never.
#[local] Arguments case_read_verify : simpl never.
#[local] Arguments case_seek : simpl never.
#[local] Arguments case_park_heads : simpl never.
#[local] Arguments case_get_dev_status : simpl never.
#[local] Arguments case_get_dev_config : simpl never.
#[local] Arguments case_get_pos_info : simpl never.
#[local] Arguments case_write_sector_buffer : simpl never.
#[local] Arguments case_read_sector_buffer : simpl never.
#[local] Arguments case_0x12 : simpl never.
#[local] Arguments case_format : simpl never.
#[local] Arguments start_reset : simpl never.
#[local] Arguments attn_cmd_req : simpl never.
#[local] Arguments attn_eoi : simpl never.
#[local] Arguments decode_rba : simpl never.
#[local] Arguments past_last_sector : simpl never.
#[local] Arguments sched : simpl never.
#[local] Arguments irq_events : simpl never.
#[local] Arguments error_state : simpl never.
#[local] Arguments selected_drive : simpl never.

(** ** Reset (C8) *)

Section Reset.

Context {W : Type} {E : Extern W}.

(** The reset sequencer's half of [esdi_callback]. *)
Lemma callback_in_reset (m : mach W) :
  in_reset (dev m) <> 0 ->
  esdi_callback m =
    Done tt
      (mk_mach
         (set_irq_status (u8 (Z.lor IRQ_HOST_ADAPTER IRQ_RESET_COMPLETE))
            (set_status_data
               (store (status_data (dev m)) 0
                  (u16 (Z.lor (STATUS_LEN 1) ATTN_HOST_ADAPTER)))
               (set_status_len 1
                  (set_status
                     (Z.lor (Z.lor STATUS_IRQ STATUS_TRANSFER_REQ)
                        STATUS_STATUS_OUT_FULL)
                     (set_in_reset 0 (dev m))))))
         (ext m) (log m)).
Proof.
  intros H. apply nz_true in H.
  unfold esdi_callback, call, esdi_callback_body. exec.
  rewrite H. reflexivity.
Qed.

(** C8.  A write of the control register that clears the reset bit while
    it was set puts the adapter in reset with status busy and schedules
    the callback 50 base latencies ahead; when that timer fires the
    adapter leaves reset with status IRQ | transfer request | status out
    full, interrupt status host adapter | reset complete, and a status
    queue declared one word long whose word names the host adapter. *)
Theorem reset_sequence (m : mach W) (port val : Z) :
  well_formed (dev m) ->
  Z.land port 7 = 2 ->
  Z.land (basic_ctrl (dev m)) CTRL_RESET <> 0 ->
  Z.land val CTRL_RESET = 0 ->
  exists m1 m2,
    esdi_write port val m = Done tt m1
    /\ in_reset (dev m1) = 1
    /\ status (dev m1) = STATUS_BUSY
    /\ timer (dev m1) = Some (ESDI_TIME * (50 # 1))%Q
    /\ step TimerFire m1 = Done tt m2
    /\ in_reset (dev m2) = 0
    /\ status (dev m2)
       = Z.lor (Z.lor STATUS_IRQ STATUS_TRANSFER_REQ) STATUS_STATUS_OUT_FULL
    /\ irq_status (dev m2) = Z.lor IRQ_HOST_ADAPTER IRQ_RESET_COMPLETE
    /\ status_len (dev m2) = 1
    /\ word_at (status_data (dev m2)) 0
       = Z.lor (STATUS_LEN 1) STATUS_DEVICE_HOST_ADAPTER
    /\ timer (dev m2) = None.
Proof.
  intros Hwf Hport Hold Hnew.
  destruct m as [d w l]. cbn [dev] in *.
  apply nz_true in Hold. apply nz_false in Hnew.
  unfold esdi_write, call, esdi_write_body.
  rewrite Hport. cbn. exec. rewrite Hold, Hnew. cbn.
  destruct (nz (Z.land val CTRL_IRQ_ENA)
            && negb (nz (Z.land (basic_ctrl d) CTRL_IRQ_ENA)));
    (eexists; eexists; split; [reflexivity |]; cbn;
     do 3 (split; [reflexivity |]);
     rewrite callback_in_reset by (cbn; lia);
     split; [reflexivity |]; cbn;
     do 4 (split; [reflexivity |]);
     split; [| reflexivity];
     rewrite word_at_store_same by (rewrite (wf_status_data _ Hwf); cbn; lia);
     reflexivity).
Qed.

End Reset.

(** The sequence on the adapter as [esdi_init] leaves it, once the guest
    has set the reset bit. *)
Lemma reset_sequence_witness :
  exists m1 m2,
    esdi_write 2 0x00
      (mk_mach (set_basic_ctrl 0x80 (dev (Sim.boot 1000 0)))
         (ext (Sim.boot 1000 0)) []) = Done tt m1
    /\ in_reset (dev m1) = 1
    /\ status (dev m1) = STATUS_BUSY
    /\ timer (dev m1) = Some (ESDI_TIME * (50 # 1))%Q
    /\ step TimerFire m1 = Done tt m2
    /\ in_reset (dev m2) = 0
    /\ status (dev m2)
       = Z.lor (Z.lor STATUS_IRQ STATUS_TRANSFER_REQ) STATUS_STATUS_OUT_FULL
    /\ irq_status (dev m2) = Z.lor IRQ_HOST_ADAPTER IRQ_RESET_COMPLETE
    /\ status_len (dev m2) = 1
    /\ word_at (status_data (dev m2)) 0
       = Z.lor (STATUS_LEN 1) STATUS_DEVICE_HOST_ADAPTER
    /\ timer (dev m2) = None.
Proof.
  apply (reset_sequence
           (mk_mach (set_basic_ctrl 0x80 (dev (Sim.boot 1000 0)))
              (ext (Sim.boot 1000 0)) []) 2 0x00).
  - split; reflexivity.
  - reflexivity.
  - vm_compute. discriminate.
  - reflexivity.
Defined.

(** ** The status interface register (C7) *)

Section StatusQueue.

Context {W : Type} {E : Extern W}.

(** The machine after a read of the status interface register, in the
    three cases of the cursor. *)
Lemma readw_state (m : mach W) (port : Z) :
  Z.land port 7 = 0 ->
  (status_len (dev m) <= status_pos (dev m) ->
     esdi_readw port m = Done 0 m)
  /\ (status_pos (dev m) + 1 < status_len (dev m) ->
        esdi_readw port m =
          Done (word_at (status_data (dev m)) (status_pos (dev m)))
            (mk_mach (set_status_pos (status_pos (dev m) + 1) (dev m))
               (ext m) (log m)))
  /\ (status_pos (dev m) < status_len (dev m) <= status_pos (dev m) + 1 ->
        esdi_readw port m =
          Done (word_at (status_data (dev m)) (status_pos (dev m)))
            (mk_mach
               (set_status_pos 0
                  (set_status_len 0
                     (set_status
                        (u8 (Z.land (status (dev m))
                               (Z.lnot STATUS_STATUS_OUT_FULL)))
                        (dev m))))
               (ext m) (log m))
        /\ Z.testbit
             (u8 (Z.land (status (dev m)) (Z.lnot STATUS_STATUS_OUT_FULL))) 3
           = false).
Proof.
  intros Hport. destruct m as [d w l]. cbn [dev ext log].
  unfold esdi_readw, call, esdi_readw_body. rewrite Hport. exec.
  repeat split.
  - intros H. rewrite geb_true by lia. reflexivity.
  - intros H.
    rewrite (geb_false (status_pos d) (status_len d)) by lia.
    cbn.
    rewrite (geb_false (status_pos d + 1) (status_len d)) by lia.
    reflexivity.
  - destruct H as [H1 H2].
    rewrite (geb_false (status_pos d) (status_len d)) by lia.
    cbn.
    rewrite (geb_true (status_pos d + 1) (status_len d)) by lia.
    reflexivity.
  - apply (u8_clear_bit _ 3). lia.
Qed.

(** C7.  A read of the status interface register: with the cursor at or
    past the declared length it gives 0 and changes nothing; with the
    cursor below the length it gives the word at the cursor, and either
    moves the cursor one word on, or, when that word was the last one
    declared, clears the status-out-full bit of the status register and
    sets cursor and length to zero.  The last part gives the fields of
    the machine the read leaves: the cursor, the length and the bits of
    the status register, with the world and the log as they were. *)
Theorem readw_pops_status (m : mach W) (port : Z) :
  Z.land port 7 = 0 ->
  (status_len (dev m) <= status_pos (dev m) ->
     esdi_readw port m = Done 0 m)
  /\ (status_pos (dev m) + 1 < status_len (dev m) ->
        esdi_readw port m =
          Done (word_at (status_data (dev m)) (status_pos (dev m)))
            (mk_mach (set_status_pos (status_pos (dev m) + 1) (dev m))
               (ext m) (log m)))
  /\ (status_pos (dev m) < status_len (dev m) <= status_pos (dev m) + 1 ->
        esdi_readw port m =
          Done (word_at (status_data (dev m)) (status_pos (dev m)))
            (mk_mach
               (set_status_pos 0
                  (set_status_len 0
                     (set_status
                        (u8 (Z.land (status (dev m))
                               (Z.lnot STATUS_STATUS_OUT_FULL)))
                        (dev m))))
               (ext m) (log m))
        /\ Z.testbit
             (u8 (Z.land (status (dev m)) (Z.lnot STATUS_STATUS_OUT_FULL))) 3
           = false)
  /\ (forall v m',
        esdi_readw port m = Done v m' ->
        ext m' = ext m
        /\ log m' = log m
        /\ status_data (dev m') = status_data (dev m)
        /\ (status_pos (dev m) + 1 < status_len (dev m) ->
            v = word_at (status_data (dev m)) (status_pos (dev m))
            /\ status_pos (dev m') = status_pos (dev m) + 1
            /\ status_len (dev m') = status_len (dev m)
            /\ status (dev m') = status (dev m))
        /\ (status_pos (dev m) < status_len (dev m) <= status_pos (dev m) + 1 ->
            v = word_at (status_data (dev m)) (status_pos (dev m))
            /\ status_pos (dev m') = 0
            /\ status_len (dev m') = 0
            /\ Z.testbit (status (dev m')) 3 = false
            /\ forall k, 0 <= k < 8 -> k <> 3 ->
                 Z.testbit (status (dev m')) k = Z.testbit (status (dev m)) k)).
Proof.
  intros Hport.
  destruct (readw_state m port Hport) as (Hnone & Hmore & Hlast).
  split; [exact Hnone |]. split; [exact Hmore |]. split; [exact Hlast |].
  intros v m' Hrun.
  destruct (Z.le_gt_cases (status_len (dev m)) (status_pos (dev m)))
    as [Hc | Hc].
  - rewrite (Hnone Hc) in Hrun. injection Hrun as <- <-.
    do 3 (split; [reflexivity |]). split; intros H; lia.
  - destruct (Z.lt_ge_cases (status_pos (dev m) + 1) (status_len (dev m)))
      as [Hc' | Hc'].
    + rewrite (Hmore Hc') in Hrun. injection Hrun as <- <-.
      do 3 (split; [reflexivity |]). split; [| intros H; lia].
      intros _. repeat split; reflexivity.
    + destruct (Hlast (conj Hc Hc')) as [Heq Hbit].
      rewrite Heq in Hrun. injection Hrun as <- <-.
      do 3 (split; [reflexivity |]). split; [intros H; lia |].
      intros _. cbn [dev status status_pos status_len set_status_pos
                       set_status_len set_status].
      do 3 (split; [reflexivity |]). split; [exact Hbit |].
      intros k Hk Hne. rewrite (u8_clear_other _ 3 k) by lia. reflexivity.
Qed.

End StatusQueue.

(** The three cases on a queue of two words. *)
Lemma readw_pops_status_witness :
  let q (pos : Z) : mach Sim.t :=
    mk_mach
      (set_status_pos pos
         (set_status_len 2
            (set_status 0x09
               (set_status_data (write_words [0x2e0; 0x77] (replicate 256 0))
                  (dev (Sim.boot 1000 0))))))
      (ext (Sim.boot 1000 0)) [] in
  esdi_readw 0 (q 2) = Done 0 (q 2)
  /\ esdi_readw 0 (q 0)
     = Done 0x2e0 (mk_mach (set_status_pos 1 (dev (q 0))) (ext (q 0)) [])
  /\ esdi_readw 0 (q 1)
     = Done 0x77
         (mk_mach
            (set_status_pos 0 (set_status_len 0 (set_status 0x01 (dev (q 1)))))
            (ext (q 1)) []).
Proof.
  intros q.
  split; [| split].
  - apply (proj1 (readw_pops_status (q 2) 0 eq_refl)). cbn. lia.
  - apply (proj1 (proj2 (readw_pops_status (q 0) 0 eq_refl))). cbn. lia.
  - apply (proj2 (proj2 (readw_pops_status (q 1) 0 eq_refl))). cbn. lia.
Defined.

(** ** The attention register: command request (C4) *)

Section Attention.

Context {W : Type} {E : Extern W}.

(** The machine after a command request on the attention register. *)
Lemma attention_request_state (m : mach W) (port val target : Z) :
  Z.land port 7 = 3 ->
  Z.land val ATTN_REQ_MASK = ATTN_CMD_REQ ->
  Z.land val ATTN_DEVICE_SEL = target ->
  target = ATTN_HOST_ADAPTER \/ target = ATTN_DEVICE_0 \/ target = ATTN_DEVICE_1 ->
  (cmd_req_in_progress (dev m) <> 0 ->
     exists msg, esdi_write port val m = Crashed msg m)
  /\ (cmd_req_in_progress (dev m) = 0 ->
        esdi_write port val m =
          Done tt
            (mk_mach
               (set_status_pos 0
                  (set_cmd_pos 0
                     (set_status (u8 (Z.lor (status (dev m)) STATUS_BUSY))
                        (set_cmd_dev target
                           (set_cmd_req_in_progress 1 (dev m))))))
               (ext m) (log m))
        /\ Z.testbit (u8 (Z.lor (status (dev m)) STATUS_BUSY)) 4 = true).
Proof.
  intros Hport Hreq Hsel Htarget.
  destruct m as [d w l]. cbn [dev ext log].
  unfold esdi_write, call, esdi_write_body.
  rewrite Hport, Hreq, Hsel. cbn.
  split.
  - intros Hbusy. apply nz_true in Hbusy.
    destruct Htarget as [-> | [-> | ->]]; cbn; exec; rewrite Hbusy;
      eexists; reflexivity.
  - intros Hfree. apply nz_false in Hfree.
    split; [| apply (u8_set_bit _ 4); lia].
    destruct Htarget as [-> | [-> | ->]]; cbn; exec; rewrite Hfree;
      reflexivity.
Qed.

(** C4.  A write of the attention register with the command-request
    code for the host adapter, drive 0 or drive 1: when a request is
    already in flight the emulator stops with a fatal error, in the
    state the earlier request left; otherwise the request is marked in
    flight, the target is latched, the busy bit of the status register
    is set and both queue cursors are zero.  The last part gives the
    fields of the machine the request leaves. *)
Theorem attention_command_request (m : mach W) (port val target : Z) :
  Z.land port 7 = 3 ->
  Z.land val ATTN_REQ_MASK = ATTN_CMD_REQ ->
  Z.land val ATTN_DEVICE_SEL = target ->
  target = ATTN_HOST_ADAPTER \/ target = ATTN_DEVICE_0 \/ target = ATTN_DEVICE_1 ->
  (cmd_req_in_progress (dev m) <> 0 ->
     exists msg, esdi_write port val m = Crashed msg m)
  /\ (cmd_req_in_progress (dev m) = 0 ->
        esdi_write port val m =
          Done tt
            (mk_mach
               (set_status_pos 0
                  (set_cmd_pos 0
                     (set_status (u8 (Z.lor (status (dev m)) STATUS_BUSY))
                        (set_cmd_dev target
                           (set_cmd_req_in_progress 1 (dev m))))))
               (ext m) (log m))
        /\ Z.testbit (u8 (Z.lor (status (dev m)) STATUS_BUSY)) 4 = true)
  /\ (cmd_req_in_progress (dev m) = 0 ->
      forall m',
        esdi_write port val m = Done tt m' ->
        cmd_req_in_progress (dev m') = 1
        /\ cmd_dev (dev m') = target
        /\ Z.testbit (status (dev m')) 4 = true
        /\ cmd_pos (dev m') = 0
        /\ status_pos (dev m') = 0
        /\ ext m' = ext m
        /\ log m' = log m).
Proof.
  intros Hport Hreq Hsel Htarget.
  destruct (attention_request_state m port val target Hport Hreq Hsel Htarget)
    as [Hbusy Hfree].
  split; [exact Hbusy |]. split; [exact Hfree |].
  intros Hidle m' Hrun. destruct (Hfree Hidle) as [Heq Hbit].
  rewrite Heq in Hrun. injection Hrun as <-.
  cbn [dev ext log cmd_req_in_progress cmd_dev status cmd_pos status_pos
         set_status_pos set_cmd_pos set_status set_cmd_dev
         set_cmd_req_in_progress].
  repeat split; try reflexivity. exact Hbit.
Qed.

End Attention.

(** A request for drive 0 on an idle adapter, and a second one on top
    of it. *)
Lemma attention_command_request_witness :
  let m := Sim.boot 1000 0 in
  let m1 :=
    mk_mach
      (set_status_pos 0
         (set_cmd_pos 0
            (set_status 0x10
               (set_cmd_dev ATTN_DEVICE_0 (set_cmd_req_in_progress 1 (dev m))))))
      (ext m) [] in
  esdi_write 3 0x01 m = Done tt m1
  /\ exists msg, esdi_write 3 0x01 m1 = Crashed msg m1.
Proof.
  intros m m1. split.
  - apply (attention_command_request m 3 0x01 ATTN_DEVICE_0
             eq_refl eq_refl eq_refl (or_intror (or_introl eq_refl))).
    reflexivity.
  - apply (attention_command_request m1 3 0x01 ATTN_DEVICE_0
             eq_refl eq_refl eq_refl (or_intror (or_introl eq_refl))).
    cbn. lia.
Defined.

(** ** The command interface register (C3) *)

Section CommandQueue.

Context {W : Type} {E : Extern W}.

Lemma queue_full_spec q pos :
  queue_full q pos = true <->
  (Z.land (word_at q 0) CMD_SIZE_4 <> 0 /\ pos = 4)
  \/ (Z.land (word_at q 0) CMD_SIZE_4 = 0 /\ pos = 2).
Proof.
  unfold queue_full.
  rewrite orb_true_iff, !andb_true_iff, negb_true_iff, !Z.eqb_eq, nz_spec.
  unfold nz. rewrite negb_false_iff, Z.eqb_eq. reflexivity.
Qed.

(** The machine after a write to the command interface register. *)
Lemma writew_state (m : mach W) (port val : Z) :
  Z.land port 7 = 0 ->
  0 <= val < 65536 ->
  0 <= cmd_pos (dev m) < 4 ->
  length (cmd_data (dev m)) = 4%nat ->
  let d := dev m in
  let q := store (cmd_data d) (cmd_pos d) val in
  let full :=
    (Z.land (word_at q 0) CMD_SIZE_4 <> 0 /\ cmd_pos d + 1 = 4)
    \/ (Z.land (word_at q 0) CMD_SIZE_4 = 0 /\ cmd_pos d + 1 = 2) in
  word_at q (cmd_pos d) = val
  /\ (~ full ->
        esdi_writew port val m =
          Done tt
            (mk_mach (set_cmd_pos (cmd_pos d + 1) (set_cmd_data q d))
               (ext m) (log m)))
  /\ (full ->
        Z.land (word_at q 0) CMD_DEVICE_SEL = cmd_dev d ->
        esdi_writew port val m =
          Done tt
            (mk_mach
               (set_data_pos 0
                  (set_status STATUS_BUSY
                     (set_timer (Some ESDI_TIME)
                        (set_command (Z.land (word_at q 0) CMD_MASK)
                           (set_cmd_state 0
                              (set_cmd_req_in_progress 0
                                 (set_cmd_pos 0 (set_cmd_data q d))))))))
               (ext m) (log m ++ [UiIcon 1])))
  /\ (full ->
        Z.land (word_at q 0) CMD_DEVICE_SEL <> cmd_dev d ->
        esdi_writew port val m =
          Crashed "Command device mismatch with attn"
            (mk_mach
               (set_cmd_state 0
                  (set_cmd_req_in_progress 0
                     (set_cmd_pos 0 (set_cmd_data q d))))
               (ext m) (log m))).
Proof.
  intros Hport Hval Hpos Hlen d q full.
  assert (Hfull : queue_full q (cmd_pos d + 1) = true <-> full)
    by apply queue_full_spec.
  split.
  { apply word_at_store_same. subst d. rewrite Hlen. lia. }
  destruct m as [d0 w l]. cbn [dev ext log] in *.
  unfold esdi_writew, call, esdi_writew_body. rewrite Hport. exec.
  rewrite (geb_false (cmd_pos d0) (4)) by lia.
  cbn. rewrite (u16_id val Hval).
  fold d q. change (_ || _) with (queue_full q (cmd_pos d + 1)).
  repeat split.
  - intros Hn. destruct (queue_full q (cmd_pos d + 1)).
    + exfalso. apply Hn, Hfull. reflexivity.
    + reflexivity.
  - intros Hf Hsel. apply Hfull in Hf. rewrite Hf. cbn.
    apply Z.eqb_eq in Hsel. rewrite Hsel. reflexivity.
  - intros Hf Hsel. apply Hfull in Hf. rewrite Hf. cbn.
    apply Z.eqb_neq in Hsel. rewrite Hsel. reflexivity.
Qed.

(** C3.  A write of the word [val] to the command interface register
    with the cursor inside the queue stores the word at the cursor.
    Then, exactly when the queue holds 4 words and the length flag of
    word 0 is set, or 2 words and the flag is clear, the queue is
    consumed: cursor 0, no request in flight, phase 0, and, when the
    target in word 0 is the latched one, the opcode of word 0 becomes
    the command, status is busy and the callback is scheduled one base
    latency ahead; when the target differs the emulator stops with a
    fatal error.  Otherwise the cursor moves one word on and nothing
    else changes.  The last two parts give the fields of the machine
    the write leaves. *)
Theorem writew_consumes_queue (m : mach W) (port val : Z) :
  Z.land port 7 = 0 ->
  0 <= val < 65536 ->
  0 <= cmd_pos (dev m) < 4 ->
  length (cmd_data (dev m)) = 4%nat ->
  let d := dev m in
  let q := store (cmd_data d) (cmd_pos d) val in
  let full :=
    (Z.land (word_at q 0) CMD_SIZE_4 <> 0 /\ cmd_pos d + 1 = 4)
    \/ (Z.land (word_at q 0) CMD_SIZE_4 = 0 /\ cmd_pos d + 1 = 2) in
  word_at q (cmd_pos d) = val
  /\ (~ full ->
        esdi_writew port val m =
          Done tt
            (mk_mach (set_cmd_pos (cmd_pos d + 1) (set_cmd_data q d))
               (ext m) (log m)))
  /\ (full ->
        Z.land (word_at q 0) CMD_DEVICE_SEL = cmd_dev d ->
        esdi_writew port val m =
          Done tt
            (mk_mach
               (set_data_pos 0
                  (set_status STATUS_BUSY
                     (set_timer (Some ESDI_TIME)
                        (set_command (Z.land (word_at q 0) CMD_MASK)
                           (set_cmd_state 0
                              (set_cmd_req_in_progress 0
                                 (set_cmd_pos 0 (set_cmd_data q d))))))))
               (ext m) (log m ++ [UiIcon 1])))
  /\ (full ->
        Z.land (word_at q 0) CMD_DEVICE_SEL <> cmd_dev d ->
        esdi_writew port val m =
          Crashed "Command device mismatch with attn"
            (mk_mach
               (set_cmd_state 0
                  (set_cmd_req_in_progress 0
                     (set_cmd_pos 0 (set_cmd_data q d))))
               (ext m) (log m)))
  /\ (~ full ->
      forall m',
        esdi_writew port val m = Done tt m' ->
        cmd_data (dev m') = q
        /\ cmd_pos (dev m') = cmd_pos d + 1
        /\ cmd_req_in_progress (dev m') = cmd_req_in_progress d
        /\ cmd_state (dev m') = cmd_state d
        /\ command (dev m') = command d
        /\ status (dev m') = status d
        /\ timer (dev m') = timer d
        /\ data_pos (dev m') = data_pos d
        /\ ext m' = ext m
        /\ log m' = log m)
  /\ (full ->
      forall m',
        esdi_writew port val m = Done tt m' ->
        Z.land (word_at q 0) CMD_DEVICE_SEL = cmd_dev d
        /\ cmd_data (dev m') = q
        /\ cmd_pos (dev m') = 0
        /\ cmd_req_in_progress (dev m') = 0
        /\ cmd_state (dev m') = 0
        /\ command (dev m') = Z.land (word_at q 0) CMD_MASK
        /\ status (dev m') = STATUS_BUSY
        /\ timer (dev m') = Some ESDI_TIME
        /\ data_pos (dev m') = 0
        /\ ext m' = ext m
        /\ log m' = log m ++ [UiIcon 1]).
Proof.
  intros Hport Hval Hpos Hlen d q full.
  destruct (writew_state m port val Hport Hval Hpos Hlen)
    as (Hw & Hmore & Hdone & Hbad).
  fold d in Hw, Hmore, Hdone, Hbad. fold q in Hw, Hmore, Hdone, Hbad.
  fold full in Hmore, Hdone, Hbad.
  split; [exact Hw |]. split; [exact Hmore |]. split; [exact Hdone |].
  split; [exact Hbad |]. split.
  - intros Hn m' Hrun. rewrite (Hmore Hn) in Hrun. injection Hrun as <-.
    repeat split; reflexivity.
  - intros Hf m' Hrun.
    destruct (Z.eq_dec (Z.land (word_at q 0) CMD_DEVICE_SEL) (cmd_dev d))
      as [Hsel | Hsel].
    + rewrite (Hdone Hf Hsel) in Hrun. injection Hrun as <-.
      split; [exact Hsel |]. repeat split; reflexivity.
    + rewrite (Hbad Hf Hsel) in Hrun. discriminate Hrun.
Qed.

End CommandQueue.

(** The two words of a short command for drive 0 (opcode 8). *)
Lemma writew_consumes_queue_witness :
  let m := Sim.boot 1000 0 in
  let m1 :=
    mk_mach (set_cmd_pos 1 (set_cmd_data [0x08; 0; 0; 0] (dev m))) (ext m) [] in
  esdi_writew 0 0x08 m = Done tt m1
  /\ esdi_writew 0 0 m1
     = Done tt
         (mk_mach
            (set_data_pos 0
               (set_status STATUS_BUSY
                  (set_timer (Some ESDI_TIME)
                     (set_command 0x08
                        (set_cmd_state 0
                           (set_cmd_req_in_progress 0
                              (set_cmd_pos 0 (dev m1))))))))
            (ext m) [UiIcon 1]).
Proof.
  intros m m1. split.
  - apply (proj1 (proj2 (writew_consumes_queue m 0 0x08 eq_refl
                           ltac:(lia) ltac:(cbn; lia) eq_refl))).
    vm_compute. intros [[H _] | [_ H]]; [apply H; reflexivity | discriminate].
  - apply (proj1 (proj2 (proj2 (writew_consumes_queue m1 0 0 eq_refl
                                  ltac:(lia) ltac:(cbn; lia) eq_refl)))).
    + right. split; reflexivity.
    + reflexivity.
Defined.

(** ** The procedures, run *)

Section Procedures.

Context {W : Type} {E : Extern W}.

Lemma gtb_true x y : y < x -> (x >? y) = true.
Proof. intros H. rewrite Z.gtb_ltb. apply Z.ltb_lt. exact H. Qed.

Lemma gtb_false x y : x <= y -> (x >? y) = false.
Proof. intros H. rewrite Z.gtb_ltb. apply Z.ltb_ge. exact H. Qed.

Lemma set_irq_run {R} (m : mach W) :
  @set_irq W R m =
    Next tt (mk_mach (set_irq_ena_disable 1 (dev m)) (ext m)
               (log m ++ irq_events (dev m))).
Proof.
  unfold set_irq, irq_events. unfold_monad. cbn.
  destruct (nz (Z.land (basic_ctrl (dev m)) CTRL_IRQ_ENA)); cbn.
  - reflexivity.
  - rewrite app_nil_r. reflexivity.
Qed.

Lemma esdi_mca_set_callback_run {R} (callback : Q) (m : mach W) :
  @esdi_mca_set_callback W R callback m =
    Next tt (mk_mach (set_timer (sched callback) (dev m)) (ext m) (log m)).
Proof.
  unfold esdi_mca_set_callback, sched. unfold_monad.
  destruct (Qeq_bool callback 0); reflexivity.
Qed.

Lemma raise_irq_run (st code : Z) (m : mach W) :
  raise_irq st code m =
    Next tt
      (mk_mach
         (set_irq_ena_disable 1
            (set_irq_in_progress 1
               (set_irq_status (u8 code) (set_status st (dev m)))))
         (ext m) (log m ++ irq_events (dev m))).
Proof.
  unfold raise_irq. unfold_monad. cbn. rewrite set_irq_run. reflexivity.
Qed.

Ltac error_helper_run :=
  intros; unfold error_mach, error_state;
  unfold_monad; cbn; rewrite set_irq_run; cbn;
  rewrite <- ?app_assoc; reflexivity.

Lemma cmd_unsupported_run {R} (m : mach W) :
  @cmd_unsupported W R m = Next tt (error_mach 0x0f03 0x0002 m).
Proof. unfold cmd_unsupported. error_helper_run. Qed.

Lemma device_not_present_run {R} (m : mach W) :
  @device_not_present W R m = Next tt (error_mach 0x0c11 0x000b m).
Proof. unfold device_not_present. error_helper_run. Qed.

Lemma rba_out_of_range_run {R} (m : mach W) :
  @rba_out_of_range W R m = Next tt (error_mach 0x0e01 0x0007 m).
Proof. unfold rba_out_of_range. error_helper_run. Qed.

Lemma defective_block_run {R} (m : mach W) :
  @defective_block W R m = Next tt (error_mach 0x0e01 0x0009 m).
Proof. unfold defective_block. error_helper_run. Qed.

Lemma complete_command_status_run {R} (m : mach W) :
  @complete_command_status W R m =
    Next tt
      (mk_mach
         (set_status_data
            (write_words_from 1
               [0x0000; 0x1900; 0;
                Z.land (u32 (rba (dev m) - 1)) 0xffff;
                Z.shiftr (u32 (rba (dev m) - 1)) 8;
                0]
               (store (status_data (dev m)) 0
                  (u16 (if cmd_dev (dev m) =? ATTN_DEVICE_0
                        then Z.lor (Z.lor (command (dev m)) (STATUS_LEN 7))
                               (STATUS_DEVICE 0)
                        else Z.lor (Z.lor (command (dev m)) (STATUS_LEN 7))
                               (STATUS_DEVICE 1)))))
            (set_status_len 7 (dev m)))
         (ext m) (log m ++ [UiIcon 0; UiIconWrite 0])).
Proof.
  unfold complete_command_status. unfold_monad. cbn.
  rewrite <- app_assoc. reflexivity.
Qed.

(** [ESDI_DRIVE_ONLY()] and the presence check that follows it. *)
Lemma ESDI_DRIVE_ONLY_run (m : mach W) :
  ESDI_DRIVE_ONLY m =
    if negb (cmd_dev (dev m) =? ATTN_DEVICE_0)
       && negb (cmd_dev (dev m) =? ATTN_DEVICE_1)
    then Return tt (error_mach 0x0f03 0x0002 m)
    else Next (selected_drive (dev m)) m.
Proof.
  unfold ESDI_DRIVE_ONLY, selected_drive. unfold_monad.
  destruct (cmd_dev (dev m) =? ATTN_DEVICE_0); cbn.
  - reflexivity.
  - destruct (cmd_dev (dev m) =? ATTN_DEVICE_1); cbn.
    + reflexivity.
    + rewrite cmd_unsupported_run. reflexivity.
Qed.

Lemma ESDI_ADAPTER_ONLY_run (m : mach W) :
  ESDI_ADAPTER_ONLY m =
    if negb (cmd_dev (dev m) =? ATTN_HOST_ADAPTER)
    then Return tt (error_mach 0x0f03 0x0002 m)
    else Next tt m.
Proof.
  unfold ESDI_ADAPTER_ONLY. unfold_monad.
  destruct (cmd_dev (dev m) =? ATTN_HOST_ADAPTER); cbn.
  - reflexivity.
  - rewrite cmd_unsupported_run. reflexivity.
Qed.

Lemma check_present_run (drive : drive_t) (m : mach W) :
  check_present drive m =
    if negb (nz (present drive))
    then Return tt (error_mach 0x0c11 0x000b m)
    else Next tt m.
Proof.
  unfold check_present. unfold_monad.
  destruct (nz (present drive)); cbn.
  - reflexivity.
  - rewrite device_not_present_run. reflexivity.
Qed.

(** The status block an error leaves. *)
Lemma error_state_block w1 w2 d :
  length (status_data d) = 256%nat ->
  0 <= w1 < 65536 -> 0 <= w2 < 65536 ->
  status_len (error_state w1 w2 d) = 9
  /\ word_at (status_data (error_state w1 w2 d)) 1 = w1
  /\ word_at (status_data (error_state w1 w2 d)) 2 = w2.
Proof.
  intros Hlen H1 H2. unfold error_state. cbn. split; [reflexivity |]. split.
  - rewrite (word_at_write_words_k _ _ 1%nat w1); cbn; try lia; try reflexivity.
    apply u16_id; exact H1.
  - rewrite (word_at_write_words_k _ _ 2%nat w2); cbn; try lia; try reflexivity.
    apply u16_id; exact H2.
Qed.

Lemma decode_rba_range d : 0 <= decode_rba d < 268435456.
Proof.
  unfold decode_rba. split.
  - apply Z.land_nonneg. right. lia.
  - assert (H : Z.land (Z.lor (word_at (cmd_data d) 2)
                          (Z.shiftl (word_at (cmd_data d) 3) 16)) 0xfffffff
                = Z.lor (word_at (cmd_data d) 2)
                    (Z.shiftl (word_at (cmd_data d) 3) 16) mod 2 ^ 28)
      by (change 0xfffffff with (Z.ones 28); apply Z.land_ones; lia).
    rewrite H. apply Z.mod_pos_bound. lia.
Qed.

Lemma selected_drive_0 d :
  cmd_dev d = ATTN_DEVICE_0 -> selected_drive d = drives0 d.
Proof. unfold selected_drive. intros ->. reflexivity. Qed.

Lemma selected_drive_1 d :
  cmd_dev d = ATTN_DEVICE_1 -> selected_drive d = drives1 d.
Proof. unfold selected_drive. intros ->. reflexivity. Qed.

Lemma drive_target_cases d :
  drive_target d ->
  negb (cmd_dev d =? ATTN_DEVICE_0) && negb (cmd_dev d =? ATTN_DEVICE_1) = false.
Proof.
  intros [H | H]; rewrite H; reflexivity.
Qed.

End Procedures.

(** Running a callback symbolically: unfold the statements, simplify,
    and replace each procedure by its effect. *)
Ltac run_step :=
  first
    [ rewrite raise_irq_run
    | rewrite esdi_mca_set_callback_run
    | rewrite set_irq_run
    | rewrite cmd_unsupported_run
    | rewrite device_not_present_run
    | rewrite rba_out_of_range_run
    | rewrite defective_block_run
    | rewrite complete_command_status_run
    | rewrite ESDI_DRIVE_ONLY_run
    | rewrite ESDI_ADAPTER_ONLY_run
    | rewrite check_present_run
    | progress (unfold_monad; cbn; decide_ifs) ].

Ltac run := repeat run_step.

(** The selected drive does not change while a command runs. *)
Ltac same_drive d0 :=
  repeat match goal with
  | |- context [selected_drive ?x] =>
      lazymatch x with
      | d0 => fail
      | _ => change (selected_drive x) with (selected_drive d0)
      end
  end.

(** ** Address range check of the transfer commands (C2) *)

Section RangeCheck.

Context {W : Type} {E : Extern W}.

(** C2.  The first callback (phase 0) of a read, write, read-verify or
    write-verify command for a present drive, with [addr] the block
    address and [count] the sector count of the command queue:
    - when [addr + count] exceeds the drive's sector total, the callback
      ends there with the status block of the address-out-of-range
      error (words 0x0e01 and 0x0007), the command-complete-failure
      code latched and the interrupt requested; the phase stays 0,
      nothing is scheduled, the world is as it was and the log has no
      disk image call;
    - otherwise the command moves to phase 1, the status queue is left
      as it was and no disk image call is made. *)
Theorem transfer_setup_range_check (m : mach W) :
  well_formed (dev m) ->
  in_reset (dev m) = 0 ->
  (command (dev m) = CMD_READ \/ command (dev m) = CMD_WRITE
   \/ command (dev m) = CMD_READ_VERIFY \/ command (dev m) = CMD_WRITE_VERIFY) ->
  drive_target (dev m) ->
  present (selected_drive (dev m)) <> 0 ->
  cmd_state (dev m) = 0 ->
  0 <= word_at (cmd_data (dev m)) 1 < 65536 ->
  hdd_image_get_last_sector (hdd_num (selected_drive (dev m))) (ext m)
  = sectors (selected_drive (dev m)) ->
  let addr := decode_rba (dev m) in
  let count := word_at (cmd_data (dev m)) 1 in
  (addr + count > sectors (selected_drive (dev m)) ->
     exists m',
       esdi_callback m = Done tt m'
       /\ status_len (dev m') = 9
       /\ word_at (status_data (dev m')) 1 = 0x0e01
       /\ word_at (status_data (dev m')) 2 = 0x0007
       /\ status (dev m') = Z.lor STATUS_IRQ STATUS_STATUS_OUT_FULL
       /\ irq_status (dev m')
          = u8 (Z.lor (cmd_dev (dev m)) IRQ_CMD_COMPLETE_FAILURE)
       /\ irq_in_progress (dev m') = 1
       /\ irq_ena_disable (dev m') = 1
       /\ cmd_state (dev m') = 0
       /\ timer (dev m') = timer (dev m)
       /\ ext m' = ext m
       /\ log m' = log m ++ irq_events (dev m) ++ [UiIcon 0; UiIconWrite 0])
  /\ (addr + count <= sectors (selected_drive (dev m)) ->
        exists m',
          esdi_callback m = Done tt m'
          /\ cmd_state (dev m') = 1
          /\ status_len (dev m') = status_len (dev m)
          /\ status_data (dev m') = status_data (dev m)
          /\ filter (fun e => image_event e = true) (log m')
             = filter (fun e => image_event e = true) (log m)).
Proof.
  intros Hwf Hreset Hcmd Hdev Hpresent Hstate Hcount Hsync addr count.
  pose proof (decode_rba_range (dev m)) as Haddr. fold addr in Haddr.
  destruct m as [d w l]. cbn [dev ext log] in *.
  apply nz_false in Hreset. apply nz_true in Hpresent.
  pose proof (drive_target_cases _ Hdev) as Hdt.
  assert (Hpast : forall d',
            rba d' = addr -> sector_count d' = count ->
            past_last_sector (selected_drive d) d' w
            = (addr + count >? sectors (selected_drive d))).
  { intros d' Hr Hs. unfold past_last_sector.
    rewrite Hr, Hs, Hsync, u32_id by lia. reflexivity. }
  split; intros Hrange.
  - (* past the end *)
    pose proof (error_state_block 0x0e01 0x0007 d (wf_status_data _ Hwf)
                  ltac:(lia) ltac:(lia)) as (_ & Hw1 & Hw2).
    destruct Hcmd as [Hc | [Hc | [Hc | Hc]]];
      unfold esdi_callback, call, esdi_callback_body; run;
      rewrite Hreset, Hc; run;
      unfold case_read, case_write, case_read_verify; run;
      rewrite Hdt; run; rewrite Hpresent; run; rewrite Hstate, ?Hc; run;
      rewrite Hpast by reflexivity; rewrite gtb_true by lia; run;
      (eexists; split; [reflexivity |]);
      unfold error_state in *; cbn in *;
      repeat (split; try reflexivity; try assumption).
  - (* within the drive *)
    destruct Hcmd as [Hc | [Hc | [Hc | Hc]]];
      unfold esdi_callback, call, esdi_callback_body; run;
      rewrite Hreset, Hc; run;
      unfold case_read, case_write, case_read_verify; run;
      rewrite Hdt; run; rewrite Hpresent; run; rewrite Hstate, ?Hc; run;
      rewrite Hpast by reflexivity; rewrite gtb_false by lia; run;
      try match goal with
        | |- context [hdd_timing_read ?a ?b ?c ?x] =>
            destruct (hdd_timing_read a b c x) as [t w']
        end; run;
      (eexists; split; [reflexivity |]); cbn;
      repeat (split; try reflexivity);
      rewrite ?filter_app; unfold irq_events;
      try match goal with
        | |- context [if ?c then _ else _] => destruct c
        end; cbn; rewrite ?app_nil_r; reflexivity.
Qed.

End RangeCheck.

(** A read of two sectors at block 999 of a drive of 1000 sectors, and
    one at block 998. *)
Lemma transfer_setup_range_check_witness :
  let setup (addr : Z) : mach Sim.t :=
    mk_mach
      (set_timer None
         (set_command CMD_READ
            (set_cmd_data [0x4001; 2; addr; 0]
               (set_in_reset 0 (dev (Sim.boot 1000 0))))))
      (ext (Sim.boot 1000 0)) [] in
  (exists m',
     esdi_callback (setup 999) = Done tt m'
     /\ word_at (status_data (dev m')) 1 = 0x0e01
     /\ word_at (status_data (dev m')) 2 = 0x0007
     /\ irq_status (dev m') = IRQ_CMD_COMPLETE_FAILURE
     /\ log m' = [UiIcon 0; UiIconWrite 0])
  /\ (exists m',
        esdi_callback (setup 998) = Done tt m'
        /\ cmd_state (dev m') = 1
        /\ status_len (dev m') = 0).
Proof.
  intros setup.
  assert (Hwf : forall a, well_formed (dev (setup a)))
    by (intros a; split; reflexivity).
  split.
  - destruct (proj1 (transfer_setup_range_check (setup 999) (Hwf 999) eq_refl
                       (or_introl eq_refl) (or_introl eq_refl)
                       ltac:(vm_compute; congruence) eq_refl
                       ltac:(vm_compute; split; congruence) eq_refl))
      as (m' & Hrun & _ & Hw1 & Hw2 & _ & Hirq & _ & _ & _ & _ & _ & Hlog).
    + vm_compute. reflexivity.
    + exists m'. repeat split; assumption.
  - destruct (proj2 (transfer_setup_range_check (setup 998) (Hwf 998) eq_refl
                       (or_introl eq_refl) (or_introl eq_refl)
                       ltac:(vm_compute; congruence) eq_refl
                       ltac:(vm_compute; split; congruence) eq_refl))
      as (m' & Hrun & Hst & Hlen & _).
    + vm_compute. discriminate.
    + exists m'. repeat split; assumption.
Defined.

(** ** The range check of the seek command (C10) *)

Section Seek.

Context {W : Type} {E : Extern W}.

(** C10, as amended.  A seek for a present drive makes the range check
    before the phase switch on each of its two callbacks.  In phase 0
    the check is on [rba + sector_count] as the adapter holds them when
    the seek starts (what earlier commands left), and the target address
    of the seek is decoded from the command queue only when the check
    has passed.  In phase 1 the same check is on the seek's own decoded
    target address plus the left-over sector count.  Either check that
    fails ends the command with the address-out-of-range error. *)
Theorem seek_range_check (m : mach W) :
  in_reset (dev m) = 0 ->
  command (dev m) = CMD_SEEK ->
  drive_target (dev m) ->
  present (selected_drive (dev m)) <> 0 ->
  cmd_state (dev m) = 0 ->
  let d := dev m in
  let hdd := hdd_num (selected_drive d) in
  let t := fst (hdd_seek_get_time hdd (decode_rba d) (ext m)) in
  let w' := snd (hdd_seek_get_time hdd (decode_rba d) (ext m)) in
  let m1 :=
    mk_mach
      (set_cmd_state 1
         (set_timer (sched (ESDI_TIME + t)%Q) (set_rba (decode_rba d) d)))
      w' (log m) in
  (u32 (rba d + sector_count d) > hdd_image_get_last_sector hdd (ext m) ->
     esdi_callback m = Done tt (error_mach 0x0e01 0x0007 m))
  /\ (u32 (rba d + sector_count d) <= hdd_image_get_last_sector hdd (ext m) ->
        esdi_callback m = Done tt m1
        /\ (u32 (decode_rba d + sector_count d)
            > hdd_image_get_last_sector hdd w' ->
              esdi_callback m1 = Done tt (error_mach 0x0e01 0x0007 m1))
        /\ (u32 (decode_rba d + sector_count d)
            <= hdd_image_get_last_sector hdd w' ->
              exists m2,
                esdi_callback m1 = Done tt m2
                /\ irq_status (dev m2)
                   = u8 (Z.lor (cmd_dev d) IRQ_CMD_COMPLETE_SUCCESS)
                /\ status (dev m2) = Z.lor STATUS_IRQ STATUS_STATUS_OUT_FULL
                /\ status_len (dev m2) = 7)).
Proof.
  intros Hreset Hcmd Hdev Hpresent Hstate d hdd t w' m1.
  destruct m as [d0 w l]. cbn [dev ext log] in *. subst d.
  apply nz_false in Hreset. apply nz_true in Hpresent.
  pose proof (drive_target_cases _ Hdev) as Hdt.
  split.
  - intros Hpast.
    unfold esdi_callback, call, esdi_callback_body. run.
    rewrite Hreset, Hcmd. run. unfold case_seek. run.
    rewrite Hdt. run. rewrite Hpresent. run.
    unfold past_last_sector. fold hdd. rewrite gtb_true by lia. run.
    reflexivity.
  - intros Hin. split; [| split].
    + unfold esdi_callback, call, esdi_callback_body. run.
      rewrite Hreset, Hcmd. run. unfold case_seek. run.
      rewrite Hdt. run. rewrite Hpresent. run.
      unfold past_last_sector. fold hdd. rewrite gtb_false by lia. run.
      rewrite Hstate. run. fold hdd.
      subst m1 t w'.
      destruct (hdd_seek_get_time hdd (decode_rba d0) w) as [t w'].
      run. reflexivity.
    + intros Hpast. subst m1.
      unfold esdi_callback, call, esdi_callback_body. run.
      rewrite Hreset, Hcmd. run. unfold case_seek. run.
      rewrite Hdt. run.
      same_drive d0. rewrite Hpresent. run.
      unfold past_last_sector. cbn. same_drive d0. fold hdd.
      rewrite gtb_true by lia. run.
      reflexivity.
    + intros Hin1. subst m1.
      unfold esdi_callback, call, esdi_callback_body. run.
      rewrite Hreset, Hcmd. run. unfold case_seek. run.
      rewrite Hdt. run.
      same_drive d0. rewrite Hpresent. run.
      unfold past_last_sector. cbn. same_drive d0. fold hdd.
      rewrite gtb_false by lia. run.
      eexists. split; [reflexivity |]. cbn. repeat split; reflexivity.
Qed.

End Seek.

(** The guest's seek of drive 0 to block [target]. *)
Lemma seek_range_check_witness :
  let m (target : Z) : mach Sim.t :=
    mk_mach
      (set_timer None
         (set_command CMD_SEEK
            (set_cmd_data (long_command CMD_SEEK ATTN_DEVICE_0 0 target)
               (set_in_reset 0 (dev (Sim.boot 1000 0))))))
      (ext (Sim.boot 1000 0)) [] in
  let m1 (target : Z) : mach Sim.t :=
    mk_mach
      (set_cmd_state 1
         (set_timer (Some (ESDI_TIME + (300 # 1))%Q)
            (set_rba target (dev (m target)))))
      (ext (m target)) [] in
  esdi_callback (m 2000) = Done tt (m1 2000)
  /\ esdi_callback (m1 2000) = Done tt (error_mach 0x0e01 0x0007 (m1 2000)).
Proof.
  intros m m1.
  pose proof (seek_range_check (m 2000) eq_refl eq_refl (or_introl eq_refl)
                ltac:(vm_compute; congruence) eq_refl) as [_ H].
  destruct H as (H0 & H1 & _).
  - vm_compute. congruence.
  - split.
    + exact H0.
    + apply H1. vm_compute. reflexivity.
Defined.

(** C10 as stated fails: from one and the same adapter state, the seek
    to block 5 completes and the seek to block 2000 of the same drive of
    1000 sectors ends with the address-out-of-range error, reported by
    the check of the second callback: the outcome depends on the seek's
    own operand. *)
Lemma seek_fails_on_own_target :
  let seek (target : Z) : outcome Sim.t unit :=
    run (power_on
         ++ issue ATTN_DEVICE_0 (long_command CMD_SEEK ATTN_DEVICE_0 0 target)
         ++ [TimerFire; TimerFire])
      (Sim.boot 1000 0) in
  after (seek 5)
    (fun m => irq_status (dev m) = IRQ_CMD_COMPLETE_SUCCESS
              /\ word_at (status_data (dev m)) 1 = 0x0000
              /\ word_at (status_data (dev m)) 2 = 0x1900)
  /\ after (seek 2000)
       (fun m => irq_status (dev m) = IRQ_CMD_COMPLETE_FAILURE
                 /\ word_at (status_data (dev m)) 1 = 0x0e01
                 /\ word_at (status_data (dev m)) 2 = 0x0007).
Proof.
  vm_compute. repeat split; reflexivity.
Qed.

(** ** Reasoning on statements *)

Section Triples.

Context {W : Type} {E : Extern W}.

Lemma triple_bind {R A B} (P : mach W -> Prop) (c : M W R A)
    (k : A -> M W R B) Q Qn Qr :
  triple P c Q Qr ->
  (forall a, triple (Q a) (k a) Qn Qr) ->
  triple P (bind c k) Qn Qr.
Proof.
  intros Hc Hk m Hm. unfold bind. specialize (Hc m Hm).
  destruct (c m) as [a m' | r m' | msg m']; [| exact Hc | exact I].
  exact (Hk a m' Hc).
Qed.

Lemma triple_weaken {R A} (P P' : mach W -> Prop) (c : M W R A)
    (Qn Qn' : A -> mach W -> Prop) (Qr Qr' : R -> mach W -> Prop) :
  triple P c Qn Qr ->
  (forall m, P' m -> P m) ->
  (forall a m, Qn a m -> Qn' a m) ->
  (forall r m, Qr r m -> Qr' r m) ->
  triple P' c Qn' Qr'.
Proof.
  intros Hc HP Hn Hr m Hm. specialize (Hc m (HP m Hm)).
  destruct (c m); auto.
Qed.

Lemma while_O {A} cond (body : A -> M W unit A) a :
  while O cond body a = next a.
Proof. reflexivity. Qed.

Lemma while_S {A} fuel cond (body : A -> M W unit A) a :
  while (S fuel) cond body a
  = (d <- get ;;
     if cond d then a' <- body a ;; while fuel cond body a' else next a).
Proof. reflexivity. Qed.

Lemma triple_while {A} (Inv : A -> mach W -> Prop) Qr cond
    (body : A -> M W unit A) :
  (forall a, triple (fun m => Inv a m /\ cond (dev m) = true) (body a) Inv Qr) ->
  forall fuel a, triple (Inv a) (while fuel cond body a) Inv Qr.
Proof.
  intros Hbody fuel. induction fuel as [| fuel IH]; intros a m Hm.
  - exact Hm.
  - rewrite while_S. unfold bind at 1, get.
    destruct (cond (dev m)) eqn:Hc; [| exact Hm].
    apply (triple_bind (fun m => Inv a m /\ cond (dev m) = true)
             (body a) _ Inv Inv Qr (Hbody a) IH).
    split; assumption.
Qed.

(** *** Statements that keep a property of the adapter *)

Variable I : esdi_t -> Prop.

Lemma keeps_bind {R A B} (c : M W R A) (k : A -> M W R B) :
  keeps I c -> (forall a, keeps I (k a)) -> keeps I (bind c k).
Proof. intros Hc Hk. exact (triple_bind _ c k _ _ _ Hc Hk). Qed.

Lemma keeps_next {R A} (a : A) : keeps I (@next W R A a).
Proof. intros m Hm. exact Hm. Qed.

Lemma keeps_return {R A} (r : R) : keeps I (@return_ W R A r).
Proof. intros m Hm. exact Hm. Qed.

Lemma keeps_fatal {R A} msg : keeps I (@fatal W R A msg).
Proof. intros m Hm. exact Logic.I. Qed.

Lemma keeps_get {R} : keeps I (@get W R).
Proof. intros m Hm. exact Hm. Qed.

Lemma keeps_world {R} : keeps I (@world W R).
Proof. intros m Hm. exact Hm. Qed.

Lemma keeps_emit {R} e : keeps I (@emit W R e).
Proof. intros m Hm. exact Hm. Qed.

Lemma keeps_extern {R A} (f : W -> A * W) ev : keeps I (@extern W R A f ev).
Proof. intros m Hm. unfold extern. destruct (f (ext m)). exact Hm. Qed.

Lemma keeps_ask {R A} (f : W -> A * W) : keeps I (@ask W R A f).
Proof. intros m Hm. unfold ask. destruct (f (ext m)). exact Hm. Qed.

Lemma keeps_upd {R} (f : esdi_t -> esdi_t) :
  (forall d, I d -> I (f d)) -> keeps I (@upd W R f).
Proof. intros Hf m Hm. exact (Hf _ Hm). Qed.

Lemma keeps_if {R A} (b : bool) (c1 c2 : M W R A) :
  keeps I c1 -> keeps I c2 -> keeps I (if b then c1 else c2).
Proof. destruct b; auto. Qed.

Lemma keeps_while {A} fuel cond (body : A -> M W unit A) a :
  (forall a, keeps I (body a)) -> keeps I (while fuel cond body a).
Proof.
  intros Hbody.
  apply (triple_while (fun _ m => I (dev m)) (fun _ m => I (dev m))).
  intros a' m [Hm _]. exact (Hbody a' m Hm).
Qed.

End Triples.

(** ** What every reachable state satisfies *)

Section Invariant.

Context {W : Type} {E : Extern W}.

Lemma irq_bit_testbit d : irq_bit d <-> Z.testbit (status d) 0 = true.
Proof.
  unfold irq_bit. change STATUS_IRQ with (Z.shiftl 1 0).
  rewrite (land_bit_testbit (status d) 0) by lia.
  destruct (Z.testbit (status d) 0); split; congruence.
Qed.

Lemma keeps_call {R} (I : esdi_t -> Prop) (body : M W R R) (m : mach W) :
  keeps I body -> I (dev m) ->
  match call body m with
  | Done _ m' => I (dev m')
  | Crashed _ _ => True
  end.
Proof.
  intros Hk Hm. unfold call. specialize (Hk m Hm).
  destruct (body m); auto.
Qed.

(** An update that leaves the status register, the interrupt fields and
    the command queue alone, or that stores a status without the
    interrupt bit. *)
Ltac inv_upd :=
  let d := fresh "d" in
  let Hirq := fresh "Hirq" in
  let Hq := fresh "Hq" in
  intros d [Hirq Hq]; split;
  [ first
      [ exact Hirq
      | let Hc := fresh "Hc" in
        intros Hc; exfalso; apply Hc; reflexivity ]
  | exact Hq ].

Lemma irq_bit_clear_irq d :
  ~ irq_bit (set_status (u8 (Z.land (status d) (Z.lnot STATUS_IRQ))) d).
Proof.
  rewrite irq_bit_testbit. cbn [status set_status].
  change STATUS_IRQ with (Z.shiftl 1 0).
  rewrite (u8_clear_bit _ 0) by lia. discriminate.
Qed.

Lemma irq_bit_clear_out_full d :
  irq_bit (set_status
             (u8 (Z.land (status d) (Z.lnot STATUS_STATUS_OUT_FULL))) d) ->
  irq_bit d.
Proof.
  rewrite !irq_bit_testbit. cbn [status set_status].
  change STATUS_STATUS_OUT_FULL with (Z.shiftl 1 3).
  rewrite (u8_clear_other _ 3 0) by lia. trivial.
Qed.

Lemma irq_bit_set_busy d :
  irq_bit (set_status (u8 (Z.lor (status d) STATUS_BUSY)) d) -> irq_bit d.
Proof.
  rewrite !irq_bit_testbit. cbn [status set_status].
  unfold u8. change 256 with (2 ^ 8).
  rewrite Z.mod_pow2_bits_low, Z.lor_spec by lia.
  change (Z.testbit STATUS_BUSY 0) with false. rewrite orb_false_r. trivial.
Qed.

(** Updates of single bits of the status register. *)
Ltac inv_upd_bits :=
  let d := fresh "d" in
  let Hirq := fresh "Hirq" in
  let Hq := fresh "Hq" in
  let Hb := fresh "Hb" in
  intros d [Hirq Hq]; split; [| exact Hq]; intros Hb;
  first
    [ exfalso; exact (irq_bit_clear_irq d Hb)
    | exact (Hirq (irq_bit_clear_out_full d Hb))
    | exact (Hirq (irq_bit_set_busy d Hb)) ].

Lemma keeps_set_callback {R} callback :
  keeps adapter_inv (@esdi_mca_set_callback W R callback).
Proof.
  intros m Hm. rewrite esdi_mca_set_callback_run. exact Hm.
Qed.

Lemma keeps_raise_irq st code : keeps (W:=W) adapter_inv (raise_irq st code).
Proof.
  intros m [_ Hq]. rewrite raise_irq_run. split; [| exact Hq].
  intros _. left. reflexivity.
Qed.

Lemma keeps_error_mach w1 w2 (m : mach W) :
  adapter_inv (dev m) -> adapter_inv (dev (error_mach w1 w2 m)).
Proof.
  intros [_ Hq]. split; [| exact Hq]. intros _. left. reflexivity.
Qed.

Lemma keeps_cmd_unsupported {R} : keeps adapter_inv (@cmd_unsupported W R).
Proof.
  intros m Hm. rewrite cmd_unsupported_run. apply keeps_error_mach, Hm.
Qed.

Lemma keeps_device_not_present {R} :
  keeps adapter_inv (@device_not_present W R).
Proof.
  intros m Hm. rewrite device_not_present_run. apply keeps_error_mach, Hm.
Qed.

Lemma keeps_rba_out_of_range {R} : keeps adapter_inv (@rba_out_of_range W R).
Proof.
  intros m Hm. rewrite rba_out_of_range_run. apply keeps_error_mach, Hm.
Qed.

Lemma keeps_defective_block {R} : keeps adapter_inv (@defective_block W R).
Proof.
  intros m Hm. rewrite defective_block_run. apply keeps_error_mach, Hm.
Qed.

Lemma keeps_complete_command_status {R} :
  keeps adapter_inv (@complete_command_status W R).
Proof.
  intros m Hm. rewrite complete_command_status_run. exact Hm.
Qed.

Lemma keeps_image_read_sector drive :
  keeps (W:=W) adapter_inv (image_read_sector drive).
Proof.
  intros m Hm. unfold image_read_sector.
  destruct (hdd_image_read _ _ _ _ _) as [[ret buf] w]. exact Hm.
Qed.

(** Taking a statement of the executor apart. *)
Ltac keeps_step :=
  lazymatch goal with
  | |- keeps _ (bind _ _) => apply keeps_bind; [| intros ?; cbv beta ]
  | |- keeps _ (if _ then _ else _) => apply keeps_if
  | |- keeps _ get => apply keeps_get
  | |- keeps _ world => apply keeps_world
  | |- keeps _ (next _) => apply keeps_next
  | |- keeps _ (return_ _) => apply keeps_return
  | |- keeps _ (fatal _) => apply keeps_fatal
  | |- keeps _ (emit _) => apply keeps_emit
  | |- keeps _ (extern _ _) => apply keeps_extern
  | |- keeps _ (ask _) => apply keeps_ask
  | |- keeps _ (while _ _ _ _) => apply keeps_while; intros ?
  | |- keeps _ (esdi_mca_set_callback _) => apply keeps_set_callback
  | |- keeps _ (raise_irq _ _) => apply keeps_raise_irq
  | |- keeps _ cmd_unsupported => apply keeps_cmd_unsupported
  | |- keeps _ device_not_present => apply keeps_device_not_present
  | |- keeps _ rba_out_of_range => apply keeps_rba_out_of_range
  | |- keeps _ defective_block => apply keeps_defective_block
  | |- keeps _ complete_command_status => apply keeps_complete_command_status
  | |- keeps _ (image_read_sector _) => apply keeps_image_read_sector
  | |- keeps _ (upd _) => apply keeps_upd; first [inv_upd | inv_upd_bits]
  | |- keeps _ start_reset => unfold start_reset
  | |- keeps _ update_irq => unfold update_irq
  | |- keeps _ ESDI_DRIVE_ONLY => unfold ESDI_DRIVE_ONLY
  | |- keeps _ ESDI_ADAPTER_ONLY => unfold ESDI_ADAPTER_ONLY
  | |- keeps _ (check_present _) => unfold check_present
  | |- keeps _ irq_in_progress_check => unfold irq_in_progress_check
  | |- keeps _ (read_sectors _ _) => unfold read_sectors
  | |- keeps _ (read_sector _ _) => unfold read_sector
  | |- keeps _ (write_sectors _ _) => unfold write_sectors
  | |- keeps _ (write_sector _ _) => unfold write_sector
  | |- keeps _ buffer_in_sectors => unfold buffer_in_sectors
  | |- keeps _ buffer_out_sectors => unfold buffer_out_sectors
  | |- keeps _ (words_to_dma _) => unfold words_to_dma
  | |- keeps _ (word_to_dma _ _) => unfold word_to_dma
  | |- keeps _ (word_from_dma _ _) => unfold word_from_dma
  | |- keeps _ (words_from_dma _) => unfold words_from_dma
  end.

Ltac keeps_tac := repeat keeps_step.

Lemma keeps_case_read : keeps (W:=W) adapter_inv case_read.
Proof. unfold case_read. keeps_tac. Qed.

Lemma keeps_case_write : keeps (W:=W) adapter_inv case_write.
Proof. unfold case_write. keeps_tac. Qed.

Lemma keeps_case_read_verify : keeps (W:=W) adapter_inv case_read_verify.
Proof. unfold case_read_verify. keeps_tac. Qed.

Lemma keeps_case_seek : keeps (W:=W) adapter_inv case_seek.
Proof. unfold case_seek. keeps_tac. Qed.

Lemma keeps_case_park_heads : keeps (W:=W) adapter_inv case_park_heads.
Proof. unfold case_park_heads. keeps_tac. Qed.

Lemma keeps_case_get_dev_status : keeps (W:=W) adapter_inv case_get_dev_status.
Proof. unfold case_get_dev_status. keeps_tac. Qed.

Lemma keeps_case_get_dev_config : keeps (W:=W) adapter_inv case_get_dev_config.
Proof. unfold case_get_dev_config. keeps_tac. Qed.

Lemma keeps_case_get_pos_info : keeps (W:=W) adapter_inv case_get_pos_info.
Proof. unfold case_get_pos_info. keeps_tac. Qed.

Lemma keeps_case_write_sector_buffer :
  keeps (W:=W) adapter_inv case_write_sector_buffer.
Proof. unfold case_write_sector_buffer. keeps_tac. Qed.

Lemma keeps_case_read_sector_buffer :
  keeps (W:=W) adapter_inv case_read_sector_buffer.
Proof. unfold case_read_sector_buffer. keeps_tac. Qed.

Lemma keeps_case_0x12 : keeps (W:=W) adapter_inv case_0x12.
Proof. unfold case_0x12. keeps_tac. Qed.

Lemma keeps_case_format : keeps (W:=W) adapter_inv case_format.
Proof. unfold case_format. keeps_tac. Qed.

Lemma keeps_esdi_callback : keeps (W:=W) adapter_inv esdi_callback_body.
Proof.
  unfold esdi_callback_body.
  apply keeps_bind; [apply keeps_get | intros d; cbv beta].
  apply keeps_if.
  - (* the reset sequencer *)
    intros m [_ Hq]. unfold_monad. cbn. split; [| exact Hq].
    intros _. right. reflexivity.
  - repeat first
      [ apply keeps_if
      | apply keeps_fatal
      | apply keeps_case_read
      | apply keeps_case_write
      | apply keeps_case_read_verify
      | apply keeps_case_seek
      | apply keeps_case_park_heads
      | apply keeps_case_get_dev_status
      | apply keeps_case_get_dev_config
      | apply keeps_case_get_pos_info
      | apply keeps_case_write_sector_buffer
      | apply keeps_case_read_sector_buffer
      | apply keeps_case_0x12
      | apply keeps_case_format ].
Qed.

Lemma keeps_esdi_read port : keeps (W:=W) adapter_inv (esdi_read_body port).
Proof. unfold esdi_read_body. keeps_tac. Qed.

Lemma keeps_esdi_readw port : keeps (W:=W) adapter_inv (esdi_readw_body port).
Proof. unfold esdi_readw_body. keeps_tac. Qed.

Lemma keeps_attn_cmd_req target who :
  keeps (W:=W) adapter_inv (attn_cmd_req target who).
Proof.
  intros m [Hirq (Hpos & Hlen & Hflag)]. unfold attn_cmd_req. unfold_monad.
  destruct (nz (cmd_req_in_progress (dev m))); cbn; [exact Logic.I |].
  split.
  - intros Hb. apply Hirq. exact (irq_bit_set_busy (dev m) Hb).
  - unfold queue_ok. cbn. repeat split; first [lia | exact Hlen].
Qed.

Lemma keeps_attn_eoi : keeps (W:=W) adapter_inv attn_eoi.
Proof.
  intros m [Hirq Hq]. unfold attn_eoi, clear_irq. unfold_monad. cbn.
  destruct (nz (Z.land (basic_ctrl (dev m)) CTRL_IRQ_ENA)); cbn;
    (split; [| exact Hq]); intros Hb; exfalso;
    exact (irq_bit_clear_irq (dev m) Hb).
Qed.

Lemma keeps_esdi_write port val :
  keeps (W:=W) adapter_inv (esdi_write_body port val).
Proof.
  unfold esdi_write_body.
  repeat first
    [ apply keeps_attn_cmd_req
    | apply keeps_attn_eoi
    | keeps_step ].
Qed.

Lemma keeps_esdi_writew port val :
  keeps (W:=W) adapter_inv (esdi_writew_body port val).
Proof.
  intros m [Hirq (Hpos & Hlen & Hflag)].
  unfold esdi_writew_body. unfold_monad.
  destruct (Z.land port 7 =? 0); [| exact Logic.I].
  destruct (Z.geb_spec (cmd_pos (dev m)) 4) as [Hge | Hlt];
    cbn; [exact Logic.I |].
  set (q := store (cmd_data (dev m)) (cmd_pos (dev m)) (u16 val)).
  assert (Hq0 : 1 <= cmd_pos (dev m) ->
                word_at q 0 = word_at (cmd_data (dev m)) 0).
  { intros H. apply word_at_store_other. lia. }
  change (_ || _) with (queue_full q (cmd_pos (dev m) + 1)).
  destruct (queue_full q (cmd_pos (dev m) + 1)) eqn:Hfull; cbn.
  - destruct (Z.land (word_at q 0) CMD_DEVICE_SEL =? cmd_dev (dev m)); cbn;
      [| exact Logic.I].
    rewrite esdi_mca_set_callback_run. cbn. split.
    + intros Hb. exfalso. apply Hb. reflexivity.
    + unfold queue_ok. cbn. subst q. rewrite length_store.
      repeat split; first [lia | exact Hlen].
  - assert (Hnot : ~ ((Z.land (word_at q 0) CMD_SIZE_4 <> 0
                       /\ cmd_pos (dev m) + 1 = 4)
                      \/ (Z.land (word_at q 0) CMD_SIZE_4 = 0
                          /\ cmd_pos (dev m) + 1 = 2))).
    { rewrite <- queue_full_spec, Hfull. discriminate. }
    split; [exact Hirq |].
    unfold queue_ok. cbn. fold q. subst q. rewrite length_store.
    set (q := store (cmd_data (dev m)) (cmd_pos (dev m)) (u16 val)) in *.
    assert (Hcases : cmd_pos (dev m) = 0 \/ cmd_pos (dev m) = 1
                     \/ cmd_pos (dev m) = 2 \/ cmd_pos (dev m) = 3) by lia.
    destruct Hcases as [H0 | [H1 | [H2 | H3]]].
    + repeat split; first [lia | exact Hlen].
    + split; [lia |]. split; [exact Hlen |]. intros _ Hz.
      apply Hnot. right. split; [exact Hz | lia].
    + split; [lia |]. split; [exact Hlen |]. intros _.
      rewrite Hq0 by lia. apply Hflag. lia.
    + exfalso. apply Hnot. left. split; [| lia].
      rewrite Hq0 by lia. apply Hflag. lia.
Qed.

Lemma adapter_inv_init timer_add local d0 d1 :
  adapter_inv (esdi_init timer_add local d0 d1).
Proof.
  unfold esdi_init. split.
  - intros Hb. exfalso. apply Hb. reflexivity.
  - destruct (local =? ESDI_IS_ADAPTER);
      [| destruct (local =? ESDI_IS_INTEGRATED)];
      (unfold queue_ok; cbn; repeat split; lia).
Qed.

Lemma step_keeps_inv (o : op W) (m m' : mach W) :
  adapter_inv (dev m) -> step o m = Done tt m' -> adapter_inv (dev m').
Proof.
  intros Hm Hstep. destruct o as [port | port | port val | port val | | f];
    cbn [step] in Hstep.
  - pose proof (keeps_call _ _ m (keeps_esdi_read port) Hm) as H.
    unfold esdi_read in Hstep. destruct (call _ m); [| discriminate].
    injection Hstep as <-. exact H.
  - pose proof (keeps_call _ _ m (keeps_esdi_readw port) Hm) as H.
    unfold esdi_readw in Hstep. destruct (call _ m); [| discriminate].
    injection Hstep as <-. exact H.
  - pose proof (keeps_call _ _ m (keeps_esdi_write port (u8 val)) Hm) as H.
    unfold esdi_write in Hstep. rewrite Hstep in H. exact H.
  - pose proof (keeps_call _ _ m (keeps_esdi_writew port (u16 val)) Hm) as H.
    unfold esdi_writew in Hstep. rewrite Hstep in H. exact H.
  - destruct (timer (dev m)).
    + pose proof (keeps_call _ _
                    (mk_mach (set_timer None (dev m)) (ext m) (log m))
                    keeps_esdi_callback Hm) as H.
      unfold esdi_callback in Hstep. rewrite Hstep in H. exact H.
    + injection Hstep as <-. exact Hm.
  - injection Hstep as <-. exact Hm.
Qed.

Lemma reachable_inv (m : mach W) : reachable m -> adapter_inv (dev m).
Proof.
  induction 1 as [timer_add local d0 d1 w | o m m' _ IH Hstep].
  - apply adapter_inv_init.
  - exact (step_keeps_inv o m m' IH Hstep).
Qed.

End Invariant.

(** ** The interrupt bit of the status register (C6) *)

Section IrqBit.

Context {W : Type} {E : Extern W}.

Lemma reachable_run (ops : list (op W)) : forall m m',
  reachable m -> run ops m = Done tt m' -> reachable m'.
Proof.
  induction ops as [| o ops IH]; intros m m' Hm Hrun; cbn in Hrun.
  - injection Hrun as <-. exact Hm.
  - destruct (step o m) as [[] m1 | msg m1] eqn:Hstep; [| discriminate].
    exact (IH m1 m' (reach_step o m m1 Hm Hstep) Hrun).
Qed.

(** The cursor of the command queue is inside the queue in every
    reachable state: the guard of [esdi_writew] never fires. *)
Lemma reachable_queue (m : mach W) :
  reachable m ->
  0 <= cmd_pos (dev m) < 4 /\ length (cmd_data (dev m)) = 4%nat.
Proof.
  intros Hm. destruct (reachable_inv m Hm) as [_ (Hpos & Hlen & _)].
  split; assumption.
Qed.

Lemma run_snoc (ops : list (op W)) (o : op W) : forall m,
  run (ops ++ [o]) m
  = match run ops m with
    | Done _ m1 => step o m1
    | Crashed msg m1 => Crashed msg m1
    end.
Proof.
  induction ops as [| a ops IH]; intros m; cbn [app run].
  - destruct (step o m) as [[] m1 | msg m1]; reflexivity.
  - destruct (step a m) as [[] m1 | msg m1]; [apply IH | reflexivity].
Qed.

(** *** The register handlers and the interrupt fields

    No register handler sets the interrupt bit of the status register,
    and none writes the interrupt status register. *)

Ltac kept_upd :=
  let d := fresh "d" in
  let Hirq := fresh "Hirq" in
  let Hk := fresh "Hk" in
  let Hb := fresh "Hb" in
  intros d [Hirq Hk]; split; [| exact Hk];
  first
    [ exact Hirq
    | intros Hb; exfalso; apply Hb; reflexivity
    | intros Hb; exfalso; exact (irq_bit_clear_irq d Hb)
    | intros Hb; exact (Hirq (irq_bit_clear_out_full d Hb))
    | intros Hb; exact (Hirq (irq_bit_set_busy d Hb)) ].

Ltac kept_step :=
  lazymatch goal with
  | |- keeps _ (bind _ _) => apply keeps_bind; [| intros ?; cbv beta ]
  | |- keeps _ (if _ then _ else _) => apply keeps_if
  | |- keeps _ get => apply keeps_get
  | |- keeps _ (next _) => apply keeps_next
  | |- keeps _ (return_ _) => apply keeps_return
  | |- keeps _ (fatal _) => apply keeps_fatal
  | |- keeps _ (emit _) => apply keeps_emit
  | |- keeps _ (upd _) => apply keeps_upd; kept_upd
  | |- keeps _ (esdi_mca_set_callback _) => unfold esdi_mca_set_callback
  | |- keeps _ start_reset => unfold start_reset
  | |- keeps _ update_irq => unfold update_irq
  | |- keeps _ clear_irq => unfold clear_irq
  | |- keeps _ (attn_cmd_req _ _) => unfold attn_cmd_req
  | |- keeps _ attn_eoi => unfold attn_eoi
  end.

Lemma kept_esdi_read b k port :
  keeps (W:=W) (irq_kept b k) (esdi_read_body port).
Proof. unfold esdi_read_body. repeat kept_step. Qed.

Lemma kept_esdi_readw b k port :
  keeps (W:=W) (irq_kept b k) (esdi_readw_body port).
Proof. unfold esdi_readw_body. repeat kept_step. Qed.

Lemma kept_esdi_write b k port val :
  keeps (W:=W) (irq_kept b k) (esdi_write_body port val).
Proof. unfold esdi_write_body. repeat kept_step. Qed.

Lemma kept_esdi_writew b k port val :
  keeps (W:=W) (irq_kept b k) (esdi_writew_body port val).
Proof. unfold esdi_writew_body. repeat kept_step. Qed.

(** A register access or a move of the world leaves the interrupt bit
    clear when it was clear, and the latched code as it was. *)
Lemma step_keeps_irq (o : op W) (m m' : mach W) :
  o <> TimerFire ->
  step o m = Done tt m' ->
  (irq_bit (dev m') -> irq_bit (dev m))
  /\ irq_status (dev m') = irq_status (dev m).
Proof.
  intros Ho Hstep.
  assert (Hm : irq_kept (irq_bit (dev m)) (irq_status (dev m)) (dev m))
    by (split; [trivial | reflexivity]).
  destruct o as [port | port | port val | port val | | f];
    cbn [step] in Hstep.
  - pose proof (keeps_call _ _ m (kept_esdi_read _ _ port) Hm) as H.
    unfold esdi_read in Hstep. destruct (call _ m); [| discriminate].
    injection Hstep as <-. exact H.
  - pose proof (keeps_call _ _ m (kept_esdi_readw _ _ port) Hm) as H.
    unfold esdi_readw in Hstep. destruct (call _ m); [| discriminate].
    injection Hstep as <-. exact H.
  - pose proof (keeps_call _ _ m (kept_esdi_write _ _ port (u8 val)) Hm) as H.
    unfold esdi_write in Hstep. rewrite Hstep in H. exact H.
  - pose proof (keeps_call _ _ m (kept_esdi_writew _ _ port (u16 val)) Hm)
      as H.
    unfold esdi_writew in Hstep. rewrite Hstep in H. exact H.
  - exfalso. apply Ho. reflexivity.
  - injection Hstep as <-. exact Hm.
Qed.

(** An end-of-interrupt leaves the interrupt bit clear. *)
Lemma eoi_clears_irq_bit (o : op W) (m m' : mach W) :
  is_eoi o = true -> step o m = Done tt m' -> ~ irq_bit (dev m').
Proof.
  destruct o as [port | port | port val | port val | | f];
    cbn [is_eoi]; try discriminate.
  intros H Hstep. apply andb_prop in H. destruct H as [Hp Hr].
  apply Z.eqb_eq in Hp, Hr.
  assert (Heoi : forall m0 : mach W,
            match attn_eoi m0 with
            | Next _ m1 | Return _ m1 => ~ irq_bit (dev m1)
            | Fatal _ _ => True
            end).
  { intros m0. unfold attn_eoi, clear_irq. unfold_monad. cbn.
    destruct (nz (Z.land (basic_ctrl (dev m0)) CTRL_IRQ_ENA)); cbn;
      exact (irq_bit_clear_irq (set_irq_in_progress 0 (dev m0))). }
  cbn [step] in Hstep. unfold esdi_write, call, esdi_write_body in Hstep.
  rewrite Hp, Hr in Hstep.
  change (3 =? 2) with false in Hstep.
  change (3 =? 3) with true in Hstep.
  change (ATTN_EOI =? ATTN_CMD_REQ) with false in Hstep.
  change (ATTN_EOI =? ATTN_EOI) with true in Hstep.
  cbv iota in Hstep.
  specialize (Heoi m).
  destruct (Z.land (u8 val) ATTN_DEVICE_SEL =? ATTN_HOST_ADAPTER);
    [| destruct (Z.land (u8 val) ATTN_DEVICE_SEL =? ATTN_DEVICE_0);
       [| destruct (Z.land (u8 val) ATTN_DEVICE_SEL =? ATTN_DEVICE_1)]];
    try discriminate Hstep;
    (destruct (attn_eoi m) as [[] m1 | [] m1 | msg m1];
     [ injection Hstep as <-; exact Heoi
     | injection Hstep as <-; exact Heoi
     | discriminate Hstep ]).
Qed.

(** C6, as amended.  The adapter is followed from [esdi_init] through
    any series of register reads, register writes, callbacks and moves
    of the world.  If the interrupt bit of the status register is set
    at the end, a callback of the series latched the interrupt: it left
    the bit set, having found it clear or having changed the code in
    the interrupt status register; the code it latched is still in the
    interrupt status register; and no end-of-interrupt attention
    request has been written since. *)
Theorem irq_bit_only_if_unacknowledged timer_add local d0 d1 (w : W)
    (ops : list (op W)) (m : mach W) :
  let m0 := mk_mach (esdi_init timer_add local d0 d1) w [] in
  run ops m0 = Done tt m ->
  irq_bit (dev m) ->
  exists pre post m1 m2,
    ops = pre ++ TimerFire :: post
    /\ run pre m0 = Done tt m1
    /\ step TimerFire m1 = Done tt m2
    /\ (~ irq_bit (dev m1) \/ irq_status (dev m2) <> irq_status (dev m1))
    /\ irq_bit (dev m2)
    /\ run post m2 = Done tt m
    /\ irq_status (dev m) = irq_status (dev m2)
    /\ Forall (fun o => is_eoi o = false) post.
Proof.
  intros m0. revert m.
  induction ops as [| o ops IH] using rev_ind; intros m Hrun Hbit.
  - exfalso. cbn in Hrun. injection Hrun as <-. apply Hbit.
    subst m0. unfold esdi_init. reflexivity.
  - rewrite run_snoc in Hrun.
    destruct (run ops m0) as [[] mp | msg mp] eqn:Hpre; [| discriminate].
    assert (Hlatch : (~ irq_bit (dev mp)
                      \/ irq_status (dev m) <> irq_status (dev mp)) ->
                     o = TimerFire ->
                     exists pre post m1 m2,
                       ops ++ [o] = pre ++ TimerFire :: post
                       /\ run pre m0 = Done tt m1
                       /\ step TimerFire m1 = Done tt m2
                       /\ (~ irq_bit (dev m1)
                           \/ irq_status (dev m2) <> irq_status (dev m1))
                       /\ irq_bit (dev m2)
                       /\ run post m2 = Done tt m
                       /\ irq_status (dev m) = irq_status (dev m2)
                       /\ Forall (fun o => is_eoi o = false) post).
    { intros Hl Ho. subst o. exists ops, [], mp, m.
      split; [reflexivity |]. split; [exact Hpre |].
      split; [exact Hrun |]. split; [exact Hl |]. split; [exact Hbit |].
      split; [reflexivity |]. split; [reflexivity | constructor]. }
    assert (Hkeep : irq_bit (dev mp) ->
                    irq_status (dev m) = irq_status (dev mp) ->
                    is_eoi o = false ->
                    exists pre post m1 m2,
                      ops ++ [o] = pre ++ TimerFire :: post
                      /\ run pre m0 = Done tt m1
                      /\ step TimerFire m1 = Done tt m2
                      /\ (~ irq_bit (dev m1)
                          \/ irq_status (dev m2) <> irq_status (dev m1))
                      /\ irq_bit (dev m2)
                      /\ run post m2 = Done tt m
                      /\ irq_status (dev m) = irq_status (dev m2)
                      /\ Forall (fun o => is_eoi o = false) post).
    { intros Hb Hk Hno.
      destruct (IH mp eq_refl Hb)
        as (pre & post & m1 & m2 & -> & Hr1 & Hs & Hl & Hb2 & Hr2 & Hk2 & Hall).
      exists pre, (post ++ [o]), m1, m2.
      split; [rewrite <- app_assoc; reflexivity |].
      split; [exact Hr1 |]. split; [exact Hs |]. split; [exact Hl |].
      split; [exact Hb2 |].
      split; [rewrite run_snoc, Hr2; exact Hrun |].
      split; [rewrite Hk; exact Hk2 |].
      apply Forall_app. split; [exact Hall |].
      constructor; [exact Hno | constructor]. }
    assert (Hdec : irq_bit (dev mp) \/ ~ irq_bit (dev mp)).
    { unfold irq_bit.
      destruct (Z.eq_dec (Z.land (status (dev mp)) STATUS_IRQ) 0) as [-> | Hne];
        [right; intros H; apply H; reflexivity | left; exact Hne]. }
    assert (Hot : o = TimerFire \/ o <> TimerFire)
      by (destruct o; (left; reflexivity) || (right; discriminate)).
    destruct Hot as [Ho | Hot].
    + destruct Hdec as [Hb | Hnb].
      * destruct (Z.eq_dec (irq_status (dev m)) (irq_status (dev mp)))
          as [Hk | Hk].
        -- apply (Hkeep Hb Hk). rewrite Ho. reflexivity.
        -- exact (Hlatch (or_intror Hk) Ho).
      * exact (Hlatch (or_introl Hnb) Ho).
    + destruct (step_keeps_irq o mp m Hot Hrun) as [Hb Hk].
      apply (Hkeep (Hb Hbit) Hk).
      destruct (is_eoi o) eqn:He; [| reflexivity].
      exfalso. exact (eoi_clears_irq_bit o mp m He Hrun Hbit).
Qed.

End IrqBit.

(** The guest resets the adapter and lets the callback end the reset:
    the bit is set, the reset-complete code is latched by that
    callback, and nothing has been written since. *)
Lemma irq_bit_only_if_unacknowledged_witness :
  let ops : list (op Sim.t) := [IoWrite 2 0x80; IoWrite 2 0x02; TimerFire] in
  exists m pre post,
    run ops (Sim.boot 1000 0) = Done tt m
    /\ irq_bit (dev m)
    /\ ops = pre ++ TimerFire :: post
    /\ irq_status (dev m) = Z.lor IRQ_HOST_ADAPTER IRQ_RESET_COMPLETE
    /\ Forall (fun o => is_eoi o = false) post.
Proof.
  intros ops.
  destruct (run ops (Sim.boot 1000 0)) as [[] m | msg m] eqn:Hrun.
  - assert (Hv : run ops (Sim.boot 1000 0) = Done tt m ->
                 irq_bit (dev m)
                 /\ irq_status (dev m)
                    = Z.lor IRQ_HOST_ADAPTER IRQ_RESET_COMPLETE).
    { intros Hr. vm_compute in Hr. injection Hr as <-.
      split; [vm_compute; discriminate | reflexivity]. }
    destruct (Hv Hrun) as [Hb Hk].
    destruct (irq_bit_only_if_unacknowledged Sim.timer_add ESDI_IS_ADAPTER
                (Sim.drive 1000) Sim.no_drive (Sim.numbered 1000 0) ops m
                Hrun Hb)
      as (pre & post & m1 & m2 & Hops & _ & _ & _ & _ & _ & _ & Hall).
    exists m, pre, post.
    split; [reflexivity |]. split; [exact Hb |]. split; [exact Hops |].
    split; [exact Hk | exact Hall].
  - exfalso. vm_compute in Hrun. discriminate Hrun.
Defined.

(** C6 as stated fails.  The guest asks the host adapter for its POS
    information; the callback latches the command-complete code, sets
    the interrupt bit and marks the interrupt in flight; the guest then
    reads the interrupt-status register, which clears the interrupt bit
    of the status register.  No end-of-interrupt has been written since
    the interrupt was latched, the code is still latched and the
    interrupt is still marked in flight, and the bit is clear. *)
Lemma irq_bit_cleared_by_status_read :
  after
    (run (power_on
          ++ issue ATTN_HOST_ADAPTER
               [Z.lor CMD_GET_POS_INFO ATTN_HOST_ADAPTER; 0]
          ++ [TimerFire])
       (Sim.boot 1000 0))
    (fun m1 =>
       irq_bit (dev m1)
       /\ irq_status (dev m1)
          = Z.lor IRQ_HOST_ADAPTER IRQ_CMD_COMPLETE_SUCCESS
       /\ is_eoi (@IoRead Sim.t 3) = false
       /\ after (step (IoRead 3) m1)
            (fun m =>
               irq_in_progress (dev m) = 1
               /\ irq_status (dev m)
                  = Z.lor IRQ_HOST_ADAPTER IRQ_CMD_COMPLETE_SUCCESS
               /\ ~ irq_bit (dev m))).
Proof.
  vm_compute. repeat split.
  - intros H. discriminate H.
  - intros H. apply H. reflexivity.
Qed.

(** ** The transfer loops *)

Section TransferLoops.

Context {W : Type} {E : Extern W}.

Lemma set_data_pos_same d : set_data_pos (data_pos d) d = d.
Proof. destruct d; reflexivity. Qed.

Lemma set_data_same d : set_data (data d) d = d.
Proof. destruct d; reflexivity. Qed.

Lemma dma_writes_app chan buf : forall r1 from r2,
  dma_writes chan buf from (r1 ++ r2)
  = dma_writes chan buf from r1
    ++ dma_writes chan buf (from + Z.of_nat (length r1)) r2.
Proof.
  induction r1 as [| r r1 IH]; intros from r2.
  - cbn. rewrite Z.add_0_r. reflexivity.
  - cbn [app dma_writes length]. rewrite IH. cbn [app].
    do 3 f_equal. lia.
Qed.

Lemma word_to_dma_run stall (m : mach W) :
  word_to_dma stall tt m =
    let d := dev m in
    let r := dma_channel_write (dma d) (word_at (data d) (data_pos d)) (ext m) in
    let l := log m ++ [DmaWrite (dma d) (word_at (data d) (data_pos d)) (fst r)] in
    if fst r =? DMA_NODATA
    then Return tt (mk_mach (set_timer (sched stall) d) (snd r) l)
    else Next tt (mk_mach (set_data_pos (data_pos d + 1) d) (snd r) l).
Proof.
  unfold word_to_dma. unfold_monad. cbn.
  destruct (dma_channel_write _ _ _) as [val w']. cbn.
  destruct (val =? DMA_NODATA); [| reflexivity].
  rewrite esdi_mca_set_callback_run. reflexivity.
Qed.

Lemma word_from_dma_run stall (m : mach W) :
  word_from_dma stall tt m =
    let d := dev m in
    let r := dma_channel_read (dma d) (ext m) in
    let l := log m ++ [DmaRead (dma d) (fst r)] in
    if fst r =? DMA_NODATA
    then Return tt (mk_mach (set_timer (sched stall) d) (snd r) l)
    else Next tt
           (mk_mach
              (set_data_pos (data_pos d + 1)
                 (set_data (store (data d) (data_pos d) (Z.land (fst r) 0xffff)) d))
              (snd r) l).
Proof.
  unfold word_from_dma. unfold_monad. cbn.
  destruct (dma_channel_read _ _) as [val w']. cbn.
  destruct (val =? DMA_NODATA); [| reflexivity].
  rewrite esdi_mca_set_callback_run. reflexivity.
Qed.

(** The inner loop towards memory: the words from the cursor on are
    offered in order, each once; either all are taken and the cursor
    ends at 256, or the loop returns at the first word [j] that is not
    taken, with the cursor on it and the callback scheduled. *)
Lemma words_to_dma_loop stall : forall n (m : mach W),
  0 <= data_pos (dev m) <= 256 ->
  n = words_left (dev m) ->
  match while n (fun d => data_pos d <? 256) (word_to_dma stall) tt m with
  | Next _ m' =>
      exists rets,
        Z.of_nat (length rets) = 256 - data_pos (dev m)
        /\ Forall (fun r => r <> DMA_NODATA) rets
        /\ dev m' = set_data_pos 256 (dev m)
        /\ log m' = log m ++ dma_writes (dma (dev m)) (data (dev m))
                               (data_pos (dev m)) rets
  | Return _ m' =>
      exists rets,
        data_pos (dev m) + Z.of_nat (length rets) < 256
        /\ Forall (fun r => r <> DMA_NODATA) rets
        /\ dev m' = set_timer (sched stall)
                      (set_data_pos (data_pos (dev m) + Z.of_nat (length rets))
                         (dev m))
        /\ log m' = log m ++ dma_writes (dma (dev m)) (data (dev m))
                               (data_pos (dev m)) (rets ++ [DMA_NODATA])
  | Fatal _ _ => False
  end.
Proof.
  unfold words_left.
  induction n as [| n IH]; intros m Hpos Hn.
  - rewrite while_O. unfold next. exists []. cbn.
    assert (Hp : data_pos (dev m) = 256) by lia.
    refine (conj _ (conj _ (conj _ _))).
    + lia.
    + constructor.
    + rewrite <- Hp. symmetry. apply set_data_pos_same.
    + symmetry. apply app_nil_r.
  - rewrite while_S. unfold bind at 1, get.
    replace (data_pos (dev m) <? 256) with true
      by (symmetry; apply Z.ltb_lt; lia).
    unfold bind. rewrite word_to_dma_run. cbv zeta.
    destruct (dma_channel_write _ _ _) as [val w']. cbn [fst snd].
    destruct (Z.eqb_spec val DMA_NODATA) as [-> | Hval].
    + exists []. cbn [length app dma_writes]. rewrite Z.add_0_r.
      refine (conj _ (conj _ (conj _ _))).
      * lia.
      * constructor.
      * rewrite set_data_pos_same. reflexivity.
      * reflexivity.
    + specialize (IH (mk_mach (set_data_pos (data_pos (dev m) + 1) (dev m)) w'
                        (log m ++ [DmaWrite (dma (dev m))
                                     (word_at (data (dev m)) (data_pos (dev m)))
                                     val]))).
      cbn [dev ext log] in IH. cbn in IH.
      specialize (IH ltac:(lia) ltac:(lia)).
      destruct (while n _ _ tt _) as [[] m' | [] m' | msg m'].
      * destruct IH as (rets & Hlen & Hall & Hdev & Hlog).
        exists (val :: rets). cbn [length dma_writes].
        refine (conj _ (conj _ (conj _ _))).
        -- lia.
        -- constructor; assumption.
        -- exact Hdev.
        -- rewrite Hlog, <- app_assoc. reflexivity.
      * destruct IH as (rets & Hlen & Hall & Hdev & Hlog).
        exists (val :: rets). cbn [length dma_writes app].
        refine (conj _ (conj _ (conj _ _))).
        -- lia.
        -- constructor; assumption.
        -- rewrite Hdev.
           replace (data_pos (dev m) + Z.of_nat (S (length rets)))
             with (data_pos (dev m) + 1 + Z.of_nat (length rets)) by lia.
           reflexivity.
        -- rewrite Hlog, <- app_assoc. reflexivity.
      * exact IH.
Qed.

Lemma words_to_dma_spec stall (m : mach W) :
  0 <= data_pos (dev m) < 256 ->
  match words_to_dma stall m with
  | Next _ m' => dev m' = set_data_pos 256 (dev m)
  | Return _ m' =>
      exists j,
        data_pos (dev m) <= j < 256
        /\ dev m' = set_timer (sched stall) (set_data_pos j (dev m))
        /\ exists s,
             log m' = s ++ [DmaWrite (dma (dev m)) (word_at (data (dev m)) j)
                              DMA_NODATA]
  | Fatal _ _ => False
  end.
Proof.
  intros Hpos. unfold words_to_dma. unfold bind, get.
  pose proof (words_to_dma_loop stall (words_left (dev m)) m
                ltac:(lia) eq_refl) as H.
  destruct (while _ _ _ tt m) as [[] m' | [] m' | msg m'].
  - destruct H as (rets & _ & _ & Hdev & _). exact Hdev.
  - destruct H as (rets & Hlen & _ & Hdev & Hlog).
    exists (data_pos (dev m) + Z.of_nat (length rets)).
    split; [lia |]. split; [exact Hdev |].
    rewrite dma_writes_app in Hlog. cbn [dma_writes] in Hlog.
    rewrite app_assoc in Hlog. eexists. exact Hlog.
  - exact H.
Qed.

(** The inner loop from memory. *)
Lemma words_from_dma_loop stall : forall n (m : mach W),
  0 <= data_pos (dev m) <= 256 ->
  n = words_left (dev m) ->
  match while n (fun d => data_pos d <? 256) (word_from_dma stall) tt m with
  | Next _ m' =>
      exists vals,
        Z.of_nat (length vals) = 256 - data_pos (dev m)
        /\ Forall (fun r => r <> DMA_NODATA) vals
        /\ dev m' = set_data_pos 256
                      (set_data (fill_words (data (dev m)) (data_pos (dev m)) vals)
                         (dev m))
        /\ log m' = log m ++ map (DmaRead (dma (dev m))) vals
  | Return _ m' =>
      exists vals,
        data_pos (dev m) + Z.of_nat (length vals) < 256
        /\ Forall (fun r => r <> DMA_NODATA) vals
        /\ dev m' = set_timer (sched stall)
                      (set_data_pos (data_pos (dev m) + Z.of_nat (length vals))
                         (set_data
                            (fill_words (data (dev m)) (data_pos (dev m)) vals)
                            (dev m)))
        /\ log m' = log m ++ map (DmaRead (dma (dev m))) (vals ++ [DMA_NODATA])
  | Fatal _ _ => False
  end.
Proof.
  unfold words_left.
  induction n as [| n IH]; intros m Hpos Hn.
  - rewrite while_O. unfold next. exists []. cbn [length fill_words map].
    assert (Hp : data_pos (dev m) = 256) by lia.
    refine (conj _ (conj _ (conj _ _))).
    + lia.
    + constructor.
    + rewrite set_data_same, <- Hp. symmetry. apply set_data_pos_same.
    + symmetry. apply app_nil_r.
  - rewrite while_S. unfold bind at 1, get.
    replace (data_pos (dev m) <? 256) with true
      by (symmetry; apply Z.ltb_lt; lia).
    unfold bind. rewrite word_from_dma_run. cbv zeta.
    destruct (dma_channel_read _ _) as [val w']. cbn [fst snd].
    destruct (Z.eqb_spec val DMA_NODATA) as [-> | Hval].
    + exists []. cbn [length app fill_words map]. rewrite Z.add_0_r.
      refine (conj _ (conj _ (conj _ _))).
      * lia.
      * constructor.
      * rewrite set_data_same, set_data_pos_same. reflexivity.
      * reflexivity.
    + specialize (IH (mk_mach
                        (set_data_pos (data_pos (dev m) + 1)
                           (set_data (store (data (dev m)) (data_pos (dev m))
                                        (Z.land val 0xffff)) (dev m)))
                        w' (log m ++ [DmaRead (dma (dev m)) val]))).
      cbn [dev ext log] in IH. cbn in IH.
      specialize (IH ltac:(lia) ltac:(lia)).
      destruct (while n _ _ tt _) as [[] m' | [] m' | msg m'].
      * destruct IH as (vals & Hlen & Hall & Hdev & Hlog).
        exists (val :: vals). cbn [length fill_words map].
        refine (conj _ (conj _ (conj _ _))).
        -- lia.
        -- constructor; assumption.
        -- exact Hdev.
        -- rewrite Hlog, <- app_assoc. reflexivity.
      * destruct IH as (vals & Hlen & Hall & Hdev & Hlog).
        exists (val :: vals). cbn [length fill_words map app].
        refine (conj _ (conj _ (conj _ _))).
        -- lia.
        -- constructor; assumption.
        -- rewrite Hdev.
           replace (data_pos (dev m) + Z.of_nat (S (length vals)))
             with (data_pos (dev m) + 1 + Z.of_nat (length vals)) by lia.
           reflexivity.
        -- rewrite Hlog, <- app_assoc. reflexivity.
      * exact IH.
Qed.

Lemma words_from_dma_spec stall (m : mach W) :
  0 <= data_pos (dev m) < 256 ->
  match words_from_dma stall m with
  | Next _ m' => exists buf, dev m' = set_data_pos 256 (set_data buf (dev m))
  | Return _ m' =>
      exists j buf,
        data_pos (dev m) <= j < 256
        /\ dev m' = set_timer (sched stall)
                      (set_data_pos j (set_data buf (dev m)))
        /\ exists s, log m' = s ++ [DmaRead (dma (dev m)) DMA_NODATA]
  | Fatal _ _ => False
  end.
Proof.
  intros Hpos. unfold words_from_dma. unfold bind, get.
  pose proof (words_from_dma_loop stall (words_left (dev m)) m
                ltac:(lia) eq_refl) as H.
  destruct (while _ _ _ tt m) as [[] m' | [] m' | msg m'].
  - destruct H as (vals & _ & _ & Hdev & _). eexists. exact Hdev.
  - destruct H as (vals & Hlen & _ & Hdev & Hlog).
    exists (data_pos (dev m) + Z.of_nat (length vals)). eexists.
    split; [lia |]. split; [exact Hdev |].
    rewrite map_app in Hlog. cbn [map] in Hlog.
    rewrite app_assoc in Hlog. eexists. exact Hlog.
  - exact H.
Qed.

End TransferLoops.
Section SectorLoops.

Context {W : Type} {E : Extern W}.

Lemma u32_succ x : u32 (u32 x + 1) = u32 (x + 1).
Proof. unfold u32. apply Z.add_mod_idemp_l. lia. Qed.

Ltac quiet_list :=
  unfold quiet, irq_events;
  repeat match goal with
         | |- context [if ?c then _ else _] => destruct c
         end;
  cbn [app]; repeat constructor.

Lemma quiet_app l1 l2 : quiet l1 -> quiet l2 -> quiet (l1 ++ l2).
Proof. unfold quiet. intros H1 H2. apply Forall_app. split; assumption. Qed.

Lemma words_moved_app l1 l2 :
  words_moved (l1 ++ l2) = words_moved l1 + words_moved l2.
Proof.
  unfold words_moved. induction l1 as [| e l1 IH]; cbn [app fold_right].
  - reflexivity.
  - rewrite IH. lia.
Qed.

Lemma dma_writes_moved chan buf : forall rets from,
  Forall (fun r => r <> DMA_NODATA) rets ->
  quiet (dma_writes chan buf from rets)
  /\ words_moved (dma_writes chan buf from rets) = Z.of_nat (length rets).
Proof.
  induction rets as [| r rets IH]; intros from Hall.
  - split; [quiet_list | reflexivity].
  - apply Forall_cons in Hall. destruct Hall as [Hr Hall].
    destruct (IH (from + 1) Hall) as [Hq Hm].
    assert (Hne : (r =? DMA_NODATA) = false) by (apply Z.eqb_neq; exact Hr).
    cbn [dma_writes]. split.
    + constructor; [exact Hne | exact Hq].
    + unfold words_moved in *. cbn [fold_right moved length].
      rewrite Hne, Hm. lia.
Qed.

Lemma dma_reads_moved chan : forall vals,
  Forall (fun r => r <> DMA_NODATA) vals ->
  quiet (map (DmaRead chan) vals)
  /\ words_moved (map (DmaRead chan) vals) = Z.of_nat (length vals).
Proof.
  induction vals as [| r vals IH]; intros Hall.
  - split; [quiet_list | reflexivity].
  - apply Forall_cons in Hall. destruct Hall as [Hr Hall].
    destruct (IH Hall) as [Hq Hm].
    assert (Hne : (r =? DMA_NODATA) = false) by (apply Z.eqb_neq; exact Hr).
    cbn [map]. split.
    + constructor; [exact Hne | exact Hq].
    + unfold words_moved in *. cbn [fold_right moved length].
      rewrite Hne, Hm. lia.
Qed.

(** The calls an error helper makes are no DMA calls. *)
Lemma error_mach_quiet w1 w2 (m : mach W) :
  exists evs, log (error_mach w1 w2 m) = log m ++ evs /\ quiet evs.
Proof.
  eexists. split; [reflexivity |].
  quiet_list.
Qed.

Lemma passes_snoc (l : loop_t W) c0 (m0 : mach W) c m m1 :
  passes l c0 m0 c m ->
  sector_pos (dev m) < sector_count (dev m) ->
  pass l c m = Next (pass_time l c m) m1 ->
  passes l c0 m0 (pass_time l c m) m1.
Proof.
  intros H Hlt Hrun. induction H as [c m | c m m2 c' m' Hlt1 Hrun1 _ IH].
  - eapply passes_more; [exact Hlt | exact Hrun | apply passes_none].
  - eapply passes_more; [exact Hlt1 | exact Hrun1 |].
    apply IH; assumption.
Qed.

(** The tail of a pass of the read loop: the buffer goes to the DMA
    channel from the cursor on. *)
Lemma read_sector_tail stall (c' : Q) (m m1 : mach W) buf evs0 :
  0 <= data_pos (dev m) < 256 ->
  dev m1 = set_data buf (dev m) ->
  log m1 = log m ++ evs0 ->
  quiet evs0 ->
  words_moved evs0 = 0 ->
  match
    (words_to_dma (ESDI_TIME + stall)%Q ;;
     upd (set_data_pos 0) ;;
     upd (fun d => set_sector_pos (sector_pos d + 1) d) ;;
     upd (fun d => set_rba (u32 (rba d + 1)) d) ;;
     next c') m1
  with
  | Next c2 m' => c2 = c' /\ pass_done m m'
  | Return _ m' =>
      timer (dev m') = sched (ESDI_TIME + stall)%Q
      /\ erase_pos (set_timer (timer (dev m)) (dev m')) = erase_pos (dev m)
      /\ sector_pos (dev m') = sector_pos (dev m)
      /\ rba (dev m') = rba (dev m)
      /\ data_pos (dev m) <= data_pos (dev m') < 256
      /\ exists evs,
           log m' = log m ++ evs ++ [refused_write m']
           /\ quiet evs
           /\ words_moved evs = data_pos (dev m') - data_pos (dev m)
  | Fatal _ _ => False
  end.
Proof.
  intros Hpos Hdev1 Hlog1 Hq0 Hm0.
  unfold bind at 1, words_to_dma. unfold bind at 1, get.
  pose proof (words_to_dma_loop (ESDI_TIME + stall)%Q (words_left (dev m1)) m1
                ltac:(rewrite Hdev1; cbn; lia) eq_refl) as H.
  destruct (while _ _ _ tt m1) as [[] m2 | [] m2 | msg m2];
    rewrite ?Hdev1, ?Hlog1 in H; cbn [dma data data_pos set_data] in H.
  - destruct H as (rets & Hlen & Hall & Hdev & Hlog).
    destruct (dma_writes_moved (dma (dev m)) buf rets (data_pos (dev m)) Hall)
      as [Hq Hm].
    unfold_monad. cbn [dev ext log]. split; [reflexivity |].
    rewrite Hdev, Hlog. unfold pass_done. cbn [dev log].
    split; [reflexivity |]. split; [reflexivity |].
    split; [reflexivity |]. split; [reflexivity |].
    exists (evs0 ++ dma_writes (dma (dev m)) buf (data_pos (dev m)) rets).
    split; [rewrite app_assoc; reflexivity |].
    split; [apply quiet_app; assumption |].
    rewrite words_moved_app, Hm0, Hm. lia.
  - destruct H as (rets & Hlen & Hall & Hdev & Hlog).
    destruct (dma_writes_moved (dma (dev m)) buf rets (data_pos (dev m)) Hall)
      as [Hq Hm].
    rewrite Hdev. cbn [dev].
    split; [reflexivity |]. split; [reflexivity |].
    split; [reflexivity |]. split; [reflexivity |].
    split; [cbn; lia |].
    exists (evs0 ++ dma_writes (dma (dev m)) buf (data_pos (dev m)) rets).
    split.
    + rewrite Hlog, dma_writes_app. cbn [dma_writes].
      unfold refused_write. rewrite Hdev.
      rewrite <- !app_assoc. reflexivity.
    + split; [apply quiet_app; assumption |].
      rewrite words_moved_app, Hm0, Hm. cbn. lia.
  - exact H.
Qed.

(** One pass of the sector loop of a read. *)
Lemma read_sector_spec drive : pass_spec (read_loop drive).
Proof.
  intros c m Hpos. cbn [pass pass_time read_loop].
  unfold pass_stalled. cbn [stall_time refused read_loop].
  unfold read_time, read_sector. unfold bind at 1, get.
  destruct (nz (data_pos (dev m))) eqn:Hnz; cbn [negb].
  - (* inside a sector *)
    unfold bind at 1, next.
    pose proof (read_sector_tail c c m m (data (dev m)) [] Hpos
                  (eq_sym (set_data_same (dev m)))
                  (eq_sym (app_nil_r (log m)))
                  ltac:(quiet_list) eq_refl) as H.
    destruct ((words_to_dma _ ;; _) m) as [a m' | [] m' | msg m'].
    + exact H.
    + right. exact H.
    + exact Logic.I.
  - (* a new sector *)
    unfold bind at 1. unfold bind at 1. unfold bind at 1.
    destruct (rba (dev m) >=? u32 (sectors drive)); [exact Logic.I |].
    unfold next at 1. unfold bind at 1. unfold image_read_sector.
    destruct (hdd_image_read (hdd_num drive) (rba (dev m)) 1 (data (dev m))
                (ext m)) as [[ret buf] w1].
    cbn [fst snd].
    destruct (ret <? 0).
    + unfold bind. rewrite defective_block_run. unfold return_.
      left. split.
      * eexists. split; [reflexivity |]. reflexivity.
      * unfold error_mach. cbn [log dev].
        eexists. split; [rewrite <- app_assoc; reflexivity |].
        quiet_list.
    + unfold bind at 1, ask. cbn [ext dev log].
      destruct (hdd_timing_read (hdd_num drive) (rba (dev m)) 1 w1)
        as [t w2].
      cbn [fst]. unfold next at 1.
      pose proof (read_sector_tail (c + t + esdi_mca_get_xfer_time 1)%Q
                    (c + t + esdi_mca_get_xfer_time 1)%Q m
                    (mk_mach (set_data buf (dev m)) w2
                       (log m ++ [ImageRead (hdd_num drive) (rba (dev m)) ret]))
                    buf [ImageRead (hdd_num drive) (rba (dev m)) ret] Hpos
                    eq_refl eq_refl ltac:(quiet_list) eq_refl) as H.
      match goal with
      | |- match ?x with _ => _ end =>
          destruct x as [a m' | [] m' | msg m']
      end.
      * exact H.
      * right. exact H.
      * exact Logic.I.
Qed.

(** One pass of the sector loop of a write. *)
Lemma write_sector_spec drive : pass_spec (write_loop drive).
Proof.
  intros c m Hpos. cbn [pass pass_time write_loop].
  unfold pass_stalled. cbn [stall_time refused write_loop].
  assert (Hw : forall stall (m : mach W),
            words_from_dma stall m
            = while (words_left (dev m)) (fun d => data_pos d <? 256)
                (word_from_dma stall) tt m) by reflexivity.
  unfold write_time, write_sector. unfold bind at 1. rewrite !Hw. clear Hw.
  pose proof (words_from_dma_loop (ESDI_TIME + c)%Q (words_left (dev m)) m
                ltac:(lia) eq_refl) as H.
  destruct (while _ _ _ tt m) as [[] m1 | [] m1 | msg m1].
  - destruct H as (vals & Hlen & Hall & Hdev & Hlog).
    destruct (dma_reads_moved (dma (dev m)) vals Hall) as [Hq Hm].
    unfold bind at 1, get. unfold bind at 1.
    destruct (rba (dev m1) >=? u32 (sectors drive)); [exact Logic.I |].
    unfold next at 1. unfold bind at 1, extern.
    destruct (hdd_image_write (hdd_num drive) (rba (dev m1)) 1 (data (dev m1))
                (ext m1)) as [ret w1].
    cbn [fst snd].
    destruct (ret <? 0).
    + unfold bind. rewrite defective_block_run. unfold return_.
      left. split.
      * eexists. split; [reflexivity |]. cbn [dev]. rewrite Hdev.
        reflexivity.
      * unfold error_mach. cbn [log dev]. rewrite Hlog.
        eexists. split; [rewrite <- !app_assoc; reflexivity |].
        apply quiet_app; [exact Hq |].
        quiet_list.
    + unfold bind at 1, ask. cbn [ext dev log].
      destruct (hdd_timing_write (hdd_num drive) (rba (dev m1)) 1 w1)
        as [t w2].
      cbn [fst]. unfold_monad. cbn [dev ext log].
      split; [reflexivity |].
      rewrite Hdev, Hlog. unfold pass_done. cbn [dev log].
      split; [reflexivity |]. split; [reflexivity |].
      split; [reflexivity |]. split; [reflexivity |].
      eexists. split; [rewrite <- app_assoc; reflexivity |].
      split.
      * apply quiet_app; [exact Hq | quiet_list].
      * rewrite words_moved_app, Hm. cbn. lia.
  - right. destruct H as (vals & Hlen & Hall & Hdev & Hlog).
    destruct (dma_reads_moved (dma (dev m)) vals Hall) as [Hq Hm].
    rewrite Hdev. cbn [dev].
    split; [reflexivity |]. split; [reflexivity |].
    split; [reflexivity |]. split; [reflexivity |].
    split; [cbn; lia |].
    exists (map (DmaRead (dma (dev m))) vals).
    split.
    + rewrite Hlog, map_app. cbn [map]. unfold refused_read. rewrite Hdev.
      reflexivity.
    + split; [exact Hq |]. rewrite Hm. cbn. lia.
  - exact Logic.I.
Qed.

(** Fields that no pass of a transfer changes. *)
Lemma erase_pos_fields d d' :
  erase_pos d' = erase_pos d ->
  sector_count d' = sector_count d
  /\ timer d' = timer d
  /\ cmd_state d' = cmd_state d
  /\ status d' = status d
  /\ dma d' = dma d.
Proof.
  intros H.
  pose proof (f_equal sector_count H) as H1.
  pose proof (f_equal timer H) as H2.
  pose proof (f_equal cmd_state H) as H3.
  pose proof (f_equal status H) as H4.
  pose proof (f_equal dma H) as H5.
  cbn in *. repeat split; assumption.
Qed.

(** The sector loop: the passes that finish their sector follow one
    another, each from where the one before left the adapter, the world
    and [cmd_time]; the loop ends when no sector is left, or in the
    pass the image or the DMA channel stops. *)
Lemma sector_loop (l : loop_t W) (c0 : Q) (m0 : mach W) :
  pass_spec l ->
  forall n c (m : mach W) evs0,
    passes l c0 m0 c m ->
    erase_pos (dev m) = erase_pos (dev m0) ->
    0 <= data_pos (dev m) < 256 ->
    sector_pos (dev m0) <= sector_pos (dev m) ->
    rba (dev m)
    = u32 (rba (dev m0) + (sector_pos (dev m) - sector_pos (dev m0))) ->
    log m = log m0 ++ evs0 ->
    quiet evs0 ->
    256 * sector_pos (dev m) + data_pos (dev m)
    = 256 * sector_pos (dev m0) + data_pos (dev m0) + words_moved evs0 ->
    n = sectors_left (dev m) ->
    match while n (fun d => sector_pos d <? sector_count d) (pass l) c m with
    | Next c' m' =>
        passes l c0 m0 c' m'
        /\ erase_pos (dev m') = erase_pos (dev m0)
        /\ sector_pos (dev m')
           = Z.max (sector_pos (dev m)) (sector_count (dev m))
        /\ rba (dev m')
           = u32 (rba (dev m0) + (sector_pos (dev m') - sector_pos (dev m0)))
        /\ (sector_pos (dev m) < sector_count (dev m) -> data_pos (dev m') = 0)
        /\ (sector_count (dev m) <= sector_pos (dev m) ->
            data_pos (dev m') = data_pos (dev m))
        /\ exists evs, log m' = log m0 ++ evs /\ quiet evs
    | Return _ m' =>
        ((exists m1,
            m' = error_mach 0x0e01 0x0009 m1
            /\ erase_pos (dev m1) = erase_pos (dev m0))
         /\ exists evs, log m' = log m0 ++ evs /\ quiet evs)
        \/ loop_stalled l c0 m0 m'
    | Fatal _ _ => True
    end.
Proof.
  intros Hbody. unfold sectors_left.
  induction n as [| n IH];
    intros c m evs0 Hpasses Herase Hpos Hsp Hrba Hlog Hq Hwords Hn.
  - rewrite while_O. unfold next.
    refine (conj Hpasses (conj Herase (conj _ (conj _ (conj _ (conj _ _)))))).
    + lia.
    + exact Hrba.
    + intros H. lia.
    + reflexivity.
    + exists evs0. split; assumption.
  - rewrite while_S. unfold bind at 1, get.
    replace (sector_pos (dev m) <? sector_count (dev m)) with true
      by (symmetry; apply Z.ltb_lt; lia).
    unfold bind at 1. specialize (Hbody c m Hpos).
    destruct (erase_pos_fields _ _ Herase) as (Hsc & Htm & _).
    destruct (pass l c m) as [c' m1 | [] m1 | msg m1] eqn:Hrun.
    + destruct Hbody as (-> & He1 & Hdp1 & Hsp1 & Hrba1 & evs1 & Hlog1 & Hq1
                         & Hw1).
      destruct (erase_pos_fields _ _ He1) as (Hsc1 & _).
      specialize (IH (pass_time l c m) m1 (evs0 ++ evs1)).
      rewrite He1, Hdp1, Hsp1, Hsc1, Hrba1, Hrba, u32_succ in IH.
      specialize (IH (passes_snoc l c0 m0 c m m1 Hpasses ltac:(lia) Hrun)
                    Herase ltac:(lia) ltac:(lia)
                    ltac:(f_equal; lia)
                    ltac:(rewrite Hlog1, Hlog, app_assoc; reflexivity)
                    (quiet_app _ _ Hq Hq1)
                    ltac:(rewrite words_moved_app; lia)
                    ltac:(lia)).
      destruct (while n _ (pass l) (pass_time l c m) m1)
        as [c2 m2 | [] m2 | msg m2].
      * destruct IH as (Hp2 & He2 & Hsp2 & Hrba2 & Hdp2 & Hdp2' & Hlog2).
        refine (conj Hp2 (conj He2 (conj _ (conj Hrba2 (conj _ (conj _ Hlog2)))))).
        -- lia.
        -- intros _.
           destruct (Z.lt_ge_cases (sector_pos (dev m) + 1) (sector_count (dev m)))
             as [Hlt | Hge].
           ++ apply Hdp2. exact Hlt.
           ++ apply Hdp2'. exact Hge.
        -- intros H. lia.
      * exact IH.
      * exact Logic.I.
    + destruct Hbody as [[(m2 & -> & He2) (evs1 & Hlog1 & Hq1)] | Hst].
      * left. split.
        -- exists m2. split; [reflexivity |]. rewrite He2. exact Herase.
        -- exists (evs0 ++ evs1).
           split; [rewrite Hlog1, Hlog, app_assoc; reflexivity |].
           apply quiet_app; assumption.
      * right.
        destruct Hst as (Ht & He1 & Hsp1 & Hrba1 & Hdp1 & evs1 & Hlog1 & Hq1
                         & Hw1).
        unfold loop_stalled.
        refine (conj _ (conj _ (conj _ (conj _ (conj _ _))))).
        -- rewrite <- Htm, <- Herase. exact He1.
        -- rewrite Hsp1, <- Hsc. lia.
        -- lia.
        -- rewrite Hrba1, Hsp1. exact Hrba.
        -- exists (evs0 ++ evs1). split.
           ++ rewrite Hlog1, Hlog, <- !app_assoc. reflexivity.
           ++ split; [apply quiet_app; assumption |].
              rewrite words_moved_app, Hsp1. lia.
        -- exists c, m. split; [exact Hpasses |]. split; [exact Hrun |].
           exact Ht.
    + exact Logic.I.
Qed.

End SectorLoops.

(** ** The transfer phase of read and write *)

Section TransferPhase.

Context {W : Type} {E : Extern W}.

Lemma sector_loop_from (l : loop_t W) (m : mach W) :
  pass_spec l ->
  0 <= data_pos (dev m) < 256 ->
  0 <= rba (dev m) < 4294967296 ->
  cmd_state (dev m) = 1 ->
  match
    (cmd_time <- (d <- get ;;
                  while (sectors_left d) (fun d => sector_pos d <? sector_count d)
                    (pass l) 0%Q) ;;
     upd (set_status STATUS_CMD_IN_PROGRESS) ;;
     upd (set_cmd_state 2) ;;
     esdi_mca_set_callback cmd_time) m
  with
  | Next _ m' | Return _ m' =>
      transfer_completed l m m'
      \/ transfer_suspended l m m'
      \/ (transfer_defective m m'
          /\ exists evs, log m' = log m ++ evs /\ quiet evs)
  | Fatal _ _ => True
  end.
Proof.
  intros Hbody Hpos Hrba Hphase.
  unfold bind at 1. unfold bind at 1, get.
  pose proof (sector_loop l 0%Q m Hbody (sectors_left (dev m)) 0%Q m []
                (passes_none l 0%Q m) eq_refl Hpos ltac:(lia)
                ltac:(rewrite Z.sub_diag, Z.add_0_r, u32_id by lia; reflexivity)
                ltac:(symmetry; apply app_nil_r) ltac:(constructor)
                ltac:(cbn; lia) eq_refl) as H.
  destruct (while _ _ (pass l) 0%Q m) as [c m1 | [] m1 | msg m1];
    cbv beta iota.
  - destruct H as (Hp & He & Hsp & Hr & Hdp & _ & Hlog).
    unfold_monad. cbn. rewrite esdi_mca_set_callback_run. cbn.
    left. unfold transfer_completed. cbn.
    refine (conj eq_refl (conj eq_refl (conj Hsp (conj Hr (conj Hdp
              (conj _ Hlog)))))).
    exists c, m1. split; [exact Hp | reflexivity].
  - right. destruct H as [[(m2 & -> & He) Hlog] | Hst].
    + right. split; [| exact Hlog]. exists m2. split; [reflexivity |].
      destruct (erase_pos_fields _ _ He) as (_ & Htm & Hcs & _).
      split; assumption.
    + left. destruct Hst as (He & Hsp & Hdp & Hr & Hlog & Ht).
      destruct (erase_pos_fields _ _ He) as (Hsc & _ & Hcs & Hst & _).
      cbn in Hsc, Hcs, Hst.
      unfold transfer_suspended.
      refine (conj _ (conj Hst (conj Hsc (conj Hsp (conj Hdp
                (conj Hr (conj Hlog Ht))))))).
      rewrite Hcs. exact Hphase.
  - exact Logic.I.
Qed.

(** The transfer-phase callback of a read ends in one of three ways:
    all sectors are done and the completion phase is scheduled; the DMA
    channel took no word and the callback is scheduled again, with the
    sector index and the word offset of the refused word in the adapter
    state; the image failed, and the defective-block error ends the
    command with nothing scheduled. *)
Lemma read_transfer_phase (m : mach W) :
  in_reset (dev m) = 0 ->
  command (dev m) = CMD_READ ->
  drive_target (dev m) ->
  present (selected_drive (dev m)) <> 0 ->
  cmd_state (dev m) = 1 ->
  Z.land (basic_ctrl (dev m)) CTRL_DMA_ENA <> 0 ->
  0 <= data_pos (dev m) < 256 ->
  0 <= rba (dev m) < 4294967296 ->
  let l := read_loop (selected_drive (dev m)) in
  match esdi_callback m with
  | Done _ m' =>
      transfer_completed l m m'
      \/ transfer_suspended l m m'
      \/ (transfer_defective m m'
          /\ exists evs, log m' = log m ++ evs /\ quiet evs)
  | Crashed _ _ => True
  end.
Proof.
  intros Hreset Hcmd Hdev Hpresent Hphase Hdma Hpos Hrba l. subst l.
  apply nz_false in Hreset. apply nz_true in Hpresent. apply nz_true in Hdma.
  pose proof (drive_target_cases _ Hdev) as Hdt.
  pose proof (sector_loop_from (read_loop (selected_drive (dev m))) m
                (read_sector_spec (selected_drive (dev m)))
                Hpos Hrba Hphase) as H.
  cbn [pass read_loop] in H.
  unfold esdi_callback, call, esdi_callback_body.
  unfold bind at 1, get. rewrite Hreset, Hcmd. decide_ifs.
  unfold case_read. unfold bind at 1. rewrite ESDI_DRIVE_ONLY_run, Hdt.
  unfold bind at 1. rewrite check_present_run, Hpresent. cbn [negb].
  unfold bind at 1, get. rewrite Hphase. decide_ifs. rewrite Hdma. cbn [negb].
  unfold read_sectors.
  match goal with
  | |- match match ?x with _ => _ end with _ => _ end =>
      destruct x as [[] m' | [] m' | msg m']
  end; exact H.
Qed.

(** The same for a write. *)
Lemma write_transfer_phase (m : mach W) :
  in_reset (dev m) = 0 ->
  command (dev m) = CMD_WRITE \/ command (dev m) = CMD_WRITE_VERIFY ->
  drive_target (dev m) ->
  present (selected_drive (dev m)) <> 0 ->
  cmd_state (dev m) = 1 ->
  Z.land (basic_ctrl (dev m)) CTRL_DMA_ENA <> 0 ->
  0 <= data_pos (dev m) < 256 ->
  0 <= rba (dev m) < 4294967296 ->
  let l := write_loop (selected_drive (dev m)) in
  match esdi_callback m with
  | Done _ m' =>
      transfer_completed l m m'
      \/ transfer_suspended l m m'
      \/ (transfer_defective m m'
          /\ exists evs, log m' = log m ++ evs /\ quiet evs)
  | Crashed _ _ => True
  end.
Proof.
  intros Hreset Hcmd Hdev Hpresent Hphase Hdma Hpos Hrba l. subst l.
  apply nz_false in Hreset. apply nz_true in Hpresent. apply nz_true in Hdma.
  pose proof (drive_target_cases _ Hdev) as Hdt.
  pose proof (sector_loop_from (write_loop (selected_drive (dev m))) m
                (write_sector_spec (selected_drive (dev m)))
                Hpos Hrba Hphase) as H.
  cbn [pass write_loop] in H.
  unfold esdi_callback, call, esdi_callback_body.
  unfold bind at 1, get. rewrite Hreset.
  destruct Hcmd as [Hcmd | Hcmd]; rewrite Hcmd; decide_ifs;
    unfold case_write; unfold bind at 1; rewrite ESDI_DRIVE_ONLY_run, Hdt;
    unfold bind at 1; rewrite check_present_run, Hpresent; cbn [negb];
    unfold bind at 1, get; rewrite Hphase; decide_ifs; rewrite Hdma;
    cbn [negb]; unfold write_sectors;
    match goal with
    | |- match match ?x with _ => _ end with _ => _ end =>
        destruct x as [[] m' | [] m' | msg m']
    end; exact H.
Qed.

End TransferPhase.

(** ** The accumulated time is no adapter state *)

Section TimeFree.

Context {W : Type} {E : Extern W}.













End TimeFree.

(** ** Suspension of a transfer (C9) *)

Section Suspension.

Context {W : Type} {E : Extern W}.



End Suspension.



(** ** Guest-visible errors (C5) *)

Section GuestErrors.

Context {W : Type} {E : Extern W}.

(** What an error helper leaves behind. *)
Lemma error_mach_fields w1 w2 (m : mach W) :
  length (status_data (dev m)) = 256%nat ->
  In (w1, w2) error_pairs ->
  error_reported w1 w2 m (error_mach w1 w2 m).
Proof.
  intros Hlen Hin.
  assert (Hw : 0 <= w1 < 65536 /\ 0 <= w2 < 65536).
  { cbn in Hin.
    destruct Hin as [H | [H | [H | [H | []]]]]; inversion H; lia. }
  destruct (error_state_block w1 w2 (dev m) Hlen (proj1 Hw) (proj2 Hw))
    as (H0 & H1 & H2).
  unfold error_reported, error_mach. cbn [dev ext log].
  repeat (split; [first [assumption | reflexivity] |]).
  reflexivity.
Qed.

(** A drive command sent to the host adapter, or an adapter command
    sent to a drive, is not supported, whatever the phase. *)
Lemma unsupported_site (m : mach W) :
  in_reset (dev m) = 0 ->
  (for_drive (dev m) /\ ~ drive_target (dev m))
  \/ (In (command (dev m)) adapter_commands
      /\ cmd_dev (dev m) <> ATTN_HOST_ADAPTER) ->
  esdi_callback m = Done tt (error_mach 0x0f03 0x0002 m).
Proof.
  intros Hreset Hsite. apply nz_false in Hreset.
  destruct m as [d w l]. cbn [dev ext log] in *.
  destruct Hsite as [[Hcmd Hdev] | [Hcmd Hdev]].
  - assert (Hdt : negb (cmd_dev d =? ATTN_DEVICE_0)
                  && negb (cmd_dev d =? ATTN_DEVICE_1) = true).
    { unfold drive_target in Hdev.
      destruct (Z.eqb_spec (cmd_dev d) ATTN_DEVICE_0); [tauto |].
      destruct (Z.eqb_spec (cmd_dev d) ATTN_DEVICE_1); [tauto |].
      reflexivity. }
    destruct Hcmd as [Hcmd | [Hcmd Hhost]].
    + cbn in Hcmd.
      repeat (destruct Hcmd as [Hc | Hcmd];
              [ symmetry in Hc;
                unfold esdi_callback, call, esdi_callback_body; run;
                rewrite Hreset, Hc; run;
                unfold case_read, case_write, case_read_verify, case_seek,
                  case_park_heads, case_get_dev_status, case_format; run;
                rewrite Hdt; run; reflexivity |]).
      destruct Hcmd.
    + apply Z.eqb_neq in Hhost.
      unfold esdi_callback, call, esdi_callback_body. run.
      rewrite Hreset, Hcmd. run. unfold case_get_dev_config. run.
      rewrite Hhost. run. rewrite Hdt. run. reflexivity.
  - apply Z.eqb_neq in Hdev. cbn in Hcmd.
    repeat (destruct Hcmd as [Hc | Hcmd];
            [ symmetry in Hc;
              unfold esdi_callback, call, esdi_callback_body; run;
              rewrite Hreset, Hc; run;
              unfold case_get_pos_info, case_write_sector_buffer,
                case_read_sector_buffer, case_0x12; run;
              rewrite Hdev; run; reflexivity |]).
    destruct Hcmd.
Qed.

(** A drive command for a drive that is not there, whatever the
    phase. *)
Lemma not_present_site (m : mach W) :
  in_reset (dev m) = 0 ->
  for_drive (dev m) ->
  drive_target (dev m) ->
  present (selected_drive (dev m)) = 0 ->
  esdi_callback m = Done tt (error_mach 0x0c11 0x000b m).
Proof.
  intros Hreset Hcmd Hdev Hpresent.
  apply nz_false in Hreset. apply nz_false in Hpresent.
  pose proof (drive_target_cases _ Hdev) as Hdt.
  destruct m as [d w l]. cbn [dev ext log] in *.
  destruct Hcmd as [Hcmd | [Hcmd Hhost]].
  - cbn in Hcmd.
    repeat (destruct Hcmd as [Hc | Hcmd];
            [ symmetry in Hc;
              unfold esdi_callback, call, esdi_callback_body; run;
              rewrite Hreset, Hc; run;
              unfold case_read, case_write, case_read_verify, case_seek,
                case_park_heads, case_get_dev_status, case_format; run;
              rewrite Hdt; run; rewrite Hpresent; run; reflexivity |]).
    destruct Hcmd.
  - apply Z.eqb_neq in Hhost.
    unfold esdi_callback, call, esdi_callback_body. run.
    rewrite Hreset, Hcmd. run. unfold case_get_dev_config. run.
    rewrite Hhost. run. rewrite Hdt. run. rewrite Hpresent. run.
    reflexivity.
Qed.

(** A range check that fails. *)
Lemma out_of_range_site (m : mach W) :
  in_reset (dev m) = 0 ->
  range_check_site (dev m) ->
  drive_target (dev m) ->
  present (selected_drive (dev m)) <> 0 ->
  past_last_sector (selected_drive (dev m)) (range_checked (dev m)) (ext m)
  = true ->
  esdi_callback m
  = Done tt
      (error_mach 0x0e01 0x0007
         (mk_mach (range_checked (dev m)) (ext m) (log m))).
Proof.
  intros Hreset Hsite Hdev Hpresent Hpast.
  apply nz_false in Hreset. apply nz_true in Hpresent.
  pose proof (drive_target_cases _ Hdev) as Hdt.
  destruct m as [d w l]. cbn [dev ext log] in *.
  unfold range_checked in *.
  destruct Hsite as [Hc | [Hstate Hcmd]].
  - rewrite Hc in *. revert Hpast. decide_ifs. intros Hpast.
    unfold esdi_callback, call, esdi_callback_body. run.
    rewrite Hreset, Hc. run. unfold case_seek. run.
    rewrite Hdt. run. rewrite Hpresent. run. rewrite Hpast. run.
    reflexivity.
  - cbn in Hcmd.
    repeat (destruct Hcmd as [Hc | Hcmd];
            [ symmetry in Hc; rewrite Hc in *; revert Hpast; decide_ifs;
              intros Hpast;
              unfold esdi_callback, call, esdi_callback_body; run;
              rewrite Hreset, Hc; run;
              unfold case_read, case_write, case_read_verify; run;
              rewrite Hdt; run; rewrite Hpresent; run;
              rewrite Hstate, ?Hc; run;
              same_drive d; rewrite Hpast; run; reflexivity |]).
    destruct Hcmd.
Qed.

(** The image refuses the sector a read pass asks for. *)
Lemma defective_read_pass drive c (m : mach W) :
  data_pos (dev m) = 0 ->
  rba (dev m) < u32 (sectors drive) ->
  let r :=
    hdd_image_read (hdd_num drive) (rba (dev m)) 1 (data (dev m)) (ext m) in
  fst (fst r) < 0 ->
  read_sector drive c m
  = Return tt
      (error_mach 0x0e01 0x0009
         (mk_mach (set_data (snd (fst r)) (dev m)) (snd r)
            (log m ++ [ImageRead (hdd_num drive) (rba (dev m)) (fst (fst r))]))).
Proof.
  intros Hpos Hrba r Hret. subst r.
  destruct m as [d w l]. cbn [dev ext log] in *.
  unfold read_sector. unfold bind at 1, get. cbn [dev].
  rewrite Hpos. change (negb (nz 0)) with true. cbv iota.
  unfold bind at 1. unfold bind at 1. unfold bind at 1.
  rewrite geb_false by lia. unfold next at 1.
  unfold bind at 1, image_read_sector. cbn [dev ext log].
  destruct (hdd_image_read (hdd_num drive) (rba d) 1 (data d) w)
    as [[ret buf] w1].
  cbn [fst snd] in *.
  replace (ret <? 0) with true by (symmetry; apply Z.ltb_lt; exact Hret).
  unfold bind. rewrite defective_block_run. reflexivity.
Qed.

(** The image refuses the sector a write pass has gathered. *)
Lemma defective_write_pass drive c (m m1 : mach W) :
  words_from_dma (ESDI_TIME + c)%Q m = Next tt m1 ->
  rba (dev m1) < u32 (sectors drive) ->
  let r :=
    hdd_image_write (hdd_num drive) (rba (dev m1)) 1 (data (dev m1))
      (ext m1) in
  fst r < 0 ->
  write_sector drive c m
  = Return tt
      (error_mach 0x0e01 0x0009
         (mk_mach (dev m1) (snd r)
            (log m1
             ++ [ImageWrite (hdd_num drive) (rba (dev m1)) (data (dev m1))
                   (fst r)]))).
Proof.
  intros Hwords Hrba r Hret. subst r.
  unfold write_sector. unfold bind at 1. rewrite Hwords.
  unfold bind at 1, get. unfold bind at 1.
  rewrite geb_false by lia. unfold next at 1.
  unfold bind at 1, extern.
  destruct (hdd_image_write (hdd_num drive) (rba (dev m1)) 1
              (data (dev m1)) (ext m1)) as [ret w1].
  cbn [fst snd] in *.
  replace (ret <? 0) with true by (symmetry; apply Z.ltb_lt; exact Hret).
  unfold bind. rewrite defective_block_run. reflexivity.
Qed.

(** C5.  Each of the four error helpers leaves its own pair of error
    words (the four pairs are distinct) in words 1 and 2 of a nine-word
    status block, latches the command-complete-failure code of the
    command's target and raises the interrupt through [set_irq]: the
    status register shows it, the interrupt is marked in flight and
    requested, and the line is asserted under the enable bit of the
    control register, as for every interrupt of the adapter.  The phase
    and the timer are left alone, so no later phase runs.  Every place
    of the executor that detects one of the errors ends the callback in
    the state its helper leaves:
    - a drive command whose target is no drive, and an adapter command
      whose target is not the adapter, in any phase;
    - a drive command for an absent drive, in any phase;
    - a failed range check: the first callback of a read, write or
      verify, every callback of a seek;
    - a sector the disk image refuses, in a pass of the read loop or of
      the write loop; a transfer-phase callback that ends this way has
      scheduled nothing and is still in phase 1. *)
Theorem guest_error_reports (m : mach W) :
  well_formed (dev m) ->
  in_reset (dev m) = 0 ->
  (@cmd_unsupported W unit m = Next tt (error_mach 0x0f03 0x0002 m)
   /\ @device_not_present W unit m = Next tt (error_mach 0x0c11 0x000b m)
   /\ @rba_out_of_range W unit m = Next tt (error_mach 0x0e01 0x0007 m)
   /\ @defective_block W unit m = Next tt (error_mach 0x0e01 0x0009 m))
  /\ NoDup error_pairs
  /\ (forall w1 w2,
        In (w1, w2) error_pairs ->
        error_reported w1 w2 m (error_mach w1 w2 m))
  /\ ((for_drive (dev m) /\ ~ drive_target (dev m))
      \/ (In (command (dev m)) adapter_commands
          /\ cmd_dev (dev m) <> ATTN_HOST_ADAPTER) ->
      esdi_callback m = Done tt (error_mach 0x0f03 0x0002 m))
  /\ (for_drive (dev m) ->
      drive_target (dev m) ->
      present (selected_drive (dev m)) = 0 ->
      esdi_callback m = Done tt (error_mach 0x0c11 0x000b m))
  /\ (range_check_site (dev m) ->
      drive_target (dev m) ->
      present (selected_drive (dev m)) <> 0 ->
      past_last_sector (selected_drive (dev m)) (range_checked (dev m))
        (ext m) = true ->
      esdi_callback m
      = Done tt
          (error_mach 0x0e01 0x0007
             (mk_mach (range_checked (dev m)) (ext m) (log m))))
  /\ (forall drive c,
        data_pos (dev m) = 0 ->
        rba (dev m) < u32 (sectors drive) ->
        let r :=
          hdd_image_read (hdd_num drive) (rba (dev m)) 1 (data (dev m))
            (ext m) in
        fst (fst r) < 0 ->
        read_sector drive c m
        = Return tt
            (error_mach 0x0e01 0x0009
               (mk_mach (set_data (snd (fst r)) (dev m)) (snd r)
                  (log m
                   ++ [ImageRead (hdd_num drive) (rba (dev m))
                         (fst (fst r))]))))
  /\ (forall drive c m1,
        words_from_dma (ESDI_TIME + c)%Q m = Next tt m1 ->
        rba (dev m1) < u32 (sectors drive) ->
        let r :=
          hdd_image_write (hdd_num drive) (rba (dev m1)) 1 (data (dev m1))
            (ext m1) in
        fst r < 0 ->
        write_sector drive c m
        = Return tt
            (error_mach 0x0e01 0x0009
               (mk_mach (dev m1) (snd r)
                  (log m1
                   ++ [ImageWrite (hdd_num drive) (rba (dev m1))
                         (data (dev m1)) (fst r)]))))
  /\ ((command (dev m) = CMD_READ \/ command (dev m) = CMD_WRITE
       \/ command (dev m) = CMD_WRITE_VERIFY) ->
      drive_target (dev m) ->
      present (selected_drive (dev m)) <> 0 ->
      cmd_state (dev m) = 1 ->
      Z.land (basic_ctrl (dev m)) CTRL_DMA_ENA <> 0 ->
      0 <= data_pos (dev m) < 256 ->
      0 <= rba (dev m) < 4294967296 ->
      forall m',
        esdi_callback m = Done tt m' ->
        cmd_state (dev m') = 2
        \/ (cmd_state (dev m') = 1 /\ status (dev m') = status (dev m))
        \/ transfer_defective m m').
Proof.
  intros Hwf Hreset.
  split.
  { repeat split.
    - apply cmd_unsupported_run.
    - apply device_not_present_run.
    - apply rba_out_of_range_run.
    - apply defective_block_run. }
  split.
  { unfold error_pairs.
    repeat (apply NoDup_cons; split;
            [rewrite ?elem_of_cons, elem_of_nil; intuition congruence |]).
    apply NoDup_nil_2. }
  split.
  { intros w1 w2 Hin.
    apply error_mach_fields; [apply (wf_status_data _ Hwf) | exact Hin]. }
  split; [apply unsupported_site; exact Hreset |].
  split; [apply not_present_site; exact Hreset |].
  split; [apply out_of_range_site; exact Hreset |].
  split; [intros drive c; apply defective_read_pass |].
  split; [intros drive c m1; apply defective_write_pass |].
  intros Hcmd Hdev Hpresent Hphase Hdma Hpos Hrba m' Hrun.
  destruct Hcmd as [Hc | Hc].
  - pose proof (read_transfer_phase m Hreset Hc Hdev Hpresent Hphase Hdma
                  Hpos Hrba) as H.
    cbv zeta in H. rewrite Hrun in H.
    destruct H as [H | [H | [H _]]].
    + left. apply H.
    + right; left. split; apply H.
    + right; right. exact H.
  - assert (Hc' : command (dev m) = CMD_WRITE
                  \/ command (dev m) = CMD_WRITE_VERIFY) by exact Hc.
    pose proof (write_transfer_phase m Hreset Hc' Hdev Hpresent Hphase Hdma
                  Hpos Hrba) as H.
    cbv zeta in H. rewrite Hrun in H.
    destruct H as [H | [H | [H _]]].
    + left. apply H.
    + right; left. split; apply H.
    + right; right. exact H.
Qed.

End GuestErrors.

(** A read command sent to the host adapter with interrupts disabled in
    the control register. *)
Lemma guest_error_reports_witness :
  let m : mach Sim.t :=
    mk_mach
      (set_command CMD_READ
         (set_cmd_dev ATTN_HOST_ADAPTER
            (set_timer None (set_in_reset 0 (dev (Sim.boot 1000 0))))))
      (ext (Sim.boot 1000 0)) [] in
  esdi_callback m = Done tt (error_mach 0x0f03 0x0002 m)
  /\ error_reported 0x0f03 0x0002 m (error_mach 0x0f03 0x0002 m)
  /\ log (error_mach 0x0f03 0x0002 m) = [UiIcon 0; UiIconWrite 0].
Proof.
  intros m.
  assert (Hwf : well_formed (dev m)) by (split; reflexivity).
  assert (Hreset : in_reset (dev m) = 0) by reflexivity.
  pose proof (guest_error_reports m Hwf Hreset) as (_ & _ & Hf & Hu & _).
  split; [| split].
  - apply Hu. left. split.
    + left. left. reflexivity.
    + intros [H | H]; vm_compute in H; discriminate H.
  - apply Hf. left. reflexivity.
  - reflexivity.
Defined.

(** ** The last block address of the completion status (C1) *)

Section LastBlock.

Context {W : Type} {E : Extern W}.

(** Words 4 and 5 of the completion status block: the low sixteen bits
    of [rba - 1], and [rba - 1] shifted right by eight bits. *)
Lemma last_block_words (m : mach W) :
  length (status_data (dev m)) = 256%nat ->
  1 <= rba (dev m) < 4294967296 ->
  exists m',
    @complete_command_status W unit m = Next tt m'
    /\ word_at (status_data (dev m')) 4 = (rba (dev m) - 1) mod 65536
    /\ word_at (status_data (dev m')) 5 = ((rba (dev m) - 1) / 256) mod 65536.
Proof.
  intros Hlen Hrba. rewrite complete_command_status_run.
  eexists. split; [reflexivity |]. cbn [dev status_data set_status_data].
  rewrite u32_id by lia.
  split.
  - change 4 with (1 + Z.of_nat 3).
    erewrite word_at_write_words;
      [| lia | reflexivity | rewrite length_store, Hlen; cbn; lia].
    change 0xffff with (Z.ones 16). rewrite Z.land_ones by lia.
    unfold u16. apply Z.mod_mod. lia.
  - change 5 with (1 + Z.of_nat 4).
    erewrite word_at_write_words;
      [| lia | reflexivity | rewrite length_store, Hlen; cbn; lia].
    rewrite Z.shiftr_div_pow2 by lia. reflexivity.
Qed.

(** The two words give back [rba - 1] below 256 and not from 256 to
    65535. *)
Lemma last_block_words_value (m : mach W) :
  length (status_data (dev m)) = 256%nat ->
  1 <= rba (dev m) <= 65536 ->
  exists m',
    @complete_command_status W unit m = Next tt m'
    /\ (word_at (status_data (dev m')) 4
        + 65536 * word_at (status_data (dev m')) 5 = rba (dev m) - 1
        <-> rba (dev m) - 1 < 256).
Proof.
  intros Hlen Hrba.
  destruct (last_block_words m Hlen ltac:(lia)) as (m' & Hrun & H4 & H5).
  exists m'. split; [exact Hrun |]. rewrite H4, H5.
  rewrite (Z.mod_small (rba (dev m) - 1)) by lia.
  assert (Hq : 0 <= (rba (dev m) - 1) / 256 < 256)
    by (split; [apply Z.div_pos; lia | apply Z.div_lt_upper_bound; lia]).
  rewrite Z.mod_small by lia.
  split; intros H.
  - assert (Hz : (rba (dev m) - 1) / 256 = 0) by lia.
    apply Z.div_small_iff in Hz; lia.
  - rewrite Z.div_small by lia. lia.
Qed.

End LastBlock.

(** C1.  The code at the failing input: a read of two sectors from
    block 256 of a drive of 1000 sectors, through a DMA channel that
    takes 100 words and then no more.  The transfer callback is
    suspended at word 100 of sector 0 with the first 100 words of block
    256 in memory.  Once the channel takes words again the next
    callback goes on from that word: memory holds blocks 256 and 257,
    each word once and in order.  The completion status then gives
    0x0101 and 0x0001 as the two words of the last block processed,
    which read as one address are 65793, not 256 + 2 - 1: the second
    word is [rba - 1] shifted by eight bits, not by sixteen. *)
Theorem resumed_read_last_block :
  after
    (run (power_on
          ++ issue ATTN_DEVICE_0 (long_command CMD_READ ATTN_DEVICE_0 2 256)
          ++ [TimerFire; IoWrite 3 (Z.lor ATTN_DEVICE_0 ATTN_EOI); TimerFire])
       (Sim.boot 1000 100))
    (fun m1 =>
       cmd_state (dev m1) = 1
       /\ sector_pos (dev m1) = 0
       /\ data_pos (dev m1) = 100
       /\ Sim.sim_mem (ext m1) = firstn 100 (Sim.pattern 256)
       /\ after
            (run [World (Sim.refill 1000); TimerFire; TimerFire] m1)
            (fun m2 =>
               Sim.sim_mem (ext m2) = Sim.pattern 256 ++ Sim.pattern 257
               /\ rba (dev m2) = 256 + 2
               /\ irq_status (dev m2)
                  = Z.lor ATTN_DEVICE_0 IRQ_CMD_COMPLETE_SUCCESS
               /\ status_len (dev m2) = 7
               /\ word_at (status_data (dev m2)) 4 = 0x0101
               /\ word_at (status_data (dev m2)) 5 = 0x0001
               /\ word_at (status_data (dev m2)) 4
                  + 65536 * word_at (status_data (dev m2)) 5
                  <> 256 + 2 - 1)).
Proof.
  vm_compute. repeat split. intros H. discriminate H.
Qed.

(** A read whose suspension falls inside its last sector.  The callback
    that resumes it starts no sector, so the time it has accumulated is
    zero; the delay it asks for stops the timer, and no callback comes
    to build the completion status: the interrupt status register still
    holds the data-transfer-ready code. *)
Lemma resumed_in_last_sector_unscheduled :
  after
    (run (power_on
          ++ issue ATTN_DEVICE_0 (long_command CMD_READ ATTN_DEVICE_0 1 0)
          ++ [TimerFire; IoWrite 3 (Z.lor ATTN_DEVICE_0 ATTN_EOI); TimerFire;
              World (Sim.refill 1000); TimerFire])
       (Sim.boot 1000 100))
    (fun m =>
       Sim.sim_mem (ext m) = Sim.pattern 0
       /\ sector_pos (dev m) = sector_count (dev m)
       /\ cmd_state (dev m) = 2
       /\ status (dev m) = STATUS_CMD_IN_PROGRESS
       /\ irq_status (dev m) = Z.lor ATTN_DEVICE_0 IRQ_DATA_TRANSFER_READY
       /\ timer (dev m) = None
       /\ step TimerFire m = Done tt m).
Proof.
  vm_compute. repeat split.
Qed.

(** ** POS registers *)

Section PosRegisters.

Lemma land7_range port : 0 <= Z.land port 7 < 8.
Proof.
  split; [apply Z.land_nonneg; right; lia |].
  change 7 with (Z.ones 3). rewrite Z.land_ones by lia.
  apply Z.mod_pos_bound. lia.
Qed.

Lemma land1_cases x : Z.land x 1 = 0 \/ Z.land x 1 = 1.
Proof.
  pose proof (Z.land_ones x 1 ltac:(lia)) as Hl.
  change (Z.ones 1) with 1 in Hl. change (2 ^ 1) with 2 in Hl.
  pose proof (Z.mod_pos_bound x 2 ltac:(lia)). lia.
Qed.

Lemma pos_regs_pos_dma d : pos_regs (pos_dma d) = pos_regs d.
Proof.
  unfold pos_dma.
  repeat match goal with
         | |- context [if ?c then _ else _] => destruct c
         end; reflexivity.
Qed.

Lemma pos_regs_mca_write port val c :
  pos_regs (esdi (esdi_mca_write port val c))
  = if port <? 0x102 then pos_regs (esdi c)
    else store (pos_regs (esdi c)) (Z.land port 7) val.
Proof.
  unfold esdi_mca_write. destruct (port <? 0x102); [reflexivity |].
  cbn [esdi]. rewrite pos_regs_pos_dma. reflexivity.
Qed.

Lemma pos_regs_integrated_mca_write port val c :
  pos_regs (esdi (esdi_integrated_mca_write port val c))
  = if port <? 0x102 then pos_regs (esdi c)
    else store (pos_regs (esdi c)) (Z.land port 7) val.
Proof.
  unfold esdi_integrated_mca_write. destruct (port <? 0x102); [reflexivity |].
  cbn [esdi]. rewrite pos_regs_pos_dma. reflexivity.
Qed.

Lemma pos_regs_pos_write local port val c :
  pos_regs (esdi (pos_write local port val c))
  = if port <? 0x102 then pos_regs (esdi c)
    else store (pos_regs (esdi c)) (Z.land port 7) val.
Proof.
  unfold pos_write. destruct (local =? ESDI_IS_INTEGRATED).
  - apply pos_regs_integrated_mca_write.
  - apply pos_regs_mca_write.
Qed.

(** A POS write below port 0x102 does nothing; from 0x102 on the value
    written is the value read back at that port, and the other seven
    registers read as before. *)
Theorem pos_write_read_back local port val (c : card_t) :
  length (pos_regs (esdi c)) = 8%nat ->
  let c' := pos_write local port val c in
  (port < 0x102 -> c' = c)
  /\ (0x102 <= port ->
      esdi_mca_read port (esdi c') = val
      /\ forall port',
           Z.land port' 7 <> Z.land port 7 ->
           esdi_mca_read port' (esdi c') = esdi_mca_read port' (esdi c)).
Proof.
  intros Hlen c'. split.
  - intros Hport. subst c'. unfold pos_write.
    destruct (local =? ESDI_IS_INTEGRATED);
      unfold esdi_mca_write, esdi_integrated_mca_write;
      replace (port <? 0x102) with true by (symmetry; apply Z.ltb_lt; lia);
      reflexivity.
  - intros Hport. subst c'. unfold esdi_mca_read.
    rewrite pos_regs_pos_write.
    replace (port <? 0x102) with false by (symmetry; apply Z.ltb_ge; lia).
    pose proof (land7_range port) as Hp.
    split.
    + apply word_at_store_same. lia.
    + intros port' Hne. apply word_at_store_other.
      pose proof (land7_range port'). lia.
Qed.

(** The two identification registers keep what [esdi_init] puts there
    under every series of POS writes to the ports of the slot. *)
Lemma pos_id_kept write (Hw : forall port val c,
    pos_regs (esdi (write port val c))
    = if port <? 0x102 then pos_regs (esdi c)
      else store (pos_regs (esdi c)) (Z.land port 7) val) :
  forall ws c,
    Forall (fun w => 0x100 <= fst w <= 0x107) ws ->
    esdi_mca_read 0x100 (esdi (pos_writes write ws c))
    = esdi_mca_read 0x100 (esdi c)
    /\ esdi_mca_read 0x101 (esdi (pos_writes write ws c))
       = esdi_mca_read 0x101 (esdi c).
Proof.
  induction ws as [| [port val] ws IH]; intros c Hports; [split; reflexivity |].
  inversion Hports as [| w ws' Hport Hrest]; subst. cbn [fst] in Hport.
  unfold pos_writes in *. cbn [fold_left fst snd].
  destruct (IH (write port val c) Hrest) as [H0 H1]. rewrite H0, H1.
  unfold esdi_mca_read. rewrite Hw.
  destruct (Z.ltb_spec port 0x102); [split; reflexivity |].
  assert (Hp : port = 0x102 \/ port = 0x103 \/ port = 0x104 \/ port = 0x105
               \/ port = 0x106 \/ port = 0x107) by lia.
  split; apply word_at_store_other;
    destruct Hp as [-> | [-> | [-> | [-> | [-> | ->]]]]]; vm_compute; lia.
Qed.

Theorem pos_id_read_only timer_add local d0 d1 (ws : list (Z * Z)) :
  Forall (fun w => 0x100 <= fst w <= 0x107) ws ->
  let c := pos_writes (pos_write local) ws (card_init timer_add local d0 d1) in
  (local = ESDI_IS_ADAPTER ->
   esdi_mca_read 0x100 (esdi c) = 0xff /\ esdi_mca_read 0x101 (esdi c) = 0xdd)
  /\ (local = ESDI_IS_INTEGRATED ->
      esdi_mca_read 0x100 (esdi c) = 0x9f
      /\ esdi_mca_read 0x101 (esdi c) = 0xdf).
Proof.
  intros Hports c.
  destruct (pos_id_kept (pos_write local) (pos_regs_pos_write local) ws
              (card_init timer_add local d0 d1) Hports) as [H0 H1].
  subst c. rewrite H0, H1.
  split; intros ->; split; reflexivity.
Qed.

(** The arbitration level after a POS write: bits 2 to 5 of register 2
    select it when they hold four times one of the levels 0, 1, 3, 4,
    5, 6, 7, and any other code leaves the level as it was; so the
    level stays one of these seven. *)
Theorem pos_dma_level local port val (c : card_t) :
  0x102 <= port ->
  let c' := pos_write local port val c in
  let sel := Z.land (esdi_mca_read 0x102 (esdi c')) 0x3c in
  (In sel (map (Z.mul 4) dma_levels) -> dma (esdi c') = sel / 4)
  /\ (~ In sel (map (Z.mul 4) dma_levels) -> dma (esdi c') = dma (esdi c))
  /\ (In (dma (esdi c)) dma_levels -> In (dma (esdi c')) dma_levels).
Proof.
  intros Hport c' sel.
  assert (Hsel : sel = Z.land (word_at
                   (store (pos_regs (esdi c)) (Z.land port 7) val) 2) 0x3c).
  { subst sel c'. unfold esdi_mca_read. rewrite pos_regs_pos_write.
    replace (port <? 0x102) with false by (symmetry; apply Z.ltb_ge; lia).
    reflexivity. }
  assert (Hdma : dma (esdi c')
                 = dma (pos_dma (set_pos_regs
                          (store (pos_regs (esdi c)) (Z.land port 7) val)
                          (esdi c)))).
  { subst c'. unfold pos_write.
    destruct (local =? ESDI_IS_INTEGRATED);
      unfold esdi_mca_write, esdi_integrated_mca_write;
      replace (port <? 0x102) with false by (symmetry; apply Z.ltb_ge; lia);
      reflexivity. }
  rewrite Hdma. unfold pos_dma. cbn [pos_regs set_pos_regs]. rewrite <- Hsel.
  clearbody sel. clear Hsel Hdma.
  split; [| split].
  - cbn. intros [H | [H | [H | [H | [H | [H | [H | []]]]]]]];
      rewrite <- H; reflexivity.
  - cbn. intros Hno.
    repeat match goal with
           | |- context [sel =? ?k] =>
               destruct (Z.eqb_spec sel k); [exfalso; apply Hno; lia |]
           end.
    reflexivity.
  - intros Hin.
    repeat match goal with
           | |- context [if ?b then _ else _] =>
               destruct b; [cbn; tauto |]
           end.
    exact Hin.
Qed.

Lemma io_installed_app calls1 calls2 :
  io_installed (calls1 ++ IoRemoveHandler ESDI_IOADDR_PRI 8 :: calls2)
  = io_installed (IoRemoveHandler ESDI_IOADDR_PRI 8 :: calls2).
Proof.
  unfold io_installed. rewrite fold_left_app. reflexivity.
Qed.

(** After every series of POS writes the handlers of the I/O ports are
    installed exactly when the card reports itself enabled. *)
Theorem io_handlers_follow_enable timer_add local d0 d1 (ws : list (Z * Z)) :
  let c := pos_writes (pos_write local) ws (card_init timer_add local d0 d1) in
  io_installed (host c) = true <-> esdi_mca_feedb (esdi c) = 1.
Proof.
  intros c. subst c.
  assert (Hinv : forall ws c,
            io_installed (host c) = nz (esdi_mca_feedb (esdi c)) ->
            io_installed (host (pos_writes (pos_write local) ws c))
            = nz (esdi_mca_feedb (esdi (pos_writes (pos_write local) ws c)))).
  { clear ws. induction ws as [| [port val] ws IH]; intros c Hc; [exact Hc |].
    unfold pos_writes in *. cbn [fold_left fst snd]. apply IH.
    unfold pos_write.
    destruct (local =? ESDI_IS_INTEGRATED);
      unfold esdi_mca_write, esdi_integrated_mca_write;
      (destruct (port <? 0x102); [exact Hc |]);
      cbn [host esdi]; cbn [app]; rewrite io_installed_app;
      unfold esdi_mca_feedb;
      match goal with
      | |- context [nz ?x] => destruct (nz x)
      end;
      try match goal with
      | |- context [if nz ?x then _ else _] => destruct (nz x)
      end; reflexivity. }
  rewrite Hinv.
  - unfold esdi_mca_feedb.
    destruct (land1_cases (word_at (pos_regs (esdi
                (pos_writes (pos_write local) ws (card_init timer_add local d0 d1)))) 2))
      as [-> | ->]; split; intros H; try reflexivity; discriminate H.
  - unfold card_init. cbn [host esdi].
    destruct (local =? ESDI_IS_ADAPTER) eqn:Ha.
    + apply Z.eqb_eq in Ha. subst local. reflexivity.
    + unfold esdi_init. rewrite Ha.
      destruct (local =? ESDI_IS_INTEGRATED); reflexivity.
Qed.

Lemma pos_bios_window d old :
  old = 0 \/ In old rom_windows ->
  pos_bios d old = 0 \/ In (pos_bios d old) rom_windows.
Proof.
  intros Hold. unfold pos_bios.
  destruct (negb _); [| left; reflexivity].
  repeat match goal with
         | |- context [if ?b then _ else _] => destruct b; [cbn; tauto |]
         end.
  exact Hold.
Qed.

(** The ROM is only ever mapped as 16 KiB at one of the six windows
    from 0xc8000 to 0xdc000, and the integrated controller never
    touches the ROM mapping. *)
Theorem rom_mapping_windows timer_add local d0 d1 (ws : list (Z * Z)) :
  let c := pos_writes (pos_write local) ws (card_init timer_add local d0 d1) in
  Forall rom_call_ok (host c)
  /\ (local = ESDI_IS_INTEGRATED ->
      filter (fun e => rom_call e = true) (host c) = []).
Proof.
  intros c. subst c. split.
  - assert (Hinv : forall ws c,
              Forall rom_call_ok (host c)
              /\ (bios c = 0 \/ In (bios c) rom_windows) ->
              Forall rom_call_ok (host (pos_writes (pos_write local) ws c))).
    { clear ws. induction ws as [| [port val] ws IH]; intros c [Hc Hb];
        [exact Hc |].
      unfold pos_writes in *. cbn [fold_left fst snd]. apply IH.
      unfold pos_write.
      destruct (local =? ESDI_IS_INTEGRATED);
        unfold esdi_mca_write, esdi_integrated_mca_write;
        (destruct (port <? 0x102); [split; assumption |]);
        cbn [host bios].
      - split; [| exact Hb]. apply Forall_app. split; [exact Hc |].
        destruct (nz _);
          repeat first
            [ apply List.Forall_nil
            | apply List.Forall_cons; [exact Logic.I |] ].
      - match goal with
        | |- context [pos_bios ?d ?old] =>
            pose proof (pos_bios_window d old Hb) as Hw;
            destruct (nz (pos_bios d old)) eqn:Hnz
        end.
        + apply nz_spec in Hnz.
          split; [| exact Hw]. apply Forall_app. split; [exact Hc |].
          destruct Hw as [Hw | Hw]; [contradiction |].
          destruct (nz (Z.land _ 1));
            repeat first
              [ apply List.Forall_nil
              | apply List.Forall_cons;
                [first [exact Logic.I | exact (conj Hw eq_refl)] |] ].
        + split; [| exact Hw]. apply Forall_app. split; [exact Hc |].
          destruct (nz (Z.land _ 1));
            repeat first
              [ apply List.Forall_nil
              | apply List.Forall_cons; [exact Logic.I |] ]. }
    apply Hinv. unfold card_init. cbn [host bios]. split; [| left; reflexivity].
    destruct (local =? ESDI_IS_ADAPTER);
      repeat first
        [ apply List.Forall_nil
        | apply List.Forall_cons; [exact Logic.I |] ].
  - intros ->.
    assert (Hinv : forall ws c,
              filter (fun e => rom_call e = true) (host c) = [] ->
              filter (fun e => rom_call e = true)
                (host (pos_writes (pos_write ESDI_IS_INTEGRATED) ws c)) = []).
    { clear ws. induction ws as [| [port val] ws IH]; intros c Hc; [exact Hc |].
      unfold pos_writes in *. cbn [fold_left fst snd]. apply IH.
      change (pos_write ESDI_IS_INTEGRATED) with esdi_integrated_mca_write.
      unfold esdi_integrated_mca_write.
      destruct (port <? 0x102); [exact Hc |].
      cbn [host]. rewrite filter_app, Hc.
      destruct (nz _); reflexivity. }
    apply Hinv. reflexivity.
Qed.

End PosRegisters.

Lemma lor_shiftl_8 a b :
  0 <= a < 256 -> 0 <= b -> Z.lor a (Z.shiftl b 8) = a + 256 * b.
Proof.
  intros Ha Hb.
  assert (Hdisj : Z.land a (Z.shiftl b 8) = 0).
  { apply Z.bits_inj'. intros n Hn. rewrite Z.land_spec, Z.bits_0.
    destruct (Z.lt_ge_cases n 8) as [Hlt | Hge].
    - rewrite (Z.shiftl_spec_low b 8 n Hlt). apply andb_false_r.
    - rewrite <- (Z.mod_small a (2 ^ 8)) by lia.
      rewrite Z.mod_pow2_bits_high by lia. reflexivity. }
  rewrite <- Z.lxor_lor by exact Hdisj.
  rewrite <- Z.add_nocarry_lxor by exact Hdisj.
  rewrite Z.shiftl_mul_pow2 by lia. lia.
Qed.

Section PosInfo.

Context {W : Type} {E : Extern W}.

(** The status block of the get-POS-information command gives back the
    first four POS registers, two to a word, the even register in the
    high byte. *)
Theorem pos_info_reports_pos (m : mach W) :
  well_formed (dev m) ->
  in_reset (dev m) = 0 ->
  command (dev m) = CMD_GET_POS_INFO ->
  cmd_dev (dev m) = ATTN_HOST_ADAPTER ->
  Z.land (status (dev m)) STATUS_IRQ = 0 ->
  irq_in_progress (dev m) = 0 ->
  (forall port, 0 <= esdi_mca_read port (dev m) < 256) ->
  exists m',
    esdi_callback m = Done tt m'
    /\ status_len (dev m') = 5
    /\ irq_status (dev m') = Z.lor IRQ_HOST_ADAPTER IRQ_CMD_COMPLETE_SUCCESS
    /\ word_at (status_data (dev m')) 1 / 256 = esdi_mca_read 0x100 (dev m)
    /\ word_at (status_data (dev m')) 1 mod 256 = esdi_mca_read 0x101 (dev m)
    /\ word_at (status_data (dev m')) 2 / 256 = esdi_mca_read 0x102 (dev m)
    /\ word_at (status_data (dev m')) 2 mod 256 = esdi_mca_read 0x103 (dev m)
    /\ pos_regs (dev m') = pos_regs (dev m).
Proof.
  intros Hwf Hreset Hcmd Hdev Hirq Hprog Hbytes.
  apply nz_false in Hreset. apply nz_false in Hirq. apply nz_false in Hprog.
  pose proof (Hbytes 0x100) as H0. pose proof (Hbytes 0x101) as H1.
  pose proof (Hbytes 0x102) as H2. pose proof (Hbytes 0x103) as H3.
  unfold esdi_mca_read in *.
  change (Z.land 0x100 7) with 0 in *. change (Z.land 0x101 7) with 1 in *.
  change (Z.land 0x102 7) with 2 in *. change (Z.land 0x103 7) with 3 in *.
  destruct m as [d w l]. cbn [dev ext log] in *.
  unfold esdi_callback, call, esdi_callback_body. run.
  rewrite Hreset, Hcmd. run. unfold case_get_pos_info. run.
  rewrite Hdev. run. unfold irq_in_progress_check. run.
  rewrite Hirq, Hprog. run.
  eexists. split; [reflexivity |]. cbn.
  split; [reflexivity |]. split; [reflexivity |].
  erewrite (word_at_write_words_k _ _ 1%nat);
    [| reflexivity | reflexivity | rewrite (wf_status_data _ Hwf); cbn; lia].
  erewrite (word_at_write_words_k _ _ 2%nat);
    [| reflexivity | reflexivity | rewrite (wf_status_data _ Hwf); cbn; lia].
  rewrite !lor_shiftl_8 by lia.
  rewrite !u16_id by lia.
  repeat split.
  - rewrite (Z.mul_comm 256), Z.div_add by lia.
    rewrite Z.div_small by lia. lia.
  - rewrite (Z.mul_comm 256), Z.mod_add by lia.
    apply Z.mod_small. lia.
  - rewrite (Z.mul_comm 256), Z.div_add by lia.
    rewrite Z.div_small by lia. lia.
  - rewrite (Z.mul_comm 256), Z.mod_add by lia.
    apply Z.mod_small. lia.
Qed.

End PosInfo.

(** The system writes 0x15 to POS register 2 of the adapter. *)
Lemma pos_write_read_back_witness :
  let c :=
    card_init Sim.timer_add ESDI_IS_ADAPTER (Sim.drive 1000) Sim.no_drive in
  esdi_mca_read 0x102 (esdi (pos_write ESDI_IS_ADAPTER 0x102 0x15 c)) = 0x15
  /\ pos_write ESDI_IS_ADAPTER 0x100 0x15 c = c.
Proof.
  intros c.
  assert (Hlen : length (pos_regs (esdi c)) = 8%nat) by reflexivity.
  split.
  - destruct (pos_write_read_back ESDI_IS_ADAPTER 0x102 0x15 c Hlen)
      as [_ H].
    apply H. lia.
  - destruct (pos_write_read_back ESDI_IS_ADAPTER 0x100 0x15 c Hlen)
      as [H _].
    apply H. lia.
Defined.

(** Writes to all eight ports of the slot. *)
Lemma pos_id_read_only_witness :
  let ws := [(0x100, 0); (0x101, 0); (0x102, 0x15); (0x103, 0x02);
             (0x104, 1); (0x105, 2); (0x106, 3); (0x107, 4)] in
  let c :=
    pos_writes (pos_write ESDI_IS_ADAPTER) ws
      (card_init Sim.timer_add ESDI_IS_ADAPTER (Sim.drive 1000)
         Sim.no_drive) in
  esdi_mca_read 0x100 (esdi c) = 0xff /\ esdi_mca_read 0x101 (esdi c) = 0xdd.
Proof.
  intros ws c.
  assert (Hports : Forall (fun w => 0x100 <= fst w <= 0x107) ws)
    by (repeat (apply List.Forall_cons; [cbn; lia |]); apply List.Forall_nil).
  exact (proj1 (pos_id_read_only Sim.timer_add ESDI_IS_ADAPTER
                  (Sim.drive 1000) Sim.no_drive ws Hports) eq_refl).
Defined.

(** Arbitration level 5, then a code that selects nothing. *)
Lemma pos_dma_level_witness :
  let c :=
    card_init Sim.timer_add ESDI_IS_ADAPTER (Sim.drive 1000) Sim.no_drive in
  let c1 := pos_write ESDI_IS_ADAPTER 0x102 0x15 c in
  let c2 := pos_write ESDI_IS_ADAPTER 0x102 0x09 c1 in
  dma (esdi c1) = 5 /\ dma (esdi c2) = 5.
Proof.
  intros c c1 c2.
  assert (Hport : 0x102 <= 0x102) by lia.
  split.
  - destruct (pos_dma_level ESDI_IS_ADAPTER 0x102 0x15 c Hport) as (H & _).
    apply H. vm_compute. tauto.
  - destruct (pos_dma_level ESDI_IS_ADAPTER 0x102 0x09 c1 Hport)
      as (_ & H & _).
    apply H. vm_compute. intuition discriminate.
Defined.

(** The adapter with POS registers 2 and 3 written, asked for its POS
    information. *)
Lemma pos_info_reports_pos_witness :
  let c :=
    pos_writes (pos_write ESDI_IS_ADAPTER) [(0x102, 0x15); (0x103, 0x02)]
      (card_init Sim.timer_add ESDI_IS_ADAPTER (Sim.drive 1000)
         Sim.no_drive) in
  let m : mach Sim.t :=
    mk_mach
      (set_command CMD_GET_POS_INFO
         (set_cmd_dev ATTN_HOST_ADAPTER
            (set_status 0 (set_timer None (set_in_reset 0 (esdi c))))))
      (Sim.numbered 1000 0) [] in
  exists m',
    esdi_callback m = Done tt m'
    /\ word_at (status_data (dev m')) 1 = 0xffdd
    /\ word_at (status_data (dev m')) 2 = 0x1502.
Proof.
  intros c m.
  assert (Hwf : well_formed (dev m)) by (split; reflexivity).
  assert (H1 : in_reset (dev m) = 0) by reflexivity.
  assert (H2 : command (dev m) = CMD_GET_POS_INFO) by reflexivity.
  assert (H3 : cmd_dev (dev m) = ATTN_HOST_ADAPTER) by reflexivity.
  assert (H4 : Z.land (status (dev m)) STATUS_IRQ = 0) by reflexivity.
  assert (H5 : irq_in_progress (dev m) = 0) by reflexivity.
  assert (H6 : forall port, 0 <= esdi_mca_read port (dev m) < 256).
  { intros port. unfold esdi_mca_read.
    pose proof (land7_range port) as Hp.
    assert (Hc : Z.land port 7 = 0 \/ Z.land port 7 = 1 \/ Z.land port 7 = 2
                 \/ Z.land port 7 = 3 \/ Z.land port 7 = 4
                 \/ Z.land port 7 = 5 \/ Z.land port 7 = 6
                 \/ Z.land port 7 = 7) by lia.
    destruct Hc as [-> | [-> | [-> | [-> | [-> | [-> | [-> | ->]]]]]]];
      vm_compute; split; congruence. }
  destruct (pos_info_reports_pos m Hwf H1 H2 H3 H4 H5 H6)
    as (m' & Hrun & _ & _ & _ & _ & _ & _ & _).
  exists m'. split; [exact Hrun |].
  assert (Hv : esdi_callback m = Done tt m' ->
               word_at (status_data (dev m')) 1 = 0xffdd
               /\ word_at (status_data (dev m')) 2 = 0x1502).
  { intros Hr. vm_compute in Hr. injection Hr as <-. split; reflexivity. }
  exact (Hv Hrun).
Defined.

(** ** The registers *)

Section Registers.

Context {W : Type} {E : Extern W}.

(** A read of the status register gives the status and changes
    nothing.  A read of the interrupt status register gives the latched
    code and clears the interrupt bit of the status register, leaving
    its other bits.  A read of any other port gives 0 and changes
    nothing. *)
Theorem register_reads (m : mach W) (port : Z) :
  (Z.land port 7 = 2 -> esdi_read port m = Done (status (dev m)) m)
  /\ (Z.land port 7 = 3 ->
      exists s,
        esdi_read port m
        = Done (irq_status (dev m))
            (mk_mach (set_status s (dev m)) (ext m) (log m))
        /\ Z.testbit s 0 = false
        /\ forall k, 0 < k < 8 -> Z.testbit s k = Z.testbit (status (dev m)) k)
  /\ (Z.land port 7 <> 2 -> Z.land port 7 <> 3 -> esdi_read port m = Done 0 m).
Proof.
  destruct m as [d w l]. cbn [dev ext log].
  unfold esdi_read, call, esdi_read_body.
  split; [| split].
  - intros ->. cbn. exec. reflexivity.
  - intros ->. cbn. exec.
    eexists. split; [reflexivity |]. split.
    + apply (u8_clear_bit _ 0). lia.
    + intros k Hk. apply (u8_clear_other _ 0 k); lia.
  - intros H2 H3. apply Z.eqb_neq in H2. apply Z.eqb_neq in H3.
    rewrite H2, H3. reflexivity.
Qed.

(** An end-of-interrupt for the host adapter or a drive: the interrupt
    is no longer in flight or requested, the interrupt bit of the
    status register is clear and its other bits are as before, the
    interrupt line is lowered when interrupts are enabled, and the
    latched interrupt code, the queues and the timer are untouched. *)
Theorem end_of_interrupt (m : mach W) (port val : Z) :
  Z.land port 7 = 3 ->
  Z.land val ATTN_REQ_MASK = ATTN_EOI ->
  (Z.land val ATTN_DEVICE_SEL = ATTN_HOST_ADAPTER
   \/ Z.land val ATTN_DEVICE_SEL = ATTN_DEVICE_0
   \/ Z.land val ATTN_DEVICE_SEL = ATTN_DEVICE_1) ->
  exists s,
    esdi_write port val m
    = Done tt
        (mk_mach
           (set_irq_ena_disable 0
              (set_status s (set_irq_in_progress 0 (dev m))))
           (ext m)
           (log m
            ++ (if nz (Z.land (basic_ctrl (dev m)) CTRL_IRQ_ENA)
                then [Picint false] else [])))
    /\ Z.testbit s 0 = false
    /\ forall k, 0 < k < 8 -> Z.testbit s k = Z.testbit (status (dev m)) k.
Proof.
  intros Hport Hreq Hsel.
  destruct m as [d w l]. cbn [dev ext log].
  unfold esdi_write, call, esdi_write_body.
  rewrite Hport, Hreq. cbn.
  exists (u8 (Z.land (status d) (Z.lnot STATUS_IRQ))).
  split; [| split].
  - destruct Hsel as [-> | [-> | ->]]; cbn; exec;
      destruct (nz (Z.land (basic_ctrl d) CTRL_IRQ_ENA)); cbn;
      rewrite ?app_nil_r; reflexivity.
  - apply (u8_clear_bit _ 0). lia.
  - intros k Hk. apply (u8_clear_other _ 0 k); lia.
Qed.

(** An attention request the adapter does not know stops the emulator
    in the state it was in: a target that is neither the adapter nor a
    drive, a request code other than command request, end of interrupt
    and, for the adapter only, reset.  So does a byte write to any
    port but the control and attention registers. *)
Theorem attention_rejects (m : mach W) (port val : Z) :
  (Z.land port 7 = 3 ->
   Z.land val ATTN_DEVICE_SEL <> ATTN_HOST_ADAPTER ->
   Z.land val ATTN_DEVICE_SEL <> ATTN_DEVICE_0 ->
   Z.land val ATTN_DEVICE_SEL <> ATTN_DEVICE_1 ->
   esdi_write port val m = Crashed "Attention to unknown device %02x" m)
  /\ (Z.land port 7 = 3 ->
      Z.land val ATTN_REQ_MASK <> ATTN_CMD_REQ ->
      Z.land val ATTN_REQ_MASK <> ATTN_EOI ->
      (Z.land val ATTN_DEVICE_SEL = ATTN_HOST_ADAPTER
       /\ Z.land val ATTN_REQ_MASK <> ATTN_RESET)
      \/ Z.land val ATTN_DEVICE_SEL = ATTN_DEVICE_0
      \/ Z.land val ATTN_DEVICE_SEL = ATTN_DEVICE_1 ->
      esdi_write port val m = Crashed "Bad attention request %02x" m)
  /\ (Z.land port 7 <> 2 -> Z.land port 7 <> 3 ->
      esdi_write port val m = Crashed "esdi_write port=%04x val=%02x" m).
Proof.
  destruct m as [d w l].
  unfold esdi_write, call, esdi_write_body.
  split; [| split].
  - intros -> H1 H2 H3.
    apply Z.eqb_neq in H1. apply Z.eqb_neq in H2. apply Z.eqb_neq in H3.
    cbn. rewrite H1, H2, H3. reflexivity.
  - intros -> H1 H2 Hsel.
    apply Z.eqb_neq in H1. apply Z.eqb_neq in H2.
    cbn. rewrite H1, H2.
    destruct Hsel as [[-> H3] | [-> | ->]]; cbn.
    + apply Z.eqb_neq in H3. rewrite H3. reflexivity.
    + reflexivity.
    + reflexivity.
  - intros H2 H3. apply Z.eqb_neq in H2. apply Z.eqb_neq in H3.
    rewrite H2, H3. reflexivity.
Qed.

(** Setting the reset bit of the control register stops the pending
    callback: whatever command was in flight gets no further callback,
    and the status is busy until the bit is cleared again. *)
Theorem reset_bit_cancels_callback (m : mach W) (port val : Z) :
  Z.land port 7 = 2 ->
  Z.land (basic_ctrl (dev m)) CTRL_RESET = 0 ->
  Z.land val CTRL_RESET <> 0 ->
  exists m',
    esdi_write port val m = Done tt m'
    /\ timer (dev m') = None
    /\ status (dev m') = STATUS_BUSY
    /\ basic_ctrl (dev m') = val
    /\ in_reset (dev m') = in_reset (dev m)
    /\ cmd_state (dev m') = cmd_state (dev m)
    /\ step TimerFire m' = Done tt m'.
Proof.
  intros Hport Hold Hnew.
  destruct m as [d w l]. cbn [dev] in *.
  apply nz_false in Hold. apply nz_true in Hnew.
  unfold esdi_write, call, esdi_write_body.
  rewrite Hport. cbn. exec. rewrite Hold, Hnew. cbn.
  destruct (nz (Z.land val CTRL_IRQ_ENA)
            && negb (nz (Z.land (basic_ctrl d) CTRL_IRQ_ENA)));
    (eexists; split; [reflexivity |]); cbn; repeat split; reflexivity.
Qed.

(** Enabling interrupts in the control register sets the interrupt
    line to what is pending: raised when an interrupt was requested
    while interrupts were disabled and no end-of-interrupt came since,
    lowered otherwise.  In particular an error reported with
    interrupts disabled raises the line once they are enabled. *)
Theorem irq_enable_delivers_pending (m : mach W) (port val : Z) :
  Z.land port 7 = 2 ->
  Z.land (basic_ctrl (dev m)) CTRL_RESET = 0 ->
  Z.land val CTRL_RESET = 0 ->
  Z.land (basic_ctrl (dev m)) CTRL_IRQ_ENA = 0 ->
  Z.land val CTRL_IRQ_ENA <> 0 ->
  esdi_write port val m
  = Done tt
      (mk_mach (set_basic_ctrl val (dev m)) (ext m)
         (log m ++ [Picint (nz (irq_ena_disable (dev m)))]))
  /\ forall w1 w2,
       esdi_write port val (error_mach w1 w2 m)
       = Done tt
           (mk_mach (set_basic_ctrl val (error_state w1 w2 (dev m))) (ext m)
              (log m ++ [UiIcon 0; UiIconWrite 0; Picint true])).
Proof.
  intros Hport Hold Hnew Hoff Hon.
  assert (Hstep : forall m0 : mach W,
            Z.land (basic_ctrl (dev m0)) CTRL_RESET = 0 ->
            Z.land (basic_ctrl (dev m0)) CTRL_IRQ_ENA = 0 ->
            esdi_write port val m0
            = Done tt
                (mk_mach (set_basic_ctrl val (dev m0)) (ext m0)
                   (log m0 ++ [Picint (nz (irq_ena_disable (dev m0)))]))).
  { intros [d w l] H1 H2. cbn [dev ext log] in *.
    apply nz_false in H1. apply nz_false in H2.
    pose proof (nz_false _ Hnew) as H3. pose proof (nz_true _ Hon) as H4.
    unfold esdi_write, call, esdi_write_body.
    rewrite Hport. cbn. exec. rewrite H1, H2, H3, H4. cbn. exec.
    rewrite H4. reflexivity. }
  split; [apply Hstep; assumption |].
  intros w1 w2. rewrite Hstep by assumption.
  unfold error_mach, irq_events. cbn [dev ext log].
  rewrite (nz_false _ Hoff). cbn [app].
  rewrite <- app_assoc. reflexivity.
Qed.

(** The bus reset of the integrated controller starts a reset when
    none is under way, as the reset request of the attention register
    does, and does nothing during a reset: a second bus reset changes
    nothing. *)
Theorem bus_reset_once (m : mach W) :
  (in_reset (dev m) = 0 ->
   esdi_reset m
   = Done tt
       (mk_mach
          (set_status STATUS_BUSY
             (set_timer (Some (ESDI_TIME * (50 # 1))%Q)
                (set_in_reset 1 (dev m))))
          (ext m) (log m))
   /\ esdi_reset m
      = esdi_write 3 (Z.lor ATTN_HOST_ADAPTER ATTN_RESET) m)
  /\ (in_reset (dev m) <> 0 -> esdi_reset m = Done tt m)
  /\ forall m1, esdi_reset m = Done tt m1 -> esdi_reset m1 = Done tt m1.
Proof.
  destruct m as [d w l]. cbn [dev ext log].
  assert (Hoff : in_reset d = 0 ->
            esdi_reset (mk_mach d w l)
            = Done tt
                (mk_mach
                   (set_status STATUS_BUSY
                      (set_timer (Some (ESDI_TIME * (50 # 1))%Q)
                         (set_in_reset 1 d)))
                   w l)).
  { intros H. apply nz_false in H.
    unfold esdi_reset, call, esdi_reset_body. exec. rewrite H. cbn. exec.
    reflexivity. }
  assert (Hon : forall d', in_reset d' <> 0 ->
            esdi_reset (mk_mach d' w l) = Done tt (mk_mach d' w l)).
  { intros d' H. apply nz_true in H.
    unfold esdi_reset, call, esdi_reset_body. exec. rewrite H. reflexivity. }
  split; [| split].
  - intros H. split; [exact (Hoff H) |]. rewrite (Hoff H).
    unfold esdi_write, call, esdi_write_body. cbn. exec. reflexivity.
  - apply Hon.
  - intros m1 Hrun.
    destruct (Z.eq_dec (in_reset d) 0) as [H | H].
    + rewrite (Hoff H) in Hrun. injection Hrun as <-.
      apply Hon. cbn. lia.
    + rewrite (Hon d H) in Hrun. injection Hrun as <-. apply Hon. exact H.
Qed.

End Registers.

(** ** Draining the status queue *)

Section StatusDrain.

Context {W : Type} {E : Extern W}.

Lemma readw_empty (m : mach W) :
  status_len (dev m) <= status_pos (dev m) -> esdi_readw 0 m = Done 0 m.
Proof.
  intros H. destruct m as [d w l]. cbn [dev] in H.
  unfold esdi_readw, call, esdi_readw_body. cbn. exec.
  rewrite geb_true by lia. reflexivity.
Qed.

Lemma readw_more (m : mach W) :
  status_pos (dev m) + 1 < status_len (dev m) ->
  esdi_readw 0 m
  = Done (word_at (status_data (dev m)) (status_pos (dev m)))
      (mk_mach (set_status_pos (status_pos (dev m) + 1) (dev m))
         (ext m) (log m)).
Proof.
  intros H. destruct m as [d w l]. cbn [dev ext log] in *.
  unfold esdi_readw, call, esdi_readw_body. cbn. exec.
  rewrite (geb_false (status_pos d) (status_len d)) by lia. cbn.
  rewrite (geb_false (status_pos d + 1) (status_len d)) by lia.
  reflexivity.
Qed.

Lemma readw_last (m : mach W) :
  status_pos (dev m) + 1 = status_len (dev m) ->
  esdi_readw 0 m
  = Done (word_at (status_data (dev m)) (status_pos (dev m)))
      (mk_mach
         (set_status_pos 0
            (set_status_len 0
               (set_status
                  (u8 (Z.land (status (dev m)) (Z.lnot STATUS_STATUS_OUT_FULL)))
                  (dev m))))
         (ext m) (log m)).
Proof.
  intros H. destruct m as [d w l]. cbn [dev ext log] in *.
  unfold esdi_readw, call, esdi_readw_body. cbn. exec.
  rewrite (geb_false (status_pos d) (status_len d)) by lia. cbn.
  rewrite (geb_true (status_pos d + 1) (status_len d)) by lia.
  reflexivity.
Qed.

Lemma words_from_S a from n :
  words_from a from (S n) = word_at a from :: words_from a (from + 1) n.
Proof.
  unfold words_from. cbn [seq map]. rewrite Z.add_0_r. f_equal.
  rewrite <- seq_shift, map_map. apply map_ext. intros i. f_equal. lia.
Qed.

Lemma drain_from : forall (k : nat) (m : mach W),
  status_len (dev m) = status_pos (dev m) + Z.of_nat (S k) ->
  read_status (S k) m
  = Done (words_from (status_data (dev m)) (status_pos (dev m)) (S k))
      (mk_mach
         (set_status_pos 0
            (set_status_len 0
               (set_status
                  (u8 (Z.land (status (dev m)) (Z.lnot STATUS_STATUS_OUT_FULL)))
                  (dev m))))
         (ext m) (log m)).
Proof.
  induction k as [| k IH]; intros m Hlen.
  - cbn [read_status]. rewrite readw_last by lia. rewrite words_from_S.
    reflexivity.
  - rewrite words_from_S.
    change (read_status (S (S k)) m)
      with (match esdi_readw 0 m with
            | Done v m1 =>
                match read_status (S k) m1 with
                | Done vs m2 => Done (v :: vs) m2
                | Crashed msg m2 => Crashed msg m2
                end
            | Crashed msg m1 => Crashed msg m1
            end).
    rewrite readw_more by lia.
    rewrite IH by (cbn [dev status_len status_pos set_status_pos]; lia).
    reflexivity.
Qed.

(** When a status block of [n] words is in the queue and the cursor is
    at its start, [n] reads of the status interface register give the
    words of the block in order; the last of them empties the queue and
    clears the status-out-full bit, and a further read gives 0 and
    changes nothing. *)
Theorem status_queue_drain (m : mach W) (n : nat) :
  status_pos (dev m) = 0 ->
  status_len (dev m) = Z.of_nat n ->
  (0 < n)%nat ->
  exists m',
    read_status n m = Done (words_from (status_data (dev m)) 0 n) m'
    /\ status_len (dev m') = 0
    /\ status_pos (dev m') = 0
    /\ Z.testbit (status (dev m')) 3 = false
    /\ status_data (dev m') = status_data (dev m)
    /\ esdi_readw 0 m' = Done 0 m'.
Proof.
  intros Hpos Hlen Hn. destruct n as [| k]; [lia |].
  eexists. split.
  - rewrite drain_from by lia. rewrite Hpos. reflexivity.
  - cbn [dev status_len status_pos status status_data set_status_pos
         set_status_len set_status].
    split; [reflexivity |]. split; [reflexivity |].
    split; [apply (u8_clear_bit _ 3); lia |].
    split; [reflexivity |].
    apply readw_empty. cbn. lia.
Qed.

End StatusDrain.

(** ** Edges of the executor *)

Lemma lor_shiftl a b n :
  0 <= n -> 0 <= a < 2 ^ n -> 0 <= b ->
  Z.lor a (Z.shiftl b n) = a + 2 ^ n * b.
Proof.
  intros Hn Ha Hb.
  assert (Hdisj : Z.land a (Z.shiftl b n) = 0).
  { apply Z.bits_inj'. intros k Hk. rewrite Z.land_spec, Z.bits_0.
    destruct (Z.lt_ge_cases k n) as [Hlt | Hge].
    - rewrite (Z.shiftl_spec_low b n k Hlt). apply andb_false_r.
    - rewrite <- (Z.mod_small a (2 ^ n)) by lia.
      rewrite Z.mod_pow2_bits_high by lia. reflexivity. }
  rewrite <- Z.lxor_lor by exact Hdisj.
  rewrite <- Z.add_nocarry_lxor by exact Hdisj.
  rewrite Z.shiftl_mul_pow2 by lia. lia.
Qed.

Section ExecutorEdges.

Context {W : Type} {E : Extern W}.

(** The device configuration of a present drive: words 2 and 3 of the
    status block are the low and high halves of the drive's sector
    total, word 4 is the cylinder count, and word 5 is the head count
    alone (the sectors per track, shifted above bit 15, do not reach
    the 16-bit word). *)
Theorem dev_config_reports_geometry (m : mach W) :
  well_formed (dev m) ->
  in_reset (dev m) = 0 ->
  command (dev m) = CMD_GET_DEV_CONFIG ->
  drive_target (dev m) ->
  present (selected_drive (dev m)) <> 0 ->
  Z.land (status (dev m)) STATUS_IRQ = 0 ->
  irq_in_progress (dev m) = 0 ->
  let drive := selected_drive (dev m) in
  0 <= sectors drive < 2147483648 ->
  0 <= tracks drive < 65536 ->
  0 <= hpc drive < 65536 ->
  0 <= spt drive ->
  exists m',
    esdi_callback m = Done tt m'
    /\ status_len (dev m') = 6
    /\ status (dev m') = Z.lor STATUS_IRQ STATUS_STATUS_OUT_FULL
    /\ irq_status (dev m')
       = u8 (Z.lor (cmd_dev (dev m)) IRQ_CMD_COMPLETE_SUCCESS)
    /\ word_at (status_data (dev m')) 2
       + 65536 * word_at (status_data (dev m')) 3 = sectors drive
    /\ word_at (status_data (dev m')) 4 = tracks drive
    /\ word_at (status_data (dev m')) 5 = hpc drive.
Proof.
  intros Hwf Hreset Hcmd Hdev Hpresent Hirq Hprog drive Hsec Htr Hhpc Hspt.
  apply nz_false in Hreset. apply nz_true in Hpresent.
  apply nz_false in Hirq. apply nz_false in Hprog.
  pose proof (drive_target_cases _ Hdev) as Hdt.
  assert (Hhost : (cmd_dev (dev m) =? ATTN_HOST_ADAPTER) = false)
    by (destruct Hdev as [-> | ->]; reflexivity).
  subst drive.
  destruct m as [d w l]. cbn [dev ext log] in *.
  unfold esdi_callback, call, esdi_callback_body. run.
  rewrite Hreset, Hcmd. run. unfold case_get_dev_config. run.
  rewrite Hhost. run. rewrite Hdt. run. rewrite Hpresent. run.
  unfold irq_in_progress_check. run. rewrite Hirq, Hprog. run.
  eexists. split; [reflexivity |]. cbn.
  do 3 (split; [reflexivity |]).
  erewrite (word_at_write_words_k _ _ 2%nat);
    [| reflexivity | reflexivity | rewrite (wf_status_data _ Hwf); cbn; lia].
  erewrite (word_at_write_words_k _ _ 3%nat);
    [| reflexivity | reflexivity | rewrite (wf_status_data _ Hwf); cbn; lia].
  erewrite (word_at_write_words_k _ _ 4%nat);
    [| reflexivity | reflexivity | rewrite (wf_status_data _ Hwf); cbn; lia].
  erewrite (word_at_write_words_k _ _ 5%nat);
    [| reflexivity | reflexivity | rewrite (wf_status_data _ Hwf); cbn; lia].
  split; [| split].
  - change 0xffff with (Z.ones 16). rewrite Z.land_ones by lia.
    rewrite Z.shiftr_div_pow2 by lia. unfold u16.
    rewrite Z.mod_mod by lia.
    rewrite (Z.mod_small (sectors (selected_drive d) / 2 ^ 16))
      by (split; [apply Z.div_pos; lia | apply Z.div_lt_upper_bound; lia]).
    change (2 ^ 16) with 65536.
    pose proof (Z.div_mod (sectors (selected_drive d)) 65536 ltac:(lia)).
    lia.
  - apply u16_id. exact Htr.
  - rewrite lor_shiftl by (change (2 ^ 16) with 65536; lia).
    unfold u16. change (2 ^ 16) with 65536.
    rewrite (Z.mul_comm 65536), Z.mod_add by lia.
    apply Z.mod_small. exact Hhpc.
Qed.

(** The four commands that only build a status block stop the emulator,
    in the state it was in, when an interrupt is still pending: the
    interrupt bit of the status register is set or an interrupt is in
    flight. *)
Theorem status_commands_refuse_pending_irq (m : mach W) :
  in_reset (dev m) = 0 ->
  (command (dev m) = CMD_GET_DEV_STATUS
   /\ drive_target (dev m) /\ present (selected_drive (dev m)) <> 0)
  \/ (command (dev m) = CMD_GET_DEV_CONFIG
      /\ (cmd_dev (dev m) = ATTN_HOST_ADAPTER
          \/ (drive_target (dev m)
              /\ present (selected_drive (dev m)) <> 0)))
  \/ ((command (dev m) = CMD_GET_POS_INFO \/ command (dev m) = 0x12)
      /\ cmd_dev (dev m) = ATTN_HOST_ADAPTER) ->
  Z.land (status (dev m)) STATUS_IRQ <> 0 \/ irq_in_progress (dev m) <> 0 ->
  esdi_callback m = Crashed "IRQ in progress %02x %i" m.
Proof.
  intros Hreset Hcmd Hpending. apply nz_false in Hreset.
  assert (Hp : nz (Z.land (status (dev m)) STATUS_IRQ)
               || nz (irq_in_progress (dev m)) = true).
  { destruct Hpending as [H | H]; apply nz_true in H; rewrite H;
      [reflexivity | apply orb_true_r]. }
  destruct m as [d w l]. cbn [dev ext log] in *.
  destruct Hcmd as [(Hc & Hdev & Hpr) | [(Hc & Htarget) | (Hc & Hdev)]].
  - apply nz_true in Hpr. pose proof (drive_target_cases _ Hdev) as Hdt.
    unfold esdi_callback, call, esdi_callback_body. run.
    rewrite Hreset, Hc. run. unfold case_get_dev_status. run.
    rewrite Hdt. run. rewrite Hpr. run.
    unfold irq_in_progress_check. run. rewrite Hp. reflexivity.
  - destruct Htarget as [Hdev | [Hdev Hpr]].
    + unfold esdi_callback, call, esdi_callback_body. run.
      rewrite Hreset, Hc. run. unfold case_get_dev_config. run.
      rewrite Hdev. run.
      unfold irq_in_progress_check. run. rewrite Hp. reflexivity.
    + apply nz_true in Hpr. pose proof (drive_target_cases _ Hdev) as Hdt.
      assert (Hhost : (cmd_dev d =? ATTN_HOST_ADAPTER) = false)
        by (destruct Hdev as [-> | ->]; reflexivity).
      unfold esdi_callback, call, esdi_callback_body. run.
      rewrite Hreset, Hc. run. unfold case_get_dev_config. run.
      rewrite Hhost. run. rewrite Hdt. run. rewrite Hpr. run.
      unfold irq_in_progress_check. run. rewrite Hp. reflexivity.
  - destruct Hc as [Hc | Hc];
      unfold esdi_callback, call, esdi_callback_body; run;
      rewrite Hreset, Hc; run; unfold case_get_pos_info, case_0x12; run;
      rewrite Hdev; run;
      unfold irq_in_progress_check; run; rewrite Hp; reflexivity.
Qed.

(** An opcode outside the ones the executor knows stops the emulator in
    the state it was in. *)
Theorem bad_command_is_fatal (m : mach W) :
  in_reset (dev m) = 0 ->
  ~ In (command (dev m))
      (drive_commands ++ adapter_commands ++ [CMD_GET_DEV_CONFIG]) ->
  esdi_callback m = Crashed "BAD COMMAND %02x %i" m.
Proof.
  intros Hreset Hno. apply nz_false in Hreset.
  destruct m as [d w l]. cbn [dev ext log] in *.
  unfold esdi_callback, call, esdi_callback_body. run. rewrite Hreset.
  repeat match goal with
         | |- context [command d =? ?k] =>
             let e := fresh "e" in
             destruct (Z.eqb_spec (command d) k) as [e | e];
             [ exfalso; apply Hno; rewrite e;
               unfold drive_commands, adapter_commands; cbn;
               intuition reflexivity |]
         end.
  reflexivity.
Qed.

(** While DMA is disabled in the control register the transfer phase
    of a command only asks for another callback one base latency
    ahead: nothing else in the adapter changes, and no DMA or disk image
    call is made. *)
Theorem dma_disabled_transfer_waits (m : mach W) :
  in_reset (dev m) = 0 ->
  (In (command (dev m))
     [CMD_READ; 0x15; CMD_WRITE; CMD_WRITE_VERIFY; CMD_FORMAT_UNIT;
      CMD_FORMAT_PREPARE]
   /\ drive_target (dev m) /\ present (selected_drive (dev m)) <> 0)
  \/ ((command (dev m) = 0x10 \/ command (dev m) = 0x11)
      /\ cmd_dev (dev m) = ATTN_HOST_ADAPTER) ->
  cmd_state (dev m) = 1 ->
  Z.land (basic_ctrl (dev m)) CTRL_DMA_ENA = 0 ->
  esdi_callback m
  = Done tt (mk_mach (set_timer (Some ESDI_TIME) (dev m)) (ext m) (log m)).
Proof.
  intros Hreset Hcmd Hstate Hdma.
  apply nz_false in Hreset. apply nz_false in Hdma.
  destruct m as [d w l]. cbn [dev ext log] in *.
  destruct Hcmd as [(Hc & Hdev & Hpr) | (Hc & Hdev)].
  - apply nz_true in Hpr. pose proof (drive_target_cases _ Hdev) as Hdt.
    cbn in Hc.
    repeat (destruct Hc as [Hc' | Hc];
            [ symmetry in Hc';
              unfold esdi_callback, call, esdi_callback_body; run;
              rewrite Hreset, Hc'; run;
              unfold case_read, case_write, case_format; run;
              rewrite Hdt; run; rewrite Hpr; run; rewrite Hstate; run;
              rewrite Hdma; run; reflexivity |]).
    destruct Hc.
  - destruct Hc as [Hc | Hc];
      unfold esdi_callback, call, esdi_callback_body; run;
      rewrite Hreset, Hc; run;
      unfold case_write_sector_buffer, case_read_sector_buffer; run;
      rewrite Hdev; run; rewrite Hstate; run; rewrite Hdma; run;
      reflexivity.
Qed.

(** The transfer phase of a format with DMA enabled: format-unit zeroes
    the whole disk image, from sector 0 for one more than the last
    sector, whatever count the command carried; format-prepare touches
    no sector.  Either moves to phase 2 one base latency ahead. *)
Theorem format_zeroes_whole_disk (m : mach W) :
  in_reset (dev m) = 0 ->
  command (dev m) = CMD_FORMAT_UNIT \/ command (dev m) = CMD_FORMAT_PREPARE ->
  drive_target (dev m) ->
  present (selected_drive (dev m)) <> 0 ->
  cmd_state (dev m) = 1 ->
  Z.land (basic_ctrl (dev m)) CTRL_DMA_ENA <> 0 ->
  let hdd := hdd_num (selected_drive (dev m)) in
  let n := u32 (hdd_image_get_last_sector hdd (ext m) + 1) in
  let unit_ := command (dev m) =? CMD_FORMAT_UNIT in
  esdi_callback m
  = Done tt
      (mk_mach
         (set_timer (Some ESDI_TIME)
            (set_cmd_state 2 (set_status STATUS_CMD_IN_PROGRESS (dev m))))
         (if unit_ then hdd_image_zero hdd 0 n (ext m) else ext m)
         (log m ++ (if unit_ then [ImageZero hdd 0 n] else []))).
Proof.
  intros Hreset Hcmd Hdev Hpr Hstate Hdma hdd n unit_.
  apply nz_false in Hreset. apply nz_true in Hpr. apply nz_true in Hdma.
  pose proof (drive_target_cases _ Hdev) as Hdt.
  subst hdd n unit_.
  destruct m as [d w l]. cbn [dev ext log] in *.
  destruct Hcmd as [Hc | Hc];
    unfold esdi_callback, call, esdi_callback_body; run;
    rewrite Hreset, Hc; run; unfold case_format; run;
    rewrite Hdt; run; rewrite Hpr; run; rewrite Hstate; run;
    rewrite Hdma; run; rewrite ?Hc; run; rewrite ?app_nil_r; reflexivity.
Qed.

End ExecutorEdges.

(** ** Power-on and the passes of a transfer *)

Section PowerOn.

Context {W : Type} {E : Extern W}.

(** [esdi_init] leaves the adapter in reset, busy, with the interrupt
    status 0xff and no interrupt in flight; the timer is what
    [timer_add] leaves of the delay of 50 base latencies scheduled just
    before it.  A callback on that state ends the reset: the status
    shows an interrupt with a one-word status block for the host
    adapter and the reset-complete code is latched, but the interrupt
    line is not raised, no interrupt is marked in flight and the timer
    is left alone; the guest finds the word by reading the status
    interface register. *)
Theorem power_on_reset_complete timer_add local d0 d1 (w : W) :
  let m0 := mk_mach (esdi_init timer_add local d0 d1) w [] in
  in_reset (dev m0) = 1
  /\ status (dev m0) = STATUS_BUSY
  /\ irq_status (dev m0) = 0xff
  /\ irq_in_progress (dev m0) = 0
  /\ irq_ena_disable (dev m0) = 0
  /\ timer (dev m0) = timer_add (Some (ESDI_TIME * (50 # 1))%Q)
  /\ exists m1,
       esdi_callback m0 = Done tt m1
       /\ in_reset (dev m1) = 0
       /\ status (dev m1)
          = Z.lor (Z.lor STATUS_IRQ STATUS_TRANSFER_REQ) STATUS_STATUS_OUT_FULL
       /\ irq_status (dev m1) = Z.lor IRQ_HOST_ADAPTER IRQ_RESET_COMPLETE
       /\ irq_in_progress (dev m1) = 0
       /\ irq_ena_disable (dev m1) = 0
       /\ timer (dev m1) = timer (dev m0)
       /\ ext m1 = w
       /\ log m1 = []
       /\ exists m2,
            esdi_readw 0 m1
            = Done (Z.lor (STATUS_LEN 1) STATUS_DEVICE_HOST_ADAPTER) m2
            /\ status_len (dev m2) = 0.
Proof.
  intros m0. subst m0.
  assert (Hinit : exists regs,
            length regs = 8%nat
            /\ esdi_init timer_add local d0 d1
               = set_pos_regs regs (esdi_init timer_add ESDI_IS_ADAPTER d0 d1)).
  { unfold esdi_init.
    destruct (local =? ESDI_IS_ADAPTER);
      [| destruct (local =? ESDI_IS_INTEGRATED)];
      eexists; split; try reflexivity; reflexivity. }
  destruct Hinit as (regs & _ & ->). cbn [dev].
  do 6 (split; [reflexivity |]).
  rewrite callback_in_reset by (cbn; discriminate).
  eexists. split; [reflexivity |]. cbn [dev ext log].
  do 5 (split; [reflexivity |]).
  split.
  { vm_compute. reflexivity. }
  do 2 (split; [reflexivity |]).
  eexists. split.
  - rewrite readw_last by (vm_compute; reflexivity).
    apply (f_equal2 (fun a b => Done a b));
      [vm_compute; reflexivity | reflexivity].
  - reflexivity.
Qed.

End PowerOn.

Section Passes.

Context {W : Type} {E : Extern W}.

(** A pass of the read loop that resumes inside a sector (the cursor is
    past word 0) makes no disk image call and offers the DMA channel
    the words of the staged sector from the cursor on, in order, each
    once.  When the channel takes them all the pass moves to the next
    sector with the time it was given; when the channel refuses a word
    the cursor is left on that word and the callback is rescheduled. *)
Theorem resumed_read_pass drive c (m : mach W) :
  0 < data_pos (dev m) < 256 ->
  match read_sector drive c m with
  | Next c' m' =>
      c' = c
      /\ exists rets,
           Z.of_nat (length rets) = 256 - data_pos (dev m)
           /\ Forall (fun r => r <> DMA_NODATA) rets
           /\ log m'
              = log m ++ dma_writes (dma (dev m)) (data (dev m))
                           (data_pos (dev m)) rets
           /\ dev m'
              = set_rba (u32 (rba (dev m) + 1))
                  (set_sector_pos (sector_pos (dev m) + 1)
                     (set_data_pos 0 (dev m)))
  | Return _ m' =>
      exists rets,
        data_pos (dev m) + Z.of_nat (length rets) < 256
        /\ Forall (fun r => r <> DMA_NODATA) rets
        /\ log m'
           = log m ++ dma_writes (dma (dev m)) (data (dev m))
                        (data_pos (dev m)) (rets ++ [DMA_NODATA])
        /\ dev m'
           = set_timer (sched (ESDI_TIME + c)%Q)
               (set_data_pos (data_pos (dev m) + Z.of_nat (length rets))
                  (dev m))
  | Fatal _ _ => False
  end.
Proof.
  intros Hpos. unfold read_sector. unfold bind at 1, get.
  rewrite (nz_true (data_pos (dev m))) by lia. cbn [negb].
  unfold bind at 1, next. unfold bind at 1, words_to_dma.
  unfold bind at 1, get.
  pose proof (words_to_dma_loop (ESDI_TIME + c)%Q (words_left (dev m)) m
                ltac:(lia) eq_refl) as H.
  destruct (while _ _ _ tt m) as [[] m1 | [] m1 | msg m1].
  - destruct H as (rets & Hlen & Hall & Hdev & Hlog).
    unfold_monad. cbn [dev ext log]. split; [reflexivity |].
    exists rets. rewrite Hdev.
    split; [exact Hlen |]. split; [exact Hall |]. split; [exact Hlog |].
    reflexivity.
  - destruct H as (rets & Hlen & Hall & Hdev & Hlog).
    exists rets. repeat split; assumption.
  - exact H.
Qed.

(** A pass of the write loop fills the staging buffer from the DMA
    channel, from the cursor on and in order, each word cut to 16 bits.
    When the channel refuses a word the cursor is left at the index
    that word would have had and no disk image call is made; otherwise
    the whole buffer is written to the disk image once, at the current
    block. *)
Theorem write_pass_fills_buffer drive c (m : mach W) :
  0 <= data_pos (dev m) < 256 ->
  rba (dev m) < u32 (sectors drive) ->
  exists vals,
    Forall (fun v => v <> DMA_NODATA) vals
    /\ let buf := fill_words (data (dev m)) (data_pos (dev m)) vals in
       match write_sector drive c m with
       | Next _ m' =>
           Z.of_nat (length vals) = 256 - data_pos (dev m)
           /\ exists ret,
                0 <= ret
                /\ log m'
                   = log m ++ map (DmaRead (dma (dev m))) vals
                     ++ [ImageWrite (hdd_num drive) (rba (dev m)) buf ret]
                /\ dev m'
                   = set_data_pos 0
                       (set_sector_pos (sector_pos (dev m) + 1)
                          (set_rba (u32 (rba (dev m) + 1))
                             (set_data buf (dev m))))
       | Return _ m' =>
           (data_pos (dev m) + Z.of_nat (length vals) < 256
            /\ log m'
               = log m ++ map (DmaRead (dma (dev m))) (vals ++ [DMA_NODATA])
            /\ dev m'
               = set_timer (sched (ESDI_TIME + c)%Q)
                   (set_data_pos (data_pos (dev m) + Z.of_nat (length vals))
                      (set_data buf (dev m))))
           \/ (Z.of_nat (length vals) = 256 - data_pos (dev m)
               /\ exists ret m1,
                    ret < 0
                    /\ m' = error_mach 0x0e01 0x0009 m1
                    /\ log m1
                       = log m ++ map (DmaRead (dma (dev m))) vals
                         ++ [ImageWrite (hdd_num drive) (rba (dev m)) buf ret]
                    /\ dev m1 = set_data_pos 256 (set_data buf (dev m)))
       | Fatal _ _ => False
       end.
Proof.
  intros Hpos Hrba. unfold write_sector. unfold bind at 1, words_from_dma.
  unfold bind at 1, get.
  pose proof (words_from_dma_loop (ESDI_TIME + c)%Q (words_left (dev m)) m
                ltac:(lia) eq_refl) as H.
  destruct (while _ _ _ tt m) as [[] m1 | [] m1 | msg m1].
  - destruct H as (vals & Hlen & Hall & Hdev & Hlog).
    exists vals. split; [exact Hall |]. cbv zeta.
    destruct m1 as [d1 w0 l1]. cbn [dev log] in Hdev, Hlog. subst d1 l1.
    unfold bind at 1, get. unfold bind at 1.
    cbn [dev rba set_data_pos set_data].
    rewrite geb_false by lia. unfold next at 1.
    unfold bind at 1, extern. cbn [dev ext log data set_data_pos set_data].
    destruct (hdd_image_write _ _ _ _ _) as [ret w1].
    destruct (Z.ltb_spec ret 0) as [Hret | Hret].
    + unfold bind. rewrite defective_block_run. unfold return_.
      right. split; [exact Hlen |].
      exists ret. eexists. split; [exact Hret |]. split; [reflexivity |].
      cbn [dev log]. rewrite <- app_assoc. split; reflexivity.
    + unfold bind at 1, ask. cbn [ext dev log].
      destruct (hdd_timing_write _ _ _ _) as [t w2].
      unfold_monad. cbn [dev log ext]. split; [exact Hlen |].
      exists ret. split; [lia |].
      rewrite <- app_assoc. split; reflexivity.
  - destruct H as (vals & Hlen & Hall & Hdev & Hlog).
    exists vals. split; [exact Hall |]. cbv zeta.
    left. split; [exact Hlen |]. split; [exact Hlog | exact Hdev].
  - destruct H.
Qed.

End Passes.

(** ** The sector buffer commands *)

Lemma length_fill_words vals : forall buf from,
  length (fill_words buf from vals) = length buf.
Proof.
  induction vals as [| v vals IH]; intros buf from; [reflexivity |].
  cbn [fill_words]. rewrite IH. apply length_store.
Qed.

Lemma word_at_fill_words_before vals : forall buf from j,
  0 <= j < from -> word_at (fill_words buf from vals) j = word_at buf j.
Proof.
  induction vals as [| v vals IH]; intros buf from j Hj; [reflexivity |].
  cbn [fill_words]. rewrite IH by lia. apply word_at_store_other. lia.
Qed.

Lemma words_from_fill_words vals : forall buf from,
  0 <= from ->
  (Z.to_nat from + length vals <= length buf)%nat ->
  words_from (fill_words buf from vals) from (length vals)
  = map (fun v => Z.land v 0xffff) vals.
Proof.
  induction vals as [| v vals IH]; intros buf from Hfrom Hlen; [reflexivity |].
  cbn [length] in *. rewrite words_from_S. cbn [map fill_words]. f_equal.
  - rewrite word_at_fill_words_before by lia.
    apply word_at_store_same. lia.
  - apply IH; [lia |]. rewrite length_store. lia.
Qed.

Lemma dma_out_app l1 l2 : dma_out (l1 ++ l2) = dma_out l1 ++ dma_out l2.
Proof. unfold dma_out. apply flat_map_app. Qed.

Lemma dma_out_dma_writes chan buf rets : forall from,
  Forall (fun r => r <> DMA_NODATA) rets ->
  dma_out (dma_writes chan buf from rets) = words_from buf from (length rets).
Proof.
  induction rets as [| r rets IH]; intros from Hall; [reflexivity |].
  inversion Hall as [| r' rets' Hr Hrest]; subst.
  cbn [dma_writes length]. rewrite words_from_S.
  unfold dma_out in *. cbn [flat_map].
  apply Z.eqb_neq in Hr. rewrite Hr. cbn [app]. f_equal.
  apply IH. exact Hrest.
Qed.

Lemma dma_out_reads chan vals : dma_out (map (DmaRead chan) vals) = [].
Proof. induction vals as [| v vals IH]; [reflexivity | exact IH]. Qed.

Lemma buffer_words_S sb p k :
  buffer_words sb p (S k)
  = words_from (default [] (sb !! Z.to_nat p)) 0 256
    ++ buffer_words sb (p + 1) k.
Proof.
  unfold buffer_words. cbn [seq flat_map]. rewrite Z.add_0_r. f_equal.
  rewrite <- seq_shift, flat_map_concat_map, map_map,
    <- flat_map_concat_map.
  apply flat_map_ext. intros i. do 4 f_equal. lia.
Qed.

Section SectorBuffer.

Context {W : Type} {E : Extern W}.

Let body_in : unit -> M W unit unit :=
  fun _ =>
    words_from_dma ESDI_TIME ;;
    upd (fun d => set_sector_pos (sector_pos d + 1)
                    (set_sector_buffer
                       (<[Z.to_nat (sector_pos d) := data d]> (sector_buffer d))
                       d)) ;;
    upd (set_data_pos 0).

Let body_out : unit -> M W unit unit :=
  fun _ =>
    d <- get ;;
    (if negb (nz (data_pos d)) then
       upd (fun d => set_sector_pos (sector_pos d + 1)
                       (set_data
                          (default (data d)
                             (sector_buffer d !! Z.to_nat (sector_pos d)))
                          d))
     else next tt) ;;
    words_to_dma ESDI_TIME ;;
    upd (set_data_pos 0).

(** The loop of command 0x10 over [k] whole sectors. *)
Lemma buffer_in_loop : forall (k : nat) (m : mach W),
  data_pos (dev m) = 0 ->
  length (data (dev m)) = 256%nat ->
  0 <= sector_pos (dev m) ->
  sector_pos (dev m) + Z.of_nat k
  <= Z.of_nat (length (sector_buffer (dev m))) ->
  sector_count (dev m) = sector_pos (dev m) + Z.of_nat k ->
  match while k (fun d => sector_pos d <? sector_count d) body_in tt m with
  | Next _ m' =>
      exists vals,
        length vals = (256 * k)%nat
        /\ log m' = log m ++ map (DmaRead (dma (dev m))) vals
        /\ buffer_words (sector_buffer (dev m')) (sector_pos (dev m)) k
           = map (fun v => Z.land v 0xffff) vals
        /\ (forall i, (i < Z.to_nat (sector_pos (dev m)))%nat ->
              sector_buffer (dev m') !! i = sector_buffer (dev m) !! i)
        /\ length (sector_buffer (dev m')) = length (sector_buffer (dev m))
        /\ cmd_state (dev m') = cmd_state (dev m)
  | Return _ m' => cmd_state (dev m') = cmd_state (dev m)
  | Fatal _ _ => True
  end.
Proof.
  induction k as [| k IH]; intros m Hpos Hdata Hsp Hroom Hcount.
  - rewrite while_O. unfold next. exists []. cbn.
    rewrite app_nil_r. repeat split; reflexivity.
  - rewrite while_S. unfold bind at 1, get.
    replace (sector_pos (dev m) <? sector_count (dev m)) with true
      by (symmetry; apply Z.ltb_lt; lia).
    unfold bind at 1. unfold body_in at 1. unfold bind at 1, words_from_dma.
    unfold bind at 1, get.
    pose proof (words_from_dma_loop ESDI_TIME (words_left (dev m)) m
                  ltac:(lia) eq_refl) as H.
    destruct (while _ _ (word_from_dma _) tt m) as [[] m1 | [] m1 | msg m1];
      [| destruct H as (vals0 & _ & _ & Hdev & _); rewrite Hdev; reflexivity
       | exact Logic.I].
    destruct H as (vals0 & Hlen0 & _ & Hdev & Hlog).
    destruct m1 as [d1 w1 l1]. cbn [dev log] in Hdev, Hlog. subst d1 l1.
    rewrite Hpos in Hlen0.
    unfold bind at 1, upd at 1. cbn [dev ext log]. unfold upd at 1.
    cbn [dev ext log].
    match goal with
    | |- match while k _ _ tt ?m2 with _ => _ end =>
        remember m2 as m2' eqn:Hm2
    end.
    assert (H1 : data_pos (dev m2') = 0) by (subst m2'; reflexivity).
    assert (H2 : length (data (dev m2')) = 256%nat)
      by (subst m2'; cbn; rewrite length_fill_words; exact Hdata).
    assert (H3 : sector_pos (dev m2') = sector_pos (dev m) + 1)
      by (subst m2'; reflexivity).
    assert (H4 : sector_buffer (dev m2')
                 = <[Z.to_nat (sector_pos (dev m)) :=
                       fill_words (data (dev m)) 0 vals0]>
                     (sector_buffer (dev m)))
      by (subst m2'; cbn; rewrite Hpos; reflexivity).
    assert (H5 : sector_count (dev m2') = sector_count (dev m))
      by (subst m2'; reflexivity).
    assert (H6 : dma (dev m2') = dma (dev m)) by (subst m2'; reflexivity).
    assert (H7 : log m2' = log m ++ map (DmaRead (dma (dev m))) vals0)
      by (subst m2'; reflexivity).
    assert (H8 : cmd_state (dev m2') = cmd_state (dev m))
      by (subst m2'; reflexivity).
    clear Hm2.
    specialize (IH m2' H1 H2 ltac:(lia)
                  ltac:(rewrite H4, length_insert; lia) ltac:(lia)).
    destruct (while k _ _ tt m2') as [[] m' | [] m' | msg m'];
      [| rewrite IH; exact H8 | exact Logic.I].
    destruct IH as (vals & Hlen & Hlog' & Hwords & Hframe & Hlength & Hst).
    rewrite H3 in Hwords, Hframe. rewrite H4 in Hframe, Hlength.
    rewrite H6, H7 in Hlog'.
    exists (vals0 ++ vals).
    split; [rewrite length_app; lia |].
    split; [rewrite Hlog', map_app, app_assoc; reflexivity |].
    split.
    { rewrite buffer_words_S, map_app. f_equal.
      - rewrite Hframe by lia.
        rewrite list_lookup_insert_eq by lia. cbn [default].
        replace 256%nat with (length vals0) by lia.
        apply words_from_fill_words; lia.
      - exact Hwords. }
    split.
    { intros i Hi. rewrite Hframe by lia.
      apply list_lookup_insert_ne. lia. }
    split; [rewrite Hlength; apply length_insert |].
    rewrite Hst. exact H8.
Qed.

(** The loop of command 0x11 over [k] whole sectors. *)
Lemma buffer_out_loop : forall (k : nat) (m : mach W),
  data_pos (dev m) = 0 ->
  0 <= sector_pos (dev m) ->
  sector_pos (dev m) + Z.of_nat k
  <= Z.of_nat (length (sector_buffer (dev m))) ->
  sector_count (dev m) = sector_pos (dev m) + Z.of_nat k ->
  match while k (fun d => sector_pos d <? sector_count d) body_out tt m with
  | Next _ m' =>
      dma_out (log m')
      = dma_out (log m)
        ++ buffer_words (sector_buffer (dev m)) (sector_pos (dev m)) k
      /\ cmd_state (dev m') = cmd_state (dev m)
  | Return _ m' => cmd_state (dev m') = cmd_state (dev m)
  | Fatal _ _ => True
  end.
Proof.
  induction k as [| k IH]; intros m Hpos Hsp Hroom Hcount.
  - rewrite while_O. unfold next. cbn. rewrite app_nil_r.
    split; reflexivity.
  - rewrite while_S. unfold bind at 1, get.
    replace (sector_pos (dev m) <? sector_count (dev m)) with true
      by (symmetry; apply Z.ltb_lt; lia).
    unfold bind at 1. unfold body_out at 1. unfold bind at 1, get.
    rewrite Hpos. change (negb (nz 0)) with true. cbv iota.
    unfold bind at 1, upd at 1. unfold bind at 1, words_to_dma.
    unfold bind at 1, get. cbn [dev ext log].
    destruct (lookup_lt_is_Some_2 (sector_buffer (dev m))
                (Z.to_nat (sector_pos (dev m))) ltac:(lia)) as [sec Hsec].
    rewrite Hsec. cbn [default].
    match goal with
    | |- context [while ?n _ (word_to_dma _) tt ?m0] =>
        pose proof (words_to_dma_loop ESDI_TIME n m0
                      ltac:(cbn; rewrite Hpos; lia) eq_refl) as H;
        remember m0 as m0' eqn:Hm0
    end.
    assert (G1 : data_pos (dev m0') = 0) by (subst m0'; exact Hpos).
    assert (G2 : data (dev m0') = sec) by (subst m0'; reflexivity).
    assert (G3 : sector_pos (dev m0') = sector_pos (dev m) + 1)
      by (subst m0'; reflexivity).
    assert (G4 : sector_buffer (dev m0') = sector_buffer (dev m))
      by (subst m0'; reflexivity).
    assert (G5 : sector_count (dev m0') = sector_count (dev m))
      by (subst m0'; reflexivity).
    assert (G6 : log m0' = log m) by (subst m0'; reflexivity).
    assert (G7 : cmd_state (dev m0') = cmd_state (dev m))
      by (subst m0'; reflexivity).
    clear Hm0.
    destruct (while _ _ (word_to_dma _) tt m0') as [[] m1 | [] m1 | msg m1];
      [| destruct H as (rets & _ & _ & Hdev & _); rewrite Hdev; exact G7
       | exact Logic.I].
    destruct H as (rets & Hlen & Hall & Hdev & Hlog).
    unfold upd at 1. cbn [dev ext log].
    match goal with
    | |- match while k _ _ tt ?m2 with _ => _ end =>
        remember m2 as m2' eqn:Hm2
    end.
    assert (H1 : data_pos (dev m2') = 0) by (subst m2'; reflexivity).
    assert (H3 : sector_pos (dev m2') = sector_pos (dev m) + 1)
      by (subst m2'; cbn; rewrite Hdev; exact G3).
    assert (H4 : sector_buffer (dev m2') = sector_buffer (dev m))
      by (subst m2'; cbn; rewrite Hdev; exact G4).
    assert (H5 : sector_count (dev m2') = sector_count (dev m))
      by (subst m2'; cbn; rewrite Hdev; exact G5).
    assert (H7 : log m2' = log m1) by (subst m2'; reflexivity).
    assert (H8 : cmd_state (dev m2') = cmd_state (dev m))
      by (subst m2'; cbn; rewrite Hdev; exact G7).
    clear Hm2.
    specialize (IH m2' H1 ltac:(lia) ltac:(rewrite H4; lia) ltac:(lia)).
    destruct (while k _ _ tt m2') as [[] m' | [] m' | msg m'];
      [| rewrite IH; exact H8 | exact Logic.I].
    destruct IH as (Hout & Hst).
    split; [| rewrite Hst; exact H8].
    rewrite Hout, H7, Hlog, G6, H3, H4, dma_out_app, <- app_assoc.
    f_equal. rewrite buffer_words_S, Hsec. cbn [default]. f_equal.
    rewrite dma_out_dma_writes by exact Hall.
    rewrite G2, G1. f_equal. lia.
Qed.

Lemma write_buffer_phase (m : mach W) (n : nat) :
  buffer_phase 0x10 n (dev m) ->
  (n <= 256)%nat ->
  length (data (dev m)) = 256%nat ->
  length (sector_buffer (dev m)) = 256%nat ->
  forall m1,
    esdi_callback m = Done tt m1 ->
    cmd_state (dev m1) = 2 ->
    exists vals,
      length vals = (256 * n)%nat
      /\ log m1 = log m ++ map (DmaRead (dma (dev m))) vals
      /\ buffer_words (sector_buffer (dev m1)) 0 n
         = map (fun v => Z.land v 0xffff) vals
      /\ length (sector_buffer (dev m1)) = 256%nat.
Proof.
  intros (Hreset & Hcmd & Hdev & Hphase & Hdma & Hsp & Hdp & Hcount)
    Hn Hdata Hsb m1 Hrun Hdone.
  apply nz_false in Hreset. apply nz_true in Hdma.
  pose proof (buffer_in_loop n m Hdp Hdata ltac:(lia) ltac:(lia) ltac:(lia))
    as H.
  unfold body_in in H.
  revert Hrun. unfold esdi_callback, call, esdi_callback_body.
  unfold bind at 1, get. rewrite Hreset, Hcmd. decide_ifs.
  unfold case_write_sector_buffer. unfold bind at 1.
  rewrite ESDI_ADAPTER_ONLY_run, Hdev. decide_ifs.
  unfold bind at 1, get. rewrite Hphase. decide_ifs. rewrite Hdma.
  cbn [negb]. unfold bind at 1, buffer_in_sectors. unfold bind at 1, get.
  replace (sectors_left (dev m)) with n
    by (unfold sectors_left; rewrite Hcount, Hsp; lia).
  destruct (while n _ _ tt m) as [[] m' | [] m' | msg m'].
  - destruct H as (vals & Hlen & Hlog & Hwords & _ & Hlength & _).
    rewrite Hsp in Hwords. rewrite Hsb in Hlength.
    unfold_monad. rewrite esdi_mca_set_callback_run. cbn [dev ext log].
    intros Hrun. injection Hrun as <-. cbn [dev log sector_buffer set_timer
      set_cmd_state set_status].
    exists vals. repeat split; assumption.
  - intros Hrun. injection Hrun as <-. rewrite H, Hphase in Hdone.
    discriminate Hdone.
  - intros Hrun. discriminate Hrun.
Qed.

Lemma read_buffer_phase (m : mach W) (n : nat) :
  buffer_phase 0x11 n (dev m) ->
  (n <= 256)%nat ->
  length (sector_buffer (dev m)) = 256%nat ->
  forall m1,
    esdi_callback m = Done tt m1 ->
    cmd_state (dev m1) = 2 ->
    dma_out (log m1)
    = dma_out (log m) ++ buffer_words (sector_buffer (dev m)) 0 n.
Proof.
  intros (Hreset & Hcmd & Hdev & Hphase & Hdma & Hsp & Hdp & Hcount)
    Hn Hsb m1 Hrun Hdone.
  apply nz_false in Hreset. apply nz_true in Hdma.
  pose proof (buffer_out_loop n m Hdp ltac:(lia) ltac:(lia) ltac:(lia)) as H.
  unfold body_out in H.
  revert Hrun. unfold esdi_callback, call, esdi_callback_body.
  unfold bind at 1, get. rewrite Hreset, Hcmd. decide_ifs.
  unfold case_read_sector_buffer. unfold bind at 1.
  rewrite ESDI_ADAPTER_ONLY_run, Hdev. decide_ifs.
  unfold bind at 1, get. rewrite Hphase. decide_ifs. rewrite Hdma.
  cbn [negb]. unfold bind at 1, buffer_out_sectors. unfold bind at 1, get.
  replace (sectors_left (dev m) + (if nz (data_pos (dev m)) then 1 else 0))%nat
    with n
    by (unfold sectors_left; rewrite Hcount, Hsp, Hdp;
        change (nz 0) with false; cbv iota; lia).
  destruct (while n _ _ tt m) as [[] m' | [] m' | msg m'].
  - destruct H as (Hout & _). rewrite Hsp in Hout.
    unfold_monad. rewrite esdi_mca_set_callback_run. cbn [dev ext log].
    intros Hrun. injection Hrun as <-. exact Hout.
  - intros Hrun. injection Hrun as <-. rewrite H, Hphase in Hdone.
    discriminate Hdone.
  - intros Hrun. discriminate Hrun.
Qed.

(** The sector buffer gives back what was put in.  When the transfer
    phase of command 0x10 for [n] sectors (at most 256) runs to its end
    in one callback, it has taken [256 * n] words from the DMA channel;
    when later the transfer phase of command 0x11 for [n] sectors runs
    to its end in one callback on that sector buffer, the words the DMA
    channel accepts are those words, in the same order, each cut to 16
    bits. *)
Theorem sector_buffer_round_trip (m m1 m2 m3 : mach W) (n : nat) :
  (n <= 256)%nat ->
  length (data (dev m)) = 256%nat ->
  length (sector_buffer (dev m)) = 256%nat ->
  buffer_phase 0x10 n (dev m) ->
  esdi_callback m = Done tt m1 ->
  cmd_state (dev m1) = 2 ->
  buffer_phase 0x11 n (dev m2) ->
  sector_buffer (dev m2) = sector_buffer (dev m1) ->
  esdi_callback m2 = Done tt m3 ->
  cmd_state (dev m3) = 2 ->
  exists vals,
    length vals = (256 * n)%nat
    /\ log m1 = log m ++ map (DmaRead (dma (dev m))) vals
    /\ dma_out (log m3)
       = dma_out (log m2) ++ map (fun v => Z.land v 0xffff) vals.
Proof.
  intros Hn Hdata Hsb Hin Hrun1 Hdone1 Hout Hsame Hrun2 Hdone2.
  destruct (write_buffer_phase m n Hin Hn Hdata Hsb m1 Hrun1 Hdone1)
    as (vals & Hlen & Hlog & Hwords & Hsb1).
  exists vals. split; [exact Hlen |]. split; [exact Hlog |].
  assert (Hsb2 : length (sector_buffer (dev m2)) = 256%nat)
    by (rewrite Hsame; exact Hsb1).
  rewrite (read_buffer_phase m2 n Hout Hn Hsb2 m3 Hrun2 Hdone2).
  rewrite Hsame, Hwords. reflexivity.
Qed.

End SectorBuffer.

(** ** Cursors stay inside their arrays *)

Section Cursors.

Context {W : Type} {E : Extern W}.

Ltac cursors_upd :=
  let d := fresh "d" in
  let H := fresh "H" in
  intros d H; unfold cursors_ok in *; cbn;
  unfold write_words;
  rewrite ?length_write_words_from, ?length_store, ?length_insert;
  intuition lia.

Lemma cursors_image_read_sector drive :
  keeps (W:=W) cursors_ok (image_read_sector drive).
Proof.
  intros m Hm. unfold image_read_sector.
  destruct (hdd_image_read _ _ _ _ _) as [[ret buf] w]. exact Hm.
Qed.

Lemma cursors_words_to_dma stall : keeps (W:=W) cursors_ok (words_to_dma stall).
Proof.
  unfold words_to_dma. apply keeps_bind; [apply keeps_get | intros d].
  apply (triple_while (fun _ m => cursors_ok (dev m))
           (fun _ m => cursors_ok (dev m))).
  intros [] m [Hm Hc]. apply Z.ltb_lt in Hc.
  rewrite word_to_dma_run. cbv zeta.
  destruct (fst _ =? DMA_NODATA); cbn [dev]; revert Hm;
    unfold cursors_ok; cbn; intuition lia.
Qed.

Lemma cursors_words_from_dma stall :
  keeps (W:=W) cursors_ok (words_from_dma stall).
Proof.
  unfold words_from_dma. apply keeps_bind; [apply keeps_get | intros d].
  apply (triple_while (fun _ m => cursors_ok (dev m))
           (fun _ m => cursors_ok (dev m))).
  intros [] m [Hm Hc]. apply Z.ltb_lt in Hc.
  rewrite word_from_dma_run. cbv zeta.
  destruct (fst _ =? DMA_NODATA); cbn [dev]; revert Hm;
    unfold cursors_ok; cbn; intuition lia.
Qed.

Ltac cursors_step :=
  lazymatch goal with
  | |- keeps _ (bind _ _) => apply keeps_bind; [| intros ?; cbv beta ]
  | |- keeps _ (if _ then _ else _) => apply keeps_if
  | |- keeps _ get => apply keeps_get
  | |- keeps _ world => apply keeps_world
  | |- keeps _ (next _) => apply keeps_next
  | |- keeps _ (return_ _) => apply keeps_return
  | |- keeps _ (fatal _) => apply keeps_fatal
  | |- keeps _ (emit _) => apply keeps_emit
  | |- keeps _ (extern _ _) => apply keeps_extern
  | |- keeps _ (ask _) => apply keeps_ask
  | |- keeps _ (words_to_dma _) => apply cursors_words_to_dma
  | |- keeps _ (words_from_dma _) => apply cursors_words_from_dma
  | |- keeps _ (image_read_sector _) => apply cursors_image_read_sector
  | |- keeps _ (while _ _ _ _) => apply keeps_while; intros ?
  | |- keeps _ (upd _) => apply keeps_upd; cursors_upd
  | |- keeps _ (esdi_mca_set_callback _) => unfold esdi_mca_set_callback
  | |- keeps _ (raise_irq _ _) => unfold raise_irq
  | |- keeps _ set_irq => unfold set_irq
  | |- keeps _ clear_irq => unfold clear_irq
  | |- keeps _ update_irq => unfold update_irq
  | |- keeps _ cmd_unsupported => unfold cmd_unsupported
  | |- keeps _ device_not_present => unfold device_not_present
  | |- keeps _ rba_out_of_range => unfold rba_out_of_range
  | |- keeps _ defective_block => unfold defective_block
  | |- keeps _ complete_command_status => unfold complete_command_status
  | |- keeps _ start_reset => unfold start_reset
  | |- keeps _ (attn_cmd_req _ _) => unfold attn_cmd_req
  | |- keeps _ attn_eoi => unfold attn_eoi
  | |- keeps _ ESDI_DRIVE_ONLY => unfold ESDI_DRIVE_ONLY
  | |- keeps _ ESDI_ADAPTER_ONLY => unfold ESDI_ADAPTER_ONLY
  | |- keeps _ (check_present _) => unfold check_present
  | |- keeps _ irq_in_progress_check => unfold irq_in_progress_check
  | |- keeps _ (read_sectors _ _) => unfold read_sectors
  | |- keeps _ (read_sector _ _) => unfold read_sector
  | |- keeps _ (write_sectors _ _) => unfold write_sectors
  | |- keeps _ (write_sector _ _) => unfold write_sector
  | |- keeps _ buffer_in_sectors => unfold buffer_in_sectors
  | |- keeps _ buffer_out_sectors => unfold buffer_out_sectors
  | |- keeps _ case_read => unfold case_read
  | |- keeps _ case_write => unfold case_write
  | |- keeps _ case_read_verify => unfold case_read_verify
  | |- keeps _ case_seek => unfold case_seek
  | |- keeps _ case_park_heads => unfold case_park_heads
  | |- keeps _ case_get_dev_status => unfold case_get_dev_status
  | |- keeps _ case_get_dev_config => unfold case_get_dev_config
  | |- keeps _ case_get_pos_info => unfold case_get_pos_info
  | |- keeps _ case_write_sector_buffer => unfold case_write_sector_buffer
  | |- keeps _ case_read_sector_buffer => unfold case_read_sector_buffer
  | |- keeps _ case_0x12 => unfold case_0x12
  | |- keeps _ case_format => unfold case_format
  end.

Lemma cursors_esdi_callback : keeps (W:=W) cursors_ok esdi_callback_body.
Proof. unfold esdi_callback_body. repeat cursors_step. Qed.

Lemma cursors_esdi_read port : keeps (W:=W) cursors_ok (esdi_read_body port).
Proof. unfold esdi_read_body. repeat cursors_step. Qed.

Lemma cursors_esdi_write port val :
  keeps (W:=W) cursors_ok (esdi_write_body port val).
Proof. unfold esdi_write_body. repeat cursors_step. Qed.

Lemma cursors_esdi_writew port val :
  keeps (W:=W) cursors_ok (esdi_writew_body port val).
Proof. unfold esdi_writew_body. repeat cursors_step. Qed.

Lemma cursors_esdi_readw port : keeps (W:=W) cursors_ok (esdi_readw_body port).
Proof.
  intros m Hm. unfold esdi_readw_body. unfold_monad.
  destruct (Z.land port 7 =? 0); [| exact Logic.I].
  destruct (Z.geb_spec (status_pos (dev m)) (status_len (dev m)));
    cbn; [exact Hm |].
  destruct (Z.geb_spec (status_pos (dev m) + 1) (status_len (dev m)));
    cbn; revert Hm; unfold cursors_ok; cbn; intuition lia.
Qed.

Lemma cursors_init timer_add local d0 d1 :
  cursors_ok (esdi_init timer_add local d0 d1).
Proof.
  unfold esdi_init.
  destruct (local =? ESDI_IS_ADAPTER);
    [| destruct (local =? ESDI_IS_INTEGRATED)];
    (unfold cursors_ok; cbn; repeat split; lia).
Qed.

Lemma cursors_step_kept (o : op W) (m m' : mach W) :
  cursors_ok (dev m) -> step o m = Done tt m' -> cursors_ok (dev m').
Proof.
  intros Hm Hstep. destruct o as [port | port | port val | port val | | f];
    cbn [step] in Hstep.
  - pose proof (keeps_call _ _ m (cursors_esdi_read port) Hm) as H.
    unfold esdi_read in Hstep. destruct (call _ m); [| discriminate].
    injection Hstep as <-. exact H.
  - pose proof (keeps_call _ _ m (cursors_esdi_readw port) Hm) as H.
    unfold esdi_readw in Hstep. destruct (call _ m); [| discriminate].
    injection Hstep as <-. exact H.
  - pose proof (keeps_call _ _ m (cursors_esdi_write port (u8 val)) Hm) as H.
    unfold esdi_write in Hstep. rewrite Hstep in H. exact H.
  - pose proof (keeps_call _ _ m (cursors_esdi_writew port (u16 val)) Hm) as H.
    unfold esdi_writew in Hstep. rewrite Hstep in H. exact H.
  - destruct (timer (dev m)).
    + pose proof (keeps_call _ _
                    (mk_mach (set_timer None (dev m)) (ext m) (log m))
                    cursors_esdi_callback Hm) as H.
      unfold esdi_callback in Hstep. rewrite Hstep in H. exact H.
    + injection Hstep as <-. exact Hm.
  - injection Hstep as <-. exact Hm.
Qed.

(** In every state the adapter reaches from [esdi_init] through
    register reads and writes and callbacks, the cursors are inside
    their arrays: the command queue cursor is below 4, the status queue
    is at most nine words long with its cursor not past them, and the
    staging buffer cursor is at most 256; the arrays keep their
    sizes. *)
Theorem cursors_in_bounds (m : mach W) :
  reachable m ->
  cursors_ok (dev m)
  /\ 0 <= cmd_pos (dev m) < 4
  /\ length (cmd_data (dev m)) = 4%nat.
Proof.
  intros Hreach. split.
  - induction Hreach as [timer_add local d0 d1 w | o m m' _ IH Hstep].
    + apply cursors_init.
    + exact (cursors_step_kept o m m' IH Hstep).
  - destruct (reachable_inv m Hreach) as [_ (Hpos & Hlen & _)].
    split; assumption.
Qed.

End Cursors.

(** ** Resuming inside the last sector *)

Section LastSector.

Context {W : Type} {E : Extern W}.

(** A read-sector-buffer transfer suspended inside its last sector: the
    sector index was advanced when the sector was loaded, so the
    callback that resumes finds no sector left, makes no DMA call and
    goes to phase 2 with the cursor where the channel stopped; the
    words from the cursor to the end of the sector are not sent. *)
Theorem read_buffer_resumed_in_last_sector (m : mach W) :
  in_reset (dev m) = 0 ->
  command (dev m) = 0x11 ->
  cmd_dev (dev m) = ATTN_HOST_ADAPTER ->
  cmd_state (dev m) = 1 ->
  Z.land (basic_ctrl (dev m)) CTRL_DMA_ENA <> 0 ->
  0 < data_pos (dev m) < 256 ->
  sector_pos (dev m) = sector_count (dev m) ->
  esdi_callback m
  = Done tt
      (mk_mach
         (set_timer (Some ESDI_TIME)
            (set_cmd_state 2 (set_status STATUS_CMD_IN_PROGRESS (dev m))))
         (ext m) (log m)).
Proof.
  intros Hreset Hcmd Hdev Hphase Hdma Hpos Hlast.
  apply nz_false in Hreset. apply nz_true in Hdma.
  destruct m as [d w l]. cbn [dev ext log] in *.
  unfold esdi_callback, call, esdi_callback_body. run.
  rewrite Hreset, Hcmd. run. unfold case_read_sector_buffer. run.
  rewrite Hdev. run. rewrite Hphase. run. rewrite Hdma. run.
  unfold buffer_out_sectors. run.
  replace (sectors_left d) with 0%nat by (unfold sectors_left; lia).
  rewrite (nz_true (data_pos d)) by lia. cbn [Nat.add].
  rewrite while_S. run.
  rewrite Hlast, Z.ltb_irrefl. run. reflexivity.
Qed.

(** The state a resumed pass of the read loop leaves. *)
Lemma resumed_pass_state drive c (m : mach W) :
  0 < data_pos (dev m) < 256 ->
  match read_sector drive c m with
  | Next c' m' =>
      c' = c
      /\ dev m'
         = set_rba (u32 (rba (dev m) + 1))
             (set_sector_pos (sector_pos (dev m) + 1)
                (set_data_pos 0 (dev m)))
  | Return _ m' =>
      exists k,
        dev m'
        = set_timer (sched (ESDI_TIME + c)%Q)
            (set_data_pos (data_pos (dev m) + k) (dev m))
  | Fatal _ _ => False
  end.
Proof.
  intros Hpos. unfold read_sector. unfold bind at 1, get.
  rewrite (nz_true (data_pos (dev m))) by lia. cbn [negb].
  unfold bind at 1, next. unfold bind at 1, words_to_dma.
  unfold bind at 1, get.
  pose proof (words_to_dma_loop (ESDI_TIME + c)%Q (words_left (dev m)) m
                ltac:(lia) eq_refl) as H.
  destruct (while _ _ _ tt m) as [[] m1 | [] m1 | msg m1].
  - destruct H as (rets & _ & _ & Hdev & _).
    unfold_monad. cbn [dev ext log]. rewrite Hdev.
    split; reflexivity.
  - destruct H as (rets & _ & _ & Hdev & _).
    exists (Z.of_nat (length rets)). exact Hdev.
  - exact H.
Qed.

(** A read suspended inside its last sector: the callback that resumes
    sends the rest of the sector without starting a new one, so the
    time it has accumulated is zero, and the delay it asks for stops
    the timer instead of scheduling phase 2.  The command is left in
    phase 2 with status command-in-progress and no callback pending. *)
Theorem read_resumed_in_last_sector (m : mach W) :
  in_reset (dev m) = 0 ->
  command (dev m) = CMD_READ ->
  drive_target (dev m) ->
  present (selected_drive (dev m)) <> 0 ->
  cmd_state (dev m) = 1 ->
  Z.land (basic_ctrl (dev m)) CTRL_DMA_ENA <> 0 ->
  0 < data_pos (dev m) < 256 ->
  sector_pos (dev m) + 1 = sector_count (dev m) ->
  forall m',
    esdi_callback m = Done tt m' ->
    cmd_state (dev m') = 2 ->
    timer (dev m') = None
    /\ status (dev m') = STATUS_CMD_IN_PROGRESS
    /\ sector_pos (dev m') = sector_count (dev m)
    /\ step TimerFire m' = Done tt m'.
Proof.
  intros Hreset Hcmd Hdev Hpresent Hphase Hdma Hpos Hlast m'.
  apply nz_false in Hreset. apply nz_true in Hpresent. apply nz_true in Hdma.
  pose proof (drive_target_cases _ Hdev) as Hdt.
  pose proof (resumed_pass_state (selected_drive (dev m)) 0 m Hpos) as Hpass.
  unfold esdi_callback, call, esdi_callback_body.
  unfold bind at 1, get. rewrite Hreset, Hcmd. decide_ifs.
  unfold case_read. unfold bind at 1. rewrite ESDI_DRIVE_ONLY_run, Hdt.
  unfold bind at 1. rewrite check_present_run, Hpresent. cbn [negb].
  unfold bind at 1, get. rewrite Hphase. decide_ifs. rewrite Hdma. cbn [negb].
  unfold bind at 1, read_sectors. unfold bind at 1, get.
  replace (sectors_left (dev m)) with 1%nat by (unfold sectors_left; lia).
  rewrite while_S. unfold bind at 1, get.
  replace (sector_pos (dev m) <? sector_count (dev m)) with true
    by (symmetry; apply Z.ltb_lt; lia).
  unfold bind at 1.
  destruct (read_sector (selected_drive (dev m)) 0 m)
    as [c' m1 | [] m1 | msg m1].
  - destruct Hpass as (-> & Hdev1).
    rewrite while_O. unfold next at 1.
    unfold_monad. rewrite esdi_mca_set_callback_run. cbn [dev ext log].
    intros Hrun _. injection Hrun as <-. cbn [dev]. rewrite Hdev1.
    split; [reflexivity |]. split; [reflexivity |].
    split; [cbn; lia |]. reflexivity.
  - destruct Hpass as (k & Hdev1).
    intros Hrun Hdone. injection Hrun as <-.
    rewrite Hdev1 in Hdone. cbn in Hdone. congruence.
  - destruct Hpass.
Qed.

End LastSector.

(** ** Commands that move no data *)

Section Quiet.

Context {W : Type} {E : Extern W}.

Ltac quiet_path :=
  repeat first
    [ run_step
    | progress unfold irq_in_progress_check
    | match goal with
      | |- context [hdd_seek_get_time ?a ?b ?c] =>
          destruct (hdd_seek_get_time a b c)
      | |- context [hdd_timing_read ?a ?b ?c ?x] =>
          destruct (hdd_timing_read a b c x)
      | |- context [if ?c then _ else _] => destruct c
      end ].

Ltac quiet_done :=
  let H := fresh "H" in
  intros H;
  first
    [ discriminate H
    | injection H as <-; cbn [dev ext log];
      unfold error_mach, irq_events; cbn [dev ext log];
      repeat match goal with
             | |- context [if ?c then _ else _] => destruct c
             end;
      rewrite ?filter_app; cbn; rewrite ?app_nil_r;
      repeat split; reflexivity ].

(** The callbacks of read-verify, seek, park-heads and the four
    commands that only build a status block make no DMA call and no
    disk image call, and leave the staging buffer, its cursor and the
    sector buffer as they were: a read-verify reads no sector. *)
Theorem quiet_commands_move_no_data (m : mach W) :
  in_reset (dev m) = 0 ->
  In (command (dev m)) quiet_commands ->
  forall m',
    esdi_callback m = Done tt m' ->
    filter (fun e => transfer_event e = true) (log m')
    = filter (fun e => transfer_event e = true) (log m)
    /\ data (dev m') = data (dev m)
    /\ data_pos (dev m') = data_pos (dev m)
    /\ sector_buffer (dev m') = sector_buffer (dev m).
Proof.
  intros Hreset Hcmd m'. apply nz_false in Hreset.
  destruct m as [d w l]. cbn [dev ext log] in *.
  unfold quiet_commands in Hcmd. cbn in Hcmd.
  unfold esdi_callback, call, esdi_callback_body. run. rewrite Hreset.
  destruct Hcmd as [Hc | [Hc | [Hc | [Hc | [Hc | [Hc | [Hc | []]]]]]]];
    rewrite <- Hc; run.
  - unfold case_read_verify. quiet_path; quiet_done.
  - unfold case_seek. quiet_path; quiet_done.
  - unfold case_park_heads. quiet_path; quiet_done.
  - unfold case_get_dev_status. quiet_path; quiet_done.
  - unfold case_get_dev_config. quiet_path; quiet_done.
  - unfold case_get_pos_info. quiet_path; quiet_done.
  - unfold case_0x12. quiet_path; quiet_done.
Qed.

End Quiet.

(** ** Issuing a command *)

Section Issue.

Context {W : Type} {E : Extern W}.

Lemma attn_cmd_req_step (m : mach W) (target : Z) :
  target = ATTN_HOST_ADAPTER \/ target = ATTN_DEVICE_0
  \/ target = ATTN_DEVICE_1 ->
  cmd_req_in_progress (dev m) = 0 ->
  step (IoWrite 3 (Z.lor target ATTN_CMD_REQ)) m
  = Done tt
      (mk_mach
         (set_status_pos 0
            (set_cmd_pos 0
               (set_status (u8 (Z.lor (status (dev m)) STATUS_BUSY))
                  (set_cmd_dev target (set_cmd_req_in_progress 1 (dev m))))))
         (ext m) (log m)).
Proof.
  intros Htarget Hfree. apply nz_false in Hfree.
  destruct m as [d w l]. cbn [dev ext log] in *.
  destruct Htarget as [-> | [-> | ->]];
    cbn [step]; unfold esdi_write, call, esdi_write_body; cbn; exec;
    rewrite Hfree; reflexivity.
Qed.

Lemma writew_step_more (m : mach W) (val : Z) :
  0 <= val < 65536 ->
  0 <= cmd_pos (dev m) < 4 ->
  queue_full (store (cmd_data (dev m)) (cmd_pos (dev m)) val)
    (cmd_pos (dev m) + 1) = false ->
  step (IoWriteW 0 val) m
  = Done tt
      (mk_mach
         (set_cmd_pos (cmd_pos (dev m) + 1)
            (set_cmd_data (store (cmd_data (dev m)) (cmd_pos (dev m)) val)
               (dev m)))
         (ext m) (log m)).
Proof.
  intros Hval Hpos Hfull.
  destruct m as [d w l]. cbn [dev ext log] in *.
  cbn [step]. unfold esdi_writew, call, esdi_writew_body. cbn. exec.
  rewrite (geb_false (cmd_pos d) 4) by lia. cbn.
  rewrite !(u16_id val) by exact Hval.
  unfold queue_full in Hfull. rewrite Hfull. reflexivity.
Qed.

Lemma writew_step_full (m : mach W) (val : Z) :
  0 <= val < 65536 ->
  0 <= cmd_pos (dev m) < 4 ->
  let q := store (cmd_data (dev m)) (cmd_pos (dev m)) val in
  queue_full q (cmd_pos (dev m) + 1) = true ->
  Z.land (word_at q 0) CMD_DEVICE_SEL = cmd_dev (dev m) ->
  step (IoWriteW 0 val) m
  = Done tt
      (mk_mach
         (set_data_pos 0
            (set_status STATUS_BUSY
               (set_timer (Some ESDI_TIME)
                  (set_command (Z.land (word_at q 0) CMD_MASK)
                     (set_cmd_state 0
                        (set_cmd_req_in_progress 0
                           (set_cmd_pos 0 (set_cmd_data q (dev m))))))))) 
         (ext m) (log m ++ [UiIcon 1])).
Proof.
  intros Hval Hpos q Hfull Hsel. subst q.
  destruct m as [d w l]. cbn [dev ext log] in *.
  cbn [step]. unfold esdi_writew, call, esdi_writew_body. cbn. exec.
  rewrite (geb_false (cmd_pos d) 4) by lia. cbn.
  rewrite !(u16_id val) by exact Hval.
  unfold queue_full in Hfull. rewrite Hfull. cbn.
  apply Z.eqb_eq in Hsel. rewrite Hsel. cbn. exec. reflexivity.
Qed.

(** The guest issues a command: a command request for [target] on the
    attention register, then the words of the command, two when the
    length flag of the first word is clear and four when it is set.
    When no request was in flight and the first word names [target],
    the command is latched whole: its opcode is the command, its words
    are in the queue, the phase is 0, the status is busy, the callback
    comes one base latency later, and the only call made outside the
    adapter lights the disk icon. *)
Theorem issue_latches_command (m : mach W) (target : Z) (ws : list Z) :
  target = ATTN_HOST_ADAPTER \/ target = ATTN_DEVICE_0
  \/ target = ATTN_DEVICE_1 ->
  cmd_req_in_progress (dev m) = 0 ->
  length (cmd_data (dev m)) = 4%nat ->
  Forall (fun w => 0 <= w < 65536) ws ->
  length ws = (if nz (Z.land (word_at ws 0) CMD_SIZE_4) then 4 else 2)%nat ->
  Z.land (word_at ws 0) CMD_DEVICE_SEL = target ->
  exists m',
    run (issue target ws) m = Done tt m'
    /\ command (dev m') = Z.land (word_at ws 0) CMD_MASK
    /\ cmd_dev (dev m') = target
    /\ cmd_state (dev m') = 0
    /\ (forall i, 0 <= i < Z.of_nat (length ws) ->
          word_at (cmd_data (dev m')) i = word_at ws i)
    /\ cmd_pos (dev m') = 0
    /\ cmd_req_in_progress (dev m') = 0
    /\ status (dev m') = STATUS_BUSY
    /\ timer (dev m') = Some ESDI_TIME
    /\ data_pos (dev m') = 0
    /\ status_pos (dev m') = 0
    /\ ext m' = ext m
    /\ log m' = log m ++ [UiIcon 1].
Proof.
  intros Htarget Hfree Hlen Hws Hsize Hsel.
  destruct ws as [| w0 ws]; [cbn in Hsize; destruct (nz _); discriminate |].
  change (word_at (w0 :: ws) 0) with w0 in *.
  apply Forall_cons in Hws. destruct Hws as [Hw0 Hrest].
  unfold issue. cbn [run map].
  rewrite attn_cmd_req_step by assumption.
  destruct (nz (Z.land w0 CMD_SIZE_4)) eqn:Hflag.
  - destruct ws as [| w1 [| w2 [| w3 [| w4 ws]]]]; try discriminate Hsize.
    apply Forall_cons in Hrest. destruct Hrest as [Hw1 Hr1].
    apply Forall_cons in Hr1. destruct Hr1 as [Hw2 Hr2].
    apply Forall_cons in Hr2. destruct Hr2 as [Hw3 Hr3].
    cbn [run map].
    rewrite writew_step_more;
      [| exact Hw0 | cbn; lia
       | cbn [dev cmd_data cmd_pos set_status_pos set_cmd_pos set_status
              set_cmd_dev set_cmd_req_in_progress];
         unfold queue_full;
         rewrite word_at_store_same by (rewrite Hlen; cbn; lia);
         rewrite Hflag; reflexivity ].
    rewrite writew_step_more;
      [| exact Hw1 | cbn; lia
       | cbn [dev cmd_data cmd_pos set_status_pos set_cmd_pos set_status
              set_cmd_dev set_cmd_req_in_progress set_cmd_data];
         unfold queue_full;
         rewrite word_at_store_other by (cbn; lia);
         rewrite word_at_store_same by (rewrite Hlen; cbn; lia);
         rewrite Hflag; reflexivity ].
    rewrite writew_step_more;
      [| exact Hw2 | cbn; lia
       | cbn [dev cmd_data cmd_pos set_status_pos set_cmd_pos set_status
              set_cmd_dev set_cmd_req_in_progress set_cmd_data];
         unfold queue_full;
         rewrite !word_at_store_other by (cbn; lia);
         rewrite word_at_store_same by (rewrite Hlen; cbn; lia);
         rewrite Hflag; reflexivity ].
    rewrite writew_step_full;
      [| exact Hw3 | cbn; lia
       | cbn [dev cmd_data cmd_pos set_status_pos set_cmd_pos set_status
              set_cmd_dev set_cmd_req_in_progress set_cmd_data];
         unfold queue_full;
         rewrite !word_at_store_other by (cbn; lia);
         rewrite word_at_store_same by (rewrite Hlen; cbn; lia);
         rewrite Hflag; reflexivity
       | cbn [dev cmd_data cmd_pos cmd_dev set_status_pos set_cmd_pos
              set_status set_cmd_dev set_cmd_req_in_progress set_cmd_data];
         rewrite !word_at_store_other by (cbn; lia);
         rewrite word_at_store_same by (rewrite Hlen; cbn; lia);
         exact Hsel ].
    eexists. split; [reflexivity |].
    cbn [dev ext log command cmd_dev cmd_state cmd_data cmd_pos
         cmd_req_in_progress status timer data_pos status_pos
         set_data_pos set_status set_timer set_command set_cmd_state
         set_cmd_req_in_progress set_cmd_pos set_cmd_data set_status_pos
         set_cmd_dev].
    rewrite !word_at_store_other by (cbn; lia).
    rewrite word_at_store_same by (rewrite Hlen; cbn; lia).
    do 3 (split; [reflexivity |]).
    split; [| repeat split; reflexivity].
    intros i Hi. cbn [length] in Hi.
    assert (Hc : i = 0 \/ i = 1 \/ i = 2 \/ i = 3) by lia.
    destruct Hc as [-> | [-> | [-> | ->]]].
    + rewrite !word_at_store_other by (cbn; lia).
      apply word_at_store_same. rewrite Hlen. cbn. lia.
    + rewrite !word_at_store_other by (cbn; lia).
      apply word_at_store_same. rewrite length_store, Hlen. cbn. lia.
    + rewrite !word_at_store_other by (cbn; lia).
      apply word_at_store_same. rewrite !length_store, Hlen. cbn. lia.
    + apply word_at_store_same. rewrite !length_store, Hlen. cbn. lia.
  - destruct ws as [| w1 [| w2 ws]]; try discriminate Hsize.
    apply Forall_cons in Hrest. destruct Hrest as [Hw1 Hr1].
    cbn [run map].
    rewrite writew_step_more;
      [| exact Hw0 | cbn; lia
       | cbn [dev cmd_data cmd_pos set_status_pos set_cmd_pos set_status
              set_cmd_dev set_cmd_req_in_progress];
         unfold queue_full;
         rewrite word_at_store_same by (rewrite Hlen; cbn; lia);
         rewrite Hflag; reflexivity ].
    rewrite writew_step_full;
      [| exact Hw1 | cbn; lia
       | cbn [dev cmd_data cmd_pos set_status_pos set_cmd_pos set_status
              set_cmd_dev set_cmd_req_in_progress set_cmd_data];
         unfold queue_full;
         rewrite !word_at_store_other by (cbn; lia);
         rewrite word_at_store_same by (rewrite Hlen; cbn; lia);
         rewrite Hflag; reflexivity
       | cbn [dev cmd_data cmd_pos cmd_dev set_status_pos set_cmd_pos
              set_status set_cmd_dev set_cmd_req_in_progress set_cmd_data];
         rewrite !word_at_store_other by (cbn; lia);
         rewrite word_at_store_same by (rewrite Hlen; cbn; lia);
         exact Hsel ].
    eexists. split; [reflexivity |].
    cbn [dev ext log command cmd_dev cmd_state cmd_data cmd_pos
         cmd_req_in_progress status timer data_pos status_pos
         set_data_pos set_status set_timer set_command set_cmd_state
         set_cmd_req_in_progress set_cmd_pos set_cmd_data set_status_pos
         set_cmd_dev].
    rewrite !word_at_store_other by (cbn; lia).
    rewrite word_at_store_same by (rewrite Hlen; cbn; lia).
    do 3 (split; [reflexivity |]).
    split; [| repeat split; reflexivity].
    intros i Hi. cbn [length] in Hi.
    assert (Hc : i = 0 \/ i = 1) by lia.
    destruct Hc as [-> | ->].
    + rewrite !word_at_store_other by (cbn; lia).
      apply word_at_store_same. rewrite Hlen. cbn. lia.
    + apply word_at_store_same. rewrite length_store, Hlen. cbn. lia.
Qed.

End Issue.

Section FreshPass.

Context {W : Type} {E : Extern W}.

(** A pass of the read loop that starts a sector (the cursor is at
    word 0).  A block address at or past the drive's sector total stops
    the emulator.  Otherwise the sector is read from the disk image
    once; when the image accepts, the time of the read and the transfer
    time of one sector are added to the time so far, and the words of
    the buffer the image filled are offered to the DMA channel from
    word 0 on, in order: all 256 when the channel takes them, and up to
    the refused word, where the cursor stays, when it does not. *)
Theorem fresh_read_pass drive c (m : mach W) :
  data_pos (dev m) = 0 ->
  let r :=
    hdd_image_read (hdd_num drive) (rba (dev m)) 1 (data (dev m)) (ext m) in
  let ret := fst (fst r) in
  let buf := snd (fst r) in
  let t := fst (hdd_timing_read (hdd_num drive) (rba (dev m)) 1 (snd r)) in
  let c1 := (c + t + esdi_mca_get_xfer_time 1)%Q in
  let read := ImageRead (hdd_num drive) (rba (dev m)) ret in
  (u32 (sectors drive) <= rba (dev m) ->
   read_sector drive c m = Fatal "Read past end of drive" m)
  /\ (rba (dev m) < u32 (sectors drive) ->
      0 <= ret ->
      match read_sector drive c m with
      | Next c' m' =>
          c' = c1
          /\ exists rets,
               length rets = 256%nat
               /\ Forall (fun x => x <> DMA_NODATA) rets
               /\ log m'
                  = log m ++ read :: dma_writes (dma (dev m)) buf 0 rets
               /\ dev m'
                  = set_rba (u32 (rba (dev m) + 1))
                      (set_sector_pos (sector_pos (dev m) + 1)
                         (set_data_pos 0 (set_data buf (dev m))))
      | Return _ m' =>
          exists rets,
            (length rets < 256)%nat
            /\ Forall (fun x => x <> DMA_NODATA) rets
            /\ log m'
               = log m
                 ++ read
                    :: dma_writes (dma (dev m)) buf 0 (rets ++ [DMA_NODATA])
            /\ dev m'
               = set_timer (sched (ESDI_TIME + c1)%Q)
                   (set_data_pos (Z.of_nat (length rets))
                      (set_data buf (dev m)))
      | Fatal _ _ => False
      end).
Proof.
  intros Hpos r ret buf t c1 read. subst r ret buf t c1 read.
  destruct m as [d w l]. cbn [dev ext log] in *.
  assert (Hstart :
            read_sector drive c (mk_mach d w l)
            = ((cmd_time <-
                  ((if rba d >=? u32 (sectors drive)
                    then fatal "Read past end of drive" else next tt) ;;
                   ret <- image_read_sector drive ;;
                   if ret <? 0 then defective_block ;; return_ tt
                   else
                     t <- ask (hdd_timing_read (hdd_num drive) (rba d) 1) ;;
                     next (c + t + esdi_mca_get_xfer_time 1)%Q) ;;
                words_to_dma (ESDI_TIME + cmd_time)%Q ;;
                upd (set_data_pos 0) ;;
                upd (fun d => set_sector_pos (sector_pos d + 1) d) ;;
                upd (fun d => set_rba (u32 (rba d + 1)) d) ;;
                next cmd_time) (mk_mach d w l))).
  { unfold read_sector. unfold bind at 1, get. cbn [dev].
    rewrite Hpos. change (negb (nz 0)) with true. cbv iota. reflexivity. }
  rewrite Hstart. clear Hstart.
  split.
  - intros Hpast. unfold bind at 1. unfold bind at 1. unfold bind at 1.
    rewrite geb_true by lia. reflexivity.
  - intros Hin Hret. unfold bind at 1. unfold bind at 1. unfold bind at 1.
    rewrite geb_false by lia. unfold next at 1.
    unfold bind at 1, image_read_sector. cbn [dev ext log].
    destruct (hdd_image_read (hdd_num drive) (rba d) 1 (data d) w)
      as [[ret buf] w1].
    cbn [fst snd] in *.
    replace (ret <? 0) with false by (symmetry; apply Z.ltb_ge; exact Hret).
    unfold bind at 1, ask. cbn [ext dev log].
    destruct (hdd_timing_read (hdd_num drive) (rba d) 1 w1) as [t w2].
    cbn [fst]. unfold next at 1.
    unfold bind at 1, words_to_dma. unfold bind at 1, get. cbn [dev].
    match goal with
    | |- context [while ?n _ (word_to_dma ?s) tt ?m0] =>
        pose proof (words_to_dma_loop s n m0
                      ltac:(cbn; rewrite Hpos; lia) eq_refl) as H
    end.
    cbn [dev log dma data data_pos set_data] in H. rewrite Hpos in H.
    match goal with
    | |- context [while ?n ?c ?b tt ?m0] =>
        destruct (while n c b tt m0) as [[] m1 | [] m1 | msg m1]
    end.
    + destruct H as (rets & Hlen & Hall & Hdev & Hlog).
      unfold_monad. cbn [dev ext log]. split; [reflexivity |].
      exists rets. rewrite Hdev, Hlog.
      split; [lia |]. split; [exact Hall |].
      split; [rewrite <- app_assoc; reflexivity | reflexivity].
    + destruct H as (rets & Hlen & Hall & Hdev & Hlog).
      exists rets. rewrite Hdev, Hlog.
      split; [lia |]. split; [exact Hall |].
      split; [rewrite <- app_assoc; reflexivity |].
      rewrite Z.add_0_l. reflexivity.
    + exact H.
Qed.

End FreshPass.

(** *** The properties above on a drive of 1000 sectors *)

(** The adapter after the reset, with a command-complete interrupt in
    flight and interrupts enabled; the guest acknowledges it. *)
Lemma end_of_interrupt_witness :
  let m : mach Sim.t :=
    mk_mach
      (set_basic_ctrl CTRL_IRQ_ENA
         (set_irq_in_progress 1
            (set_status (Z.lor STATUS_IRQ STATUS_STATUS_OUT_FULL)
               (dev (Sim.boot 1000 0)))))
      (ext (Sim.boot 1000 0)) [] in
  exists m',
    esdi_write 3 (Z.lor ATTN_DEVICE_0 ATTN_EOI) m = Done tt m'
    /\ irq_in_progress (dev m') = 0
    /\ status (dev m') = STATUS_STATUS_OUT_FULL
    /\ log m' = [Picint false].
Proof.
  intros m.
  assert (H1 : Z.land 3 7 = 3) by reflexivity.
  assert (H2 : Z.land (Z.lor ATTN_DEVICE_0 ATTN_EOI) ATTN_REQ_MASK = ATTN_EOI)
    by reflexivity.
  assert (H3 : Z.land (Z.lor ATTN_DEVICE_0 ATTN_EOI) ATTN_DEVICE_SEL
               = ATTN_HOST_ADAPTER
               \/ Z.land (Z.lor ATTN_DEVICE_0 ATTN_EOI) ATTN_DEVICE_SEL
                  = ATTN_DEVICE_0
               \/ Z.land (Z.lor ATTN_DEVICE_0 ATTN_EOI) ATTN_DEVICE_SEL
                  = ATTN_DEVICE_1)
    by (right; left; reflexivity).
  destruct (end_of_interrupt m 3 (Z.lor ATTN_DEVICE_0 ATTN_EOI) H1 H2 H3)
    as (s & Hrun & _ & _).
  eexists. split; [exact Hrun |].
  assert (Hv : forall m', esdi_write 3 (Z.lor ATTN_DEVICE_0 ATTN_EOI) m
                          = Done tt m' ->
               irq_in_progress (dev m') = 0
               /\ status (dev m') = STATUS_STATUS_OUT_FULL
               /\ log m' = [Picint false]).
  { intros m' Hr. vm_compute in Hr. injection Hr as <-.
    repeat split; reflexivity. }
  exact (Hv _ Hrun).
Defined.

(** A read in its transfer phase when the guest sets the reset bit. *)
Lemma reset_bit_cancels_callback_witness :
  let m : mach Sim.t :=
    mk_mach
      (set_timer (Some ESDI_TIME)
         (set_cmd_state 1
            (set_command CMD_READ
               (set_in_reset 0 (dev (Sim.boot 1000 0))))))
      (ext (Sim.boot 1000 0)) [] in
  exists m',
    esdi_write 2 CTRL_RESET m = Done tt m'
    /\ timer (dev m') = None
    /\ step TimerFire m' = Done tt m'.
Proof.
  intros m.
  assert (H1 : Z.land 2 7 = 2) by reflexivity.
  assert (H2 : Z.land (basic_ctrl (dev m)) CTRL_RESET = 0) by reflexivity.
  assert (H3 : Z.land CTRL_RESET CTRL_RESET <> 0) by (vm_compute; congruence).
  destruct (reset_bit_cancels_callback m 2 CTRL_RESET H1 H2 H3)
    as (m' & Hrun & Ht & _ & _ & _ & _ & Hfire).
  exists m'. repeat split; assumption.
Defined.

(** An address-out-of-range error reported with interrupts disabled,
    then the guest enables interrupts. *)
Lemma irq_enable_delivers_pending_witness :
  let m : mach Sim.t :=
    mk_mach (set_timer None (set_in_reset 0 (dev (Sim.boot 1000 0))))
      (ext (Sim.boot 1000 0)) [] in
  esdi_write 2 (Z.lor CTRL_DMA_ENA CTRL_IRQ_ENA) (error_mach 0x0e01 0x0007 m)
  = Done tt
      (mk_mach
         (set_basic_ctrl (Z.lor CTRL_DMA_ENA CTRL_IRQ_ENA)
            (error_state 0x0e01 0x0007 (dev m)))
         (ext m) [UiIcon 0; UiIconWrite 0; Picint true]).
Proof.
  intros m.
  assert (H1 : Z.land 2 7 = 2) by reflexivity.
  assert (H2 : Z.land (basic_ctrl (dev m)) CTRL_RESET = 0) by reflexivity.
  assert (H3 : Z.land (Z.lor CTRL_DMA_ENA CTRL_IRQ_ENA) CTRL_RESET = 0)
    by reflexivity.
  assert (H4 : Z.land (basic_ctrl (dev m)) CTRL_IRQ_ENA = 0) by reflexivity.
  assert (H5 : Z.land (Z.lor CTRL_DMA_ENA CTRL_IRQ_ENA) CTRL_IRQ_ENA <> 0)
    by (vm_compute; congruence).
  exact (proj2 (irq_enable_delivers_pending m 2
                  (Z.lor CTRL_DMA_ENA CTRL_IRQ_ENA) H1 H2 H3 H4 H5)
           0x0e01 0x0007).
Defined.

(** The nine words of an error block are read back. *)
Lemma status_queue_drain_witness :
  let m : mach Sim.t :=
    error_mach 0x0c11 0x000b
      (mk_mach
         (set_command CMD_SEEK
            (set_status_pos 0 (set_in_reset 0 (dev (Sim.boot 1000 0)))))
         (ext (Sim.boot 1000 0)) []) in
  exists m',
    read_status 9 m = Done [0x0905; 0x0c11; 0x000b; 0; 0; 0; 0; 0; 0] m'
    /\ status_len (dev m') = 0
    /\ esdi_readw 0 m' = Done 0 m'.
Proof.
  intros m.
  assert (H1 : status_pos (dev m) = 0) by reflexivity.
  assert (H2 : status_len (dev m) = Z.of_nat 9) by reflexivity.
  assert (H3 : (0 < 9)%nat) by lia.
  destruct (status_queue_drain m 9 H1 H2 H3)
    as (m' & Hrun & Hlen & _ & _ & _ & Hmore).
  exists m'. split; [| split; assumption].
  rewrite Hrun. f_equal.
Defined.

(** The configuration of the drive of 1000 sectors, 615 cylinders, 4
    heads and 17 sectors per track. *)
Lemma dev_config_reports_geometry_witness :
  let m : mach Sim.t :=
    mk_mach
      (set_command CMD_GET_DEV_CONFIG
         (set_status 0 (set_timer None (set_in_reset 0 (dev (Sim.boot 1000 0))))))
      (ext (Sim.boot 1000 0)) [] in
  exists m',
    esdi_callback m = Done tt m'
    /\ word_at (status_data (dev m')) 2
       + 65536 * word_at (status_data (dev m')) 3 = 1000
    /\ word_at (status_data (dev m')) 4 = 615
    /\ word_at (status_data (dev m')) 5 = 4.
Proof.
  intros m.
  assert (Hwf : well_formed (dev m)) by (split; reflexivity).
  assert (H1 : in_reset (dev m) = 0) by reflexivity.
  assert (H2 : command (dev m) = CMD_GET_DEV_CONFIG) by reflexivity.
  assert (H3 : drive_target (dev m)) by (left; reflexivity).
  assert (H4 : present (selected_drive (dev m)) <> 0)
    by (vm_compute; congruence).
  assert (H5 : Z.land (status (dev m)) STATUS_IRQ = 0) by reflexivity.
  assert (H6 : irq_in_progress (dev m) = 0) by reflexivity.
  assert (H7 : 0 <= sectors (selected_drive (dev m)) < 2147483648)
    by (vm_compute; split; congruence).
  assert (H8 : 0 <= tracks (selected_drive (dev m)) < 65536)
    by (vm_compute; split; congruence).
  assert (H9 : 0 <= hpc (selected_drive (dev m)) < 65536)
    by (vm_compute; split; congruence).
  assert (H10 : 0 <= spt (selected_drive (dev m)))
    by (vm_compute; congruence).
  destruct (dev_config_reports_geometry m Hwf H1 H2 H3 H4 H5 H6 H7 H8 H9 H10)
    as (m' & Hrun & _ & _ & _ & Hs & Ht & Hh).
  exists m'. repeat split; assumption.
Defined.

(** The guest asks for the POS information before acknowledging the
    interrupt of the command before. *)
Lemma status_commands_refuse_pending_irq_witness :
  let m : mach Sim.t :=
    mk_mach
      (set_command CMD_GET_POS_INFO
         (set_cmd_dev ATTN_HOST_ADAPTER
            (set_irq_in_progress 1
               (set_timer None (set_in_reset 0 (dev (Sim.boot 1000 0)))))))
      (ext (Sim.boot 1000 0)) [] in
  esdi_callback m = Crashed "IRQ in progress %02x %i" m.
Proof.
  intros m.
  assert (H1 : in_reset (dev m) = 0) by reflexivity.
  assert (H2 : (command (dev m) = CMD_GET_POS_INFO \/ command (dev m) = 0x12)
               /\ cmd_dev (dev m) = ATTN_HOST_ADAPTER)
    by (split; [left |]; reflexivity).
  assert (H3 : Z.land (status (dev m)) STATUS_IRQ <> 0
               \/ irq_in_progress (dev m) <> 0)
    by (right; vm_compute; congruence).
  exact (status_commands_refuse_pending_irq m H1
           (or_intror (or_intror H2)) H3).
Defined.

(** Opcode 0x07. *)
Lemma bad_command_is_fatal_witness :
  let m : mach Sim.t :=
    mk_mach
      (set_command 0x07 (set_timer None (set_in_reset 0 (dev (Sim.boot 1000 0)))))
      (ext (Sim.boot 1000 0)) [] in
  esdi_callback m = Crashed "BAD COMMAND %02x %i" m.
Proof.
  intros m.
  assert (H1 : in_reset (dev m) = 0) by reflexivity.
  assert (H2 : ~ In (command (dev m))
                 (drive_commands ++ adapter_commands ++ [CMD_GET_DEV_CONFIG]))
    by (vm_compute; intuition discriminate).
  exact (bad_command_is_fatal m H1 H2).
Defined.

(** A write in its transfer phase before the guest has enabled DMA. *)
Lemma dma_disabled_transfer_waits_witness :
  let m : mach Sim.t :=
    mk_mach
      (set_cmd_state 1
         (set_command CMD_WRITE
            (set_timer None (set_in_reset 0 (dev (Sim.boot 1000 0))))))
      (ext (Sim.boot 1000 0)) [] in
  esdi_callback m
  = Done tt (mk_mach (set_timer (Some ESDI_TIME) (dev m)) (ext m) []).
Proof.
  intros m.
  assert (H1 : in_reset (dev m) = 0) by reflexivity.
  assert (H2 : In (command (dev m))
                 [CMD_READ; 0x15; CMD_WRITE; CMD_WRITE_VERIFY;
                  CMD_FORMAT_UNIT; CMD_FORMAT_PREPARE]
               /\ drive_target (dev m)
               /\ present (selected_drive (dev m)) <> 0).
  { split; [right; right; left; reflexivity |].
    split; [left; reflexivity | vm_compute; congruence]. }
  assert (H3 : cmd_state (dev m) = 1) by reflexivity.
  assert (H4 : Z.land (basic_ctrl (dev m)) CTRL_DMA_ENA = 0) by reflexivity.
  exact (dma_disabled_transfer_waits m H1 (or_introl H2) H3 H4).
Defined.

(** Format-unit with a count of 1 in the command zeroes all 1001
    sectors the image answers for. *)
Lemma format_zeroes_whole_disk_witness :
  let m : mach Sim.t :=
    mk_mach
      (set_cmd_state 1
         (set_sector_count 1
            (set_basic_ctrl CTRL_DMA_ENA
               (set_command CMD_FORMAT_UNIT
                  (set_timer None (set_in_reset 0 (dev (Sim.boot 1000 0))))))))
      (ext (Sim.boot 1000 0)) [] in
  exists m',
    esdi_callback m = Done tt m'
    /\ cmd_state (dev m') = 2
    /\ log m' = [ImageZero 0 0 1001].
Proof.
  intros m.
  assert (H1 : in_reset (dev m) = 0) by reflexivity.
  assert (H2 : command (dev m) = CMD_FORMAT_UNIT
               \/ command (dev m) = CMD_FORMAT_PREPARE)
    by (left; reflexivity).
  assert (H3 : drive_target (dev m)) by (left; reflexivity).
  assert (H4 : present (selected_drive (dev m)) <> 0)
    by (vm_compute; congruence).
  assert (H5 : cmd_state (dev m) = 1) by reflexivity.
  assert (H6 : Z.land (basic_ctrl (dev m)) CTRL_DMA_ENA <> 0)
    by (vm_compute; congruence).
  pose proof (format_zeroes_whole_disk m H1 H2 H3 H4 H5 H6) as Hrun.
  eexists. split; [exact Hrun |]. split; reflexivity.
Defined.

(** A read resumed at word 100 of a sector, with a DMA channel that
    takes the remaining 156 words. *)
Lemma resumed_read_pass_witness :
  let m : mach Sim.t :=
    mk_mach
      (set_data_pos 100
         (set_sector_count 1
            (set_cmd_state 1
               (set_command CMD_READ
                  (set_timer None (set_in_reset 0 (dev (Sim.boot 1000 300)))))))) 
      (ext (Sim.boot 1000 300)) [] in
  exists m',
    read_sector (Sim.drive 1000) 0 m = Next 0%Q m'
    /\ data_pos (dev m') = 0
    /\ sector_pos (dev m') = 1
    /\ length (log m') = 156%nat.
Proof.
  intros m.
  assert (Hpos : 0 < data_pos (dev m) < 256) by (vm_compute; split; reflexivity).
  pose proof (resumed_read_pass (Sim.drive 1000) 0 m Hpos) as H.
  destruct (read_sector (Sim.drive 1000) 0 m) as [c' m' | [] m' | msg m'] eqn:Hrun.
  - destruct H as (-> & rets & Hlen & _ & Hlog & Hdev).
    exists m'. split; [reflexivity |].
    assert (Hv : read_sector (Sim.drive 1000) 0 m = Next 0%Q m' ->
                 data_pos (dev m') = 0 /\ sector_pos (dev m') = 1
                 /\ length (log m') = 156%nat).
    { intros Hr. vm_compute in Hr. injection Hr as <-.
      repeat split; reflexivity. }
    exact (Hv Hrun).
  - exfalso. vm_compute in Hrun. discriminate Hrun.
  - destruct H.
Defined.

(** A write pass whose DMA channel delivers 100 words and then none. *)
Lemma write_pass_fills_buffer_witness :
  let m : mach Sim.t :=
    mk_mach
      (set_sector_count 1
         (set_cmd_state 1
            (set_command CMD_WRITE
               (set_timer None (set_in_reset 0 (dev (Sim.boot 1000 100)))))))
      (ext (Sim.boot 1000 100)) [] in
  exists m',
    write_sector (Sim.drive 1000) 0 m = Return tt m'
    /\ data_pos (dev m') = 100
    /\ sector_pos (dev m') = 0
    /\ word_at (data (dev m')) 99 = 0xabcd
    /\ word_at (data (dev m')) 100 = 0.
Proof.
  intros m.
  assert (Hpos : 0 <= data_pos (dev m) < 256) by (vm_compute; split; congruence).
  assert (Hrba : rba (dev m) < u32 (sectors (Sim.drive 1000)))
    by (vm_compute; reflexivity).
  destruct (write_pass_fills_buffer (Sim.drive 1000) 0 m Hpos Hrba)
    as (vals & _ & H).
  cbv zeta in H.
  destruct (write_sector (Sim.drive 1000) 0 m) as [c' m' | [] m' | msg m'] eqn:Hrun.
  - exfalso. vm_compute in Hrun. discriminate Hrun.
  - exists m'. split; [reflexivity |].
    assert (Hv : write_sector (Sim.drive 1000) 0 m = Return tt m' ->
                 data_pos (dev m') = 100 /\ sector_pos (dev m') = 0
                 /\ word_at (data (dev m')) 99 = 0xabcd
                 /\ word_at (data (dev m')) 100 = 0).
    { intros Hr. vm_compute in Hr. injection Hr as <-.
      repeat split; reflexivity. }
    exact (Hv Hrun).
  - destruct H.
Defined.

(** One sector put into the sector buffer and taken out again. *)
Lemma sector_buffer_round_trip_witness :
  let m : mach Sim.t :=
    mk_mach
      (set_cmd_state 1
         (set_sector_count 1
            (set_basic_ctrl CTRL_DMA_ENA
               (set_command 0x10
                  (set_cmd_dev ATTN_HOST_ADAPTER
                     (set_timer None
                        (set_in_reset 0 (dev (Sim.boot 1000 256))))))))) 
      (ext (Sim.boot 1000 256)) [] in
  let m1 :=
    match esdi_callback m with Done _ x => x | Crashed _ x => x end in
  let m2 : mach Sim.t :=
    mk_mach
      (set_cmd_state 1 (set_command 0x11 (set_sector_pos 0 (dev m1))))
      (Sim.refill 256 (ext m1)) [] in
  let m3 :=
    match esdi_callback m2 with Done _ x => x | Crashed _ x => x end in
  exists vals,
    length vals = (256 * 1)%nat
    /\ log m1 = log m ++ map (DmaRead (dma (dev m))) vals
    /\ dma_out (log m3)
       = dma_out (log m2) ++ map (fun v => Z.land v 0xffff) vals.
Proof.
  intros m m1 m2 m3.
  assert (Hn : (1 <= 256)%nat) by lia.
  assert (Hdata : length (data (dev m)) = 256%nat) by reflexivity.
  assert (Hsb : length (sector_buffer (dev m)) = 256%nat) by reflexivity.
  assert (Hin : buffer_phase 0x10 1 (dev m))
    by (repeat split; vm_compute; congruence).
  assert (Hrun1 : esdi_callback m = Done tt m1) by (vm_compute; reflexivity).
  assert (Hdone1 : cmd_state (dev m1) = 2) by (vm_compute; reflexivity).
  assert (Hout : buffer_phase 0x11 1 (dev m2))
    by (repeat split; vm_compute; congruence).
  assert (Hsame : sector_buffer (dev m2) = sector_buffer (dev m1))
    by (vm_compute; reflexivity).
  assert (Hrun2 : esdi_callback m2 = Done tt m3) by (vm_compute; reflexivity).
  assert (Hdone2 : cmd_state (dev m3) = 2) by (vm_compute; reflexivity).
  exact (sector_buffer_round_trip m m1 m2 m3 1 Hn Hdata Hsb Hin Hrun1 Hdone1
           Hout Hsame Hrun2 Hdone2).
Defined.

(** The adapter after the guest's reset pulse and the callback that
    ends the reset. *)
Lemma cursors_in_bounds_witness :
  let ops : list (op Sim.t) := [IoWrite 2 0x80; IoWrite 2 0x02; TimerFire] in
  exists m,
    run ops (Sim.boot 1000 0) = Done tt m
    /\ status_len (dev m) = 1
    /\ cursors_ok (dev m)
    /\ 0 <= cmd_pos (dev m) < 4
    /\ length (cmd_data (dev m)) = 4%nat.
Proof.
  intros ops.
  destruct (run ops (Sim.boot 1000 0)) as [[] m | msg m] eqn:Hrun.
  - assert (Hlen : run ops (Sim.boot 1000 0) = Done tt m ->
                   status_len (dev m) = 1).
    { intros Hr. vm_compute in Hr. injection Hr as <-. reflexivity. }
    exists m. split; [reflexivity |]. split; [exact (Hlen Hrun) |].
    apply cursors_in_bounds.
    exact (reachable_run ops (Sim.boot 1000 0) m
             (reach_init Sim.timer_add ESDI_IS_ADAPTER (Sim.drive 1000)
                Sim.no_drive (Sim.numbered 1000 0))
             Hrun).
  - exfalso. vm_compute in Hrun. discriminate Hrun.
Defined.

(** A read of the sector buffer whose one sector was stopped at word
    100. *)
Lemma read_buffer_resumed_in_last_sector_witness :
  let m : mach Sim.t :=
    mk_mach
      (set_data_pos 100
         (set_sector_pos 1
            (set_sector_count 1
               (set_cmd_state 1
                  (set_basic_ctrl CTRL_DMA_ENA
                     (set_command 0x11
                        (set_cmd_dev ATTN_HOST_ADAPTER
                           (set_timer None
                              (set_in_reset 0 (dev (Sim.boot 1000 300))))))))))) 
      (ext (Sim.boot 1000 300)) [] in
  exists m',
    esdi_callback m = Done tt m'
    /\ cmd_state (dev m') = 2
    /\ data_pos (dev m') = 100
    /\ log m' = [].
Proof.
  intros m.
  assert (H1 : in_reset (dev m) = 0) by reflexivity.
  assert (H2 : command (dev m) = 0x11) by reflexivity.
  assert (H3 : cmd_dev (dev m) = ATTN_HOST_ADAPTER) by reflexivity.
  assert (H4 : cmd_state (dev m) = 1) by reflexivity.
  assert (H5 : Z.land (basic_ctrl (dev m)) CTRL_DMA_ENA <> 0)
    by (vm_compute; congruence).
  assert (H6 : 0 < data_pos (dev m) < 256) by (vm_compute; split; reflexivity).
  assert (H7 : sector_pos (dev m) = sector_count (dev m)) by reflexivity.
  pose proof (read_buffer_resumed_in_last_sector m H1 H2 H3 H4 H5 H6 H7) as Hrun.
  eexists. split; [exact Hrun |].
  repeat split; vm_compute; reflexivity.
Defined.

(** A read of one sector stopped at word 100, with a DMA channel that
    takes the other 156 words. *)
Lemma read_resumed_in_last_sector_witness :
  let m : mach Sim.t :=
    mk_mach
      (set_data_pos 100
         (set_sector_count 1
            (set_cmd_state 1
               (set_basic_ctrl CTRL_DMA_ENA
                  (set_command CMD_READ
                     (set_cmd_dev ATTN_DEVICE_0
                        (set_timer None
                           (set_in_reset 0 (dev (Sim.boot 1000 300)))))))))) 
      (ext (Sim.boot 1000 300)) [] in
  exists m',
    esdi_callback m = Done tt m'
    /\ cmd_state (dev m') = 2
    /\ timer (dev m') = None
    /\ step TimerFire m' = Done tt m'.
Proof.
  intros m.
  assert (H1 : in_reset (dev m) = 0) by reflexivity.
  assert (H2 : command (dev m) = CMD_READ) by reflexivity.
  assert (H3 : drive_target (dev m)) by (left; reflexivity).
  assert (H4 : present (selected_drive (dev m)) <> 0)
    by (vm_compute; congruence).
  assert (H5 : cmd_state (dev m) = 1) by reflexivity.
  assert (H6 : Z.land (basic_ctrl (dev m)) CTRL_DMA_ENA <> 0)
    by (vm_compute; congruence).
  assert (H7 : 0 < data_pos (dev m) < 256) by (vm_compute; split; reflexivity).
  assert (H8 : sector_pos (dev m) + 1 = sector_count (dev m)) by reflexivity.
  destruct (esdi_callback m) as [[] m' | msg m'] eqn:Hrun.
  - assert (Hst : esdi_callback m = Done tt m' -> cmd_state (dev m') = 2).
    { intros Hr. vm_compute in Hr. injection Hr as <-. reflexivity. }
    destruct (read_resumed_in_last_sector m H1 H2 H3 H4 H5 H6 H7 H8 m' Hrun
                (Hst Hrun)) as (Ht & _ & _ & Hfire).
    exists m'. split; [reflexivity |]. split; [exact (Hst Hrun) |].
    split; [exact Ht | exact Hfire].
  - exfalso. vm_compute in Hrun. discriminate Hrun.
Defined.

(** The configuration of drive 0 asked for while the staging buffer
    holds a sector. *)
Lemma quiet_commands_move_no_data_witness :
  let m : mach Sim.t :=
    mk_mach
      (set_data (Sim.pattern 5)
         (set_data_pos 100
            (set_command CMD_GET_DEV_CONFIG
               (set_cmd_dev ATTN_DEVICE_0
                  (set_timer None
                     (set_in_reset 0 (dev (Sim.boot 1000 0))))))))
      (ext (Sim.boot 1000 0)) [] in
  exists m',
    esdi_callback m = Done tt m'
    /\ filter (fun e => transfer_event e = true) (log m') = []
    /\ data (dev m') = Sim.pattern 5
    /\ data_pos (dev m') = 100.
Proof.
  intros m.
  assert (H1 : in_reset (dev m) = 0) by reflexivity.
  assert (H2 : In (command (dev m)) quiet_commands)
    by (vm_compute; intuition reflexivity).
  destruct (esdi_callback m) as [[] m' | msg m'] eqn:Hrun.
  - destruct (quiet_commands_move_no_data m H1 H2 m' Hrun)
      as (Hlog & Hdata & Hpos & _).
    exists m'. split; [reflexivity |].
    split; [exact Hlog |]. split; [exact Hdata | exact Hpos].
  - exfalso. vm_compute in Hrun. discriminate Hrun.
Defined.

(** A read of two sectors from block 256 issued to drive 0. *)
Lemma issue_latches_command_witness :
  let m : mach Sim.t :=
    mk_mach (set_in_reset 0 (dev (Sim.boot 1000 0)))
      (ext (Sim.boot 1000 0)) [] in
  exists m',
    run (issue ATTN_DEVICE_0 (long_command CMD_READ ATTN_DEVICE_0 2 256)) m
    = Done tt m'
    /\ command (dev m') = CMD_READ
    /\ cmd_dev (dev m') = ATTN_DEVICE_0
    /\ word_at (cmd_data (dev m')) 1 = 2
    /\ timer (dev m') = Some ESDI_TIME.
Proof.
  intros m.
  set (ws := long_command CMD_READ ATTN_DEVICE_0 2 256).
  assert (H1 : ATTN_DEVICE_0 = ATTN_HOST_ADAPTER
               \/ ATTN_DEVICE_0 = ATTN_DEVICE_0
               \/ ATTN_DEVICE_0 = ATTN_DEVICE_1)
    by (right; left; reflexivity).
  assert (H2 : cmd_req_in_progress (dev m) = 0) by reflexivity.
  assert (H3 : length (cmd_data (dev m)) = 4%nat) by reflexivity.
  assert (H4 : Forall (fun w => 0 <= w < 65536) ws).
  { repeat (apply List.Forall_cons; [vm_compute; split; congruence |]).
    apply List.Forall_nil. }
  assert (H5 : length ws
               = (if nz (Z.land (word_at ws 0) CMD_SIZE_4) then 4 else 2)%nat)
    by reflexivity.
  assert (H6 : Z.land (word_at ws 0) CMD_DEVICE_SEL = ATTN_DEVICE_0)
    by reflexivity.
  destruct (issue_latches_command m ATTN_DEVICE_0 ws H1 H2 H3 H4 H5 H6)
    as (m' & Hrun & Hcmd & Hdev & _ & Hwords & _ & _ & _ & Htimer & _).
  exists m'. split; [exact Hrun |]. split; [exact Hcmd |].
  split; [exact Hdev |]. split; [| exact Htimer].
  assert (Hi : 0 <= 1 < Z.of_nat (length ws)) by (vm_compute; split; congruence).
  exact (Hwords 1 Hi).
Defined.

(** The first sector of a read, with a DMA channel that takes all 256
    words. *)
Lemma fresh_read_pass_witness :
  let m : mach Sim.t :=
    mk_mach
      (set_sector_count 1
         (set_cmd_state 1
            (set_command CMD_READ
               (set_timer None (set_in_reset 0 (dev (Sim.boot 1000 300)))))))
      (ext (Sim.boot 1000 300)) [] in
  exists c' m',
    read_sector (Sim.drive 1000) 0 m = Next c' m'
    /\ sector_pos (dev m') = 1
    /\ rba (dev m') = 1
    /\ length (log m') = 257%nat.
Proof.
  intros m.
  assert (Hpos : data_pos (dev m) = 0) by reflexivity.
  assert (Hin : rba (dev m) < u32 (sectors (Sim.drive 1000)))
    by (vm_compute; reflexivity).
  assert (Hret : 0 <= fst (fst (hdd_image_read (hdd_num (Sim.drive 1000))
                                  (rba (dev m)) 1 (data (dev m)) (ext m))))
    by (apply Z.leb_le; vm_compute; reflexivity).
  destruct (fresh_read_pass (Sim.drive 1000) 0 m Hpos) as [_ H].
  specialize (H Hin Hret).
  destruct (read_sector (Sim.drive 1000) 0 m) as [c' m' | [] m' | msg m'] eqn:Hrun.
  - exists c', m'. split; [reflexivity |].
    assert (Hv : read_sector (Sim.drive 1000) 0 m = Next c' m' ->
                 sector_pos (dev m') = 1 /\ rba (dev m') = 1
                 /\ length (log m') = 257%nat).
    { intros Hr. vm_compute in Hr. injection Hr as _ <-.
      repeat split; reflexivity. }
    exact (Hv Hrun).
  - exfalso. vm_compute in Hrun. discriminate Hrun.
  - destruct H.
Defined.
